(** * Passport form controller

    A shallow embedding of [Telegram/SourceFiles/passport/passport_form_controller.cpp]:
    the in-memory model of a passport form (values, files, staged edits),
    the secret life cycle, the verification of phone and email values,
    the save path and the assembly of the final submission.

    Conventions.
    - [QString], [QByteArray] and [bytes::vector] are strings of 8-bit
      characters; an empty vector is the empty string.
    - C++ [int], [mtpRequestId], [uint64] are [Z].
    - [std::map] is [gmap]; [std::vector] is [list]; [base::optional] and
      [std::unique_ptr] are [option].
    - A [Value*] is the key of the value in [_form.values] (the map is keyed
      by the value type, and [findValue] looks a pointer up by that key).
    - A member function is a state transformer of the controller that also
      returns the effects it had on its collaborators, or a contract
      violation where [Expects], [Assert], [Ensures] or [Unexpected] ends
      the program. *)

From Stdlib Require Import ZArith Lia Ascii.
From stdpp Require Import gmap strings list fin_maps.

Set Warnings "-register-all".
Set Default Proof Using "Type".

Local Open Scope Z_scope.

Abbreviation QString := string (only parsing).
Abbreviation QByteArray := string (only parsing).
Abbreviation bytes := string (only parsing).

(** [QString::isEmpty], [bytes::vector::empty]. *)
Definition isEmpty (s : string) : bool :=
  match s with
  | EmptyString => true
  | String _ _ => false
  end.

(** ** Value types *)

(** [Value::Type]. *)
Inductive ValueType :=
| PersonalDetails
| Passport
| DriverLicense
| IdentityCard
| Address
| UtilityBill
| BankStatement
| RentalAgreement
| Phone
| Email.

#[global] Instance ValueType_eq_dec : EqDecision ValueType.
Proof. solve_decision. Defined.

Definition ValueType_index (t : ValueType) : nat :=
  match t with
  | PersonalDetails => 0
  | Passport => 1
  | DriverLicense => 2
  | IdentityCard => 3
  | Address => 4
  | UtilityBill => 5
  | BankStatement => 6
  | RentalAgreement => 7
  | Phone => 8
  | Email => 9
  end%nat.

Definition ValueType_of_index (n : nat) : option ValueType :=
  match n with
  | 0 => Some PersonalDetails
  | 1 => Some Passport
  | 2 => Some DriverLicense
  | 3 => Some IdentityCard
  | 4 => Some Address
  | 5 => Some UtilityBill
  | 6 => Some BankStatement
  | 7 => Some RentalAgreement
  | 8 => Some Phone
  | 9 => Some Email
  | _ => None
  end%nat.

#[global] Instance ValueType_countable : Countable ValueType.
Proof.
  apply (inj_countable ValueType_index ValueType_of_index).
  intros t. destruct t; reflexivity.
Defined.

Definition all_ValueTypes : list ValueType :=
  [PersonalDetails; Passport; DriverLicense; IdentityCard; Address;
   UtilityBill; BankStatement; RentalAgreement; Phone; Email].

(** The boxed wire type [MTPSecureValueType]: one case per constructor of the
    scheme, and the state of a box that holds none of them (its [type()]
    matches no case of the switch). *)
Inductive MTPSecureValueType :=
| MTP_secureValueTypePersonalDetails
| MTP_secureValueTypePassport
| MTP_secureValueTypeDriverLicense
| MTP_secureValueTypeIdentityCard
| MTP_secureValueTypeAddress
| MTP_secureValueTypeUtilityBill
| MTP_secureValueTypeBankStatement
| MTP_secureValueTypeRentalAgreement
| MTP_secureValueTypePhone
| MTP_secureValueTypeEmail
| MTP_secureValueType_none.

#[global] Instance MTPSecureValueType_eq_dec : EqDecision MTPSecureValueType.
Proof. solve_decision. Defined.

(** ** Outcomes of a call

    A call either returns, or ends the program at a violated contract. *)
Inductive Outcome (A : Type) :=
| Returns (a : A)
| Violation (what : string).
Arguments Returns {A} a.
Arguments Violation {A} what.

Definition Unexpected {A : Type} (what : string) : Outcome A := Violation what.

Module Convert.

(** [Value::Type ConvertType(const MTPSecureValueType &type)]. *)
Definition fromMTP (type : MTPSecureValueType) : Outcome ValueType :=
match type with
| MTP_secureValueTypePersonalDetails => Returns PersonalDetails
| MTP_secureValueTypePassport => Returns Passport
| MTP_secureValueTypeDriverLicense => Returns DriverLicense
| MTP_secureValueTypeIdentityCard => Returns IdentityCard
| MTP_secureValueTypeAddress => Returns Address
| MTP_secureValueTypeUtilityBill => Returns UtilityBill
| MTP_secureValueTypeBankStatement => Returns BankStatement
| MTP_secureValueTypeRentalAgreement => Returns RentalAgreement
| MTP_secureValueTypePhone => Returns Phone
| MTP_secureValueTypeEmail => Returns Email
| MTP_secureValueType_none => Unexpected "Type in secureValueType type."
end.

(** [MTPSecureValueType ConvertType(Value::Type type)]. *)
Definition toMTP (type : ValueType) : MTPSecureValueType :=
match type with
| PersonalDetails => MTP_secureValueTypePersonalDetails
| Passport => MTP_secureValueTypePassport
| DriverLicense => MTP_secureValueTypeDriverLicense
| IdentityCard => MTP_secureValueTypeIdentityCard
| Address => MTP_secureValueTypeAddress
| UtilityBill => MTP_secureValueTypeUtilityBill
| BankStatement => MTP_secureValueTypeBankStatement
| RentalAgreement => MTP_secureValueTypeRentalAgreement
| Phone => MTP_secureValueTypePhone
| Email => MTP_secureValueTypeEmail
end.

End Convert.

(** [QString ValueCredentialsKey(Value::Type type)]. *)
Definition ValueCredentialsKey (type : ValueType) : QString :=
  match type with
  | PersonalDetails => "personal_details"
  | Passport => "passport"
  | DriverLicense => "driver_license"
  | IdentityCard => "identity_card"
  | Address => "address"
  | UtilityBill => "utility_bill"
  | BankStatement => "bank_statement"
  | RentalAgreement => "rental_agreement"
  | Phone | Email => ""
  end.

(** ** Files *)

(** A decoded [QImage]; the null image is the empty one. *)
Abbreviation QImage := string (only parsing).

Module File.
(** [struct File]. *)
Record t := make {
  id : Z;
  accessHash : Z;
  size : Z;
  date : Z;
  dcId : Z;
  hash : bytes;
  secret : bytes;
  encryptedSecret : bytes;
  downloadOffset : Z;
  image : QImage;
}.

(** [File()]. *)
Definition empty : t :=
  {| id := 0; accessHash := 0; size := 0; date := 0; dcId := 0;
     hash := ""; secret := ""; encryptedSecret := "";
     downloadOffset := 0; image := "" |}.

Definition set_secret (x : bytes) (f : t) : t :=
  {| id := id f; accessHash := accessHash f; size := size f;
     date := date f; dcId := dcId f; hash := hash f; secret := x;
     encryptedSecret := encryptedSecret f;
     downloadOffset := downloadOffset f; image := image f |}.
End File.

Module UploadScanData.
(** [struct UploadScanData]; a null [fullId] is 0. *)
Record t := make {
  fullId : Z;
  fileId : Z;
  partsCount : Z;
  md5checksum : QByteArray;
  hash : bytes;
  bytes_ : bytes;
  offset : Z;
}.
End UploadScanData.

Module EditFile.
(** [struct EditFile]: the owning value, the staged file fields, the
    upload in flight (if any) and the deleted flag. *)
Record t := make {
  value : ValueType;
  fields : File.t;
  uploadData : option UploadScanData.t;
  deleted : bool;
}.

(** [EditFile(value, fields, uploadData)]. *)
Definition create (value : ValueType) (fields : File.t)
    (uploadData : option UploadScanData.t) : t :=
  {| value := value; fields := fields; uploadData := uploadData;
     deleted := false |}.

Definition set_deleted (d : bool) (e : t) : t :=
  {| value := value e; fields := fields e; uploadData := uploadData e;
     deleted := d |}.

Definition set_fields (f : File.t) (e : t) : t :=
  {| value := value e; fields := f; uploadData := uploadData e;
     deleted := deleted e |}.
End EditFile.

(** ** Values *)

Module ValueMap.
(** [struct ValueMap { std::map<QString, QString> fields; }]. *)
Record t := make { fields : gmap string string }.
Definition empty : t := {| fields := ∅ |}.
End ValueMap.

Module ValueData.
(** [struct ValueData]. *)
Record t := make {
  original : QByteArray;
  hash : bytes;
  secret : bytes;
  encryptedSecret : bytes;
  parsed : ValueMap.t;
  hashInEdit : bytes;
  encryptedSecretInEdit : bytes;
  parsedInEdit : ValueMap.t;
}.

Definition empty : t :=
  {| original := ""; hash := ""; secret := ""; encryptedSecret := "";
     parsed := ValueMap.empty; hashInEdit := "";
     encryptedSecretInEdit := ""; parsedInEdit := ValueMap.empty |}.

Definition set_secret (x : bytes) (d : t) : t :=
  {| original := original d; hash := hash d; secret := x;
     encryptedSecret := encryptedSecret d; parsed := parsed d;
     hashInEdit := hashInEdit d;
     encryptedSecretInEdit := encryptedSecretInEdit d;
     parsedInEdit := parsedInEdit d |}.

Definition set_parsed (x : ValueMap.t) (d : t) : t :=
  {| original := original d; hash := hash d; secret := secret d;
     encryptedSecret := encryptedSecret d; parsed := x;
     hashInEdit := hashInEdit d;
     encryptedSecretInEdit := encryptedSecretInEdit d;
     parsedInEdit := parsedInEdit d |}.

Definition set_parsedInEdit (x : ValueMap.t) (d : t) : t :=
  {| original := original d; hash := hash d; secret := secret d;
     encryptedSecret := encryptedSecret d; parsed := parsed d;
     hashInEdit := hashInEdit d;
     encryptedSecretInEdit := encryptedSecretInEdit d;
     parsedInEdit := x |}.

Definition set_hashInEdit (x : bytes) (d : t) : t :=
  {| original := original d; hash := hash d; secret := secret d;
     encryptedSecret := encryptedSecret d; parsed := parsed d;
     hashInEdit := x;
     encryptedSecretInEdit := encryptedSecretInEdit d;
     parsedInEdit := parsedInEdit d |}.

Definition set_encryptedSecretInEdit (x : bytes) (d : t) : t :=
  {| original := original d; hash := hash d; secret := secret d;
     encryptedSecret := encryptedSecret d; parsed := parsed d;
     hashInEdit := hashInEdit d;
     encryptedSecretInEdit := x;
     parsedInEdit := parsedInEdit d |}.
End ValueData.

(** The status of the call-back scheduled for a phone verification
    ([SentCodeCall::State] and the timeout). *)
Inductive CallState := Waiting | Calling | Called | Disabled.

Module Verification.
(** [struct Verification]. *)
Record t := make {
  requestId : Z;
  phoneCodeHash : QString;
  codeLength : Z;
  call : option (CallState * Z);
  error : QString;
}.

(** [Verification()]. *)
Definition empty : t :=
  {| requestId := 0; phoneCodeHash := ""; codeLength := 0;
     call := None; error := "" |}.

Definition set_requestId (x : Z) (v : t) : t :=
  {| requestId := x; phoneCodeHash := phoneCodeHash v;
     codeLength := codeLength v; call := call v; error := error v |}.

Definition set_error (x : QString) (v : t) : t :=
  {| requestId := requestId v; phoneCodeHash := phoneCodeHash v;
     codeLength := codeLength v; call := call v; error := x |}.
End Verification.

Module Value.
(** [struct Value]. *)
Record t := make {
  type : ValueType;
  data : ValueData.t;
  scans : list File.t;
  scansInEdit : list EditFile.t;
  selfie : option File.t;
  selfieInEdit : option EditFile.t;
  submitHash : bytes;
  verification : Verification.t;
  editScreens : Z;
  saveRequestId : Z;
  error : option QString;
}.

(** [Value::Value(Type type)]: the unset value of a type. *)
Definition create (type : ValueType) : t :=
  {| type := type; data := ValueData.empty; scans := [];
     scansInEdit := []; selfie := None; selfieInEdit := None;
     submitHash := ""; verification := Verification.empty;
     editScreens := 0; saveRequestId := 0; error := None |}.

Definition set_data (x : ValueData.t) (v : t) : t :=
  {| type := type v; data := x; scans := scans v;
     scansInEdit := scansInEdit v; selfie := selfie v;
     selfieInEdit := selfieInEdit v; submitHash := submitHash v;
     verification := verification v; editScreens := editScreens v;
     saveRequestId := saveRequestId v; error := error v |}.

Definition set_scans (x : list File.t) (v : t) : t :=
  {| type := type v; data := data v; scans := x;
     scansInEdit := scansInEdit v; selfie := selfie v;
     selfieInEdit := selfieInEdit v; submitHash := submitHash v;
     verification := verification v; editScreens := editScreens v;
     saveRequestId := saveRequestId v; error := error v |}.

Definition set_scansInEdit (x : list EditFile.t) (v : t) : t :=
  {| type := type v; data := data v; scans := scans v;
     scansInEdit := x; selfie := selfie v;
     selfieInEdit := selfieInEdit v; submitHash := submitHash v;
     verification := verification v; editScreens := editScreens v;
     saveRequestId := saveRequestId v; error := error v |}.

Definition set_selfie (x : option File.t) (v : t) : t :=
  {| type := type v; data := data v; scans := scans v;
     scansInEdit := scansInEdit v; selfie := x;
     selfieInEdit := selfieInEdit v; submitHash := submitHash v;
     verification := verification v; editScreens := editScreens v;
     saveRequestId := saveRequestId v; error := error v |}.

Definition set_selfieInEdit (x : option EditFile.t) (v : t) : t :=
  {| type := type v; data := data v; scans := scans v;
     scansInEdit := scansInEdit v; selfie := selfie v;
     selfieInEdit := x; submitHash := submitHash v;
     verification := verification v; editScreens := editScreens v;
     saveRequestId := saveRequestId v; error := error v |}.

Definition set_submitHash (x : bytes) (v : t) : t :=
  {| type := type v; data := data v; scans := scans v;
     scansInEdit := scansInEdit v; selfie := selfie v;
     selfieInEdit := selfieInEdit v; submitHash := x;
     verification := verification v; editScreens := editScreens v;
     saveRequestId := saveRequestId v; error := error v |}.

Definition set_verification (x : Verification.t) (v : t) : t :=
  {| type := type v; data := data v; scans := scans v;
     scansInEdit := scansInEdit v; selfie := selfie v;
     selfieInEdit := selfieInEdit v; submitHash := submitHash v;
     verification := x; editScreens := editScreens v;
     saveRequestId := saveRequestId v; error := error v |}.

Definition set_editScreens (x : Z) (v : t) : t :=
  {| type := type v; data := data v; scans := scans v;
     scansInEdit := scansInEdit v; selfie := selfie v;
     selfieInEdit := selfieInEdit v; submitHash := submitHash v;
     verification := verification v; editScreens := x;
     saveRequestId := saveRequestId v; error := error v |}.

Definition set_saveRequestId (x : Z) (v : t) : t :=
  {| type := type v; data := data v; scans := scans v;
     scansInEdit := scansInEdit v; selfie := selfie v;
     selfieInEdit := selfieInEdit v; submitHash := submitHash v;
     verification := verification v; editScreens := editScreens v;
     saveRequestId := x; error := error v |}.

Definition set_error (x : option QString) (v : t) : t :=
  {| type := type v; data := data v; scans := scans v;
     scansInEdit := scansInEdit v; selfie := selfie v;
     selfieInEdit := selfieInEdit v; submitHash := submitHash v;
     verification := verification v; editScreens := editScreens v;
     saveRequestId := saveRequestId v; error := x |}.
End Value.

(** ** JSON documents *)

(** [QJsonValue]: as far as the controller builds them, a string, an object
    (a map from keys to values) or an array. *)
Inductive QJsonValue :=
| QJsonString (s : QString)
| QJsonObject (members : gmap string QJsonValue)
| QJsonArray (items : list QJsonValue).

(** ** Requests to the remote authority *)

(** [MTPsecureValueHash]. *)
Record MTPSecureValueHash := MTP_secureValueHash {
  vtype : MTPSecureValueType;
  vhash : bytes;
}.

(** [MTPsecureCredentialsEncrypted]. *)
Record MTPSecureCredentialsEncrypted := MTP_secureCredentialsEncrypted {
  cred_data : bytes;
  cred_hash : bytes;
  cred_secret : bytes;
}.

(** [MTPsecureData]. *)
Record MTPSecureData := MTP_secureData {
  sd_data : bytes;
  sd_data_hash : bytes;
  sd_secret : bytes;
}.

(** [MTPinputSecureFile]. *)
Inductive MTPInputSecureFile :=
| MTP_inputSecureFileUploaded
    (id parts : Z) (md5_checksum : QByteArray) (file_hash secret : bytes)
| MTP_inputSecureFile (id access_hash : Z).

(** [MTPsecurePlainData]. *)
Inductive MTPSecurePlainData :=
| MTP_securePlainPhone (phone : QString)
| MTP_securePlainEmail (email : QString).

(** [MTPDinputSecureValue::Flags]. *)
Record InputSecureValueFlags := mkFlags {
  f_data : bool;
  f_files : bool;
  f_plain_data : bool;
  f_selfie : bool;
}.

Definition no_flags (f : InputSecureValueFlags) : bool :=
  negb (f_data f || f_files f || f_plain_data f || f_selfie f).

(** [MTPinputSecureValue]; a default-constructed member is [None]. *)
Record MTPInputSecureValue := MTP_inputSecureValue {
  isv_flags : InputSecureValueFlags;
  isv_type : MTPSecureValueType;
  isv_data : option MTPSecureData;
  isv_files : list MTPInputSecureFile;
  isv_plain_data : option MTPSecurePlainData;
  isv_selfie : option MTPInputSecureFile;
}.

Inductive MTPRequest :=
| MTPaccount_AcceptAuthorization
    (bot_id : Z) (scope public_key : QString)
    (value_hashes : list MTPSecureValueHash)
    (credentials : MTPSecureCredentialsEncrypted)
| MTPaccount_GetPasswordSettings (current_password_hash : bytes)
| MTPaccount_UpdatePasswordSettings
    (current_password_hash new_secure_salt new_secure_secret : bytes)
    (new_secure_secret_id : Z)
| MTPaccount_SaveSecureValue (value : MTPInputSecureValue) (secure_secret_id : Z)
| MTPaccount_DeleteSecureValue (types : list MTPSecureValueType)
| MTPaccount_SendVerifyPhoneCode (phone_number : QString)
| MTPaccount_VerifyPhone (phone_number phone_code_hash phone_code : QString)
| MTPaccount_SendVerifyEmailCode (email : QString)
| MTPaccount_VerifyEmail (email code : QString)
| MTPauth_ResendCode (phone_number phone_code_hash : QString).

(** [MTPsecureFile]. *)
Inductive MTPSecureFile :=
| MTP_secureFileEmpty
| MTP_secureFile (id access_hash size dc_id date : Z) (file_hash secret : bytes).

(** [MTPsecureValue]; a member behind a flag that is not set is [None]. *)
Record MTPSecureValue := MTP_secureValue {
  sv_type : MTPSecureValueType;
  sv_data : option MTPSecureData;
  sv_files : option (list MTPSecureFile);
  sv_plain_data : option MTPSecurePlainData;
  sv_selfie : option MTPSecureFile;
  sv_hash : bytes;
}.

(** [MTPauth_SentCodeType] and [MTPauth_CodeType]. *)
Inductive MTPSentCodeType :=
| MTP_auth_sentCodeTypeApp (length : Z)
| MTP_auth_sentCodeTypeSms (length : Z)
| MTP_auth_sentCodeTypeCall (length : Z)
| MTP_auth_sentCodeTypeFlashCall (pattern : QString).

Inductive MTPCodeType :=
| MTP_auth_codeTypeSms
| MTP_auth_codeTypeCall
| MTP_auth_codeTypeFlashCall.

(** [MTPauth_SentCode]. *)
Record MTPSentCode := MTP_auth_sentCode {
  sc_type : MTPSentCodeType;
  sc_phone_code_hash : QString;
  sc_next_type : option MTPCodeType;
  sc_timeout : option Z;
}.

(** [RPCError]: the error type is all the controller reads. *)
Record RPCError := mkRPCError { error_type : QString; is_flood : bool }.

(** ** Effects on the collaborators *)

(** An [EditFile*]: a staged scan of a value by its index, or the staged
    selfie. *)
Inductive EditFileRef :=
| ScanInEdit (value : ValueType) (index : nat)
| SelfieInEdit (value : ValueType).

(** A function object queued for the main thread or held for later. *)
Inductive Closure :=
| SaveEncryptedValue (value : ValueType)
| FinishUnchangedSave (value : ValueType).

Inductive Effect :=
| Send (id : Z) (request : MTPRequest)
| CancelRequest (id : Z)
| Log (text : string)
| ShowToast (text : QString)
| ShowBox (text : QString)
| PasswordErrorFired (text : QString)
| SecretReadyFired
| ScanUpdatedFired (file : EditFileRef)
| ValueSaveFinishedFired (value : ValueType)
| VerificationNeededFired (value : ValueType)
| VerificationUpdateFired (value : ValueType)
| OnMain (task : Closure)
| AsyncEncrypt (file : EditFileRef) (fileId : Z) (content : QByteArray) (fileSecret : bytes)
| CancelUpload (fullId : Z)
| WriteImage (dcId id : Z) (content : QByteArray)
| OpenUrl (url : QString).

Definition is_Send (e : Effect) : bool :=
  match e with
  | Send _ _ => true
  | _ => false
  end.

(** The requests among the effects of a call, in the order they were sent. *)
Definition requests (out : list Effect) : list MTPRequest :=
  omap (fun e => match e with Send _ r => Some r | _ => None end) out.

(** ** The controller *)

Module FormRequest.
(** [struct FormRequest]. *)
Record t := make {
  botId : Z;
  scope : QString;
  callbackUrl : QString;
  publicKey : QString;
  payload : QString;
}.
End FormRequest.

Module PasswordSettings.
(** [struct PasswordSettings]. *)
Record t := make {
  salt : bytes;
  newSalt : bytes;
  newSecureSalt : bytes;
  hint : QString;
  unconfirmedPattern : QString;
  confirmedEmail : QString;
  hasRecovery : bool;
}.

Definition set_confirmedEmail (x : QString) (p : t) : t :=
  {| salt := salt p; newSalt := newSalt p; newSecureSalt := newSecureSalt p;
     hint := hint p; unconfirmedPattern := unconfirmedPattern p;
     confirmedEmail := x; hasRecovery := hasRecovery p |}.
End PasswordSettings.

Module Form.
(** [struct Form]. *)
Record t := make {
  values : gmap ValueType Value.t;
  request : list ValueType;
  identitySelfieRequired : bool;
  privacyPolicyUrl : QString;
}.

Definition set_values (x : gmap ValueType Value.t) (f : t) : t :=
  {| values := x; request := request f;
     identitySelfieRequired := identitySelfieRequired f;
     privacyPolicyUrl := privacyPolicyUrl f |}.
End Form.

Module FormController.
(** The members of [class FormController] the modelled functions use.
    [sender_next] is the state of the inherited [MTP::Sender] (the id of
    the next request) and [drawn] counts the random values taken so far. *)
Record t := make {
  _request : FormRequest.t;
  _password : PasswordSettings.t;
  _form : Form.t;
  _formRequestId : Z;
  _passwordRequestId : Z;
  _passwordCheckRequestId : Z;
  _secret : bytes;
  _secretId : Z;
  _secretCallbacks : list Closure;
  _saveSecretRequestId : Z;
  _submitRequestId : Z;
  _cancelled : bool;
  sender_next : positive;
  drawn : nat;
}.

Definition set_password (x : PasswordSettings.t) (c : t) : t :=
  {| _request := _request c; _password := x; _form := _form c;
     _formRequestId := _formRequestId c;
     _passwordRequestId := _passwordRequestId c;
     _passwordCheckRequestId := _passwordCheckRequestId c;
     _secret := _secret c; _secretId := _secretId c;
     _secretCallbacks := _secretCallbacks c;
     _saveSecretRequestId := _saveSecretRequestId c;
     _submitRequestId := _submitRequestId c; _cancelled := _cancelled c;
     sender_next := sender_next c; drawn := drawn c |}.

Definition set_form (x : Form.t) (c : t) : t :=
  {| _request := _request c; _password := _password c; _form := x;
     _formRequestId := _formRequestId c;
     _passwordRequestId := _passwordRequestId c;
     _passwordCheckRequestId := _passwordCheckRequestId c;
     _secret := _secret c; _secretId := _secretId c;
     _secretCallbacks := _secretCallbacks c;
     _saveSecretRequestId := _saveSecretRequestId c;
     _submitRequestId := _submitRequestId c; _cancelled := _cancelled c;
     sender_next := sender_next c; drawn := drawn c |}.

Definition set_passwordCheckRequestId (x : Z) (c : t) : t :=
  {| _request := _request c; _password := _password c; _form := _form c;
     _formRequestId := _formRequestId c;
     _passwordRequestId := _passwordRequestId c;
     _passwordCheckRequestId := x;
     _secret := _secret c; _secretId := _secretId c;
     _secretCallbacks := _secretCallbacks c;
     _saveSecretRequestId := _saveSecretRequestId c;
     _submitRequestId := _submitRequestId c; _cancelled := _cancelled c;
     sender_next := sender_next c; drawn := drawn c |}.

Definition set_secret (x : bytes) (c : t) : t :=
  {| _request := _request c; _password := _password c; _form := _form c;
     _formRequestId := _formRequestId c;
     _passwordRequestId := _passwordRequestId c;
     _passwordCheckRequestId := _passwordCheckRequestId c;
     _secret := x; _secretId := _secretId c;
     _secretCallbacks := _secretCallbacks c;
     _saveSecretRequestId := _saveSecretRequestId c;
     _submitRequestId := _submitRequestId c; _cancelled := _cancelled c;
     sender_next := sender_next c; drawn := drawn c |}.

Definition set_secretId (x : Z) (c : t) : t :=
  {| _request := _request c; _password := _password c; _form := _form c;
     _formRequestId := _formRequestId c;
     _passwordRequestId := _passwordRequestId c;
     _passwordCheckRequestId := _passwordCheckRequestId c;
     _secret := _secret c; _secretId := x;
     _secretCallbacks := _secretCallbacks c;
     _saveSecretRequestId := _saveSecretRequestId c;
     _submitRequestId := _submitRequestId c; _cancelled := _cancelled c;
     sender_next := sender_next c; drawn := drawn c |}.

Definition set_secretCallbacks (x : list Closure) (c : t) : t :=
  {| _request := _request c; _password := _password c; _form := _form c;
     _formRequestId := _formRequestId c;
     _passwordRequestId := _passwordRequestId c;
     _passwordCheckRequestId := _passwordCheckRequestId c;
     _secret := _secret c; _secretId := _secretId c;
     _secretCallbacks := x;
     _saveSecretRequestId := _saveSecretRequestId c;
     _submitRequestId := _submitRequestId c; _cancelled := _cancelled c;
     sender_next := sender_next c; drawn := drawn c |}.

Definition set_saveSecretRequestId (x : Z) (c : t) : t :=
  {| _request := _request c; _password := _password c; _form := _form c;
     _formRequestId := _formRequestId c;
     _passwordRequestId := _passwordRequestId c;
     _passwordCheckRequestId := _passwordCheckRequestId c;
     _secret := _secret c; _secretId := _secretId c;
     _secretCallbacks := _secretCallbacks c;
     _saveSecretRequestId := x;
     _submitRequestId := _submitRequestId c; _cancelled := _cancelled c;
     sender_next := sender_next c; drawn := drawn c |}.

Definition set_submitRequestId (x : Z) (c : t) : t :=
  {| _request := _request c; _password := _password c; _form := _form c;
     _formRequestId := _formRequestId c;
     _passwordRequestId := _passwordRequestId c;
     _passwordCheckRequestId := _passwordCheckRequestId c;
     _secret := _secret c; _secretId := _secretId c;
     _secretCallbacks := _secretCallbacks c;
     _saveSecretRequestId := _saveSecretRequestId c;
     _submitRequestId := x; _cancelled := _cancelled c;
     sender_next := sender_next c; drawn := drawn c |}.

Definition set_sender_next (x : positive) (c : t) : t :=
  {| _request := _request c; _password := _password c; _form := _form c;
     _formRequestId := _formRequestId c;
     _passwordRequestId := _passwordRequestId c;
     _passwordCheckRequestId := _passwordCheckRequestId c;
     _secret := _secret c; _secretId := _secretId c;
     _secretCallbacks := _secretCallbacks c;
     _saveSecretRequestId := _saveSecretRequestId c;
     _submitRequestId := _submitRequestId c; _cancelled := _cancelled c;
     sender_next := x; drawn := drawn c |}.

Definition set_drawn (x : nat) (c : t) : t :=
  {| _request := _request c; _password := _password c; _form := _form c;
     _formRequestId := _formRequestId c;
     _passwordRequestId := _passwordRequestId c;
     _passwordCheckRequestId := _passwordCheckRequestId c;
     _secret := _secret c; _secretId := _secretId c;
     _secretCallbacks := _secretCallbacks c;
     _saveSecretRequestId := _saveSecretRequestId c;
     _submitRequestId := _submitRequestId c; _cancelled := _cancelled c;
     sender_next := sender_next c; drawn := x |}.

(** [_form.values]. *)
Definition values (c : t) : gmap ValueType Value.t := Form.values (_form c).

Definition set_values (x : gmap ValueType Value.t) (c : t) : t :=
  set_form (Form.set_values x (_form c)) c.
End FormController.

(** ** Collaborators

    The primitives the controller composes are declared in headers whose
    bodies are not part of this file; the controller is defined over any
    implementation of them. *)

(** [struct EncryptedData] of [passport/passport_encryption.h]. *)
Record EncryptedData := mkEncryptedData {
  ed_secret : bytes;
  ed_hash : bytes;
  ed_bytes : bytes;
}.

(** [passport/passport_encryption.h] and [base/openssl_help.h].  A random
    generator is indexed by the number of values drawn before. *)
Class Encryption := {
  GenerateSecretBytes : nat → bytes;
  EncryptSecureSecret (salt secret password : bytes) : bytes;
  DecryptSecureSecret (salt encryptedSecret password : bytes) : bytes;
  CountSecureSecretHash (secret : bytes) : Z;
  SerializeData (fields : gmap string string) : bytes;
  DeserializeData (data : bytes) : gmap string string;
  EncryptData (data dataSecret : bytes) : EncryptedData;
  DecryptData (encrypted dataHash dataSecret : bytes) : bytes;
  EncryptValueSecret (valueSecret secret valueHash : bytes) : bytes;
  DecryptValueSecret (encrypted secret valueHash : bytes) : bytes;
  EncryptCredentialsSecret (secret publicKey : bytes) : bytes;
  Sha256 (data : bytes) : bytes;
  hashMd5Hex (data : bytes) : QByteArray;
  set_random (drawn : nat) (length : nat) : bytes;
}.

(** Qt, the language pack and the application globals.  [trimmed] is
    [QString::trimmed] and [QString_size] is [QString::size]: what counts
    as white space and as one character of a text is Qt's to say. *)
Class Platform := {
  toBase64 (raw : QByteArray) : QByteArray;
  toJson (document : QJsonValue) : QByteArray;
  readImage (content : QByteArray) : QImage;
  trimmed (text : QString) : QString;
  QString_size (text : QString) : Z;
  url_append_query (url add : QString) : QString;
  rand_value (drawn : nat) : Z;
  unixtime (drawn : nat) : Z;
  maindc : Z;
  clientMsgId (drawn : nat) : Z;
  lng_passport_scans_limit_reached : QString;
  lng_signin_wrong_code : QString;
  lng_flood_error : QString;
  lng_passport_password_wrong : QString;
}.

(** [struct Scope] of [passport/passport_form_view_controller.h]; the
    values are pointers into the form. *)
Inductive ScopeType := ScopeIdentity | ScopeAddress | ScopePhone | ScopeEmail.

Record Scope := mkScope {
  scope_type : ScopeType;
  scope_fields : ValueType;
  scope_documents : list ValueType;
  scope_selfieRequired : bool;
}.

(** [ComputeScopes] and [ComputeScopeRowReadyString] of
    [passport/passport_form_view_controller.h]. *)
Class FormView := {
  ComputeScopes (controller : FormController.t) : list Scope;
  ComputeScopeRowReadyString (controller : FormController.t) (scope : Scope) : QString;
}.

(** ** Member functions as state transformers *)

Definition Ctl (A : Type) : Type :=
  FormController.t → Outcome (A * FormController.t * list Effect).

Definition ret {A : Type} (a : A) : Ctl A :=
  fun c => Returns (a, c, []).

Definition bind {A B : Type} (m : Ctl A) (k : A → Ctl B) : Ctl B :=
  fun c =>
    match m c with
    | Returns (a, c1, out1) =>
        match k a c1 with
        | Returns (b, c2, out2) => Returns (b, c2, out1 ++ out2)
        | Violation what => Violation what
        end
    | Violation what => Violation what
    end.

Declare Scope ctl_scope.
Delimit Scope ctl_scope with ctl.
Bind Scope ctl_scope with Ctl.

Notation "'let!' x ':=' m 'in' k" := (bind m (fun x => k))
  (at level 10, x pattern, m at level 100, k at level 200) : ctl_scope.
Notation "m '>>' k" := (bind m (fun _ => k))
  (at level 100, k at level 200, right associativity) : ctl_scope.

Local Open Scope ctl_scope.

(** Reading and updating the members of [this]. *)
Definition gets {A : Type} (f : FormController.t → A) : Ctl A :=
  fun c => Returns (f c, c, []).

Definition modify (f : FormController.t → FormController.t) : Ctl unit :=
  fun c => Returns (tt, f c, []).

Definition emit (e : Effect) : Ctl unit :=
  fun c => Returns (tt, c, [e]).

Definition violation {A : Type} (what : string) : Ctl A :=
  fun _ => Violation what.

(** [Expects(condition)], [Assert(condition)], [Ensures(condition)]. *)
Definition Expects (condition : bool) (what : string) : Ctl unit :=
  if condition then ret tt else violation what.

Definition when (condition : bool) (m : Ctl unit) : Ctl unit :=
  if condition then m else ret tt.

(** [for (...) body]: the body on each element in turn. *)
Fixpoint for_each {A : Type} (l : list A) (body : A → Ctl unit) : Ctl unit :=
  match l with
  | [] => ret tt
  | x :: rest => body x >> for_each rest body
  end.

(** Modelled from the spec: [request(...).done(...).fail(...).send()] of the
    inherited [MTP::Sender], whose code is not part of this file.  The
    request is handed to the sender, which numbers it; a request id is
    non-zero while the remote authority is awaited. *)
Definition request (r : MTPRequest) : Ctl Z :=
  fun c =>
    let id := Z.pos (FormController.sender_next c) in
    Returns (id,
             FormController.set_sender_next (Pos.succ (FormController.sender_next c)) c,
             [Send id r]).

(** A random value is drawn: the generators are indexed by [drawn]. *)
Definition draw {A : Type} (generator : nat → A) : Ctl A :=
  fun c =>
    Returns (generator (FormController.drawn c),
             FormController.set_drawn (S (FormController.drawn c)) c,
             []).

(** [not_null<Value*> FormController::findValue(not_null<const Value*> value)]. *)
Definition findValue (value : ValueType) : Ctl Value.t :=
  let! values := gets FormController.values in
  match values !! value with
  | Some result => ret result
  | None => violation "i != end(_form.values)"
  end.

(** Writing through a [Value*]. *)
Definition storeValue (value : ValueType) (v : Value.t) : Ctl unit :=
  modify (fun c => FormController.set_values (<[value := v]> (FormController.values c)) c).

Definition modifyValue (value : ValueType) (f : Value.t → Value.t) : Ctl unit :=
  let! v := findValue value in
  storeValue value (f v).

Section Controller.
Context {encryption : Encryption} {platform : Platform} {view : FormView}.

(** [bytes::vector FormController::passwordHashForAuth(bytes::const_span password) const]. *)
Definition passwordHashForAuth (c : FormController.t) (password : bytes) : bytes :=
  let salt := PasswordSettings.salt (FormController._password c) in
  Sha256 (salt +:+ password +:+ salt).

(** *** Secrets of a value *)

(** [UploadScanDataPointer::~UploadScanDataPointer()], for the staged files
    that go out of scope: an upload in flight is cancelled. *)
Definition destroyEditFiles (files : list EditFile.t) : list Effect :=
  omap (fun file =>
    match EditFile.uploadData file with
    | Some data =>
        if UploadScanData.fullId data =? 0 then None
        else Some (CancelUpload (UploadScanData.fullId data))
    | None => None
    end) files.

(** The staged files of a value: the scans and, at the end, the selfie. *)
Definition filesInEdit (value : Value.t) : list EditFile.t :=
  Value.scansInEdit value ++ option_list (Value.selfieInEdit value).

(** [void FormController::resetValue(Value &value)]: the value the
    assignment [value = Value(value.type)] leaves, and what it does to
    the collaborators: the staged files of the value that is replaced are
    destroyed, which cancels their uploads in flight. *)
Definition resetValue (value : Value.t) : Value.t * list Effect :=
  (Value.create (Value.type value), destroyEditFiles (filesInEdit value)).

(** The lambda [validateFileSecret] of [validateValueSecrets]. *)
Definition validateFileSecret (c : FormController.t) (file : File.t)
    : bool * File.t * list Effect :=
  let file :=
    File.set_secret
      (DecryptValueSecret (File.encryptedSecret file)
         (FormController._secret c) (File.hash file))
      file in
  if isEmpty (File.secret file) then
    (false, file,
     [Log "API Error: Could not decrypt selfie secret. Forgetting files and data :("])
  else (true, file, []).

(** [for (auto &scan : value.scans) if (!validateFileSecret(scan)) return false;]:
    whether the loop ran to its end, and the scans as it left them. *)
Fixpoint validateScans (c : FormController.t) (scans : list File.t)
    : bool * list File.t * list Effect :=
  match scans with
  | [] => (true, [], [])
  | scan :: rest =>
      let '(ok, scan, out) := validateFileSecret c scan in
      if ok then
        let '(ok, rest, out') := validateScans c rest in
        (ok, scan :: rest, out ++ out')
      else (false, scan :: rest, out)
  end.

(** [bool FormController::validateValueSecrets(Value &value)]: the result
    and the value as the call leaves it. *)
Definition validateValueSecrets (c : FormController.t) (value : Value.t)
    : bool * Value.t * list Effect :=
  let data := Value.data value in
  let value :=
    if negb (isEmpty (ValueData.original data)) then
      Value.set_data
        (ValueData.set_secret
           (DecryptValueSecret (ValueData.encryptedSecret data)
              (FormController._secret c) (ValueData.hash data))
           data)
        value
    else value in
  if negb (isEmpty (ValueData.original data))
     && isEmpty (ValueData.secret (Value.data value)) then
    (false, value,
     [Log "API Error: Could not decrypt data secret. Forgetting files and data :("])
  else
    let '(ok, scans, out) := validateScans c (Value.scans value) in
    let value := Value.set_scans scans value in
    if ok then
      match Value.selfie value with
      | Some selfie =>
          let '(ok, selfie, out') := validateFileSecret c selfie in
          (ok, Value.set_selfie (Some selfie) value, out ++ out')
      | None => (true, value, out)
      end
    else (false, value, out).

(** [void FormController::decryptValue(Value &value)]. *)
Definition decryptValue (c : FormController.t) (value : Value.t)
    : Outcome (Value.t * list Effect) :=
  if isEmpty (FormController._secret c) then Violation "!_secret.empty()"
  else
    let '(ok, value, out) := validateValueSecrets c value in
    if negb ok then
      let '(value, dropped) := resetValue value in
      Returns (value, out ++ dropped)
    else
      let data := Value.data value in
      if negb (isEmpty (ValueData.original data)) then
        Returns
          (Value.set_data
             (ValueData.set_parsed
                (ValueMap.make
                   (DeserializeData
                      (DecryptData (ValueData.original data)
                         (ValueData.hash data) (ValueData.secret data))))
                data)
             value,
           out)
      else Returns (value, out).

(** [for (auto &[type, value] : _form.values) body(value)]: the map is
    walked in the order of its keys. *)
Definition for_each_value (body : FormController.t → Value.t → Outcome (Value.t * list Effect))
    : Ctl unit :=
  for_each all_ValueTypes (fun type =>
    let! values := gets FormController.values in
    match values !! type with
    | Some value =>
        fun c =>
          match body c value with
          | Returns (value, out) =>
              Returns (tt, FormController.set_values (<[type := value]> (FormController.values c)) c, out)
          | Violation what => Violation what
          end
    | None => ret tt
    end).

(** [void FormController::decryptValues()]. *)
Definition decryptValues : Ctl unit :=
  let! secret := gets FormController._secret in
  Expects (negb (isEmpty secret)) "!_secret.empty()" >>
  for_each_value decryptValue.

(** The continuation [fail] of the request of [generateSecret]. *)
Definition generateSecret_fail (error : RPCError) : Ctl unit :=
  emit (ShowBox "Saving encrypted value failed.") >>
  modify (FormController.set_saveSecretRequestId 0).

(** [void FormController::generateSecret(bytes::const_span password)]. *)
Definition generateSecret (password : bytes) : Ctl unit :=
  let! saveSecretRequestId := gets FormController._saveSecretRequestId in
  if negb (saveSecretRequestId =? 0) then ret tt
  else
    let! secret := draw GenerateSecretBytes in
    let! randomSaltPart := draw (fun n => set_random n 8) in
    let! password_ := gets FormController._password in
    let newSecureSaltFull :=
      PasswordSettings.newSecureSalt password_ +:+ randomSaltPart in
    let secureSecretId := CountSecureSecretHash secret in
    let encryptedSecret :=
      EncryptSecureSecret newSecureSaltFull secret password in
    let hashForAuth :=
      Sha256 (PasswordSettings.salt password_ +:+ password
              +:+ PasswordSettings.salt password_) in
    let! id := request
      (MTPaccount_UpdatePasswordSettings hashForAuth newSecureSaltFull
         encryptedSecret secureSecretId) in
    modify (FormController.set_saveSecretRequestId id).

(** [void FormController::validateSecureSecret(salt, encryptedSecret, password)]. *)
Definition validateSecureSecret (salt encryptedSecret password : bytes) : Ctl unit :=
  when (negb (isEmpty salt) && negb (isEmpty encryptedSecret))
    (modify (FormController.set_secret
               (DecryptSecureSecret salt encryptedSecret password)) >>
     let! secret := gets FormController._secret in
     if isEmpty secret then
       modify (FormController.set_secretId 0) >>
       emit (Log "API Error: Failed to decrypt secure secret. Forgetting all files and data :(") >>
       for_each_value (fun _ value =>
         if negb (isEmpty (ValueData.original (Value.data value)))
         then Returns (resetValue value)
         else Returns (value, []))
     else
       modify (FormController.set_secretId (CountSecureSecretHash secret)) >>
       decryptValues) >>
  let! secret := gets FormController._secret in
  when (isEmpty secret) (generateSecret password) >>
  emit SecretReadyFired.

(** The continuation [done] of the request of [submitPassword]; the
    response carries the e-mail, the secure salt and the secure secret. *)
Definition submitPassword_done (passwordBytes : bytes)
    (vemail : QString) (vsecure_salt vsecure_secret : bytes) : Ctl unit :=
  modify (FormController.set_passwordCheckRequestId 0) >>
  modify (fun c =>
    FormController.set_password
      (PasswordSettings.set_confirmedEmail vemail (FormController._password c)) c) >>
  validateSecureSecret vsecure_salt vsecure_secret passwordBytes.

(** The continuation [fail] of the request of [submitPassword]. *)
Definition submitPassword_fail (error : RPCError) : Ctl unit :=
  modify (FormController.set_passwordCheckRequestId 0) >>
  if is_flood error then emit (PasswordErrorFired lng_flood_error)
  else if String.eqb (error_type error) "PASSWORD_HASH_INVALID" then
    emit (PasswordErrorFired lng_passport_password_wrong)
  else emit (PasswordErrorFired (error_type error)).

(** [void FormController::submitPassword(const QString &password)]. *)
Definition submitPassword (password : QString) : Ctl unit :=
  let! password_ := gets FormController._password in
  Expects (negb (isEmpty (PasswordSettings.salt password_))) "!_password.salt.empty()" >>
  let! passwordCheckRequestId := gets FormController._passwordCheckRequestId in
  if negb (passwordCheckRequestId =? 0) then ret tt
  else
    when (isEmpty password) (emit (PasswordErrorFired "")) >>
    let passwordBytes := password in
    let! c := gets (fun c => c) in
    let! id := request
      (MTPaccount_GetPasswordSettings (passwordHashForAuth c passwordBytes)) in
    modify (FormController.set_passwordCheckRequestId id).

(** *** Staged scans *)

Definition kDocumentScansLimit : Z := 20.

(** [ranges::count_if]. *)
Definition count_if {A : Type} (l : list A) (p : A → bool) : Z :=
  Z.of_nat (length (List.filter p l)).

(** [bool FormController::canAddScan(not_null<const Value*> value) const]. *)
Definition canAddScan (value : Value.t) : bool :=
  let scansCount :=
    count_if (Value.scansInEdit value) (fun scan => negb (EditFile.deleted scan)) in
  scansCount <? kDocumentScansLimit.

(** [void FormController::prepareFile(EditFile &file, const QByteArray &content)]:
    the file as the call leaves it. *)
Definition prepareFile (ref : EditFileRef) (file : EditFile.t) (content : QByteArray)
    : Ctl EditFile.t :=
  let! fileId := draw rand_value in
  let! secret := draw GenerateSecretBytes in
  let! date := draw unixtime in
  let size := Z.of_nat (String.length content) in
  let fields := EditFile.fields file in
  let file :=
    EditFile.set_fields
      {| File.id := fileId;
         File.accessHash := File.accessHash fields;
         File.size := size;
         File.date := date;
         File.dcId := maindc;
         File.hash := File.hash fields;
         File.secret := secret;
         File.encryptedSecret := File.encryptedSecret fields;
         File.downloadOffset := size;
         File.image := readImage content |}
      file in
  emit (ScanUpdatedFired ref) >>
  ret file.

(** [void FormController::encryptFile(EditFile &file, QByteArray &&content, callback)]:
    the file is prepared and the encryption is handed to a worker. *)
Definition encryptFile (ref : EditFileRef) (file : EditFile.t) (content : QByteArray)
    : Ctl EditFile.t :=
  let! file := prepareFile ref file content in
  emit (AsyncEncrypt ref (File.id (EditFile.fields file)) content
          (File.secret (EditFile.fields file))) >>
  ret file.

(** [void FormController::uploadScan(not_null<const Value*> value, QByteArray &&content)]. *)
Definition uploadScan (value : ValueType) (content : QByteArray) : Ctl unit :=
  let! v := findValue value in
  if negb (canAddScan v) then
    emit (ShowToast lng_passport_scans_limit_reached)
  else
    let scanIndex := length (Value.scansInEdit v) in
    let scan := EditFile.create value File.empty None in
    storeValue value (Value.set_scansInEdit (Value.scansInEdit v ++ [scan]) v) >>
    let! scan := encryptFile (ScanInEdit value scanIndex) scan content in
    modifyValue value (fun v =>
      Value.set_scansInEdit (<[scanIndex := scan]> (Value.scansInEdit v)) v).

(** [void FormController::scanDeleteRestore(value, int scanIndex, bool deleted)]. *)
Definition scanDeleteRestore (value : ValueType) (scanIndex : Z) (deleted : bool)
    : Ctl unit :=
  let! v := findValue value in
  Expects ((0 <=? scanIndex) && (scanIndex <? Z.of_nat (length (Value.scansInEdit v))))
    "scanIndex >= 0 && scanIndex < value->scansInEdit.size()" >>
  match Value.scansInEdit v !! Z.to_nat scanIndex with
  | None => violation "scansInEdit[scanIndex]"
  | Some scan =>
      if EditFile.deleted scan && negb deleted && negb (canAddScan v) then
        emit (ShowToast lng_passport_scans_limit_reached)
      else
        storeValue value
          (Value.set_scansInEdit
             (<[Z.to_nat scanIndex := EditFile.set_deleted deleted scan]>
                (Value.scansInEdit v))
             v) >>
        emit (ScanUpdatedFired (ScanInEdit value (Z.to_nat scanIndex)))
  end.

(** [void FormController::deleteScan(value, int scanIndex)]. *)
Definition deleteScan (value : ValueType) (scanIndex : Z) : Ctl unit :=
  scanDeleteRestore value scanIndex true.

(** [void FormController::restoreScan(value, int scanIndex)]. *)
Definition restoreScan (value : ValueType) (scanIndex : Z) : Ctl unit :=
  scanDeleteRestore value scanIndex false.

(** *** Verification of phone and email values *)

(** [void FormController::verificationError(not_null<Value*> value, const QString &text)]. *)
Definition verificationError (value : ValueType) (text : QString) : Ctl unit :=
  modifyValue value (fun v =>
    Value.set_verification (Verification.set_error text (Value.verification v)) v) >>
  emit (VerificationUpdateFired value).

Definition isPlainTextType (type : ValueType) : bool :=
  match type with
  | Phone | Email => true
  | _ => false
  end.

(** [QString FormController::getPlainTextFromValue(not_null<const Value*> value) const]. *)
Definition getPlainTextFromValue (value : Value.t) : Outcome QString :=
  if negb (isPlainTextType (Value.type value)) then
    Violation "value->type == Value::Type::Phone || value->type == Value::Type::Email"
  else
    match ValueMap.fields (ValueData.parsedInEdit (Value.data value)) !! "value" with
    | Some text => Returns text
    | None => Violation "i != end(value->data.parsedInEdit.fields)"
    end.

(** [QString FormController::getPhoneFromValue(not_null<const Value*> value) const]. *)
Definition getPhoneFromValue (value : Value.t) : Outcome QString :=
  match Value.type value with
  | Phone => getPlainTextFromValue value
  | _ => Violation "value->type == Value::Type::Phone"
  end.

(** [QString FormController::getEmailFromValue(not_null<const Value*> value) const]. *)
Definition getEmailFromValue (value : Value.t) : Outcome QString :=
  match Value.type value with
  | Email => getPlainTextFromValue value
  | _ => Violation "value->type == Value::Type::Email"
  end.

Definition lift {A : Type} (o : Outcome A) : Ctl A :=
  match o with
  | Returns a => ret a
  | Violation what => violation what
  end.

(** [void FormController::verify(not_null<const Value*> value, const QString &code)]. *)
Definition verify (value : ValueType) (code : QString) : Ctl unit :=
  let! v := findValue value in
  if negb (Verification.requestId (Value.verification v) =? 0) then ret tt
  else
    let prepared := trimmed code in
    let codeLength := Verification.codeLength (Value.verification v) in
    Expects (negb (codeLength =? 0)) "nonconst->verification.codeLength != 0" >>
    verificationError value "" >>
    if (0 <? codeLength) && negb (codeLength =? QString_size prepared) then
      verificationError value lng_signin_wrong_code
    else if isEmpty prepared then
      verificationError value lng_signin_wrong_code
    else
      let! v := findValue value in
      let! id :=
        match Value.type v with
        | Phone =>
            let! phone := lift (getPhoneFromValue v) in
            request (MTPaccount_VerifyPhone phone
                       (Verification.phoneCodeHash (Value.verification v)) prepared)
        | Email =>
            let! email := lift (getEmailFromValue v) in
            request (MTPaccount_VerifyEmail email prepared)
        | _ => violation "Type in FormController::verify()."
        end in
      modifyValue value (fun v =>
        Value.set_verification (Verification.set_requestId id (Value.verification v)) v).

(** *** Edit sessions *)

(** [bool FormController::savingValue(not_null<const Value*> value) const]. *)
Definition savingValue (value : Value.t) : bool :=
  negb (Value.saveRequestId value =? 0)
  || negb (Verification.requestId (Value.verification value) =? 0)
  || negb (Verification.codeLength (Value.verification value) =? 0).

Definition emit_all (out : list Effect) : Ctl unit :=
  fun c => Returns (tt, c, out).

(** The edit-scoped copies of a value are dropped. *)
Definition withoutEdit (value : Value.t) : Value.t :=
  Value.set_data
    (ValueData.set_parsedInEdit ValueMap.empty
       (ValueData.set_hashInEdit ""
          (ValueData.set_encryptedSecretInEdit "" (Value.data value))))
    (Value.set_selfieInEdit None (Value.set_scansInEdit [] value)).

(** [void FormController::clearValueEdit(not_null<Value*> value)]. *)
Definition clearValueEdit (value : ValueType) : Ctl unit :=
  let! v := findValue value in
  if savingValue v then ret tt
  else
    storeValue value (withoutEdit v) >>
    emit_all (destroyEditFiles (filesInEdit v)).

(** [void FormController::valueEditFailed(not_null<Value*> value)]. *)
Definition valueEditFailed (value : ValueType) : Ctl unit :=
  let! v := findValue value in
  Expects (negb (savingValue v)) "!savingValue(value)" >>
  when (Value.editScreens v =? 0) (clearValueEdit value).

(** [void FormController::cancelValueEdit(not_null<const Value*> value)]. *)
Definition cancelValueEdit (value : ValueType) : Ctl unit :=
  let! v := findValue value in
  Expects (0 <? Value.editScreens v) "value->editScreens > 0" >>
  storeValue value (Value.set_editScreens (Value.editScreens v - 1) v) >>
  clearValueEdit value.

(** [void FormController::clearValueVerification(not_null<Value*> value)]. *)
Definition clearValueVerification (value : ValueType) : Ctl unit :=
  let! v := findValue value in
  let was := negb (Verification.codeLength (Value.verification v) =? 0) in
  let requestId := Verification.requestId (Value.verification v) in
  when (negb (requestId =? 0)) (emit (CancelRequest requestId)) >>
  storeValue value (Value.set_verification Verification.empty v) >>
  when was (emit (VerificationUpdateFired value)).

(** [void FormController::cancelValueVerification(not_null<const Value*> value)]. *)
Definition cancelValueVerification (value : ValueType) : Ctl unit :=
  clearValueVerification value >>
  let! v := findValue value in
  when (negb (savingValue v)) (valueEditFailed value).

(** [void FormController::valueSaveFailed(not_null<Value*> value, const RPCError &error)]. *)
Definition valueSaveFailed (value : ValueType) (error : RPCError) : Ctl unit :=
  emit (ShowBox ("Error saving value:" +:+ String "010"%char "" +:+ error_type error)) >>
  valueEditFailed value >>
  emit (ValueSaveFinishedFired value).

(** [bool FormController::isEncryptedValue(Value::Type type) const]. *)
Definition isEncryptedValue (type : ValueType) : bool :=
  negb (bool_decide (type = Phone)) && negb (bool_decide (type = Email)).

(** [bool FormController::editFileChanged(const EditFile &file) const]. *)
Definition editFileChanged (file : EditFile.t) : bool :=
  match EditFile.uploadData file with
  | Some _ => negb (EditFile.deleted file)
  | None => EditFile.deleted file
  end.

(** The loop of [editValueChanged] over the new fields, and its last line. *)
Fixpoint fieldsChanged (data : list (string * string)) (existing : gmap string string) : bool :=
  match data with
  | [] => negb (bool_decide (existing = ∅))
  | (key, value) :: rest =>
      match existing !! key with
      | Some old =>
          if negb (bool_decide (old = value)) then true
          else fieldsChanged rest (delete key existing)
      | None =>
          if negb (isEmpty value) then true
          else fieldsChanged rest existing
      end
  end.

(** [bool FormController::editValueChanged(value, const ValueMap &data) const].
    The new fields are walked as the list of the entries of the map; the
    result does not depend on the order of the walk. *)
Definition editValueChanged (value : Value.t) (data : ValueMap.t) : bool :=
  if existsb editFileChanged (Value.scansInEdit value) then true
  else if
    match Value.selfieInEdit value with
    | Some selfie => editFileChanged selfie
    | None => false
    end
  then true
  else
    fieldsChanged (map_to_list (ValueMap.fields data))
      (ValueMap.fields (ValueData.parsed (Value.data value))).

(** *** Parsing a value the remote authority returns *)

(** [void FormController::fillDownloadedFile(File &destination, const std::vector<EditFile> &source) const]. *)
Definition fillDownloadedFile (destination : File.t) (source : list EditFile.t)
    : File.t * list Effect :=
  match List.find (fun file => bool_decide (File.hash (EditFile.fields file) = File.hash destination)) source with
  | None => (destination, [])
  | Some i =>
      let destination :=
        {| File.id := File.id destination;
           File.accessHash := File.accessHash destination;
           File.size := File.size destination;
           File.date := File.date destination;
           File.dcId := File.dcId destination;
           File.hash := File.hash destination;
           File.secret := File.secret destination;
           File.encryptedSecret := File.encryptedSecret destination;
           File.downloadOffset := File.downloadOffset (EditFile.fields i);
           File.image := File.image (EditFile.fields i) |} in
      match EditFile.uploadData i with
      | None => (destination, [])
      | Some data =>
          (destination,
           [WriteImage (File.dcId destination) (File.id destination)
              (UploadScanData.bytes_ data)])
      end
  end.

(** [base::optional<File> FormController::parseFile(const MTPSecureFile &data, editData) const]. *)
Definition parseFile (data : MTPSecureFile) (editData : list EditFile.t)
    : option File.t * list Effect :=
  match data with
  | MTP_secureFileEmpty => (None, [])
  | MTP_secureFile vid vaccess_hash vsize vdc_id vdate vfile_hash vsecret =>
      let result :=
        {| File.id := vid; File.accessHash := vaccess_hash;
           File.size := vsize; File.date := vdate; File.dcId := vdc_id;
           File.hash := vfile_hash; File.secret := "";
           File.encryptedSecret := vsecret;
           File.downloadOffset := 0; File.image := "" |} in
      let '(result, out) := fillDownloadedFile result editData in
      (Some result, out)
  end.

(** [std::vector<File> FormController::parseFiles(const QVector<MTPSecureFile> &data, editData) const]. *)
Fixpoint parseFiles (data : list MTPSecureFile) (editData : list EditFile.t)
    : list File.t * list Effect :=
  match data with
  | [] => ([], [])
  | file :: rest =>
      let '(normal, out) := parseFile file editData in
      let '(result, out') := parseFiles rest editData in
      (option_list normal ++ result, out ++ out')
  end.

(** [Value FormController::parseValue(const MTPSecureValue &value, editData) const]. *)
Definition parseValue (value : MTPSecureValue) (editData : list EditFile.t)
    : Outcome (Value.t * list Effect) :=
  match Convert.fromMTP (sv_type value) with
  | Violation what => Violation what
  | Returns type =>
      let result := Value.create type in
      let data :=
        match sv_data value with
        | Some fields =>
            {| ValueData.original := sd_data fields;
               ValueData.hash := sd_data_hash fields;
               ValueData.secret := "";
               ValueData.encryptedSecret := sd_secret fields;
               ValueData.parsed := ValueMap.empty;
               ValueData.hashInEdit := "";
               ValueData.encryptedSecretInEdit := "";
               ValueData.parsedInEdit := ValueMap.empty |}
        | None => ValueData.empty
        end in
      let '(scans, out1) :=
        match sv_files value with
        | Some files => parseFiles files editData
        | None => ([], [])
        end in
      let '(selfie, out2) :=
        match sv_selfie value with
        | Some file => parseFile file editData
        | None => (None, [])
        end in
      let data :=
        match sv_plain_data value with
        | Some (MTP_securePlainPhone vphone) =>
            ValueData.set_parsed
              (ValueMap.make (<["value" := vphone]> (ValueMap.fields (ValueData.parsed data))))
              data
        | Some (MTP_securePlainEmail vemail) =>
            ValueData.set_parsed
              (ValueMap.make (<["value" := vemail]> (ValueMap.fields (ValueData.parsed data))))
              data
        | None => data
        end in
      Returns
        ({| Value.type := type; Value.data := data; Value.scans := scans;
            Value.scansInEdit := []; Value.selfie := selfie;
            Value.selfieInEdit := None; Value.submitHash := sv_hash value;
            Value.verification := Verification.empty;
            Value.editScreens := 0; Value.saveRequestId := 0;
            Value.error := None |},
         out1 ++ out2)
  end.

(** *** Saving a value *)

(** [void FormController::sendSaveRequest(not_null<Value*> value, const MTPInputSecureValue &data)]. *)
Definition sendSaveRequest (value : ValueType) (data : MTPInputSecureValue) : Ctl unit :=
  let! v := findValue value in
  Expects (Value.saveRequestId v =? 0) "value->saveRequestId == 0" >>
  let! secretId := gets FormController._secretId in
  let! id := request (MTPaccount_SaveSecureValue data secretId) in
  modifyValue value (Value.set_saveRequestId id).

(** [void FormController::savePlainTextValue(not_null<Value*> value)]. *)
Definition savePlainTextValue (value : ValueType) : Ctl unit :=
  let! v := findValue value in
  Expects (negb (isEncryptedValue (Value.type v))) "!isEncryptedValue(value->type)" >>
  let! text := lift (getPlainTextFromValue v) in
  let! (type, plain) :=
    match Value.type v with
    | Phone => ret (MTP_secureValueTypePhone, MTP_securePlainPhone text)
    | Email => ret (MTP_secureValueTypeEmail, MTP_securePlainEmail text)
    | _ => violation "Value type in savePlainTextValue()."
    end in
  sendSaveRequest value
    {| isv_flags := {| f_data := false; f_files := false;
                       f_plain_data := true; f_selfie := false |};
       isv_type := type;
       isv_data := None;
       isv_files := [];
       isv_plain_data := Some plain;
       isv_selfie := None |}.

(** The lambda [inputFile] of [saveEncryptedValue]. *)
Definition inputFile (file : EditFile.t) : MTPInputSecureFile :=
  match EditFile.uploadData file with
  | Some uploadData =>
      MTP_inputSecureFileUploaded
        (File.id (EditFile.fields file))
        (UploadScanData.partsCount uploadData)
        (UploadScanData.md5checksum uploadData)
        (File.hash (EditFile.fields file))
        (File.encryptedSecret (EditFile.fields file))
  | None =>
      MTP_inputSecureFile
        (File.id (EditFile.fields file))
        (File.accessHash (EditFile.fields file))
  end.

(** The staged selfie that is there and not deleted. *)
Definition liveSelfieInEdit (v : Value.t) : option EditFile.t :=
  match Value.selfieInEdit v with
  | Some selfie => if EditFile.deleted selfie then None else Some selfie
  | None => None
  end.

(** The flags [saveEncryptedValue] sets on the request. *)
Definition saveFlags (v : Value.t) : InputSecureValueFlags :=
  let noScans := bool_decide (Value.scansInEdit v = []) in
  let noFields :=
    bool_decide (ValueMap.fields (ValueData.parsedInEdit (Value.data v)) = ∅) in
  {| f_data := negb (noScans && noFields);
     f_files := negb noScans;
     f_plain_data := false;
     f_selfie := bool_decide (is_Some (liveSelfieInEdit v)) |}.

(** [void FormController::saveEncryptedValue(not_null<Value*> value)]. *)
Definition saveEncryptedValue (value : ValueType) : Ctl unit :=
  let! v := findValue value in
  Expects (isEncryptedValue (Value.type v)) "isEncryptedValue(value->type)" >>
  let! secret := gets FormController._secret in
  if isEmpty secret then
    modify (fun c =>
      FormController.set_secretCallbacks
        (FormController._secretCallbacks c ++ [SaveEncryptedValue value]) c)
  else
    let inputFiles :=
      inputFile <$> List.filter (fun scan => negb (EditFile.deleted scan)) (Value.scansInEdit v) in
    let! v :=
      if isEmpty (ValueData.secret (Value.data v)) then
        let! fresh := draw GenerateSecretBytes in
        ret (Value.set_data (ValueData.set_secret fresh (Value.data v)) v)
      else ret v in
    let encryptedData :=
      EncryptData
        (SerializeData (ValueMap.fields (ValueData.parsedInEdit (Value.data v))))
        (ValueData.secret (Value.data v)) in
    let hashInEdit := ed_hash encryptedData in
    let encryptedSecretInEdit :=
      EncryptValueSecret (ValueData.secret (Value.data v)) secret hashInEdit in
    let v :=
      Value.set_data
        (ValueData.set_encryptedSecretInEdit encryptedSecretInEdit
           (ValueData.set_hashInEdit hashInEdit (Value.data v)))
        v in
    storeValue value v >>
    let selfie := inputFile <$> liveSelfieInEdit v in
    let! type :=
      match Value.type v with
      | Phone | Email => violation "Value type in saveEncryptedValue()."
      | type => ret (Convert.toMTP type)
      end in
    let flags := saveFlags v in
    Expects (negb (no_flags flags)) "flags != MTPDinputSecureValue::Flags(0)" >>
    sendSaveRequest value
      {| isv_flags := flags;
         isv_type := type;
         isv_data :=
           Some (MTP_secureData (ed_bytes encryptedData) hashInEdit encryptedSecretInEdit);
         isv_files := inputFiles;
         isv_plain_data := None;
         isv_selfie := selfie |}.

(** [void FormController::startPhoneVerification(not_null<Value*> value)]. *)
Definition startPhoneVerification (value : ValueType) : Ctl unit :=
  let! v := findValue value in
  let! phone := lift (getPhoneFromValue v) in
  let! id := request (MTPaccount_SendVerifyPhoneCode phone) in
  modifyValue value (fun v =>
    Value.set_verification (Verification.set_requestId id (Value.verification v)) v).

(** The continuation [fail] of the request of [startPhoneVerification]. *)
Definition startPhoneVerification_fail (value : ValueType) (error : RPCError) : Ctl unit :=
  modifyValue value (fun v =>
    Value.set_verification (Verification.set_requestId 0 (Value.verification v)) v) >>
  valueSaveFailed value error.

(** [void FormController::startEmailVerification(not_null<Value*> value)]. *)
Definition startEmailVerification (value : ValueType) : Ctl unit :=
  let! v := findValue value in
  let! email := lift (getEmailFromValue v) in
  let! id := request (MTPaccount_SendVerifyEmailCode email) in
  modifyValue value (fun v =>
    Value.set_verification (Verification.set_requestId id (Value.verification v)) v).

(** The continuation [fail] of the request of [startEmailVerification]. *)
Definition startEmailVerification_fail (value : ValueType) (error : RPCError) : Ctl unit :=
  valueSaveFailed value error.

(** The continuation [fail] of the request of [sendSaveRequest]. *)
Definition sendSaveRequest_fail (value : ValueType) (error : RPCError) : Ctl unit :=
  modifyValue value (Value.set_saveRequestId 0) >>
  let! v := findValue value in
  if String.eqb (error_type error) "PHONE_VERIFICATION_NEEDED" then
    if bool_decide (Value.type v = Phone) then startPhoneVerification value
    else valueSaveFailed value error
  else if String.eqb (error_type error) "EMAIL_VERIFICATION_NEEDED" then
    if bool_decide (Value.type v = Email) then startEmailVerification value
    else valueSaveFailed value error
  else valueSaveFailed value error.

(** The continuation [done] of the request of [sendSaveRequest]. *)
Definition sendSaveRequest_done (value : ValueType) (result : MTPSecureValue) : Ctl unit :=
  let! v := findValue value in
  let files := filesInEdit v in
  let editScreens := Value.editScreens v in
  let! (parsed, out) := lift (parseValue result files) in
  emit_all out >>
  let! c := gets (fun c => c) in
  let! (decrypted, out) := lift (decryptValue c parsed) in
  emit_all out >>
  storeValue value (Value.set_editScreens editScreens decrypted) >>
  emit (ValueSaveFinishedFired value) >>
  emit_all (destroyEditFiles files).

(** The continuation [done] of the requests of [verify]. *)
Definition verify_done (value : ValueType) : Ctl unit :=
  savePlainTextValue value >>
  clearValueVerification value.

(** The continuation [fail] of the requests of [verify]; [invalid] is
    [PHONE_CODE_INVALID] for a phone and [CODE_INVALID] for an email. *)
Definition verify_fail (value : ValueType) (invalid : QString) (error : RPCError) : Ctl unit :=
  modifyValue value (fun v =>
    Value.set_verification (Verification.set_requestId 0 (Value.verification v)) v) >>
  if String.eqb (error_type error) invalid then
    verificationError value lng_signin_wrong_code
  else verificationError value (error_type error).

(** The continuation [done] of the request of [startPhoneVerification]. *)
Definition startPhoneVerification_done (value : ValueType) (data : MTPSentCode) : Ctl unit :=
  let! v := findValue value in
  let verification (codeLength : Z) (call : option (CallState * Z)) : Verification.t :=
    {| Verification.requestId := 0;
       Verification.phoneCodeHash := sc_phone_code_hash data;
       Verification.codeLength := codeLength;
       Verification.call := call;
       Verification.error := Verification.error (Value.verification v) |} in
  let unchanged :=
    verification (Verification.codeLength (Value.verification v))
      (Verification.call (Value.verification v)) in
  match sc_type data with
  | MTP_auth_sentCodeTypeApp _ =>
      storeValue value (Value.set_verification unchanged v) >>
      emit (Log "API Error: sentCodeTypeApp not expected in FormController::startPhoneVerification.")
  | MTP_auth_sentCodeTypeFlashCall _ =>
      storeValue value (Value.set_verification unchanged v) >>
      emit (Log "API Error: sentCodeTypeFlashCall not expected in FormController::startPhoneVerification.")
  | MTP_auth_sentCodeTypeCall vlength =>
      storeValue value
        (Value.set_verification
           (verification (if 0 <? vlength then vlength else -1) (Some (Called, 0)))
           v) >>
      when (bool_decide (is_Some (sc_next_type data)))
        (emit (Log "API Error: next_type is not supported for calls.")) >>
      emit (VerificationNeededFired value)
  | MTP_auth_sentCodeTypeSms vlength =>
      let call :=
        match sc_next_type data with
        | Some MTP_auth_codeTypeCall =>
            Some (Waiting, default 60 (sc_timeout data))
        | _ => Verification.call (Value.verification v)
        end in
      storeValue value
        (Value.set_verification
           (verification (if 0 <? vlength then vlength else -1) call)
           v) >>
      emit (VerificationNeededFired value)
  end.

(** The continuation [done] of the request of [startEmailVerification]. *)
Definition startEmailVerification_done (value : ValueType) (vlength : Z) : Ctl unit :=
  modifyValue value (fun v =>
    Value.set_verification
      {| Verification.requestId := 0;
         Verification.phoneCodeHash := Verification.phoneCodeHash (Value.verification v);
         Verification.codeLength := if 0 <? vlength then vlength else -1;
         Verification.call := Verification.call (Value.verification v);
         Verification.error := Verification.error (Value.verification v) |}
      v) >>
  emit (VerificationNeededFired value).

(** [void FormController::saveValueEdit(not_null<const Value*> value, ValueMap &&data)]. *)
Definition saveValueEdit (value : ValueType) (data : ValueMap.t) : Ctl unit :=
  let! v := findValue value in
  let! submitRequestId := gets FormController._submitRequestId in
  if savingValue v || negb (submitRequestId =? 0) then ret tt
  else if negb (editValueChanged v data) then
    storeValue value (Value.set_saveRequestId (-1) v) >>
    emit (OnMain (FinishUnchangedSave value))
  else
    storeValue value (Value.set_data (ValueData.set_parsedInEdit data (Value.data v)) v) >>
    if isEncryptedValue (Value.type v) then saveEncryptedValue value
    else savePlainTextValue value.

(** The function object [saveValueEdit] queues for the main thread when the
    edit changed nothing. *)
Definition saveValueEdit_unchanged (value : ValueType) : Ctl unit :=
  let! v := findValue value in
  storeValue value
    (Value.set_saveRequestId 0 (Value.set_error None (withoutEdit v))) >>
  emit_all (destroyEditFiles (filesInEdit v)) >>
  emit (ValueSaveFinishedFired value).

(** [void FormController::deleteValueEdit(not_null<const Value*> value)]. *)
Definition deleteValueEdit (value : ValueType) : Ctl unit :=
  let! v := findValue value in
  let! submitRequestId := gets FormController._submitRequestId in
  if savingValue v || negb (submitRequestId =? 0) then ret tt
  else
    let! id := request (MTPaccount_DeleteSecureValue [Convert.toMTP (Value.type v)]) in
    modifyValue value (Value.set_saveRequestId id).

(** The continuation [done] of the request of [deleteValueEdit]. *)
Definition deleteValueEdit_done (value : ValueType) : Ctl unit :=
  let! v := findValue value in
  storeValue value
    (Value.set_editScreens (Value.editScreens v) (Value.create (Value.type v))) >>
  emit_all (destroyEditFiles (filesInEdit v)) >>
  emit (ValueSaveFinishedFired value).

(** The continuation [fail] of the request of [deleteValueEdit]. *)
Definition deleteValueEdit_fail (value : ValueType) (error : RPCError) : Ctl unit :=
  modifyValue value (Value.set_saveRequestId 0) >>
  valueSaveFailed value error.

(** *** Function objects *)

(** Calling a function object: a callback of [_secretCallbacks], or a task
    queued for the main thread. *)
Definition call (f : Closure) : Ctl unit :=
  match f with
  | SaveEncryptedValue value => saveEncryptedValue value
  | FinishUnchangedSave value => saveValueEdit_unchanged value
  end.

(** The continuation [done] of the request of [generateSecret]:
    [for (const auto &callback : base::take(_secretCallbacks)) callback();]
    after the secret is stored. *)
Definition generateSecret_done (secret : bytes) (secureSecretId : Z) : Ctl unit :=
  modify (FormController.set_saveSecretRequestId 0) >>
  modify (FormController.set_secret secret) >>
  modify (FormController.set_secretId secureSecretId) >>
  let! callbacks := gets FormController._secretCallbacks in
  modify (FormController.set_secretCallbacks []) >>
  for_each callbacks call.

(** *** The final submission *)

(** [QJsonObject GetJSONFromMap(const std::map<QString, bytes::const_span> &map)]. *)
Definition GetJSONFromMap (map : gmap string string) : QJsonValue :=
  QJsonObject ((fun value => QJsonString (toBase64 value)) <$> map).

(** [QJsonObject GetJSONFromFile(const File &file)]. *)
Definition GetJSONFromFile (file : File.t) : QJsonValue :=
  GetJSONFromMap
    (<["file_hash" := File.hash file]> (<["secret" := File.secret file]> ∅)).

(** [struct FinalData]. *)
Record FinalData := mkFinalData {
  fd_hashes : list MTPSecureValueHash;
  fd_credentials : QByteArray;
}.

(** What [prepareFinalData] accumulates: [hashes] and [secureData]. *)
Definition Collected : Type := list MTPSecureValueHash * gmap string QJsonValue.

(** The lambda [addValueToJSON] of [prepareFinalData]. *)
Definition addValueToJSON (identitySelfieRequired : bool) (key : QString) (value : Value.t)
    (secureData : gmap string QJsonValue) : gmap string QJsonValue :=
  let object : gmap string QJsonValue := ∅ in
  let object :=
    if negb (bool_decide (ValueMap.fields (ValueData.parsed (Value.data value)) = ∅)) then
      <["data" :=
          GetJSONFromMap
            (<["data_hash" := ValueData.hash (Value.data value)]>
               (<["secret" := ValueData.secret (Value.data value)]> ∅))]> object
    else object in
  let object :=
    if negb (bool_decide (Value.scans value = [])) then
      <["files" := QJsonArray (GetJSONFromFile <$> Value.scans value)]> object
    else object in
  let object :=
    match Value.selfie value with
    | Some selfie =>
        if identitySelfieRequired then <["selfie" := GetJSONFromFile selfie]> object
        else object
    | None => object
    end in
  <[key := QJsonObject object]> secureData.

(** The lambda [addValue] of [prepareFinalData]. *)
Definition addValue (identitySelfieRequired : bool) (value : Value.t) (acc : Collected)
    : Collected :=
  let '(hashes, secureData) := acc in
  let hashes :=
    hashes ++ [MTP_secureValueHash (Convert.toMTP (Value.type value)) (Value.submitHash value)] in
  let key := ValueCredentialsKey (Value.type value) in
  if negb (isEmpty key) then
    (hashes, addValueToJSON identitySelfieRequired key value secureData)
  else (hashes, secureData).

(** [for (const auto &document : scope.documents)
       if (!document->scans.empty()) { addValue(document); break; }]. *)
Fixpoint addFirstDocument (identitySelfieRequired : bool) (documents : list ValueType)
    (acc : Collected) : Ctl Collected :=
  match documents with
  | [] => ret acc
  | document :: rest =>
      let! values := gets FormController.values in
      match values !! document with
      | None => violation "document"
      | Some v =>
          if negb (bool_decide (Value.scans v = [])) then
            ret (addValue identitySelfieRequired v acc)
          else addFirstDocument identitySelfieRequired rest acc
      end
  end.

(** The loop of [prepareFinalData] over the scopes: what it collects and
    [hasErrors]. *)
Fixpoint collectScopes (scopes : list Scope) (acc : Collected) (hasErrors : bool)
    : Ctl (Collected * bool) :=
  match scopes with
  | [] => ret (acc, hasErrors)
  | scope :: rest =>
      let! c := gets (fun c => c) in
      let ready := ComputeScopeRowReadyString c scope in
      if isEmpty ready then
        modifyValue (scope_fields scope) (Value.set_error (Some "")) >>
        collectScopes rest acc true
      else
        let! values := gets FormController.values in
        match values !! scope_fields scope with
        | None => violation "scope.fields"
        | Some fields =>
            let selfieRequired :=
              Form.identitySelfieRequired (FormController._form c) in
            let acc := addValue selfieRequired fields acc in
            let! acc := addFirstDocument selfieRequired (scope_documents scope) acc in
            collectScopes rest acc hasErrors
        end
  end.

(** The document [prepareFinalData] serializes. *)
Definition credentialsDocument (secureData : gmap string QJsonValue) (payload : QString)
    : QJsonValue :=
  QJsonObject
    (<["payload" := QJsonString payload]>
       (<["secure_data" := QJsonObject secureData]> ∅)).

(** [auto FormController::prepareFinalData() -> FinalData]. *)
Definition prepareFinalData : Ctl FinalData :=
  let! c := gets (fun c => c) in
  let scopes := ComputeScopes c in
  let! (collected, hasErrors) := collectScopes scopes ([], ∅) false in
  let '(hashes, secureData) := collected in
  if hasErrors then ret (mkFinalData [] "")
  else
    let! request_ := gets FormController._request in
    ret (mkFinalData hashes
           (toJson (credentialsDocument secureData (FormRequest.payload request_)))).

(** [bool FormController::submit()].  [EncryptData] of one argument
    encrypts under a secret it generates. *)
Definition submit : Ctl bool :=
  let! submitRequestId := gets FormController._submitRequestId in
  if negb (submitRequestId =? 0) then ret true
  else
    let! prepared := prepareFinalData in
    if bool_decide (fd_hashes prepared = []) then ret false
    else
      let! fresh := draw GenerateSecretBytes in
      let credentialsEncryptedData := EncryptData (fd_credentials prepared) fresh in
      let! request_ := gets FormController._request in
      let credentialsEncryptedSecret :=
        EncryptCredentialsSecret (ed_secret credentialsEncryptedData)
          (FormRequest.publicKey request_) in
      let! id := request
        (MTPaccount_AcceptAuthorization
           (FormRequest.botId request_)
           (FormRequest.scope request_)
           (FormRequest.publicKey request_)
           (fd_hashes prepared)
           (MTP_secureCredentialsEncrypted
              (ed_bytes credentialsEncryptedData)
              (ed_hash credentialsEncryptedData)
              credentialsEncryptedSecret)) in
      modify (FormController.set_submitRequestId id) >>
      ret true.

(** The continuation [done] of the request of [submit]. *)
Definition submit_done : Ctl unit :=
  let! request_ := gets FormController._request in
  emit (OpenUrl (url_append_query (FormRequest.callbackUrl request_) "tg_passport=success")).

(** The continuation [fail] of the request of [submit]. *)
Definition submit_fail (error : RPCError) : Ctl unit :=
  emit (ShowBox ("Failed sending data :(" +:+ String "010"%char "" +:+ error_type error)).

End Controller.

(** ** The request of the form *)

(** [QString::replace("\r\n", "\n")]: the text is read from left to right
    and each carriage return that a line feed follows is dropped. *)
Fixpoint replace_crlf (s : string) : string :=
  match s with
  | String a rest =>
      match rest with
      | String b _ =>
          if Ascii.eqb a "013" && Ascii.eqb b "010" then replace_crlf rest
          else String a (replace_crlf rest)
      | EmptyString => String a EmptyString
      end
  | EmptyString => EmptyString
  end.

(** [FormRequest PreprocessRequest(const FormRequest &request)]. *)
Definition PreprocessRequest (request : FormRequest.t) : FormRequest.t :=
  {| FormRequest.botId := FormRequest.botId request;
     FormRequest.scope := FormRequest.scope request;
     FormRequest.callbackUrl := FormRequest.callbackUrl request;
     FormRequest.publicKey := replace_crlf (FormRequest.publicKey request);
     FormRequest.payload := FormRequest.payload request |}.

(** ** Writing one member of a record *)

Definition File_set_downloadOffset (x : Z) (f : File.t) : File.t :=
  {| File.id := File.id f; File.accessHash := File.accessHash f;
     File.size := File.size f; File.date := File.date f; File.dcId := File.dcId f;
     File.hash := File.hash f; File.secret := File.secret f;
     File.encryptedSecret := File.encryptedSecret f;
     File.downloadOffset := x; File.image := File.image f |}.

Definition File_set_image (x : QImage) (f : File.t) : File.t :=
  {| File.id := File.id f; File.accessHash := File.accessHash f;
     File.size := File.size f; File.date := File.date f; File.dcId := File.dcId f;
     File.hash := File.hash f; File.secret := File.secret f;
     File.encryptedSecret := File.encryptedSecret f;
     File.downloadOffset := File.downloadOffset f; File.image := x |}.

Definition File_set_hash (x : bytes) (f : File.t) : File.t :=
  {| File.id := File.id f; File.accessHash := File.accessHash f;
     File.size := File.size f; File.date := File.date f; File.dcId := File.dcId f;
     File.hash := x; File.secret := File.secret f;
     File.encryptedSecret := File.encryptedSecret f;
     File.downloadOffset := File.downloadOffset f; File.image := File.image f |}.

Definition File_set_encryptedSecret (x : bytes) (f : File.t) : File.t :=
  {| File.id := File.id f; File.accessHash := File.accessHash f;
     File.size := File.size f; File.date := File.date f; File.dcId := File.dcId f;
     File.hash := File.hash f; File.secret := File.secret f;
     File.encryptedSecret := x;
     File.downloadOffset := File.downloadOffset f; File.image := File.image f |}.

Definition UploadScanData_set_fullId (x : Z) (d : UploadScanData.t) : UploadScanData.t :=
  {| UploadScanData.fullId := x; UploadScanData.fileId := UploadScanData.fileId d;
     UploadScanData.partsCount := UploadScanData.partsCount d;
     UploadScanData.md5checksum := UploadScanData.md5checksum d;
     UploadScanData.hash := UploadScanData.hash d;
     UploadScanData.bytes_ := UploadScanData.bytes_ d;
     UploadScanData.offset := UploadScanData.offset d |}.

Definition UploadScanData_set_partsCount (x : Z) (d : UploadScanData.t) : UploadScanData.t :=
  {| UploadScanData.fullId := UploadScanData.fullId d;
     UploadScanData.fileId := UploadScanData.fileId d;
     UploadScanData.partsCount := x;
     UploadScanData.md5checksum := UploadScanData.md5checksum d;
     UploadScanData.hash := UploadScanData.hash d;
     UploadScanData.bytes_ := UploadScanData.bytes_ d;
     UploadScanData.offset := UploadScanData.offset d |}.

Definition UploadScanData_set_hash (x : bytes) (d : UploadScanData.t) : UploadScanData.t :=
  {| UploadScanData.fullId := UploadScanData.fullId d;
     UploadScanData.fileId := UploadScanData.fileId d;
     UploadScanData.partsCount := UploadScanData.partsCount d;
     UploadScanData.md5checksum := UploadScanData.md5checksum d;
     UploadScanData.hash := x;
     UploadScanData.bytes_ := UploadScanData.bytes_ d;
     UploadScanData.offset := UploadScanData.offset d |}.

Definition UploadScanData_set_offset (x : Z) (d : UploadScanData.t) : UploadScanData.t :=
  {| UploadScanData.fullId := UploadScanData.fullId d;
     UploadScanData.fileId := UploadScanData.fileId d;
     UploadScanData.partsCount := UploadScanData.partsCount d;
     UploadScanData.md5checksum := UploadScanData.md5checksum d;
     UploadScanData.hash := UploadScanData.hash d;
     UploadScanData.bytes_ := UploadScanData.bytes_ d;
     UploadScanData.offset := x |}.

Definition EditFile_set_uploadData (x : option UploadScanData.t) (e : EditFile.t) : EditFile.t :=
  {| EditFile.value := EditFile.value e; EditFile.fields := EditFile.fields e;
     EditFile.uploadData := x; EditFile.deleted := EditFile.deleted e |}.

Definition Form_set_request (x : list ValueType) (f : Form.t) : Form.t :=
  {| Form.values := Form.values f; Form.request := x;
     Form.identitySelfieRequired := Form.identitySelfieRequired f;
     Form.privacyPolicyUrl := Form.privacyPolicyUrl f |}.

Definition Form_set_identitySelfieRequired (x : bool) (f : Form.t) : Form.t :=
  {| Form.values := Form.values f; Form.request := Form.request f;
     Form.identitySelfieRequired := x;
     Form.privacyPolicyUrl := Form.privacyPolicyUrl f |}.

Definition Form_set_privacyPolicyUrl (x : QString) (f : Form.t) : Form.t :=
  {| Form.values := Form.values f; Form.request := Form.request f;
     Form.identitySelfieRequired := Form.identitySelfieRequired f;
     Form.privacyPolicyUrl := x |}.

Definition FormController_set_formRequestId (x : Z) (c : FormController.t)
    : FormController.t :=
  {| FormController._request := FormController._request c;
     FormController._password := FormController._password c;
     FormController._form := FormController._form c;
     FormController._formRequestId := x;
     FormController._passwordRequestId := FormController._passwordRequestId c;
     FormController._passwordCheckRequestId := FormController._passwordCheckRequestId c;
     FormController._secret := FormController._secret c;
     FormController._secretId := FormController._secretId c;
     FormController._secretCallbacks := FormController._secretCallbacks c;
     FormController._saveSecretRequestId := FormController._saveSecretRequestId c;
     FormController._submitRequestId := FormController._submitRequestId c;
     FormController._cancelled := FormController._cancelled c;
     FormController.sender_next := FormController.sender_next c;
     FormController.drawn := FormController.drawn c |}.

Definition FormController_set_passwordRequestId (x : Z) (c : FormController.t)
    : FormController.t :=
  {| FormController._request := FormController._request c;
     FormController._password := FormController._password c;
     FormController._form := FormController._form c;
     FormController._formRequestId := FormController._formRequestId c;
     FormController._passwordRequestId := x;
     FormController._passwordCheckRequestId := FormController._passwordCheckRequestId c;
     FormController._secret := FormController._secret c;
     FormController._secretId := FormController._secretId c;
     FormController._secretCallbacks := FormController._secretCallbacks c;
     FormController._saveSecretRequestId := FormController._saveSecretRequestId c;
     FormController._submitRequestId := FormController._submitRequestId c;
     FormController._cancelled := FormController._cancelled c;
     FormController.sender_next := FormController.sender_next c;
     FormController.drawn := FormController.drawn c |}.

(** ** Staged and committed files by reference *)

(** A [File*]: a committed scan of a value by its index, or its selfie. *)
Inductive FileRef :=
| ScanOf (value : ValueType) (index : nat)
| SelfieOf (value : ValueType).

(** [struct FileKey]. *)
Record FileKey := mkFileKey {
  key_id : Z;
  key_dcId : Z;
}.

#[global] Instance FileKey_eq_dec : EqDecision FileKey.
Proof. solve_decision. Defined.

#[global] Instance FileKey_countable : Countable FileKey.
Proof.
  apply (inj_countable' (fun key => (key_id key, key_dcId key))
                        (fun p => mkFileKey p.1 p.2)).
  intros []. reflexivity.
Defined.

(** The first element of a list on which [f] finds something. *)
Fixpoint find_first {A B : Type} (f : A → option B) (l : list A) : option B :=
  match l with
  | [] => None
  | x :: rest =>
      match f x with
      | Some y => Some y
      | None => find_first f rest
      end
  end.

(** The body of the loops of [findEditFile] on one value: its staged scans
    in order, then its staged selfie. *)
Definition findEditFileIn (found : EditFile.t → bool) (type : ValueType) (value : Value.t)
    : option EditFileRef :=
  match list_find (fun scan => found scan = true) (Value.scansInEdit value) with
  | Some (index, _) => Some (ScanInEdit type index)
  | None =>
      match Value.selfieInEdit value with
      | Some selfie => if found selfie then Some (SelfieInEdit type) else None
      | None => None
      end
  end.

(** [for (auto &[type, value] : _form.values)] of [findEditFile]. *)
Definition findEditFileWhere (found : EditFile.t → bool) (c : FormController.t)
    : option EditFileRef :=
  find_first (fun type =>
                value ← FormController.values c !! type;
                findEditFileIn found type value)
    all_ValueTypes.

(** [EditFile *FormController::findEditFile(const FullMsgId &fullId)]. *)
Definition findEditFileByFullId (fullId : Z) (c : FormController.t) : option EditFileRef :=
  findEditFileWhere
    (fun file =>
       match EditFile.uploadData file with
       | Some uploadData => UploadScanData.fullId uploadData =? fullId
       | None => false
       end)
    c.

(** [EditFile *FormController::findEditFile(const FileKey &key)]. *)
Definition findEditFileByKey (key : FileKey) (c : FormController.t) : option EditFileRef :=
  findEditFileWhere
    (fun file =>
       (File.dcId (EditFile.fields file) =? key_dcId key)
       && (File.id (EditFile.fields file) =? key_id key))
    c.

(** The body of the loop of [findFile] on one value. *)
Definition findFileIn (found : File.t → bool) (type : ValueType) (value : Value.t)
    : option FileRef :=
  match list_find (fun scan => found scan = true) (Value.scans value) with
  | Some (index, _) => Some (ScanOf type index)
  | None =>
      match Value.selfie value with
      | Some selfie => if found selfie then Some (SelfieOf type) else None
      | None => None
      end
  end.

(** [std::pair<Value*, File*> FormController::findFile(const FileKey &key)]:
    the value is the one of the reference. *)
Definition findFile (key : FileKey) (c : FormController.t) : option FileRef :=
  find_first (fun type =>
                value ← FormController.values c !! type;
                findFileIn
                  (fun file => (File.dcId file =? key_dcId key) && (File.id file =? key_id key))
                  type value)
    all_ValueTypes.

(** Reading and writing through an [EditFile*]. *)
Definition editFileAt (c : FormController.t) (ref : EditFileRef) : option EditFile.t :=
  match ref with
  | ScanInEdit value index =>
      v ← FormController.values c !! value; Value.scansInEdit v !! index
  | SelfieInEdit value =>
      v ← FormController.values c !! value; Value.selfieInEdit v
  end.

Definition storeEditFile (ref : EditFileRef) (file : EditFile.t) : Ctl unit :=
  match ref with
  | ScanInEdit value index =>
      modifyValue value (fun v =>
        Value.set_scansInEdit (<[index := file]> (Value.scansInEdit v)) v)
  | SelfieInEdit value =>
      modifyValue value (Value.set_selfieInEdit (Some file))
  end.

(** Reading and writing through a [File*]. *)
Definition fileAt (c : FormController.t) (ref : FileRef) : option File.t :=
  match ref with
  | ScanOf value index =>
      v ← FormController.values c !! value; Value.scans v !! index
  | SelfieOf value =>
      v ← FormController.values c !! value; Value.selfie v
  end.

Definition storeFile (ref : FileRef) (file : File.t) : Ctl unit :=
  match ref with
  | ScanOf value index =>
      modifyValue value (fun v => Value.set_scans (<[index := file]> (Value.scans v)) v)
  | SelfieOf value =>
      modifyValue value (Value.set_selfie (Some file))
  end.

(** [Storage::UploadSecureDone] and [Storage::UploadSecureProgress]. *)
Record UploadSecureDone := mkUploadSecureDone {
  usd_fullId : Z;
  usd_fileId : Z;
  usd_partsCount : Z;
}.

Record UploadSecureProgress := mkUploadSecureProgress {
  usp_fullId : Z;
  usp_offset : Z;
  usp_size : Z;
}.

Section Files.
Context {encryption : Encryption} {platform : Platform} {view : FormView}.

(** *** The staged selfie *)





(** *** The uploader reports *)

(** [void FormController::scanUploadDone(const Storage::UploadSecureDone &data)];
    the hash is moved out of the upload data. *)
Definition scanUploadDone (data : UploadSecureDone) : Ctl unit :=
  let! c := gets (fun c => c) in
  match findEditFileByFullId (usd_fullId data) c with
  | None => ret tt
  | Some ref =>
      match editFileAt c ref with
      | None => violation "file"
      | Some file =>
          match EditFile.uploadData file with
          | None => violation "file->uploadData != nullptr"
          | Some uploadData =>
              Expects (UploadScanData.fileId uploadData =? usd_fileId data)
                "file->uploadData->fileId == data.fileId" >>
              let hash := UploadScanData.hash uploadData in
              let fields := File_set_hash hash (EditFile.fields file) in
              let fields :=
                File_set_encryptedSecret
                  (EncryptValueSecret (File.secret fields) (FormController._secret c)
                     (File.hash fields))
                  fields in
              let uploadData :=
                UploadScanData_set_fullId 0
                  (UploadScanData_set_hash ""
                     (UploadScanData_set_partsCount (usd_partsCount data) uploadData)) in
              storeEditFile ref
                (EditFile_set_uploadData (Some uploadData) (EditFile.set_fields fields file)) >>
              emit (ScanUpdatedFired ref)
          end
      end
  end.

(** What [scanUploadProgress] and [scanUploadFail] have in common: the
    offset of the upload of the staged file with the id is set. *)
Definition scanUploadOffset (fullId : Z) (offset : Z) : Ctl unit :=
  let! c := gets (fun c => c) in
  match findEditFileByFullId fullId c with
  | None => ret tt
  | Some ref =>
      match editFileAt c ref with
      | None => violation "file"
      | Some file =>
          match EditFile.uploadData file with
          | None => violation "file->uploadData != nullptr"
          | Some uploadData =>
              storeEditFile ref
                (EditFile_set_uploadData
                   (Some (UploadScanData_set_offset offset uploadData)) file) >>
              emit (ScanUpdatedFired ref)
          end
      end
  end.

(** [void FormController::scanUploadProgress(const Storage::UploadSecureProgress &data)]. *)
Definition scanUploadProgress (data : UploadSecureProgress) : Ctl unit :=
  scanUploadOffset (usp_fullId data) (usp_offset data).

(** [void FormController::scanUploadFail(const FullMsgId &fullId)]. *)
Definition scanUploadFail (fullId : Z) : Ctl unit :=
  scanUploadOffset fullId (-1).

(** *** The file loaders report *)

(** What the three reports of a loader end with: the staged copy of the
    file, if there is one, takes the image and the offset of the file. *)
Definition mirrorInEdit (key : FileKey) (file : File.t) : Ctl unit :=
  let! c := gets (fun c => c) in
  match findEditFileByKey key c with
  | None => ret tt
  | Some ref =>
      match editFileAt c ref with
      | None => violation "fileInEdit"
      | Some fileInEdit =>
          storeEditFile ref
            (EditFile.set_fields
               (File_set_downloadOffset (File.downloadOffset file)
                  (File_set_image (File.image file) (EditFile.fields fileInEdit)))
               fileInEdit) >>
          emit (ScanUpdatedFired ref)
      end
  end.

(** The same without the image, as [fileLoadProgress] and [fileLoadFail]
    have it. *)
Definition mirrorOffsetInEdit (key : FileKey) (file : File.t) : Ctl unit :=
  let! c := gets (fun c => c) in
  match findEditFileByKey key c with
  | None => ret tt
  | Some ref =>
      match editFileAt c ref with
      | None => violation "fileInEdit"
      | Some fileInEdit =>
          storeEditFile ref
            (EditFile.set_fields
               (File_set_downloadOffset (File.downloadOffset file)
                  (EditFile.fields fileInEdit))
               fileInEdit) >>
          emit (ScanUpdatedFired ref)
      end
  end.

(** [void FormController::fileLoadProgress(FileKey key, int offset)]. *)
Definition fileLoadProgress (key : FileKey) (offset : Z) : Ctl unit :=
  let! c := gets (fun c => c) in
  match findFile key c with
  | None => ret tt
  | Some ref =>
      match fileAt c ref with
      | None => violation "file"
      | Some file =>
          let file := File_set_downloadOffset offset file in
          storeFile ref file >>
          mirrorOffsetInEdit key file
      end
  end.

(** [void FormController::fileLoadFail(FileKey key)]. *)
Definition fileLoadFail (key : FileKey) : Ctl unit :=
  fileLoadProgress key (-1).

(** [void FormController::fileLoadDone(FileKey key, const QByteArray &bytes)]. *)
Definition fileLoadDone (key : FileKey) (bytes_ : QByteArray) : Ctl unit :=
  let! c := gets (fun c => c) in
  match findFile key c with
  | None => ret tt
  | Some ref =>
      match fileAt c ref with
      | None => violation "file"
      | Some file =>
          let decrypted := DecryptData bytes_ (File.hash file) (File.secret file) in
          if isEmpty decrypted then fileLoadFail key
          else
            let file :=
              File_set_image (readImage decrypted)
                (File_set_downloadOffset (File.size file) file) in
            storeFile ref file >>
            mirrorInEdit key file
      end
  end.

End Files.

(** ** The members and collaborators of the functions that follow

    The functions above use some of the members of the controller and some
    of its collaborators; the ones below use others as well.  The state
    they run on holds the members above and those others, and what they
    do to a collaborator is an effect above or one of the calls below. *)

(** [MTPaccount_GetAuthorizationForm] and [MTPaccount_GetPassword]. *)
Inductive MTPFormRequest :=
| MTPaccount_GetAuthorizationForm (bot_id : Z) (scope public_key : QString)
| MTPaccount_GetPassword.

(** [MTPaccount_authorizationForm]; a user is the id of the user. *)
Record MTPAuthorizationForm := MTP_account_authorizationForm {
  af_selfie_required : bool;
  af_required_types : list MTPSecureValueType;
  af_values : list MTPSecureValue;
  af_users : list Z;
  af_privacy_policy_url : option QString;
}.

(** [MTPaccount_Password]. *)
Inductive MTPPassword :=
| MTP_account_noPassword
    (new_salt new_secure_salt secure_random : bytes) (email_unconfirmed_pattern : QString)
| MTP_account_password
    (current_salt new_salt new_secure_salt secure_random : bytes) (hint : QString)
    (has_recovery : bool) (email_unconfirmed_pattern : QString).

Inductive Call :=
| Base (effect : Effect)
| SendForm (id : Z) (request : MTPFormRequest)
| ShowAskPassword
| ShowPasswordUnconfirmed
| ShowNoPassword
| FeedUsers (users : list Z)
| AddRandomSeed (seed : bytes)
| LogTwoValues (type : ValueType)
| StartLoader (key : FileKey) (accessHash size : Z)
| Upload (fullId fileId : Z) (content : bytes) (filemd5 : QByteArray).

Module Whole.
(** [class FormController]: the members above as [base]; the bot, as the
    id of the user; the keys of the map of the file loaders; and whether
    the controller has subscribed to the uploader. *)
Record t := make {
  base : FormController.t;
  _bot : option Z;
  _fileLoaders : gset FileKey;
  _uploaderSubscriptions : bool;
}.

Definition set_base (x : FormController.t) (s : t) : t :=
  {| base := x; _bot := _bot s; _fileLoaders := _fileLoaders s;
     _uploaderSubscriptions := _uploaderSubscriptions s |}.

Definition set_bot (x : option Z) (s : t) : t :=
  {| base := base s; _bot := x; _fileLoaders := _fileLoaders s;
     _uploaderSubscriptions := _uploaderSubscriptions s |}.

Definition set_fileLoaders (x : gset FileKey) (s : t) : t :=
  {| base := base s; _bot := _bot s; _fileLoaders := x;
     _uploaderSubscriptions := _uploaderSubscriptions s |}.

Definition set_uploaderSubscriptions (x : bool) (s : t) : t :=
  {| base := base s; _bot := _bot s; _fileLoaders := _fileLoaders s;
     _uploaderSubscriptions := x |}.
End Whole.

(** The language keys of the functions below. *)
Class FormLanguage := {
  lng_passport_form_error : QString;
}.

(** A member function on the whole controller. *)
Definition Act (A : Type) : Type :=
  Whole.t → Outcome (A * Whole.t * list Call).

Definition act_ret {A : Type} (a : A) : Act A :=
  fun s => Returns (a, s, []).

Definition act_bind {A B : Type} (m : Act A) (k : A → Act B) : Act B :=
  fun s =>
    match m s with
    | Returns (a, s1, out1) =>
        match k a s1 with
        | Returns (b, s2, out2) => Returns (b, s2, out1 ++ out2)
        | Violation what => Violation what
        end
    | Violation what => Violation what
    end.

Declare Scope act_scope.
Delimit Scope act_scope with act.
Bind Scope act_scope with Act.

Notation "'let!' x ':=' m 'in' k" := (act_bind m (fun x => k))
  (at level 10, x pattern, m at level 100, k at level 200) : act_scope.
Notation "m '>>' k" := (act_bind m (fun _ => k))
  (at level 100, k at level 200, right associativity) : act_scope.

(** A member function above, run on the members it uses. *)
Definition on_base {A : Type} (m : Ctl A) : Act A :=
  fun s =>
    match m (Whole.base s) with
    | Returns (a, c, out) => Returns (a, Whole.set_base c s, Base <$> out)
    | Violation what => Violation what
    end.

Definition act_gets {A : Type} (f : Whole.t → A) : Act A :=
  fun s => Returns (f s, s, []).

Definition act_modify (f : Whole.t → Whole.t) : Act unit :=
  fun s => Returns (tt, f s, []).

Definition act_emit (call : Call) : Act unit :=
  fun s => Returns (tt, s, [call]).

Definition act_when (condition : bool) (m : Act unit) : Act unit :=
  if condition then m else act_ret tt.

(** [for (...) body], and the same where the body leaves each element
    changed. *)
Fixpoint act_for_each {A : Type} (l : list A) (body : A → Act unit) : Act unit :=
  match l with
  | [] => act_ret tt
  | x :: rest => act_bind (body x) (fun _ => act_for_each rest body)
  end.

Fixpoint act_map {A B : Type} (body : A → Act B) (l : list A) : Act (list B) :=
  match l with
  | [] => act_ret []
  | x :: rest =>
      act_bind (body x) (fun y =>
      act_bind (act_map body rest) (fun ys => act_ret (y :: ys)))
  end.

(** Modelled from the spec: [request(...).done(...).fail(...).send()], as
    [request] above, for the two requests that fetch the form. *)
Definition requestStart (r : MTPFormRequest) : Act Z :=
  fun s =>
    let c := Whole.base s in
    let id := Z.pos (FormController.sender_next c) in
    Returns (id,
             Whole.set_base
               (FormController.set_sender_next (Pos.succ (FormController.sender_next c)) c) s,
             [SendForm id r]).

Section Whole.
Context {encryption : Encryption} {platform : Platform} {view : FormView}
        {language : FormLanguage}.

Local Open Scope act_scope.

(** *** Fetching and showing the form *)

(** [void FormController::showForm()]. *)
Definition showForm : Act unit :=
  let! bot := act_gets Whole._bot in
  match bot with
  | None => act_emit (Base (ShowBox "Could not get authorization bot."))
  | Some _ =>
      let! password_ := act_gets (fun s => FormController._password (Whole.base s)) in
      if negb (isEmpty (PasswordSettings.salt password_)) then
        act_emit ShowAskPassword
      else if negb (isEmpty (PasswordSettings.unconfirmedPattern password_)) then
        act_emit ShowPasswordUnconfirmed
      else act_emit ShowNoPassword
  end.

(** [void FormController::formFail(const RPCError &error)]. *)
Definition formFail (error : RPCError) : Act unit :=
  act_emit (Base (ShowBox lng_passport_form_error)).

(** The first loop of [parseForm]: a value of the response is stored under
    its type unless a value of that type is there already.  [parseValue]
    is called with its default argument, no staged files. *)
Definition parseFormValue (value : MTPSecureValue) : Act unit :=
  match parseValue value [] with
  | Violation what => fun _ => Violation what
  | Returns (parsed, out) =>
      let type := Value.type parsed in
      let! values := act_gets (fun s => FormController.values (Whole.base s)) in
      match values !! type with
      | Some _ => act_emit (LogTwoValues type)
      | None => on_base (emit_all out >> storeValue type parsed)
      end
  end.

(** The second loop of [parseForm]: a required type is appended to the
    request of the form, and the unset value of the type is stored unless
    a value of that type is there already. *)
Definition parseFormRequired (required : MTPSecureValueType) : Act unit :=
  match Convert.fromMTP required with
  | Violation what => fun _ => Violation what
  | Returns type =>
      on_base
        (modify (fun c =>
           FormController.set_form
             (Form_set_request (Form.request (FormController._form c) ++ [type])
                (FormController._form c))
             c) >>
         let! values := gets FormController.values in
         match values !! type with
         | Some _ => ret tt
         | None => storeValue type (Value.create type)
         end)%ctl
  end.

(** [void FormController::parseForm(const MTPaccount_AuthorizationForm &result)];
    [bot] is what [App::userLoaded(_request.botId)] returns once the users
    of the response are fed to the application. *)
Definition parseForm (data : MTPAuthorizationForm) (bot : option Z) : Act unit :=
  act_emit (FeedUsers (af_users data)) >>
  act_for_each (af_values data) parseFormValue >>
  on_base
    (modify (fun c =>
       FormController.set_form
         (Form_set_identitySelfieRequired (af_selfie_required data)
            (FormController._form c))
         c)) >>
  match af_privacy_policy_url data with
  | Some url =>
      on_base
        (modify (fun c =>
           FormController.set_form
             (Form_set_privacyPolicyUrl url (FormController._form c)) c))
  | None => act_ret tt
  end >>
  act_for_each (af_required_types data) parseFormRequired >>
  act_modify (Whole.set_bot bot).

(** [void FormController::formDone(const MTPaccount_AuthorizationForm &result)]. *)
Definition formDone (result : MTPAuthorizationForm) (bot : option Z) : Act unit :=
  parseForm result bot >>
  let! passwordRequestId :=
    act_gets (fun s => FormController._passwordRequestId (Whole.base s)) in
  act_when (passwordRequestId =? 0) showForm.

(** [void FormController::requestForm()]. *)
Definition requestForm : Act unit :=
  let! request_ := act_gets (fun s => FormController._request (Whole.base s)) in
  if isEmpty (FormRequest.payload request_) then
    on_base (modify (FormController_set_formRequestId (-1))) >>
    act_emit (Base (ShowBox lng_passport_form_error))
  else
    let! id := requestStart
      (MTPaccount_GetAuthorizationForm
         (FormRequest.botId request_)
         (FormRequest.scope request_)
         (FormRequest.publicKey request_)) in
    on_base (modify (FormController_set_formRequestId id)).

(** The continuation [done] of the request of [requestForm]. *)
Definition requestForm_done (result : MTPAuthorizationForm) (bot : option Z) : Act unit :=
  on_base (modify (FormController_set_formRequestId 0)) >>
  formDone result bot.

(** The continuation [fail] of the request of [requestForm]. *)
Definition requestForm_fail (error : RPCError) : Act unit :=
  formFail error.

(** The two [void FormController::parsePassword(...)]. *)
Definition parsePassword (result : MTPPassword) : Act unit :=
  let! password_ := act_gets (fun s => FormController._password (Whole.base s)) in
  match result with
  | MTP_account_noPassword new_salt new_secure_salt secure_random pattern =>
      on_base
        (modify (FormController.set_password
           {| PasswordSettings.salt := PasswordSettings.salt password_;
              PasswordSettings.newSalt := new_salt;
              PasswordSettings.newSecureSalt := new_secure_salt;
              PasswordSettings.hint := PasswordSettings.hint password_;
              PasswordSettings.unconfirmedPattern := pattern;
              PasswordSettings.confirmedEmail := PasswordSettings.confirmedEmail password_;
              PasswordSettings.hasRecovery := PasswordSettings.hasRecovery password_ |})) >>
      act_emit (AddRandomSeed secure_random)
  | MTP_account_password current_salt new_salt new_secure_salt secure_random hint
      has_recovery pattern =>
      on_base
        (modify (FormController.set_password
           {| PasswordSettings.salt := current_salt;
              PasswordSettings.newSalt := new_salt;
              PasswordSettings.newSecureSalt := new_secure_salt;
              PasswordSettings.hint := hint;
              PasswordSettings.unconfirmedPattern := pattern;
              PasswordSettings.confirmedEmail := PasswordSettings.confirmedEmail password_;
              PasswordSettings.hasRecovery := has_recovery |})) >>
      act_emit (AddRandomSeed secure_random)
  end.

(** [void FormController::passwordDone(const MTPaccount_Password &result)]. *)
Definition passwordDone (result : MTPPassword) : Act unit :=
  parsePassword result >>
  let! formRequestId :=
    act_gets (fun s => FormController._formRequestId (Whole.base s)) in
  act_when (formRequestId =? 0) showForm.

(** [void FormController::requestPassword()]. *)
Definition requestPassword : Act unit :=
  let! id := requestStart MTPaccount_GetPassword in
  on_base (modify (FormController_set_passwordRequestId id)).

(** The continuation [done] of the request of [requestPassword]. *)
Definition requestPassword_done (result : MTPPassword) : Act unit :=
  on_base (modify (FormController_set_passwordRequestId 0)) >>
  passwordDone result.

(** The continuation [fail] of the request of [requestPassword]. *)
Definition requestPassword_fail (error : RPCError) : Act unit :=
  formFail error.

(** [void FormController::show()]. *)
Definition show : Act unit :=
  requestForm >>
  requestPassword.

(** *** Loading the files of a value *)

(** [void FormController::loadFile(File &file)]: the file as the call
    leaves it. *)
Definition loadFile (file : File.t) : Act File.t :=
  if negb (isEmpty (File.image file)) then
    act_ret (File_set_downloadOffset (File.size file) file)
  else
    let key := mkFileKey (File.id file) (File.dcId file) in
    let! loaders := act_gets Whole._fileLoaders in
    if bool_decide (key ∈ loaders) then act_ret file
    else
      act_modify (Whole.set_fileLoaders ({[key]} ∪ loaders)) >>
      act_emit (StartLoader key (File.accessHash file) (File.size file)) >>
      act_ret (File_set_downloadOffset 0 file).

(** The value as [startValueEdit] leaves it when it is not saving: the
    staged copies are those of the committed files and fields. *)
Definition openedForEdit (value : ValueType) (scans : list File.t) (selfie : option File.t)
    (v : Value.t) : Value.t :=
  Value.set_data
    (ValueData.set_parsedInEdit (ValueData.parsed (Value.data v)) (Value.data v))
    (Value.set_selfieInEdit ((fun file => EditFile.create value file None) <$> selfie)
       (Value.set_scansInEdit ((fun file => EditFile.create value file None) <$> scans)
          (Value.set_selfie selfie (Value.set_scans scans v)))).

(** [void FormController::startValueEdit(not_null<const Value*> value)];
    the staged files it replaces go out of scope. *)
Definition startValueEdit (value : ValueType) : Act unit :=
  let! v := on_base (findValue value) in
  let v := Value.set_editScreens (Value.editScreens v + 1) v in
  on_base (storeValue value v) >>
  if savingValue v then act_ret tt
  else
    let! scans := act_map loadFile (Value.scans v) in
    let! selfie :=
      match Value.selfie v with
      | Some file => let! file := loadFile file in act_ret (Some file)
      | None => act_ret None
      end in
    on_base (storeValue value (openedForEdit value scans selfie v)) >>
    on_base (emit_all (destroyEditFiles (filesInEdit v))).

(** *** Handing an encrypted file to the uploader *)

(** [void FormController::subscribeToUploader()]. *)
Definition subscribeToUploader : Act unit :=
  let! subscribed := act_gets Whole._uploaderSubscriptions in
  if subscribed then act_ret tt
  else act_modify (Whole.set_uploaderSubscriptions true).

(** [void FormController::uploadEncryptedFile(EditFile &file, UploadScanData &&data)];
    the upload data is assigned through the defaulted move assignment of
    [UploadScanDataPointer], which frees the data it replaces and does
    not run the destructor that cancels an upload. *)
Definition uploadEncryptedFile (ref : EditFileRef) (data : UploadScanData.t) : Act unit :=
  subscribeToUploader >>
  let! c := act_gets Whole.base in
  match editFileAt c ref with
  | None => fun _ => Violation "file"
  | Some file =>
      let! fullId := on_base (draw clientMsgId) in
      let data := UploadScanData_set_fullId fullId data in
      on_base (storeEditFile ref (EditFile_set_uploadData (Some data) file)) >>
      act_emit (Upload fullId (UploadScanData.fileId data) (UploadScanData.bytes_ data)
                  (UploadScanData.md5checksum data))
  end.

End Whole.

(** ** The vocabulary of the properties *)

Section Vocabulary.
Context {encryption : Encryption} {platform : Platform} {view : FormView}.

(** *** Scans and walks *)

(** The staged scans of a value that are not deleted. *)
Definition liveScans (v : Value.t) : Z :=
  count_if (Value.scansInEdit v) (fun scan => negb (EditFile.deleted scan)).

(** What a walk over the types [types] does to the map when its body
    replaces a value [v] by [f v]. *)
Fixpoint updated_on (f : Value.t → Value.t) (types : list ValueType)
    (values : gmap ValueType Value.t) : gmap ValueType Value.t :=
  match types with
  | [] => values
  | type :: rest =>
      updated_on f rest
        match values !! type with
        | Some v => <[type := f v]> values
        | None => values
        end
  end.

(** What the failure does to a value: one that holds stored encrypted data
    becomes the unset value of its type. *)
Definition forgotten (v : Value.t) : Value.t :=
  if isEmpty (ValueData.original (Value.data v)) then v
  else Value.create (Value.type v).

(** What the failure does to the uploader: the uploads in flight of the
    staged files of a value that holds stored encrypted data are
    cancelled, as its staged files are destroyed with it. *)
Definition forgottenUploadsOf (v : Value.t) : list Effect :=
  if isEmpty (ValueData.original (Value.data v)) then []
  else destroyEditFiles (filesInEdit v).

(** What walking the values of the form emits, when [emitted] is what is
    emitted for one value: the map is walked in the order of its keys. *)
Definition walked (emitted : Value.t → list Effect) (types : list ValueType)
    (values : gmap ValueType Value.t) : list Effect :=
  flat_map (fun type =>
              match values !! type with
              | Some v => emitted v
              | None => []
              end) types.

Definition forgottenUploads (values : gmap ValueType Value.t) : list Effect :=
  walked forgottenUploadsOf all_ValueTypes values.

(** The request [generateSecret] sends in the state [c]: a fresh secret,
    wrapped under the password and a fresh salt, with its identifier. *)
Definition saveSecretRequest (password : bytes) (c : FormController.t) : MTPRequest :=
  let secret := GenerateSecretBytes (FormController.drawn c) in
  let newSecureSaltFull :=
    PasswordSettings.newSecureSalt (FormController._password c)
    +:+ set_random (S (FormController.drawn c)) 8 in
  MTPaccount_UpdatePasswordSettings
    (passwordHashForAuth c password)
    newSecureSaltFull
    (EncryptSecureSecret newSecureSaltFull secret password)
    (CountSecureSecretHash secret).

(** *** Decryption *)

(** A file with its secret unwrapped under the master secret. *)
Definition unwrapped (c : FormController.t) (file : File.t) : File.t :=
  File.set_secret
    (DecryptValueSecret (File.encryptedSecret file) (FormController._secret c)
       (File.hash file))
    file.

(** The secret of the data of a value, unwrapped under the master secret. *)
Definition dataSecret (c : FormController.t) (v : Value.t) : bytes :=
  DecryptValueSecret (ValueData.encryptedSecret (Value.data v))
    (FormController._secret c) (ValueData.hash (Value.data v)).

Definition fileUnwraps (c : FormController.t) (file : File.t) : bool :=
  negb (isEmpty (File.secret (unwrapped c file))).

(** Every wrapped secret of a value with stored data unwraps: the one of
    its data, the ones of its scans and the one of its selfie. *)
Definition secretsUnwrap (c : FormController.t) (v : Value.t) : bool :=
  negb (isEmpty (dataSecret c v))
  && forallb (fileUnwraps c) (Value.scans v)
  && match Value.selfie v with
     | Some selfie => fileUnwraps c selfie
     | None => true
     end.

(** The plaintext of the stored data of a value. *)
Definition plaintext (c : FormController.t) (v : Value.t) : bytes :=
  DecryptData (ValueData.original (Value.data v)) (ValueData.hash (Value.data v))
    (dataSecret c v).

(** A value with stored data, decrypted: the secrets are the unwrapped
    ones and the field map is the deserialized plaintext, whole. *)
Definition decrypted (c : FormController.t) (v : Value.t) : Value.t :=
  Value.set_data
    (ValueData.set_parsed
       (ValueMap.make (DeserializeData (plaintext c v)))
       (ValueData.set_secret (dataSecret c v) (Value.data v)))
    (Value.set_selfie (unwrapped c <$> Value.selfie v)
       (Value.set_scans (unwrapped c <$> Value.scans v) v)).

(** *** Edits and saves *)

(** The new fields differ in nothing from the committed ones: a new field
    is the committed field of its key, or is empty where none is
    committed, and every committed field has a new one. *)
Definition sameFields (data existing : gmap string string) : Prop :=
  (∀ key value, data !! key = Some value →
     existing !! key = Some value ∨ (existing !! key = None ∧ value = ""))
  ∧ (∀ key, is_Some (existing !! key) → is_Some (data !! key)).

(** The edit of a value changed nothing: no staged file was added or
    deleted (a staged upload only counts when it is not deleted, a
    committed file only when it is), and the fields are the same. *)
Definition unchangedEdit (v : Value.t) (data : ValueMap.t) : Prop :=
  Forall (fun file => editFileChanged file = false) (Value.scansInEdit v)
  ∧ (∀ selfie, Value.selfieInEdit v = Some selfie → editFileChanged selfie = false)
  ∧ sameFields (ValueMap.fields data) (ValueMap.fields (ValueData.parsed (Value.data v))).

(** The value as the completion of an unchanged save leaves it. *)
Definition afterUnchangedSave (v : Value.t) : Value.t :=
  Value.set_saveRequestId 0 (Value.set_error None (withoutEdit v)).

(** What [saveEncryptedValue] expects of a value when it sends its save:
    an encrypted type, no save in flight, and something to save. *)
Definition savable (v : Value.t) : Prop :=
  isEncryptedValue (Value.type v) = true
  ∧ Value.saveRequestId v = 0
  ∧ no_flags (saveFlags v) = false.

(** The save request of a value of the form, under the secret id [id]. *)
Definition savesValue (c : FormController.t) (id : Z) (value : ValueType)
    (r : MTPRequest) : Prop :=
  ∃ (v : Value.t) (input : MTPInputSecureValue),
    FormController.values c !! value = Some v
    ∧ r = MTPaccount_SaveSecureValue input id
    ∧ isv_type input = Convert.toMTP (Value.type v).

(** The error of a failed save asks for the verification of the value. *)
Definition asksVerification (type : ValueType) (error : RPCError) : bool :=
  (String.eqb (error_type error) "PHONE_VERIFICATION_NEEDED" && bool_decide (type = Phone))
  || (String.eqb (error_type error) "EMAIL_VERIFICATION_NEEDED" && bool_decide (type = Email)).

(** The value after a save that failed: the edit-scoped copies are dropped
    when no edit screen is open on it. *)
Definition afterFailedSave (v : Value.t) : Value.t :=
  let v := Value.set_saveRequestId 0 v in
  if Value.editScreens v =? 0 then withoutEdit v else v.

(** *** Credentials *)

(** What the credentials say of one value: content hashes and the secrets
    of the items, and nothing else. *)
Record ValueCredentials := mkValueCredentials {
  vc_data : option (bytes * bytes);
  vc_files : list (bytes * bytes);
  vc_selfie : option (bytes * bytes);
}.

Definition fileCredentials (file : File.t) : bytes * bytes :=
  (File.hash file, File.secret file).

(** Of the decrypted fields of a value only whether there are any is
    looked at. *)
Definition credentialsOf (identitySelfieRequired : bool) (v : Value.t) : ValueCredentials :=
  {| vc_data :=
       if bool_decide (ValueMap.fields (ValueData.parsed (Value.data v)) = ∅) then None
       else Some (ValueData.hash (Value.data v), ValueData.secret (Value.data v));
     vc_files := fileCredentials <$> Value.scans v;
     vc_selfie :=
       if identitySelfieRequired then fileCredentials <$> Value.selfie v else None |}.

(** A hash and a secret as a JSON object: the hash under [hashKey], the
    secret under [secret], both in base 64. *)
Definition jsonOfPair (hashKey : string) (item : bytes * bytes) : QJsonValue :=
  QJsonObject
    (<[hashKey := QJsonString (toBase64 item.1)]>
       (<["secret" := QJsonString (toBase64 item.2)]> ∅)).

Definition with_member {A : Type} (key : string) (member : option A)
    (json : A → QJsonValue) (object : gmap string QJsonValue) : gmap string QJsonValue :=
  match member with
  | Some x => <[key := json x]> object
  | None => object
  end.

(** The JSON object of the credentials of one value. *)
Definition jsonOfCredentials (credentials : ValueCredentials) : QJsonValue :=
  QJsonObject
    (with_member "selfie" (vc_selfie credentials) (jsonOfPair "file_hash")
       (with_member "files"
          (if bool_decide (vc_files credentials = []) then None
           else Some (vc_files credentials))
          (fun files => QJsonArray (jsonOfPair "file_hash" <$> files))
          (with_member "data" (vc_data credentials) (jsonOfPair "data_hash") ∅))).

(** The hash a value contributes to the hash list. *)
Definition hashOf (v : Value.t) : MTPSecureValueHash :=
  MTP_secureValueHash (Convert.toMTP (Value.type v)) (Value.submitHash v).

(** What was collected comes from the values [values]: a hash is the
    submit hash of one of them, and a member of the secure data is the
    credentials of one of an encrypted type, under the key of that type. *)
Definition collectedFrom (identitySelfieRequired : bool)
    (values : gmap ValueType Value.t) (acc : Collected) : Prop :=
  Forall (fun h => ∃ (type : ValueType) (v : Value.t),
            values !! type = Some v ∧ h = hashOf v) acc.1
  ∧ (∀ (key : string) (j : QJsonValue),
       acc.2 !! key = Some j →
       ∃ (type : ValueType) (v : Value.t),
         values !! type = Some v
         ∧ isEncryptedValue (Value.type v) = true
         ∧ key = ValueCredentialsKey (Value.type v)
         ∧ j = jsonOfCredentials (credentialsOf identitySelfieRequired v)).

(** The first of the documents of a scope that has scans. *)
Definition firstWithScans (values : gmap ValueType Value.t) (documents : list ValueType)
    : option Value.t :=
  List.find (fun v => negb (bool_decide (Value.scans v = [])))
    (omap (fun document => values !! document) documents).

(** The values a ready scope has accepted: the value of its fields and,
    of its documents, the first that has scans. *)
Definition acceptedOf (values : gmap ValueType Value.t) (scope : Scope) : list Value.t :=
  option_list (values !! scope_fields scope)
  ++ option_list (firstWithScans values (scope_documents scope)).

(** The accepted values of the form, in the order of the scopes. *)
Definition accepted (c : FormController.t) : list Value.t :=
  flat_map (acceptedOf (FormController.values c)) (ComputeScopes c).

(** What the accepted values contribute, in the words of the
    specification: each appends its submit hash to the hash list and, if
    its type carries payload data (it is not a phone number or an
    email), puts the object of its credentials under the key of its
    type. *)
Definition contributed (identitySelfieRequired : bool) (values : list Value.t)
    (acc : Collected) : Collected :=
  foldl (fun acc v =>
           (acc.1 ++ [hashOf v],
            if isEncryptedValue (Value.type v)
            then <[ValueCredentialsKey (Value.type v) :=
                     jsonOfCredentials (credentialsOf identitySelfieRequired v)]> acc.2
            else acc.2))
    acc values.

(** The secure data of the accepted values of the form. *)
Definition secureDataOf (c : FormController.t) : gmap string QJsonValue :=
  (contributed (Form.identitySelfieRequired (FormController._form c)) (accepted c)
     ([], ∅)).2.

(** Every value of the form is stored under its type. *)
Definition storedByType (c : FormController.t) : Prop :=
  ∀ (type : ValueType) (v : Value.t),
    FormController.values c !! type = Some v → Value.type v = type.

(** A value of the form up to its error, which [prepareFinalData] sets. *)
Definition sameButError (v0 v1 : Value.t) : Prop :=
  ∃ error, v1 = Value.set_error error v0.

(** The controller [c1] is [c0] but for the errors of its values. *)
Definition errorsApart (c0 c1 : FormController.t) : Prop :=
  Form.identitySelfieRequired (FormController._form c1)
  = Form.identitySelfieRequired (FormController._form c0)
  ∧ FormController._request c1 = FormController._request c0
  ∧ ∀ type, option_Forall2 sameButError
              (FormController.values c0 !! type) (FormController.values c1 !! type).

(** The values the scopes point to are values of the form. *)
Definition scopesBound (c : FormController.t) (scopes : list Scope) : Prop :=
  Forall (fun scope =>
            is_Some (FormController.values c !! scope_fields scope)
            ∧ Forall (fun document => is_Some (FormController.values c !! document))
                (scope_documents scope))
    scopes.

End Vocabulary.

(** ** More vocabulary *)

Section MoreVocabulary.
Context {encryption : Encryption} {platform : Platform} {view : FormView}.

(** *** Lines of text *)

Definition CR : ascii := "013".
Definition LF : ascii := "010".

(** The lines [lines], each two separated by [separator]. *)
Fixpoint joined (separator : string) (lines : list string) : string :=
  match lines with
  | [] => ""
  | line :: rest =>
      match rest with
      | [] => line
      | _ :: _ => line +:+ separator +:+ joined separator rest
      end
  end.

(** The character [a] does not occur in [s]. *)
Fixpoint free_of (a : ascii) (s : string) : bool :=
  match s with
  | String b rest => negb (Ascii.eqb a b) && free_of a rest
  | EmptyString => true
  end.

(** *** Staged files *)

(** The staged file of a value as [prepareFile] fills it in the state [c]:
    a random id, a fresh secret and the date are drawn, in that order. *)
Definition stagedFile (c : FormController.t) (value : ValueType) (content : QByteArray)
    : EditFile.t :=
  let drawn := FormController.drawn c in
  {| EditFile.value := value;
     EditFile.fields :=
       {| File.id := rand_value drawn;
          File.accessHash := 0;
          File.size := Z.of_nat (String.length content);
          File.date := unixtime (S (S drawn));
          File.dcId := maindc;
          File.hash := "";
          File.secret := GenerateSecretBytes (S drawn);
          File.encryptedSecret := "";
          File.downloadOffset := Z.of_nat (String.length content);
          File.image := readImage content |};
     EditFile.uploadData := None;
     EditFile.deleted := false |}.

(** The file [file'] is [file] but for its download offset. *)
Definition sameButOffset (file file' : File.t) : Prop :=
  ∃ offset, file' = File_set_downloadOffset offset file.

(** The controller once three random values were drawn. *)
Definition afterStaging (c : FormController.t) : FormController.t :=
  FormController.set_drawn (S (S (S (FormController.drawn c)))) c.

(** *** Saves *)

(** The secret under which [saveEncryptedValue] encrypts the fields of a
    value in the state [c]: the secret of the value, or a fresh one if it
    has none. *)
Definition savingSecret (c : FormController.t) (v : Value.t) : bytes :=
  if isEmpty (ValueData.secret (Value.data v))
  then GenerateSecretBytes (FormController.drawn c)
  else ValueData.secret (Value.data v).

(** The fields in edit of a value, encrypted as [saveEncryptedValue] sends
    them. *)
Definition encryptedEdit (c : FormController.t) (v : Value.t) : EncryptedData :=
  EncryptData (SerializeData (ValueMap.fields (ValueData.parsedInEdit (Value.data v))))
    (savingSecret c v).

Definition savedData (c : FormController.t) (v : Value.t) : MTPSecureData :=
  MTP_secureData (ed_bytes (encryptedEdit c v)) (ed_hash (encryptedEdit c v))
    (EncryptValueSecret (savingSecret c v) (FormController._secret c)
       (ed_hash (encryptedEdit c v))).

(** The value the controller holds once the remote authority has answered
    the save of the fields of [v] with the data it was sent and the submit
    hash [submitHash]. *)
Definition committedEdit (c : FormController.t) (v : Value.t) (submitHash : bytes)
    : Value.t :=
  {| Value.type := Value.type v;
     Value.data :=
       {| ValueData.original := ed_bytes (encryptedEdit c v);
          ValueData.hash := ed_hash (encryptedEdit c v);
          ValueData.secret := savingSecret c v;
          ValueData.encryptedSecret :=
            EncryptValueSecret (savingSecret c v) (FormController._secret c)
              (ed_hash (encryptedEdit c v));
          ValueData.parsed := ValueData.parsedInEdit (Value.data v);
          ValueData.hashInEdit := "";
          ValueData.encryptedSecretInEdit := "";
          ValueData.parsedInEdit := ValueMap.empty |};
     Value.scans := [];
     Value.scansInEdit := [];
     Value.selfie := None;
     Value.selfieInEdit := None;
     Value.submitHash := submitHash;
     Value.verification := Verification.empty;
     Value.editScreens := Value.editScreens v;
     Value.saveRequestId := 0;
     Value.error := None |}.

(** *** Phone numbers and emails *)

(** The text of a phone number or an email as the remote authority takes
    it. *)
Definition plainData (type : ValueType) (text : QString) : MTPSecurePlainData :=
  match type with
  | Email => MTP_securePlainEmail text
  | _ => MTP_securePlainPhone text
  end.

(** The save of the text [text] of a phone number or an email. *)
Definition plainInput (type : ValueType) (text : QString) : MTPInputSecureValue :=
  {| isv_flags := {| f_data := false; f_files := false;
                     f_plain_data := true; f_selfie := false |};
     isv_type := Convert.toMTP type;
     isv_data := None;
     isv_files := [];
     isv_plain_data := Some (plainData type text);
     isv_selfie := None |}.

(** The error by which the remote authority asks for the verification of
    a value, the request that has a code sent, the request that verifies
    a code, and the error of a code that is not the one sent. *)
Definition verificationNeeded (type : ValueType) : QString :=
  match type with
  | Email => "EMAIL_VERIFICATION_NEEDED"
  | _ => "PHONE_VERIFICATION_NEEDED"
  end.

Definition sendCodeRequest (type : ValueType) (text : QString) : MTPRequest :=
  match type with
  | Email => MTPaccount_SendVerifyEmailCode text
  | _ => MTPaccount_SendVerifyPhoneCode text
  end.

Definition verifyRequest (v : Value.t) (text code : QString) : MTPRequest :=
  match Value.type v with
  | Email => MTPaccount_VerifyEmail text code
  | _ =>
      MTPaccount_VerifyPhone text (Verification.phoneCodeHash (Value.verification v)) code
  end.

Definition codeInvalid (type : ValueType) : QString :=
  match type with
  | Email => "CODE_INVALID"
  | _ => "PHONE_CODE_INVALID"
  end.

(** The code length the controller records for an announced length. *)
Definition recordedLength (announced : Z) : Z :=
  if 0 <? announced then announced else -1.

(** A value with the request [id] as its verification request. *)
Definition verifying (id : Z) (v : Value.t) : Value.t :=
  Value.set_verification (Verification.set_requestId id (Value.verification v)) v.

(** A value with the text [text] as its verification error. *)
Definition withVerificationError (text : QString) (v : Value.t) : Value.t :=
  Value.set_verification (Verification.set_error text (Value.verification v)) v.

(** The text shown for the error of a verification request. *)
Definition shownError (type : ValueType) (error : RPCError) : QString :=
  if String.eqb (error_type error) (codeInvalid type) then lng_signin_wrong_code
  else error_type error.

(** What dropping the verification of a value does to its collaborators:
    the request in flight is cancelled, and the observers are notified
    if a code was awaited. *)
Definition verificationDropped (value : ValueType) (v : Value.t) : list Effect :=
  (if Verification.requestId (Value.verification v) =? 0 then []
   else [CancelRequest (Verification.requestId (Value.verification v))])
  ++ (if Verification.codeLength (Value.verification v) =? 0 then []
      else [VerificationUpdateFired value]).

(** *** Decrypting the values of the form *)

(** The controller with [secret] as its master secret. *)
Definition unlockedBy (secret : bytes) (c : FormController.t) : FormController.t :=
  FormController.set_secretId (CountSecureSecretHash secret)
    (FormController.set_secret secret c).

(** The value [decryptValue] leaves in the place of [v]. *)
Definition decryptedValue (c : FormController.t) (v : Value.t) : Value.t :=
  match decryptValue c v with
  | Returns (v', _) => v'
  | Violation _ => v
  end.

(** The text [submitPassword_fail] fires for an error. *)
Definition passwordErrorText (error : RPCError) : QString :=
  if is_flood error then lng_flood_error
  else if String.eqb (error_type error) "PASSWORD_HASH_INVALID"
       then lng_passport_password_wrong
       else error_type error.

(** *** The submission *)

(** A scope is not ready, whatever the errors of the values are. *)
Definition notReady (c : FormController.t) (scope : Scope) : Prop :=
  ∀ c', errorsApart c c' → ComputeScopeRowReadyString c' scope = "".

(** The request [submit] sends for the prepared data in the state [c]:
    the credentials are encrypted under a fresh secret, which is
    encrypted for the public key of the request. *)
Definition acceptRequest (c : FormController.t) (prepared : FinalData) : MTPRequest :=
  let encrypted :=
    EncryptData (fd_credentials prepared) (GenerateSecretBytes (FormController.drawn c)) in
  let request_ := FormController._request c in
  MTPaccount_AcceptAuthorization
    (FormRequest.botId request_) (FormRequest.scope request_)
    (FormRequest.publicKey request_) (fd_hashes prepared)
    (MTP_secureCredentialsEncrypted (ed_bytes encrypted) (ed_hash encrypted)
       (EncryptCredentialsSecret (ed_secret encrypted) (FormRequest.publicKey request_))).

(** *** The form of the remote authority *)

(** A wire type that holds one of the constructors of the scheme. *)
Definition supported (type : MTPSecureValueType) : Prop :=
  type ≠ MTP_secureValueType_none.

(** The types of the values and the required types of a form are
    supported ones. *)
Definition wellTyped (form : MTPAuthorizationForm) : Prop :=
  Forall (fun value => supported (sv_type value)) (af_values form)
  ∧ Forall supported (af_required_types form).

(** The controller [s'] is [s] but for the form and the bot. *)
Definition sameButForm (s s' : Whole.t) : Prop :=
  Whole.base s'
  = FormController.set_form (FormController._form (Whole.base s')) (Whole.base s)
  ∧ Whole._fileLoaders s' = Whole._fileLoaders s
  ∧ Whole._uploaderSubscriptions s' = Whole._uploaderSubscriptions s.

(** The values of the whole controller. *)
Definition valuesOf (s : Whole.t) : gmap ValueType Value.t :=
  FormController.values (Whole.base s).

(** The type a value of the response is stored under. *)
Definition storedType (value : MTPSecureValue) : option ValueType :=
  match Convert.fromMTP (sv_type value) with
  | Returns type => Some type
  | Violation _ => None
  end.

(** The controller with the types [types] added to the request of its
    form, and the values [values] as the values. *)
Definition withRequest (types : list ValueType) (values : gmap ValueType Value.t)
    (s : Whole.t) : Whole.t :=
  Whole.set_base
    (FormController.set_values values
       (FormController.set_form
          (Form_set_request (Form.request (FormController._form (Whole.base s)) ++ types)
             (FormController._form (Whole.base s)))
          (Whole.base s)))
    s.

(** A call that shows the form. *)
Definition showsForm (call : Call) : bool :=
  match call with
  | ShowAskPassword | ShowPasswordUnconfirmed | ShowNoPassword => true
  | _ => false
  end.

(** What [showForm] calls for a bot and the settings of the password. *)
Definition screenFor (bot : option Z) (password : PasswordSettings.t) : Call :=
  match bot with
  | None => Base (ShowBox "Could not get authorization bot.")
  | Some _ =>
      if negb (isEmpty (PasswordSettings.salt password)) then ShowAskPassword
      else if negb (isEmpty (PasswordSettings.unconfirmedPattern password))
           then ShowPasswordUnconfirmed
           else ShowNoPassword
  end.

(** The settings of the password once [parsePassword] has read a
    response, and the random seed of the response. *)
Definition afterPassword (result : MTPPassword) (password : PasswordSettings.t)
    : PasswordSettings.t :=
  match result with
  | MTP_account_noPassword new_salt new_secure_salt _ pattern =>
      {| PasswordSettings.salt := PasswordSettings.salt password;
         PasswordSettings.newSalt := new_salt;
         PasswordSettings.newSecureSalt := new_secure_salt;
         PasswordSettings.hint := PasswordSettings.hint password;
         PasswordSettings.unconfirmedPattern := pattern;
         PasswordSettings.confirmedEmail := PasswordSettings.confirmedEmail password;
         PasswordSettings.hasRecovery := PasswordSettings.hasRecovery password |}
  | MTP_account_password current_salt new_salt new_secure_salt _ hint has_recovery pattern =>
      {| PasswordSettings.salt := current_salt;
         PasswordSettings.newSalt := new_salt;
         PasswordSettings.newSecureSalt := new_secure_salt;
         PasswordSettings.hint := hint;
         PasswordSettings.unconfirmedPattern := pattern;
         PasswordSettings.confirmedEmail := PasswordSettings.confirmedEmail password;
         PasswordSettings.hasRecovery := has_recovery |}
  end.

Definition seedOf (result : MTPPassword) : bytes :=
  match result with
  | MTP_account_noPassword _ _ secure_random _ => secure_random
  | MTP_account_password _ _ _ secure_random _ _ _ => secure_random
  end.

(** The request that fetches the form of a controller. *)
Definition formRequest (s : Whole.t) : MTPFormRequest :=
  let request_ := FormController._request (Whole.base s) in
  MTPaccount_GetAuthorizationForm (FormRequest.botId request_)
    (FormRequest.scope request_) (FormRequest.publicKey request_).

(** A call that sends a request. *)
Definition sendsRequest (call : Call) : bool :=
  match call with
  | SendForm _ _ | Base (Send _ _) => true
  | _ => false
  end.

(** A staged file with the image and the offset of a committed file, and
    with its offset only. *)
Definition mirrored (file : File.t) (staged : EditFile.t) : EditFile.t :=
  EditFile.set_fields
    (File_set_downloadOffset (File.downloadOffset file)
       (File_set_image (File.image file) (EditFile.fields staged)))
    staged.

Definition mirroredOffset (file : File.t) (staged : EditFile.t) : EditFile.t :=
  EditFile.set_fields
    (File_set_downloadOffset (File.downloadOffset file) (EditFile.fields staged))
    staged.

(** What a report of a loader leaves: the committed file of the key is
    [file'], its staged copy, if the key has one, is [copy'] of what it
    was, and the view is told about the copy. *)
Definition reported (key : FileKey) (ref : FileRef) (file' : File.t)
    (copy' : EditFile.t → EditFile.t) (c : FormController.t)
    (run : Outcome (unit * FormController.t * list Effect)) : Prop :=
  ∃ c' : FormController.t,
    fileAt c' ref = Some file'
    ∧ match findEditFileByKey key c with
      | Some copy =>
          run = Returns (tt, c', [ScanUpdatedFired copy])
          ∧ ∃ staged, editFileAt c copy = Some staged
                      ∧ editFileAt c' copy = Some (copy' staged)
      | None => run = Returns (tt, c', [])
      end.

(** A committed file once its download is done. *)
Definition downloaded (image : QImage) (file : File.t) : File.t :=
  File_set_image image (File_set_downloadOffset (File.size file) file).

(** A staged file once its upload is done: the hash of the upload is the
    hash of the file, the secret of the file is encrypted with the secret
    of the controller, and the upload has its parts and no id. *)
Definition uploaded (secret : bytes) (partsCount : Z) (data : UploadScanData.t)
    (file : EditFile.t) : EditFile.t :=
  let fields := File_set_hash (UploadScanData.hash data) (EditFile.fields file) in
  EditFile_set_uploadData
    (Some (UploadScanData_set_fullId 0
             (UploadScanData_set_hash ""
                (UploadScanData_set_partsCount partsCount data))))
    (EditFile.set_fields
       (File_set_encryptedSecret
          (EncryptValueSecret (File.secret fields) secret (File.hash fields)) fields)
       file).

(** A staged file with the offset of its upload set. *)
Definition uploadedTo (offset : Z) (data : UploadScanData.t) (file : EditFile.t)
    : EditFile.t :=
  EditFile_set_uploadData (Some (UploadScanData_set_offset offset data)) file.

(** The staged file an id of the uploader stands for, with its upload. *)
Definition uploading (fullId : Z) (c : FormController.t) (ref : EditFileRef)
    (file : EditFile.t) (data : UploadScanData.t) : Prop :=
  findEditFileByFullId fullId c = Some ref
  ∧ editFileAt c ref = Some file
  ∧ EditFile.uploadData file = Some data
  ∧ UploadScanData.fullId data = fullId.

End MoreVocabulary.

(** ** A small implementation of the collaborators

    It lets the controller run on concrete forms: a secret is wrapped by
    prefixing the key, a digest is a tagged copy, and a field map is
    written as [{key=value;...}]. *)
Module Sample.

Definition strip_prefix (p s : string) : option string :=
  if String.prefix p s then
    Some (String.substring (String.length p) (String.length s - String.length p) s)
  else None.

Definition wrap (key payload : string) : string := key +:+ payload.

Definition unwrap (key wrapped : string) : string :=
  default "" (strip_prefix key wrapped).

Definition digest (data : string) : string := "#" +:+ data.

Definition serialize (fields : gmap string string) : string :=
  "{" +:+ foldr (fun entry rest => entry.1 +:+ "=" +:+ entry.2 +:+ ";" +:+ rest) "}"
            (map_to_list fields).

Definition snoc (s : string) (a : ascii) : string := s +:+ String a "".

(** The entries [key=value;] of a serialized map, read from left to right:
    [key] is the key read so far and [value] the value, once [=] was met. *)
Fixpoint parse_entries (s : string) (key : string) (value : option string)
    (acc : gmap string string) : gmap string string :=
  match s with
  | EmptyString => acc
  | String a rest =>
      if bool_decide (a = "{"%char) || bool_decide (a = "}"%char) then
        parse_entries rest key value acc
      else if bool_decide (a = ";"%char) then
        parse_entries rest "" None
          (match value with Some v => <[key := v]> acc | None => acc end)
      else
        match value with
        | None =>
            if bool_decide (a = "="%char) then parse_entries rest key (Some "") acc
            else parse_entries rest (snoc key a) None acc
        | Some v => parse_entries rest key (Some (snoc v a)) acc
        end
  end.

Definition deserialize (data : string) : gmap string string :=
  parse_entries data "" None ∅.

#[export] Instance encryption : Encryption := {|
  GenerateSecretBytes n := "fresh-secret-" +:+ String (ascii_of_nat (48 + n mod 10)) "";
  EncryptSecureSecret salt secret password := wrap (salt +:+ password) secret;
  DecryptSecureSecret salt encryptedSecret password := unwrap (salt +:+ password) encryptedSecret;
  CountSecureSecretHash secret := Z.of_nat (String.length secret);
  SerializeData := serialize;
  DeserializeData := deserialize;
  EncryptData data dataSecret :=
    {| ed_secret := dataSecret; ed_hash := digest data; ed_bytes := wrap dataSecret data |};
  DecryptData encrypted dataHash dataSecret :=
    let data := unwrap dataSecret encrypted in
    if String.eqb (digest data) dataHash then data else "";
  EncryptValueSecret valueSecret secret valueHash := wrap (secret +:+ valueHash) valueSecret;
  DecryptValueSecret encrypted secret valueHash := unwrap (secret +:+ valueHash) encrypted;
  EncryptCredentialsSecret secret publicKey := wrap publicKey secret;
  Sha256 := digest;
  hashMd5Hex := digest;
  set_random n length := String.substring 0 length "random-salt-part";
|}.

(** Texts of the sample are ASCII: the white space is the ASCII one, and
    a character is a byte. *)
Fixpoint trimmed_start (s : string) : string :=
  match s with
  | String a rest => if Ascii.is_space a then trimmed_start rest else s
  | EmptyString => EmptyString
  end.

Definition trimmed_ascii (s : string) : string :=
  String.rev (trimmed_start (String.rev (trimmed_start s))).

#[export] Instance platform : Platform := {|
  toBase64 raw := "b64:" +:+ raw;
  toJson document :=
    match document with
    | QJsonString s => s
    | QJsonObject members => "{" +:+ foldr (fun entry rest => entry.1 +:+ ";" +:+ rest) "}" (map_to_list members)
    | QJsonArray _ => "[]"
    end;
  readImage content := content;
  trimmed := trimmed_ascii;
  QString_size text := Z.of_nat (String.length text);
  url_append_query url add := url +:+ "?" +:+ add;
  rand_value n := 1000 + Z.of_nat n;
  unixtime n := 1500000000 + Z.of_nat n;
  maindc := 2;
  clientMsgId n := Z.of_nat (1 + n);
  lng_passport_scans_limit_reached := "Scans limit reached.";
  lng_signin_wrong_code := "You have entered an invalid code.";
  lng_flood_error := "Too many tries. Please try again later.";
  lng_passport_password_wrong := "Wrong password.";
|}.

(** One scope per requested personal-details, address, phone or email
    value; the requested documents of its kind go with it. *)
Definition documentsOf (fields : ValueType) : list ValueType :=
  match fields with
  | PersonalDetails => [Passport; DriverLicense; IdentityCard]
  | Address => [UtilityBill; BankStatement; RentalAgreement]
  | _ => []
  end.

Definition scopeTypeOf (fields : ValueType) : option ScopeType :=
  match fields with
  | PersonalDetails => Some ScopeIdentity
  | Address => Some ScopeAddress
  | Phone => Some ScopePhone
  | Email => Some ScopeEmail
  | _ => None
  end.

Definition scopes (c : FormController.t) : list Scope :=
  let requested := Form.request (FormController._form c) in
  omap (fun fields =>
    type ← scopeTypeOf fields;
    Some {| scope_type := type;
            scope_fields := fields;
            scope_documents :=
              List.filter (fun d => bool_decide (d ∈ requested)) (documentsOf fields);
            scope_selfieRequired := Form.identitySelfieRequired (FormController._form c) |})
    requested.

(** A scope is ready when its fields are filled in and, if it asks for
    documents, one of them has scans. *)
Definition ready (c : FormController.t) (scope : Scope) : QString :=
  let hasScans (d : ValueType) : bool :=
    match FormController.values c !! d with
    | Some v => negb (bool_decide (Value.scans v = []))
    | None => false
    end in
  match FormController.values c !! scope_fields scope with
  | Some v =>
      if bool_decide (ValueMap.fields (ValueData.parsed (Value.data v)) = ∅) then ""
      else if bool_decide (scope_documents scope = []) || existsb hasScans (scope_documents scope)
      then "ready"
      else ""
  | None => ""
  end.

#[export] Instance view : FormView := {|
  ComputeScopes := scopes;
  ComputeScopeRowReadyString := ready;
|}.

(** The values of a form: those the remote authority returned and, as
    [parseForm] adds them, the unset value of each requested type that
    has none. *)
Definition withRequested (values : gmap ValueType Value.t) (requested : list ValueType)
    : gmap ValueType Value.t :=
  foldr (fun type values =>
           match values !! type with
           | Some _ => values
           | None => <[type := Value.create type]> values
           end) values requested.

(** A controller whose form holds the values [values] and requests the
    types [requested]. *)
Definition controller (values : gmap ValueType Value.t) (requested : list ValueType)
    (secret : bytes) : FormController.t :=
  {| FormController._request :=
       {| FormRequest.botId := 7; FormRequest.scope := "scope";
          FormRequest.callbackUrl := "https://example.org/cb";
          FormRequest.publicKey := "public-key"; FormRequest.payload := "payload" |};
     FormController._password :=
       {| PasswordSettings.salt := "salt"; PasswordSettings.newSalt := "new-salt";
          PasswordSettings.newSecureSalt := "new-secure-salt";
          PasswordSettings.hint := ""; PasswordSettings.unconfirmedPattern := "";
          PasswordSettings.confirmedEmail := ""; PasswordSettings.hasRecovery := false |};
     FormController._form :=
       {| Form.values := withRequested values requested; Form.request := requested;
          Form.identitySelfieRequired := false; Form.privacyPolicyUrl := "" |};
     FormController._formRequestId := 0;
     FormController._passwordRequestId := 0;
     FormController._passwordCheckRequestId := 0;
     FormController._secret := secret;
     FormController._secretId := CountSecureSecretHash secret;
     FormController._secretCallbacks := [];
     FormController._saveSecretRequestId := 0;
     FormController._submitRequestId := 0;
     FormController._cancelled := false;
     FormController.sender_next := 1%positive;
     FormController.drawn := 0%nat |}.

(** *** Stored values *)

Definition master : bytes := "master-secret".

(** A file as the remote authority returns it: its secret is wrapped under
    the master secret. *)
Definition storedFile (id : Z) (fileHash fileSecret : bytes) : File.t :=
  {| File.id := id; File.accessHash := 11; File.size := 4; File.date := 1500000000;
     File.dcId := 2; File.hash := fileHash; File.secret := "";
     File.encryptedSecret := EncryptValueSecret fileSecret master fileHash;
     File.downloadOffset := 0; File.image := "" |}.

(** A value as the remote authority returns it: the fields are serialized
    and encrypted under the secret of the value, which is wrapped under
    the master secret. *)
Definition storedValue (type : ValueType) (fields : gmap string string)
    (scans : list File.t) : Value.t :=
  let encrypted := EncryptData (SerializeData fields) "value-secret" in
  Value.set_submitHash (digest (ed_hash encrypted))
    (Value.set_scans scans
    (Value.set_data
       {| ValueData.original := ed_bytes encrypted;
          ValueData.hash := ed_hash encrypted;
          ValueData.secret := "";
          ValueData.encryptedSecret :=
            EncryptValueSecret "value-secret" master (ed_hash encrypted);
          ValueData.parsed := ValueMap.empty;
          ValueData.hashInEdit := "";
          ValueData.encryptedSecretInEdit := "";
          ValueData.parsedInEdit := ValueMap.empty |}
       (Value.create type))).

(** A utility bill: a scan, and no fields. *)
Definition utilityBill : Value.t :=
  storedValue UtilityBill ∅ [storedFile 1 "#scan" "scan-secret"].

(** The same value with a stored payload that is not the encryption of
    anything under its secret. *)
Definition damagedBill : Value.t :=
  Value.set_data
    {| ValueData.original := "damaged";
       ValueData.hash := ValueData.hash (Value.data utilityBill);
       ValueData.secret := "";
       ValueData.encryptedSecret := ValueData.encryptedSecret (Value.data utilityBill);
       ValueData.parsed := ValueMap.empty;
       ValueData.hashInEdit := "";
       ValueData.encryptedSecretInEdit := "";
       ValueData.parsedInEdit := ValueMap.empty |}
    utilityBill.

(** The same value with its secret wrapped under another master secret. *)
Definition foreignBill : Value.t :=
  Value.set_data
    {| ValueData.original := ValueData.original (Value.data utilityBill);
       ValueData.hash := ValueData.hash (Value.data utilityBill);
       ValueData.secret := "";
       ValueData.encryptedSecret :=
         EncryptValueSecret "value-secret" "another-secret"
           (ValueData.hash (Value.data utilityBill));
       ValueData.parsed := ValueMap.empty;
       ValueData.hashInEdit := "";
       ValueData.encryptedSecretInEdit := "";
       ValueData.parsedInEdit := ValueMap.empty |}
    utilityBill.

(** Personal details as they are stored. *)
Definition storedDetails : Value.t :=
  storedValue PersonalDetails {["first_name" := "Ada"]} [].

(** Personal details with one field, decrypted. *)
Definition personalDetails : Value.t :=
  let v := storedValue PersonalDetails {["first_name" := "Ada"]} [] in
  Value.set_data
    (ValueData.set_parsed (ValueMap.make {["first_name" := "Ada"]})
       (ValueData.set_secret "value-secret" (Value.data v)))
    v.

(** A passport with a decrypted scan, and the scan staged in an edit. *)
Definition passportScan : File.t :=
  File.set_secret "scan-secret" (storedFile 2 "#passport" "scan-secret").

Definition passport : Value.t :=
  Value.set_scansInEdit [EditFile.create Passport passportScan None]
    (Value.set_data
       (ValueData.set_secret "value-secret"
          (Value.data (storedValue Passport ∅ [])))
       (Value.set_scans [passportScan] (storedValue Passport ∅ []))).

(** A phone number that waits for a code of five digits. *)
Definition phone : Value.t :=
  Value.set_verification
    {| Verification.requestId := 0; Verification.phoneCodeHash := "code-hash";
       Verification.codeLength := 5; Verification.call := None;
       Verification.error := "" |}
    (Value.set_data
       (ValueData.set_parsedInEdit (ValueMap.make {["value" := "15551234567"]})
          ValueData.empty)
       (Value.create Phone)).

(** A passport whose staged scans have reached the cap, with one more
    staged scan that is deleted. *)
Definition stagedScan (deleted : bool) : EditFile.t :=
  EditFile.set_deleted deleted (EditFile.create Passport File.empty None).

Definition fullPassport : Value.t :=
  Value.set_scansInEdit (replicate 20 (stagedScan false) ++ [stagedScan true])
    (Value.create Passport).

(** Personal details and a passport edited and not yet saved. *)
Definition editedDetails : Value.t :=
  Value.set_data
    (ValueData.set_parsedInEdit (ValueMap.make {["first_name" := "Grace"]})
       (Value.data personalDetails))
    personalDetails.

(** A phone number that was saved. *)
Definition savedPhone : Value.t :=
  Value.set_submitHash (digest "15551234567")
    (Value.set_data
       (ValueData.set_parsed (ValueMap.make {["value" := "15551234567"]}) ValueData.empty)
       (Value.create Phone)).

(** Personal details with a save in flight. *)
Definition savingDetails : Value.t := Value.set_saveRequestId 5 personalDetails.

(** The form with the values [values], unlocked by the master secret. *)
Definition unlocked (values : gmap ValueType Value.t) : FormController.t :=
  controller values [PersonalDetails; Passport; Phone] master.

(** The same form before the secret is there. *)
Definition locked (values : gmap ValueType Value.t) : FormController.t :=
  controller values [PersonalDetails; Passport; Phone] "".

(** The same form with two saves queued for the secret. *)
Definition queued : FormController.t :=
  FormController.set_secretCallbacks
    [SaveEncryptedValue PersonalDetails; SaveEncryptedValue Passport]
    (locked {[PersonalDetails := editedDetails; Passport := passport]}).

(** A form that requests personal details only, with their save in flight. *)
Definition detailsOnly : FormController.t :=
  controller {[PersonalDetails := savingDetails]} [PersonalDetails] master.

(** A form with a submission in flight. *)
Definition submitting : FormController.t :=
  FormController.set_submitRequestId 3 (unlocked {[PersonalDetails := personalDetails]}).

(** A form that is filled in. *)
Definition filled : FormController.t :=
  unlocked {[PersonalDetails := personalDetails; Passport := passport;
             Phone := savedPhone]}.

End Sample.

(** ** More sample forms *)

Module Forms.
Import Sample.

#[export] Instance language : FormLanguage := {|
  lng_passport_form_error := "Sorry, an error occurred.";
|}.

(** A controller with no bot, no file loader and no subscription. *)
Definition whole (c : FormController.t) : Whole.t :=
  {| Whole.base := c; Whole._bot := None; Whole._fileLoaders := ∅;
     Whole._uploaderSubscriptions := false |}.

(** A request whose public key has lines that end in CR LF. *)
Definition keyLines : list string :=
  ["-----BEGIN PUBLIC KEY-----"; "MIIB"; "-----END PUBLIC KEY-----"].

Definition windowsRequest : FormRequest.t :=
  {| FormRequest.botId := 7; FormRequest.scope := "scope";
     FormRequest.callbackUrl := "https://example.org/cb";
     FormRequest.publicKey := joined (String CR (String LF "")) keyLines;
     FormRequest.payload := "payload" |}.

(** A controller before the form is there, and the same for a request
    without payload. *)
Definition fresh : FormController.t := controller ∅ [] "".

Definition withoutPayload : FormController.t :=
  {| FormController._request :=
       {| FormRequest.botId := 7; FormRequest.scope := "scope";
          FormRequest.callbackUrl := "https://example.org/cb";
          FormRequest.publicKey := "public-key"; FormRequest.payload := "" |};
     FormController._password := FormController._password fresh;
     FormController._form := FormController._form fresh;
     FormController._formRequestId := 0;
     FormController._passwordRequestId := 0;
     FormController._passwordCheckRequestId := 0;
     FormController._secret := "";
     FormController._secretId := 0;
     FormController._secretCallbacks := [];
     FormController._saveSecretRequestId := 0;
     FormController._submitRequestId := 0;
     FormController._cancelled := false;
     FormController.sender_next := 1%positive;
     FormController.drawn := 0%nat |}.

(** A form of the remote authority: two phone numbers are stored, and the
    personal details and a phone number are required. *)
Definition phoneNumber (text : QString) : MTPSecureValue :=
  {| sv_type := MTP_secureValueTypePhone; sv_data := None; sv_files := None;
     sv_plain_data := Some (MTP_securePlainPhone text); sv_selfie := None;
     sv_hash := digest text |}.

Definition authorizationForm : MTPAuthorizationForm :=
  {| af_selfie_required := true;
     af_required_types := [MTP_secureValueTypePersonalDetails; MTP_secureValueTypePhone];
     af_values := [phoneNumber "15551234567"; phoneNumber "15557654321"];
     af_users := [7];
     af_privacy_policy_url := Some "https://example.org/privacy" |}.

(** The password of an account that has one. *)
Definition accountPassword : MTPPassword :=
  MTP_account_password "salt" "new-salt" "new-secure-salt" "seed" "hint" false "".

(** A passport with a committed scan and nothing staged. *)
Definition closedPassport : Value.t :=
  Value.set_scans [passportScan] (Value.create Passport).

(** A passport whose staged scan is being uploaded. *)
Definition upload : UploadScanData.t :=
  {| UploadScanData.fullId := 9; UploadScanData.fileId := 1000;
     UploadScanData.partsCount := 0; UploadScanData.md5checksum := "#encrypted";
     UploadScanData.hash := "#scan"; UploadScanData.bytes_ := "encrypted";
     UploadScanData.offset := 0 |}.

Definition uploadingPassport : Value.t :=
  Value.set_scansInEdit [EditFile.create Passport passportScan (Some upload)]
    (Value.create Passport).

(** A stored utility bill with a staged scan that is being uploaded, and
    the same with its secret wrapped under another master secret. *)
Definition uploadingBill : Value.t :=
  Value.set_scansInEdit [EditFile.create UtilityBill File.empty (Some upload)] utilityBill.

Definition foreignUploadingBill : Value.t :=
  Value.set_scansInEdit [EditFile.create UtilityBill File.empty (Some upload)] foreignBill.

(** A phone number that is typed in and not saved. *)
Definition typedPhone : ValueMap.t := ValueMap.make {["value" := "15551234567"]}.

(** A form that requests nothing. *)
Definition nothingRequested : FormController.t := controller ∅ [] master.

(** A phone number whose save is in flight. *)
Definition savingPhone : Value.t :=
  Value.set_saveRequestId 1
    (Value.set_data (ValueData.set_parsedInEdit typedPhone ValueData.empty)
       (Value.create Phone)).

(** The secure secret of the account, as it is stored for the password
    [password]. *)
Definition storedSecret (password : bytes) : bytes :=
  EncryptSecureSecret "salt" master password.

End Forms.

(** * Properties *)

Lemma isEmpty_true (s : string) : isEmpty s = true ↔ s = "".
Proof. destruct s; simpl; split; congruence. Qed.

Lemma isEmpty_false (s : string) : isEmpty s = false ↔ s ≠ "".
Proof. destruct s; simpl; split; congruence. Qed.

(** ** Conversion of value types *)

(** C9. The two [ConvertType] functions are mutually inverse: an internal
    type converted to the wire type and back is the same type, and a wire
    type the conversion supports (every one but the box that holds no
    constructor, at which the conversion ends the program), converted to
    the internal type and back, is the same wire type. *)
Theorem ConvertType_inverse :
  (∀ t : ValueType, Convert.fromMTP (Convert.toMTP t) = Returns t)
  ∧ (∀ w : MTPSecureValueType,
       match Convert.fromMTP w with
       | Returns t => Convert.toMTP t = w
       | Violation _ => w = MTP_secureValueType_none
       end).
Proof.
  split.
  - intros t. destruct t; reflexivity.
  - intros w. destruct w; reflexivity.
Qed.

(** ** Running a member function *)

(** The definitions of the monad, unfolded by [run_ctl]. *)
Ltac run_ctl :=
  cbv beta iota delta
    [bind ret gets modify emit emit_all violation Expects when lift request draw
     findValue storeValue modifyValue].

(** [ctl_with tac]: a call is run as far as the rewriting of [tac] lets it. *)
Ltac ctl_with tac := repeat (progress (run_ctl; cbn; tac)).

Section Properties.
Context {encryption : Encryption} {platform : Platform} {view : FormView}.

(** ** Submitting the password *)

(** C10. [submitPassword] with an empty password, while no password check
    is outstanding (and the salt is known, as the function expects): the
    empty message is fired on the password-error stream and the function
    goes on, sending the password-check request computed over the empty
    password and recording its id. *)
Theorem submitPassword_empty_goes_on (c : FormController.t) :
  PasswordSettings.salt (FormController._password c) ≠ "" →
  FormController._passwordCheckRequestId c = 0 →
  let id := Z.pos (FormController.sender_next c) in
  let salt := PasswordSettings.salt (FormController._password c) in
  submitPassword "" c
  = Returns (tt,
             FormController.set_passwordCheckRequestId id
               (FormController.set_sender_next (Pos.succ (FormController.sender_next c)) c),
             [PasswordErrorFired "";
              Send id (MTPaccount_GetPasswordSettings (Sha256 (salt +:+ "" +:+ salt)))]).
Proof.
  intros Hsalt Hcheck id salt.
  apply isEmpty_false in Hsalt.
  unfold submitPassword.
  ctl_with ltac:(rewrite ?Hsalt, ?Hcheck).
  reflexivity.
Qed.

(** ** The cap on staged scans *)

(** C5. When the staged scans of a value that are not deleted have reached
    the cap of 20, staging one more scan changes nothing and only shows
    the notice; and restoring a deleted scan, which would bring the count
    above 20, changes nothing either (the scan stays deleted) and shows
    the same notice. *)
Theorem scans_cap_rejects (c : FormController.t) (value : ValueType) (v : Value.t) :
  FormController.values c !! value = Some v →
  (kDocumentScansLimit ≤ liveScans v →
   ∀ content : QByteArray,
     uploadScan value content c
     = Returns (tt, c, [ShowToast lng_passport_scans_limit_reached]))
  ∧ (∀ (scanIndex : Z) (scan : EditFile.t),
       0 ≤ scanIndex →
       Value.scansInEdit v !! Z.to_nat scanIndex = Some scan →
       EditFile.deleted scan = true →
       kDocumentScansLimit < liveScans v + 1 →
       restoreScan value scanIndex c
       = Returns (tt, c, [ShowToast lng_passport_scans_limit_reached])).
Proof.
  intros Hv.
  assert (Hcan : kDocumentScansLimit ≤ liveScans v → canAddScan v = false).
  { intros Hcap. unfold canAddScan. fold (liveScans v). lia. }
  split.
  - intros Hcap content. unfold uploadScan.
    ctl_with ltac:(rewrite ?Hv, ?Hcan by exact Hcap). reflexivity.
  - intros scanIndex scan Hindex Hscan Hdeleted Hcap.
    assert (Hrange : (0 <=? scanIndex)
                     && (scanIndex <? Z.of_nat (length (Value.scansInEdit v))) = true).
    { apply lookup_lt_Some in Hscan. apply andb_true_iff. split; lia. }
    unfold restoreScan, scanDeleteRestore.
    ctl_with ltac:(rewrite ?Hv, ?Hrange, ?Hscan, ?Hdeleted, ?Hcan by lia). reflexivity.
Qed.

(** ** Verifying a code *)

(** C4. A verification attempt on a value with no verification request
    outstanding (verification was started, as the function asserts): the
    code is trimmed as Qt trims a text ([QString::trimmed]), and if the
    trimmed code is empty, or the expected length is positive and is not
    the size Qt gives the trimmed code ([QString::size]), the value ends
    with the fixed wrong-code message as its verification error, the
    observers are notified, and nothing is sent.  This holds of every Qt:
    nothing is assumed of its white space or of its count of
    characters. *)
Theorem verify_wrong_code (c : FormController.t) (value : ValueType) (v : Value.t)
    (code : QString) :
  FormController.values c !! value = Some v →
  Verification.requestId (Value.verification v) = 0 →
  Verification.codeLength (Value.verification v) ≠ 0 →
  trimmed code = ""
  ∨ (0 < Verification.codeLength (Value.verification v)
     ∧ Verification.codeLength (Value.verification v)
       ≠ QString_size (trimmed code)) →
  verify value code c
  = Returns (tt,
             FormController.set_values
               (<[value :=
                    Value.set_verification
                      (Verification.set_error lng_signin_wrong_code (Value.verification v))
                      v]> (FormController.values c))
               c,
             [VerificationUpdateFired value; VerificationUpdateFired value]).
Proof.
  intros Hv Hrequest Hstarted Hwrong.
  assert (Hlen : (Verification.codeLength (Value.verification v) =? 0) = false) by lia.
  unfold verify, verificationError.
  ctl_with ltac:(rewrite ?Hv, ?Hrequest, ?Hlen, ?lookup_insert_eq).
  destruct ((0 <? Verification.codeLength (Value.verification v))
            && negb (Verification.codeLength (Value.verification v)
                     =? QString_size (trimmed code))) eqn:Hmismatch.
  - ctl_with ltac:(rewrite ?lookup_insert_eq, ?insert_insert_eq). reflexivity.
  - assert (Hempty : isEmpty (trimmed code) = true).
    { apply isEmpty_true. destruct Hwrong as [Hempty | [Hpos Hne]]; [exact Hempty |].
      apply andb_false_iff in Hmismatch. lia. }
    ctl_with ltac:(rewrite ?Hempty, ?lookup_insert_eq, ?insert_insert_eq). reflexivity.
Qed.

(** ** Walking the values of the form *)

Lemma FormController_set_values_same (c : FormController.t) :
  FormController.set_values (FormController.values c) c = c.
Proof. destruct c as [? ? [] ? ? ? ? ? ? ? ? ? ? ?]. reflexivity. Qed.

Lemma for_each_pure (f : Value.t → Value.t) (types : list ValueType)
    (c : FormController.t) :
  for_each types (fun type =>
    let! values := gets FormController.values in
    match values !! type with
    | Some value =>
        fun c =>
          match Returns (f value, []) with
          | Returns (value, out) =>
              Returns (tt, FormController.set_values (<[type := value]> (FormController.values c)) c, out)
          | Violation what => Violation what
          end
    | None => ret tt
    end) c
  = Returns (tt, FormController.set_values (updated_on f types (FormController.values c)) c, []).
Proof.
  revert c. induction types as [| type types IH]; intros c.
  - simpl. unfold ret. rewrite FormController_set_values_same. reflexivity.
  - cbn [for_each updated_on]. unfold bind at 1.
    unfold bind at 1. unfold gets at 1.
    destruct (FormController.values c !! type) as [v |] eqn:Hv.
    + rewrite IH. reflexivity.
    + unfold ret at 1. rewrite IH. reflexivity.
Qed.

Lemma updated_on_lookup (f : Value.t → Value.t) (types : list ValueType)
    (values : gmap ValueType Value.t) (type : ValueType) :
  NoDup types →
  updated_on f types values !! type
  = if bool_decide (type ∈ types) then f <$> values !! type else values !! type.
Proof.
  revert values. induction types as [| t types IH]; intros values Hnodup.
  - reflexivity.
  - apply NoDup_cons in Hnodup as [Hfresh Hnodup].
    cbn [updated_on].
    rewrite IH by exact Hnodup.
    destruct (decide (type = t)) as [-> | Hne].
    + rewrite (bool_decide_eq_false_2 _ Hfresh).
      rewrite (bool_decide_eq_true_2 (t ∈ t :: types)) by apply list_elem_of_here.
      destruct (values !! t) eqn:Ht.
      * rewrite lookup_insert_eq. reflexivity.
      * rewrite Ht. reflexivity.
    + assert (Hin : bool_decide (type ∈ t :: types) = bool_decide (type ∈ types)).
      { apply bool_decide_ext. rewrite elem_of_cons. intuition congruence. }
      rewrite Hin.
      destruct (values !! t) eqn:Ht; [rewrite lookup_insert_ne by congruence |];
        reflexivity.
Qed.

Lemma for_each_ext {A : Type} (body1 body2 : A → Ctl unit) (l : list A)
    (c : FormController.t) :
  (∀ x c, body1 x c = body2 x c) →
  for_each l body1 c = for_each l body2 c.
Proof.
  intros Hbody. revert c. induction l as [| x l IH]; intros c; [reflexivity |].
  cbn [for_each]. unfold bind. rewrite Hbody.
  destruct (body2 x c) as [[[[] c1] out] | what]; [| reflexivity].
  rewrite IH. reflexivity.
Qed.

Lemma for_each_value_ext
    (body1 body2 : FormController.t → Value.t → Outcome (Value.t * list Effect))
    (c : FormController.t) :
  (∀ c v, body1 c v = body2 c v) →
  for_each_value body1 c = for_each_value body2 c.
Proof.
  intros Hbody. unfold for_each_value. apply for_each_ext.
  intros type c0. unfold bind, gets.
  destruct (FormController.values c0 !! type); [| reflexivity].
  rewrite Hbody. reflexivity.
Qed.

Lemma for_each_value_pure (f : Value.t → Value.t) (c : FormController.t) :
  for_each_value (fun _ value => Returns (f value, [])) c
  = Returns (tt, FormController.set_values (f <$> FormController.values c) c, []).
Proof.
  unfold for_each_value. rewrite for_each_pure.
  assert (Hall : updated_on f all_ValueTypes (FormController.values c)
                 = f <$> FormController.values c).
  { apply map_eq. intros type. rewrite updated_on_lookup, lookup_fmap.
    - rewrite bool_decide_eq_true_2; [reflexivity |].
      destruct type; apply (bool_decide_unpack _); vm_compute; exact I.
    - apply (bool_decide_unpack _). vm_compute. exact I. }
  rewrite Hall. reflexivity.
Qed.

Lemma requests_app (out1 out2 : list Effect) :
  requests (out1 ++ out2) = requests out1 ++ requests out2.
Proof. unfold requests. apply omap_app. Qed.

(** Dropping staged files cancels uploads; it sends nothing. *)
Lemma requests_destroyEditFiles (files : list EditFile.t) :
  requests (destroyEditFiles files) = [].
Proof.
  induction files as [| file files IH]; [reflexivity |].
  unfold destroyEditFiles in *. cbn.
  destruct (EditFile.uploadData file) as [data |]; [| exact IH].
  destruct (UploadScanData.fullId data =? 0); cbn; exact IH.
Qed.

Lemma requests_walked (emitted : Value.t → list Effect) (types : list ValueType)
    (values : gmap ValueType Value.t) :
  (∀ v, requests (emitted v) = []) →
  requests (walked emitted types values) = [].
Proof.
  intros Hquiet. unfold walked.
  induction types as [| type types IH]; [reflexivity |].
  cbn [flat_map]. rewrite requests_app, IH.
  destruct (values !! type); [rewrite Hquiet |]; reflexivity.
Qed.

Lemma walked_insert_fresh (emitted : Value.t → list Effect) (types : list ValueType)
    (values : gmap ValueType Value.t) (type : ValueType) (v : Value.t) :
  type ∉ types →
  walked emitted types (<[type := v]> values) = walked emitted types values.
Proof.
  unfold walked. induction types as [| t types IH]; intros Hfresh; [reflexivity |].
  apply not_elem_of_cons in Hfresh as [Hne Hfresh].
  cbn [flat_map]. rewrite lookup_insert_ne by exact Hne. rewrite IH by exact Hfresh.
  reflexivity.
Qed.

Lemma all_ValueTypes_NoDup : NoDup all_ValueTypes.
Proof. apply (bool_decide_unpack _). vm_compute. exact I. Qed.

(** The walk with a body that always returns: each value is replaced by
    what the body gives for it, and what the body emits is emitted in the
    order of the types. *)
Lemma for_each_walked (f : Value.t → Value.t) (emitted : Value.t → list Effect)
    (types : list ValueType) (c : FormController.t) :
  NoDup types →
  for_each types (fun type =>
    let! values := gets FormController.values in
    match values !! type with
    | Some value =>
        fun c =>
          match Returns (f value, emitted value) with
          | Returns (value, out) =>
              Returns (tt, FormController.set_values (<[type := value]> (FormController.values c)) c, out)
          | Violation what => Violation what
          end
    | None => ret tt
    end) c
  = Returns (tt, FormController.set_values (updated_on f types (FormController.values c)) c,
             walked emitted types (FormController.values c)).
Proof.
  intros Hnodup. revert c.
  induction types as [| type types IH]; intros c.
  - simpl. unfold ret. rewrite FormController_set_values_same. reflexivity.
  - apply NoDup_cons in Hnodup as [Hfresh Hnodup].
    cbn [for_each updated_on]. unfold bind at 1.
    unfold bind at 1. unfold gets at 1. unfold walked. cbn [flat_map].
    fold (walked emitted types (FormController.values c)).
    destruct (FormController.values c !! type) as [v |] eqn:Hv.
    + rewrite (IH Hnodup).
      change (FormController.values (FormController.set_values ?m c)) with m.
      rewrite walked_insert_fresh by exact Hfresh. reflexivity.
    + unfold ret at 1. rewrite (IH Hnodup). reflexivity.
Qed.

Lemma for_each_value_walked (f : Value.t → Value.t) (emitted : Value.t → list Effect)
    (c : FormController.t) :
  for_each_value (fun _ value => Returns (f value, emitted value)) c
  = Returns (tt, FormController.set_values (f <$> FormController.values c) c,
             walked emitted all_ValueTypes (FormController.values c)).
Proof.
  unfold for_each_value. rewrite (for_each_walked f emitted) by apply all_ValueTypes_NoDup.
  assert (Hall : updated_on f all_ValueTypes (FormController.values c)
                 = f <$> FormController.values c).
  { apply map_eq. intros type. rewrite updated_on_lookup, lookup_fmap.
    - rewrite bool_decide_eq_true_2; [reflexivity |].
      destruct type; apply (bool_decide_unpack _); vm_compute; exact I.
    - apply all_ValueTypes_NoDup. }
  rewrite Hall. reflexivity.
Qed.

(** ** A secure secret that does not unwrap *)

#[local] Arguments for_each_value : simpl never.
#[local] Arguments generateSecret : simpl never.

(** [generateSecret] returns, and leaves a request to save a secret in
    flight: the one it sends, or the one that was in flight already. *)
Lemma generateSecret_in_flight (password : bytes) (c : FormController.t) :
  ∃ (c' : FormController.t) (out : list Effect),
    generateSecret password c = Returns (tt, c', out)
    ∧ FormController._secret c' = FormController._secret c
    ∧ FormController._secretId c' = FormController._secretId c
    ∧ FormController.values c' = FormController.values c
    ∧ FormController._saveSecretRequestId c' ≠ 0
    ∧ (FormController._saveSecretRequestId c = 0 →
       out = [Send (FormController._saveSecretRequestId c') (saveSecretRequest password c)])
    ∧ (FormController._saveSecretRequestId c ≠ 0 → c' = c ∧ out = []).
Proof.
  unfold generateSecret.
  destruct (FormController._saveSecretRequestId c =? 0) eqn:Hflight.
  - ctl_with ltac:(rewrite ?Hflight).
    eexists _, _. split; [reflexivity |]. cbn.
    repeat split; try reflexivity; try lia.
  - ctl_with ltac:(rewrite ?Hflight).
    eexists _, _. split; [reflexivity |].
    repeat split; try reflexivity; try lia.
Qed.

(** C3. A recovery salt and a wrapped master secret are both supplied and
    unwrapping fails: the master secret is cleared and its identifier set
    to zero, every value that holds stored encrypted data is reset to the
    unset value of its type (the others are left as they were), the
    uploads in flight of the staged files of the values that are reset
    are cancelled, as those files are destroyed with the values, and
    [generateSecret] is started on that state, so that a request to save
    a fresh secret is in flight afterwards: the one now sent, if none was
    in flight before. *)
Theorem validateSecureSecret_unwrap_failure (c : FormController.t)
    (salt encryptedSecret password : bytes) :
  salt ≠ "" →
  encryptedSecret ≠ "" →
  DecryptSecureSecret salt encryptedSecret password = "" →
  ∃ (c' : FormController.t) (out : list Effect),
    validateSecureSecret salt encryptedSecret password c
    = Returns (tt, c',
               Log "API Error: Failed to decrypt secure secret. Forgetting all files and data :("
               :: forgottenUploads (FormController.values c) ++ out ++ [SecretReadyFired])
    ∧ generateSecret password
        (FormController.set_values (forgotten <$> FormController.values c)
           (FormController.set_secretId 0 (FormController.set_secret "" c)))
      = Returns (tt, c', out)
    ∧ requests (forgottenUploads (FormController.values c)) = []
    ∧ FormController._secret c' = ""
    ∧ FormController._secretId c' = 0
    ∧ (∀ (type : ValueType) (v : Value.t),
         FormController.values c !! type = Some v →
         FormController.values c' !! type
         = Some (if isEmpty (ValueData.original (Value.data v)) then v
                 else Value.create (Value.type v)))
    ∧ FormController._saveSecretRequestId c' ≠ 0
    ∧ (FormController._saveSecretRequestId c = 0 →
       out = [Send (FormController._saveSecretRequestId c') (saveSecretRequest password c)]).
Proof.
  intros Hsalt Hwrapped Hfails.
  apply isEmpty_false in Hsalt. apply isEmpty_false in Hwrapped.
  set (cleared :=
         FormController.set_values (forgotten <$> FormController.values c)
           (FormController.set_secretId 0 (FormController.set_secret "" c))).
  destruct (generateSecret_in_flight password cleared)
    as (c' & out & Hgenerate & Hsecret & Hid & Hvalues & Hflight & Hsent & _).
  exists c', out.
  assert (Hreset :
    for_each_value
      (fun _ value =>
         if negb (isEmpty (ValueData.original (Value.data value)))
         then Returns (resetValue value)
         else Returns (value, []))
      (FormController.set_secretId 0 (FormController.set_secret "" c))
    = Returns (tt, cleared, forgottenUploads (FormController.values c))).
  { rewrite (for_each_value_ext _ (fun _ v => Returns (forgotten v, forgottenUploadsOf v))).
    - rewrite for_each_value_walked. reflexivity.
    - intros _ v. unfold forgotten, forgottenUploadsOf, resetValue.
      destruct (isEmpty (ValueData.original (Value.data v))); reflexivity. }
  assert (Hcleared : FormController._secret cleared = "") by reflexivity.
  assert (Hzero : FormController._secretId cleared = 0) by reflexivity.
  assert (Hsame : FormController.values cleared = forgotten <$> FormController.values c)
    by reflexivity.
  assert (Hwas : FormController._saveSecretRequestId cleared
                 = FormController._saveSecretRequestId c) by reflexivity.
  assert (Hrequest : saveSecretRequest password cleared = saveSecretRequest password c)
    by reflexivity.
  clearbody cleared.
  repeat split.
  - unfold validateSecureSecret.
    ctl_with ltac:(rewrite ?Hsalt, ?Hwrapped, ?Hfails).
    cbn in Hreset. rewrite Hreset.
    ctl_with ltac:(rewrite ?Hcleared, ?Hgenerate). rewrite <- app_assoc. reflexivity.
  - exact Hgenerate.
  - apply requests_walked. intros v. unfold forgottenUploadsOf.
    destruct (isEmpty (ValueData.original (Value.data v)));
      [reflexivity | apply requests_destroyEditFiles].
  - congruence.
  - congruence.
  - intros type v Hv. rewrite Hvalues, Hsame, lookup_fmap, Hv. reflexivity.
  - exact Hflight.
  - rewrite <- Hwas, <- Hrequest. exact Hsent.
Qed.

(** ** Decrypting a value *)

Lemma validateFileSecret_unwraps (c : FormController.t) (file : File.t) :
  fileUnwraps c file = true →
  validateFileSecret c file = (true, unwrapped c file, []).
Proof.
  unfold fileUnwraps, validateFileSecret. fold (unwrapped c file).
  intros Hok. apply negb_true_iff in Hok. rewrite Hok. reflexivity.
Qed.

Lemma validateFileSecret_fails (c : FormController.t) (file : File.t) :
  fileUnwraps c file = false →
  ∃ msg, validateFileSecret c file = (false, unwrapped c file, [Log msg]).
Proof.
  unfold fileUnwraps, validateFileSecret. fold (unwrapped c file).
  intros Hok. apply negb_false_iff in Hok. rewrite Hok. eexists. reflexivity.
Qed.

Lemma validateScans_unwrap (c : FormController.t) (scans : list File.t) :
  forallb (fileUnwraps c) scans = true →
  validateScans c scans = (true, unwrapped c <$> scans, []).
Proof.
  induction scans as [| scan scans IH]; intros Hall; [reflexivity |].
  cbn [forallb] in Hall. apply andb_true_iff in Hall as [Hscan Hall].
  cbn [validateScans]. rewrite (validateFileSecret_unwraps _ _ Hscan), (IH Hall).
  reflexivity.
Qed.

Lemma validateScans_fail (c : FormController.t) (scans : list File.t) :
  forallb (fileUnwraps c) scans = false →
  ∃ scans' msg, validateScans c scans = (false, scans', [Log msg]).
Proof.
  induction scans as [| scan scans IH]; intros Hall; [discriminate |].
  cbn [forallb] in Hall. cbn [validateScans].
  destruct (fileUnwraps c scan) eqn:Hscan.
  - rewrite (validateFileSecret_unwraps _ _ Hscan).
    destruct (IH Hall) as (scans' & msg & ->). eexists _, _. reflexivity.
  - destruct (validateFileSecret_fails _ _ Hscan) as (msg & ->).
    eexists _, _. reflexivity.
Qed.

Lemma validateValueSecrets_unwrap (c : FormController.t) (v : Value.t) :
  ValueData.original (Value.data v) ≠ "" →
  secretsUnwrap c v = true →
  validateValueSecrets c v
  = (true,
     Value.set_selfie (unwrapped c <$> Value.selfie v)
       (Value.set_scans (unwrapped c <$> Value.scans v)
          (Value.set_data (ValueData.set_secret (dataSecret c v) (Value.data v)) v)),
     []).
Proof.
  intros Hstored Hok. apply isEmpty_false in Hstored.
  unfold secretsUnwrap in Hok.
  apply andb_true_iff in Hok as [Hok Hselfie].
  apply andb_true_iff in Hok as [Hdata Hscans].
  apply negb_true_iff in Hdata.
  unfold validateValueSecrets. rewrite Hstored. cbn [negb andb].
  cbn [Value.data Value.set_data ValueData.secret ValueData.set_secret].
  fold (dataSecret c v). rewrite Hdata.
  cbn [Value.scans Value.set_data]. rewrite (validateScans_unwrap _ _ Hscans).
  cbn [Value.selfie Value.set_scans].
  destruct v as [type data scans scansInEdit [selfie |] selfieInEdit submitHash
                   verification editScreens saveRequestId error];
    cbn in *.
  - rewrite (validateFileSecret_unwraps _ _ Hselfie). reflexivity.
  - reflexivity.
Qed.

Lemma validateValueSecrets_fail (c : FormController.t) (v : Value.t) :
  ValueData.original (Value.data v) ≠ "" →
  secretsUnwrap c v = false →
  ∃ v' msg, validateValueSecrets c v = (false, v', [Log msg])
            ∧ Value.type v' = Value.type v
            ∧ filesInEdit v' = filesInEdit v.
Proof.
  intros Hstored Hok. apply isEmpty_false in Hstored.
  unfold secretsUnwrap in Hok.
  unfold validateValueSecrets. rewrite Hstored. cbn [negb andb].
  cbn [Value.data Value.set_data ValueData.secret ValueData.set_secret].
  fold (dataSecret c v).
  destruct (isEmpty (dataSecret c v)) eqn:Hdata.
  { eexists _, _. repeat split. }
  cbn [negb andb] in Hok.
  cbn [Value.scans Value.set_data].
  destruct (forallb (fileUnwraps c) (Value.scans v)) eqn:Hscans.
  - rewrite (validateScans_unwrap _ _ Hscans).
    cbn [andb] in Hok. cbn [Value.selfie Value.set_scans Value.set_data].
    destruct (Value.selfie v) as [selfie |]; [| discriminate].
    destruct (validateFileSecret_fails _ _ Hok) as (msg & ->).
    eexists _, _. repeat split.
  - destruct (validateScans_fail _ _ Hscans) as (scans' & msg & ->).
    eexists _, _. repeat split.
Qed.

(** C1, as the code has it. A value with stored encrypted data is
    decrypted while the master secret is present: the call returns; if a
    wrapped secret of the value (of its data, of a scan or of its selfie)
    does not unwrap, the condition is logged and the value is reset to
    the unset value of its type, which destroys its staged files and so
    cancels their uploads in flight;
    if they all unwrap and the stored data decrypts, the value is kept
    with the unwrapped secrets and its field map is replaced, whole, by
    the deserialized plaintext, which may be the empty map. *)
Theorem decryptValue_resets_or_replaces (c : FormController.t) (v : Value.t) :
  FormController._secret c ≠ "" →
  ValueData.original (Value.data v) ≠ "" →
  (∃ (v' : Value.t) (out : list Effect), decryptValue c v = Returns (v', out))
  ∧ (secretsUnwrap c v = false →
     ∃ msg, decryptValue c v
            = Returns (Value.create (Value.type v),
                       Log msg :: destroyEditFiles (filesInEdit v)))
  ∧ (secretsUnwrap c v = true →
     plaintext c v ≠ "" →
     decryptValue c v = Returns (decrypted c v, [])
     ∧ ValueMap.fields (ValueData.parsed (Value.data (decrypted c v)))
       = DeserializeData (plaintext c v)).
Proof.
  intros Hsecret Hstored.
  assert (Hreset : secretsUnwrap c v = false →
    ∃ msg, decryptValue c v
           = Returns (Value.create (Value.type v),
                      Log msg :: destroyEditFiles (filesInEdit v))).
  { intros Hok. unfold decryptValue.
    rewrite (proj2 (isEmpty_false _) Hsecret).
    destruct (validateValueSecrets_fail c v Hstored Hok)
      as (v' & msg & -> & Htype & Hfiles).
    cbn [negb]. unfold resetValue. rewrite Htype, Hfiles. eexists. reflexivity. }
  assert (Hkeep : secretsUnwrap c v = true → decryptValue c v = Returns (decrypted c v, [])).
  { intros Hok. unfold decryptValue.
    rewrite (proj2 (isEmpty_false _) Hsecret).
    rewrite (validateValueSecrets_unwrap c v Hstored Hok).
    cbn [negb]. cbn. rewrite (proj2 (isEmpty_false _) Hstored). reflexivity. }
  split; [| split].
  - destruct (secretsUnwrap c v) eqn:Hok.
    + eexists _, _. apply Hkeep. reflexivity.
    + destruct (Hreset eq_refl) as (msg & ->). eexists _, _. reflexivity.
  - exact Hreset.
  - intros Hok _. split; [apply Hkeep, Hok | reflexivity].
Qed.

(** ** Saving an edit that changed nothing *)

Lemma savingValue_false (v : Value.t) :
  savingValue v = false →
  Value.saveRequestId v = 0
  ∧ Verification.requestId (Value.verification v) = 0
  ∧ Verification.codeLength (Value.verification v) = 0.
Proof.
  unfold savingValue. intros Hsaving.
  apply orb_false_iff in Hsaving as [Hsaving Hlength].
  apply orb_false_iff in Hsaving as [Hsave Hrequest].
  apply negb_false_iff in Hsave, Hrequest, Hlength. lia.
Qed.

Lemma fieldsChanged_false (entries : list (string * string))
    (existing : gmap string string) :
  NoDup entries.*1 →
  fieldsChanged entries existing = false
  ↔ (∀ key value, (key, value) ∈ entries →
       existing !! key = Some value ∨ (existing !! key = None ∧ value = ""))
    ∧ (∀ key, is_Some (existing !! key) → key ∈ entries.*1).
Proof.
  revert existing. induction entries as [| [k x] rest IH]; intros existing Hnodup.
  - cbn [fieldsChanged]. rewrite negb_false_iff, bool_decide_eq_true. split.
    + intros ->. split.
      * intros key value Hin. inversion Hin.
      * intros key [y Hy]. rewrite lookup_empty in Hy. discriminate.
    + intros [_ Hnone]. apply map_empty. intros key.
      destruct (existing !! key) eqn:Hkey; [| reflexivity].
      assert (Hin : key ∈ ([] : list (string * string)).*1) by (apply Hnone; eauto).
      inversion Hin.
  - cbn [fmap list_fmap] in Hnodup. apply NoDup_cons in Hnodup as [Hfresh Hnodup].
    cbn [fst] in Hfresh.
    assert (Hrest : ∀ key value, (key, value) ∈ rest → key ≠ k).
    { intros key value Hin ->. apply Hfresh.
      apply list_elem_of_fmap. exists (k, value). split; [reflexivity | exact Hin]. }
    cbn [fieldsChanged].
    destruct (existing !! k) as [old |] eqn:Hk.
    + destruct (decide (old = x)) as [-> | Hne].
      * rewrite bool_decide_eq_true_2 by reflexivity. cbn [negb].
        rewrite (IH _ Hnodup). split.
        -- intros [Hsame Hall]. split.
           ++ intros key value Hin. apply elem_of_cons in Hin as [Heq | Hin].
              ** injection Heq as -> ->. left. exact Hk.
              ** specialize (Hsame key value Hin).
                 rewrite lookup_delete_ne in Hsame by (symmetry; eapply Hrest, Hin).
                 exact Hsame.
           ++ intros key Hsome. cbn [fmap list_fmap fst].
              destruct (decide (key = k)) as [-> | Hother].
              ** apply list_elem_of_here.
              ** apply list_elem_of_further, Hall.
                 rewrite lookup_delete_ne by congruence. exact Hsome.
        -- intros [Hsame Hall]. split.
           ++ intros key value Hin.
              rewrite lookup_delete_ne by (symmetry; eapply Hrest, Hin).
              apply Hsame, list_elem_of_further, Hin.
           ++ intros key Hsome.
              destruct (decide (key = k)) as [-> | Hother].
              ** rewrite lookup_delete_eq in Hsome. destruct Hsome; discriminate.
              ** rewrite lookup_delete_ne in Hsome by congruence.
                 specialize (Hall key Hsome). cbn [fmap list_fmap fst] in Hall.
                 apply elem_of_cons in Hall as [? | Hall]; [contradiction | exact Hall].
      * rewrite bool_decide_eq_false_2 by exact Hne. cbn [negb]. split; [discriminate |].
        intros [Hsame _]. destruct (Hsame k x) as [Hold | [Hnone _]].
        -- apply list_elem_of_here.
        -- congruence.
        -- congruence.
    + destruct (isEmpty x) eqn:Hx; cbn [negb].
      * apply isEmpty_true in Hx. subst x. rewrite (IH _ Hnodup). split.
        -- intros [Hsame Hall]. split.
           ++ intros key value Hin. apply elem_of_cons in Hin as [Heq | Hin].
              ** injection Heq as -> ->. right. split; [exact Hk | reflexivity].
              ** apply Hsame, Hin.
           ++ intros key Hsome. cbn [fmap list_fmap fst].
              apply list_elem_of_further, Hall, Hsome.
        -- intros [Hsame Hall]. split.
           ++ intros key value Hin. apply Hsame, list_elem_of_further, Hin.
           ++ intros key Hsome. specialize (Hall key Hsome).
              cbn [fmap list_fmap fst] in Hall.
              apply elem_of_cons in Hall as [-> | Hall]; [| exact Hall].
              rewrite Hk in Hsome. destruct Hsome; discriminate.
      * apply isEmpty_false in Hx. split; [discriminate |].
        intros [Hsame _]. destruct (Hsame k x) as [Hold | [_ Hempty]].
        -- apply list_elem_of_here.
        -- congruence.
        -- contradiction.
Qed.

Lemma existsb_false {A : Type} (f : A → bool) (l : list A) :
  existsb f l = false ↔ Forall (fun x => f x = false) l.
Proof.
  induction l as [| x l IH]; cbn [existsb].
  - split; [constructor | reflexivity].
  - rewrite orb_false_iff, IH, Forall_cons. reflexivity.
Qed.

Lemma editValueChanged_false (v : Value.t) (data : ValueMap.t) :
  editValueChanged v data = false ↔ unchangedEdit v data.
Proof.
  unfold editValueChanged, unchangedEdit, sameFields.
  rewrite <- existsb_false.
  destruct (existsb editFileChanged (Value.scansInEdit v)).
  { split; [discriminate | intros [? _]; discriminate]. }
  destruct (Value.selfieInEdit v) as [selfie |] eqn:Hselfie.
  - destruct (editFileChanged selfie) eqn:Hchanged.
    + split; [discriminate |]. intros (_ & Hunchanged & _).
      specialize (Hunchanged selfie eq_refl). congruence.
    + rewrite fieldsChanged_false by apply NoDup_fst_map_to_list.
      split.
      * intros [Hsame Hall]. split; [reflexivity |]. split.
        -- intros selfie' Heq. injection Heq as <-. exact Hchanged.
        -- split.
           ++ intros key value Hkey. apply Hsame, elem_of_map_to_list, Hkey.
           ++ intros key Hsome. specialize (Hall key Hsome).
              apply list_elem_of_fmap in Hall as ([key' value] & -> & Hin).
              apply elem_of_map_to_list in Hin. eauto.
      * intros (_ & _ & Hsame & Hall). split.
        -- intros key value Hin. apply Hsame, elem_of_map_to_list, Hin.
        -- intros key Hsome. destruct (Hall key Hsome) as [value Hvalue].
           apply list_elem_of_fmap. exists (key, value).
           split; [reflexivity | apply elem_of_map_to_list, Hvalue].
  - rewrite fieldsChanged_false by apply NoDup_fst_map_to_list.
    split.
    + intros [Hsame Hall]. split; [reflexivity |]. split; [discriminate |]. split.
      * intros key value Hkey. apply Hsame, elem_of_map_to_list, Hkey.
      * intros key Hsome. specialize (Hall key Hsome).
        apply list_elem_of_fmap in Hall as ([key' value] & -> & Hin).
        apply elem_of_map_to_list in Hin. eauto.
    + intros (_ & _ & Hsame & Hall). split.
      * intros key value Hin. apply Hsame, elem_of_map_to_list, Hin.
      * intros key Hsome. destruct (Hall key Hsome) as [value Hvalue].
        apply list_elem_of_fmap. exists (key, value).
        split; [reflexivity | apply elem_of_map_to_list, Hvalue].
Qed.

(** C6. A value is not saving and no submission is in flight, and the edit
    changed nothing, field by field and file by file: [saveValueEdit]
    sends nothing and only marks the value and queues its completion for
    the main thread; and that completion, whenever it runs, drops the
    staged scans, the staged selfie and the in-edit hash, secret and
    fields of the value, clears its error and its mark and fires
    save-finished, sending nothing either. *)
Theorem saveValueEdit_unchanged_finishes (c : FormController.t) (value : ValueType)
    (v : Value.t) (data : ValueMap.t) :
  FormController.values c !! value = Some v →
  savingValue v = false →
  FormController._submitRequestId c = 0 →
  unchangedEdit v data →
  saveValueEdit value data c
  = Returns (tt,
             FormController.set_values
               (<[value := Value.set_saveRequestId (-1) v]> (FormController.values c)) c,
             [OnMain (FinishUnchangedSave value)])
  ∧ (∀ (c1 : FormController.t) (v1 : Value.t),
       FormController.values c1 !! value = Some v1 →
       call (FinishUnchangedSave value) c1
       = Returns (tt,
                  FormController.set_values
                    (<[value := afterUnchangedSave v1]> (FormController.values c1)) c1,
                  destroyEditFiles (filesInEdit v1) ++ [ValueSaveFinishedFired value])
       ∧ requests (destroyEditFiles (filesInEdit v1) ++ [ValueSaveFinishedFired value]) = []
       ∧ Value.scansInEdit (afterUnchangedSave v1) = []
       ∧ Value.selfieInEdit (afterUnchangedSave v1) = None
       ∧ ValueData.hashInEdit (Value.data (afterUnchangedSave v1)) = ""
       ∧ ValueData.encryptedSecretInEdit (Value.data (afterUnchangedSave v1)) = ""
       ∧ ValueData.parsedInEdit (Value.data (afterUnchangedSave v1)) = ValueMap.empty
       ∧ Value.error (afterUnchangedSave v1) = None
       ∧ savingValue (afterUnchangedSave v1) = savingValue (Value.set_saveRequestId 0 v1)).
Proof.
  intros Hv Hsaving Hsubmit Hsame.
  apply editValueChanged_false in Hsame.
  split.
  - unfold saveValueEdit.
    ctl_with ltac:(rewrite ?Hv, ?Hsaving, ?Hsubmit, ?Hsame). reflexivity.
  - intros c1 v1 Hv1. split; [| split].
    + unfold call, saveValueEdit_unchanged.
      ctl_with ltac:(rewrite ?Hv1). reflexivity.
    + rewrite requests_app, requests_destroyEditFiles. reflexivity.
    + repeat split.
Qed.

(** ** Saves queued until the secret is there *)

Lemma liveSelfieInEdit_set_data (d : ValueData.t) (v : Value.t) :
  liveSelfieInEdit (Value.set_data d v) = liveSelfieInEdit v.
Proof. reflexivity. Qed.

Lemma saveEncryptedValue_sends (c : FormController.t) (value : ValueType) (v : Value.t) :
  FormController.values c !! value = Some v →
  savable v →
  FormController._secret c ≠ "" →
  ∃ (c' : FormController.t) (input : MTPInputSecureValue),
    saveEncryptedValue value c
    = Returns (tt, c',
               [Send (Z.pos (FormController.sender_next c))
                  (MTPaccount_SaveSecureValue input (FormController._secretId c))])
    ∧ isv_type input = Convert.toMTP (Value.type v)
    ∧ FormController._secret c' = FormController._secret c
    ∧ FormController._secretId c' = FormController._secretId c
    ∧ FormController._secretCallbacks c' = FormController._secretCallbacks c
    ∧ (∀ other, other ≠ value →
         FormController.values c' !! other = FormController.values c !! other)
    ∧ (∃ v', FormController.values c' !! value = Some v'
             ∧ Value.saveRequestId v' = Z.pos (FormController.sender_next c)).
Proof.
  intros Hv (Hencrypted & Hidle & Hflags) Hsecret.
  apply isEmpty_false in Hsecret.
  assert (Hidle' : (Value.saveRequestId v =? 0) = true) by lia.
  unfold no_flags, saveFlags in Hflags. cbn in Hflags.
  unfold saveEncryptedValue, sendSaveRequest.
  ctl_with ltac:(rewrite ?Hv, ?Hencrypted, ?Hsecret).
  destruct (isEmpty (ValueData.secret (Value.data v))) eqn:Hfresh;
    ctl_with ltac:(rewrite ?Hv, ?lookup_insert_eq, ?insert_insert_eq);
    (destruct (Value.type v) eqn:Htype; try discriminate Hencrypted;
     unfold saveFlags, no_flags;
     ctl_with ltac:(rewrite ?liveSelfieInEdit_set_data, ?Hflags, ?Hidle',
                      ?lookup_insert_eq, ?insert_insert_eq);
     eexists _, _; (split; [reflexivity |]); cbn;
     do 4 (split; [reflexivity |]);
     (split;
      [ intros other Hother; apply lookup_insert_ne; congruence
      | eexists; rewrite lookup_insert_eq; split; reflexivity ])).
Qed.

Lemma Forall2_impl_elem {A B : Type} (R1 R2 : A → B → Prop) (l : list A) (k : list B) :
  Forall2 R1 l k →
  (∀ x y, x ∈ l → R1 x y → R2 x y) →
  Forall2 R2 l k.
Proof.
  induction 1 as [| x y l k Hxy Hrest IH]; intros Himpl; constructor.
  - apply Himpl; [apply list_elem_of_here | exact Hxy].
  - apply IH. intros x' y' Hin. apply Himpl, list_elem_of_further, Hin.
Qed.

Lemma replay_in_order (queue : list ValueType) (c : FormController.t) :
  FormController._secret c ≠ "" →
  NoDup queue →
  (∀ value, value ∈ queue →
     ∃ v, FormController.values c !! value = Some v ∧ savable v) →
  ∃ (c' : FormController.t) (out : list Effect),
    for_each (SaveEncryptedValue <$> queue) call c = Returns (tt, c', out)
    ∧ FormController._secret c' = FormController._secret c
    ∧ FormController._secretId c' = FormController._secretId c
    ∧ FormController._secretCallbacks c' = FormController._secretCallbacks c
    ∧ (∀ other, other ∉ queue →
         FormController.values c' !! other = FormController.values c !! other)
    ∧ Forall2 (savesValue c (FormController._secretId c)) queue (requests out)
    ∧ (∀ value, value ∈ queue →
         ∃ v', FormController.values c' !! value = Some v'
               ∧ Value.saveRequestId v' ≠ 0).
Proof.
  revert c. induction queue as [| value queue IH]; intros c Hsecret Hnodup Hsavable.
  - exists c, []. repeat split; try reflexivity.
    + constructor.
    + intros value Hin. inversion Hin.
  - apply NoDup_cons in Hnodup as [Hfresh Hnodup].
    destruct (Hsavable value) as (v & Hv & Hok); [apply list_elem_of_here |].
    destruct (saveEncryptedValue_sends c value v Hv Hok Hsecret)
      as (c1 & input & Hsend & Htype & Hsecret1 & Hid1 & Hqueue1 & Hothers1 & v1 & Hv1 & Hsaving1).
    destruct (IH c1) as (c' & out & Hrest & Hsecret' & Hid' & Hqueue' & Hothers' & Hsent & Hsaving').
    + rewrite Hsecret1. exact Hsecret.
    + exact Hnodup.
    + intros other Hin. rewrite Hothers1.
      * apply Hsavable. apply list_elem_of_further, Hin.
      * intros ->. contradiction.
    + exists c', ([Send (Z.pos (FormController.sender_next c))
                    (MTPaccount_SaveSecureValue input (FormController._secretId c))] ++ out).
      split; [| split; [| split; [| split; [| split; [| split]]]]].
      * cbn [fmap list_fmap for_each]. change (for_each (list_fmap _ _ SaveEncryptedValue queue) call)
          with (for_each (SaveEncryptedValue <$> queue) call).
        unfold bind. cbn [call]. rewrite Hsend, Hrest. reflexivity.
      * congruence.
      * congruence.
      * congruence.
      * intros other Hother. rewrite not_elem_of_cons in Hother.
        destruct Hother as [Hne Hother].
        rewrite (Hothers' other Hother). apply Hothers1, Hne.
      * cbn. constructor.
        -- exists v, input. repeat split; [exact Hv | exact Htype].
        -- rewrite Hid1 in Hsent.
           eapply Forall2_impl_elem; [exact Hsent |].
           intros other r Hin (v0 & input0 & Hv0 & -> & Htype0).
           exists v0, input0. repeat split; [| exact Htype0].
           rewrite <- (Hothers1 other); [exact Hv0 |].
           intros ->. contradiction.
      * intros other Hin. apply elem_of_cons in Hin as [-> | Hin].
        -- exists v1. rewrite (Hothers' value Hfresh). split; [exact Hv1 | lia].
        -- apply Hsaving', Hin.
Qed.

(** A save that returns was one of a value that can be saved. *)
Lemma saveEncryptedValue_returns (c c' : FormController.t) (value : ValueType)
    (out : list Effect) :
  FormController._secret c ≠ "" →
  saveEncryptedValue value c = Returns (tt, c', out) →
  ∃ v, FormController.values c !! value = Some v ∧ savable v.
Proof.
  intros Hsecret. apply isEmpty_false in Hsecret.
  unfold saveEncryptedValue, sendSaveRequest.
  destruct (FormController.values c !! value) as [v |] eqn:Hv;
    [| ctl_with ltac:(rewrite ?Hv); discriminate].
  intros Hrun. exists v. split; [reflexivity |].
  unfold savable.
  destruct (isEncryptedValue (Value.type v)) eqn:Hencrypted;
    [| revert Hrun; ctl_with ltac:(rewrite ?Hv, ?Hencrypted); discriminate].
  destruct (no_flags (saveFlags v)) eqn:Hflags.
  { exfalso. revert Hrun. unfold no_flags, saveFlags in Hflags. cbn in Hflags.
    ctl_with ltac:(rewrite ?Hv, ?Hencrypted, ?Hsecret).
    destruct (isEmpty (ValueData.secret (Value.data v)));
      ctl_with ltac:(rewrite ?Hv, ?lookup_insert_eq, ?insert_insert_eq);
      (destruct (Value.type v); try discriminate Hencrypted;
       unfold saveFlags, no_flags;
       ctl_with ltac:(rewrite ?liveSelfieInEdit_set_data, ?Hflags); discriminate). }
  destruct (Value.saveRequestId v =? 0) eqn:Hidle.
  { repeat split. lia. }
  exfalso. revert Hrun. unfold no_flags, saveFlags in Hflags. cbn in Hflags.
  ctl_with ltac:(rewrite ?Hv, ?Hencrypted, ?Hsecret).
  destruct (isEmpty (ValueData.secret (Value.data v)));
    ctl_with ltac:(rewrite ?Hv, ?lookup_insert_eq, ?insert_insert_eq);
    (destruct (Value.type v); try discriminate Hencrypted;
     unfold saveFlags, no_flags;
     ctl_with ltac:(rewrite ?liveSelfieInEdit_set_data, ?Hflags, ?Hidle,
                      ?lookup_insert_eq, ?insert_insert_eq);
     discriminate).
Qed.

(** A replay that returns replayed saves of values that can be saved, no
    value twice. *)
Lemma replay_returns (queue : list ValueType) (c c' : FormController.t)
    (out : list Effect) :
  FormController._secret c ≠ "" →
  for_each (SaveEncryptedValue <$> queue) call c = Returns (tt, c', out) →
  NoDup queue
  ∧ (∀ value, value ∈ queue →
       ∃ v, FormController.values c !! value = Some v ∧ savable v).
Proof.
  revert c c' out. induction queue as [| value queue IH]; intros c c' out Hsecret Hrun.
  - split; [constructor |]. intros value Hin. inversion Hin.
  - cbn [fmap list_fmap for_each] in Hrun.
    change (for_each (list_fmap _ _ SaveEncryptedValue queue) call)
      with (for_each (SaveEncryptedValue <$> queue) call) in Hrun.
    unfold bind in Hrun. cbn [call] in Hrun.
    destruct (saveEncryptedValue value c) as [[[[] c1] out1] | what] eqn:Hsave;
      [| discriminate].
    destruct (saveEncryptedValue_returns c c1 value out1 Hsecret Hsave) as (v & Hv & Hok).
    destruct (saveEncryptedValue_sends c value v Hv Hok Hsecret)
      as (c1' & input & Hsend & _ & Hsecret1 & _ & _ & Hothers1 & v1 & Hv1 & Hsaving1).
    rewrite Hsave in Hsend. injection Hsend as <- _.
    destruct (for_each (SaveEncryptedValue <$> queue) call c1)
      as [[[[] c2] out2] | what] eqn:Hrest; [| discriminate].
    destruct (IH c1 c2 out2) as [Hnodup Hsavable].
    { rewrite Hsecret1. exact Hsecret. }
    { exact Hrest. }
    assert (Hfresh : value ∉ queue).
    { intros Hin. destruct (Hsavable value Hin) as (v' & Hv' & _ & Hidle & _).
      rewrite Hv1 in Hv'. injection Hv' as <-. lia. }
    split.
    + apply NoDup_cons. split; assumption.
    + intros other Hin. apply elem_of_cons in Hin as [-> | Hin].
      * exists v. split; assumption.
      * rewrite <- (Hothers1 other); [apply Hsavable, Hin |].
        intros ->. contradiction.
Qed.

(** What holds of the queue of callbacks.  A save of an encrypted value
    requested while the master secret is absent is not executed: it is
    appended to the queue.  When the request to save the generated secret
    succeeds and that secret is there, the queue is emptied and the queued
    saves are called in the order they were requested: whenever the replay
    returns, the save requests sent are those of the queued values, in
    that order, the queue is empty and each of the values has its save in
    flight; and the replay does return when every queued value can be
    saved and no value is queued twice. *)
Theorem queued_saves_replayed_in_order :
  (∀ (c : FormController.t) (value : ValueType) (v : Value.t),
     FormController.values c !! value = Some v →
     isEncryptedValue (Value.type v) = true →
     FormController._secret c = "" →
     saveEncryptedValue value c
     = Returns (tt,
                FormController.set_secretCallbacks
                  (FormController._secretCallbacks c ++ [SaveEncryptedValue value]) c,
                []))
  ∧ (∀ (c : FormController.t) (queue : list ValueType) (secret : bytes)
       (secureSecretId : Z),
       secret ≠ "" →
       FormController._secretCallbacks c = SaveEncryptedValue <$> queue →
       (NoDup queue →
        (∀ value, value ∈ queue →
           ∃ v, FormController.values c !! value = Some v ∧ savable v) →
        ∃ (c' : FormController.t) (out : list Effect),
          generateSecret_done secret secureSecretId c = Returns (tt, c', out))
       ∧ (∀ (c' : FormController.t) (out : list Effect),
            generateSecret_done secret secureSecretId c = Returns (tt, c', out) →
            FormController._secret c' = secret
            ∧ FormController._secretCallbacks c' = []
            ∧ Forall2 (savesValue c secureSecretId) queue (requests out)
            ∧ (∀ value, value ∈ queue →
                 ∃ v', FormController.values c' !! value = Some v'
                       ∧ Value.saveRequestId v' ≠ 0))).
Proof.
  split.
  - intros c value v Hv Hencrypted Hsecret.
    unfold saveEncryptedValue.
    ctl_with ltac:(rewrite ?Hv, ?Hencrypted, ?Hsecret). reflexivity.
  - intros c queue secret secureSecretId Hsecret Hqueue.
    set (c0 := FormController.set_secretCallbacks []
                 (FormController.set_secretId secureSecretId
                    (FormController.set_secret secret
                       (FormController.set_saveSecretRequestId 0 c)))).
    assert (Hdone : generateSecret_done secret secureSecretId c
                    = for_each (SaveEncryptedValue <$> queue) call c0).
    { unfold generateSecret_done. unfold bind, modify, gets. cbn. rewrite Hqueue.
      fold c0. destruct (for_each (SaveEncryptedValue <$> queue) call c0)
        as [[[[] c'] out] |]; reflexivity. }
    rewrite Hdone.
    assert (Hreplay :
      NoDup queue →
      (∀ value, value ∈ queue →
         ∃ v, FormController.values c !! value = Some v ∧ savable v) →
      ∃ c' out,
        for_each (SaveEncryptedValue <$> queue) call c0 = Returns (tt, c', out)
        ∧ FormController._secret c' = secret
        ∧ FormController._secretCallbacks c' = []
        ∧ Forall2 (savesValue c secureSecretId) queue (requests out)
        ∧ (∀ value, value ∈ queue →
             ∃ v', FormController.values c' !! value = Some v'
                   ∧ Value.saveRequestId v' ≠ 0)).
    { intros Hnodup Hsavable.
      destruct (replay_in_order queue c0 Hsecret Hnodup Hsavable)
        as (c' & out & Hrun & Hsecret' & _ & Hqueue' & _ & Hsent & Hsaving).
      exists c', out. repeat split; assumption. }
    split.
    + intros Hnodup Hsavable.
      destruct (Hreplay Hnodup Hsavable) as (c' & out & Hrun & _).
      exists c', out. exact Hrun.
    + intros c' out Hrun.
      destruct (replay_returns queue c0 c' out Hsecret Hrun) as [Hnodup Hsavable].
      destruct (Hreplay Hnodup Hsavable) as (c'' & out'' & Hrun' & Hrest).
      rewrite Hrun in Hrun'. injection Hrun' as <- <-. exact Hrest.
Qed.

(** ** A save in flight *)

Lemma sendSaveRequest_fail_surfaces (c : FormController.t) (value : ValueType)
    (v : Value.t) (error : RPCError) :
  FormController.values c !! value = Some v →
  Verification.requestId (Value.verification v) = 0 →
  Verification.codeLength (Value.verification v) = 0 →
  asksVerification (Value.type v) error = false →
  sendSaveRequest_fail value error c
  = Returns (tt,
             FormController.set_values
               (<[value := afterFailedSave v]> (FormController.values c)) c,
             [ShowBox ("Error saving value:" +:+ String "010"%char "" +:+ error_type error)]
             ++ (if Value.editScreens v =? 0 then destroyEditFiles (filesInEdit v) else [])
             ++ [ValueSaveFinishedFired value])
    ∧ savingValue (afterFailedSave v) = false.
Proof.
  intros Hv Hrequest Hlength Hasks.
  assert (Hidle : savingValue (Value.set_saveRequestId 0 v) = false).
  { unfold savingValue. cbn. rewrite Hrequest, Hlength. reflexivity. }
  split.
  - assert (Hfailed :
      valueSaveFailed value error
        (FormController.set_values
           (<[value := Value.set_saveRequestId 0 v]> (FormController.values c)) c)
      = Returns (tt,
                 FormController.set_values
                   (<[value := afterFailedSave v]> (FormController.values c)) c,
                 [ShowBox ("Error saving value:" +:+ String "010"%char "" +:+ error_type error)]
                 ++ (if Value.editScreens v =? 0 then destroyEditFiles (filesInEdit v) else [])
                 ++ [ValueSaveFinishedFired value])).
    { unfold valueSaveFailed, valueEditFailed, clearValueEdit, afterFailedSave.
      ctl_with ltac:(rewrite ?lookup_insert_eq, ?Hidle).
      destruct (Value.editScreens v =? 0) eqn:Hscreens.
      - ctl_with ltac:(rewrite ?lookup_insert_eq, ?insert_insert_eq, ?Hidle, ?app_nil_r).
        reflexivity.
      - reflexivity. }
    unfold sendSaveRequest_fail.
    unfold bind at 1. unfold modifyValue, bind at 1, findValue, bind at 1.
    unfold gets. rewrite Hv. unfold ret at 1. unfold storeValue, modify.
    unfold bind at 1. unfold findValue, bind at 1, gets. cbn [FormController.values
      FormController.set_values FormController._form FormController.set_form
      Form.values Form.set_values].
    rewrite lookup_insert_eq. unfold ret at 1.
    cbn [Value.type Value.set_saveRequestId].
    unfold asksVerification in Hasks.
    apply orb_false_iff in Hasks as [Hphone Hemail].
    destruct (String.eqb (error_type error) "PHONE_VERIFICATION_NEEDED").
    + cbn [andb] in Hphone. rewrite Hphone.
      change (FormController.set_form _ c)
        with (FormController.set_values
                (<[value := Value.set_saveRequestId 0 v]> (FormController.values c)) c).
      rewrite Hfailed. cbn [app]. reflexivity.
    + destruct (String.eqb (error_type error) "EMAIL_VERIFICATION_NEEDED").
      * cbn [andb] in Hemail. rewrite Hemail.
        change (FormController.set_form _ c)
          with (FormController.set_values
                  (<[value := Value.set_saveRequestId 0 v]> (FormController.values c)) c).
        rewrite Hfailed. cbn [app]. reflexivity.
      * change (FormController.set_form _ c)
          with (FormController.set_values
                  (<[value := Value.set_saveRequestId 0 v]> (FormController.values c)) c).
        rewrite Hfailed. cbn [app]. reflexivity.
  - unfold afterFailedSave. cbn [Value.editScreens Value.set_saveRequestId].
    destruct (Value.editScreens v =? 0); [| exact Hidle].
    unfold savingValue in *. cbn in *. exact Hidle.
Qed.

(** C8, as the code has it. While a save of a value is in flight (its save
    request id is not zero, or its verification is in progress), a further
    save and a deletion of that value are rejected and change nothing;
    while a submission is in flight, a second submission and every save
    are rejected and change nothing (a save in flight, for its part, is
    not looked at by [submit]); and a save that failed with an error that
    does not ask for the verification of the value shows the error, fires
    save-finished and leaves the value no longer saving, so that it can be
    edited and saved again. *)
Theorem save_in_flight_blocks (c : FormController.t) (value : ValueType) (v : Value.t) :
  FormController.values c !! value = Some v →
  (savingValue v = true →
   (∀ data : ValueMap.t, saveValueEdit value data c = Returns (tt, c, []))
   ∧ deleteValueEdit value c = Returns (tt, c, []))
  ∧ (FormController._submitRequestId c ≠ 0 →
     submit c = Returns (true, c, [])
     ∧ (∀ data : ValueMap.t, saveValueEdit value data c = Returns (tt, c, []))
     ∧ deleteValueEdit value c = Returns (tt, c, []))
  ∧ (∀ error : RPCError,
       Verification.requestId (Value.verification v) = 0 →
       Verification.codeLength (Value.verification v) = 0 →
       asksVerification (Value.type v) error = false →
       sendSaveRequest_fail value error c
       = Returns (tt,
                  FormController.set_values
                    (<[value := afterFailedSave v]> (FormController.values c)) c,
                  [ShowBox ("Error saving value:" +:+ String "010"%char ""
                            +:+ error_type error)]
                  ++ (if Value.editScreens v =? 0
                      then destroyEditFiles (filesInEdit v) else [])
                  ++ [ValueSaveFinishedFired value])
       ∧ savingValue (afterFailedSave v) = false).
Proof.
  intros Hv. split; [| split].
  - intros Hsaving. split.
    + intros data. unfold saveValueEdit.
      ctl_with ltac:(rewrite ?Hv, ?Hsaving). reflexivity.
    + unfold deleteValueEdit.
      ctl_with ltac:(rewrite ?Hv, ?Hsaving). reflexivity.
  - intros Hsubmit.
    assert (Hflight : (FormController._submitRequestId c =? 0) = false) by lia.
    split; [| split].
    + unfold submit. ctl_with ltac:(rewrite ?Hflight). reflexivity.
    + intros data. unfold saveValueEdit.
      ctl_with ltac:(rewrite ?Hv, ?Hflight, ?orb_true_r). reflexivity.
    + unfold deleteValueEdit.
      ctl_with ltac:(rewrite ?Hv, ?Hflight, ?orb_true_r). reflexivity.
  - intros error Hrequest Hlength Hasks.
    apply sendSaveRequest_fail_surfaces; assumption.
Qed.

(** The request of [startEmailVerification] fails: its continuation goes to
    [valueSaveFailed] with the verification request id still set, and the
    program ends at [Expects(!savingValue(value))] of [valueEditFailed];
    the continuation of [startPhoneVerification] clears the id first. *)
Lemma startEmailVerification_fail_violates (c : FormController.t) (value : ValueType)
    (v : Value.t) (error : RPCError) :
  FormController.values c !! value = Some v →
  Verification.requestId (Value.verification v) ≠ 0 →
  startEmailVerification_fail value error c = Violation "!savingValue(value)".
Proof.
  intros Hv Hrequest.
  assert (Hsaving : savingValue v = true).
  { unfold savingValue. apply orb_true_iff. left. apply orb_true_iff. right. lia. }
  unfold startEmailVerification_fail, valueSaveFailed, valueEditFailed.
  ctl_with ltac:(rewrite ?Hv, ?Hsaving). reflexivity.
Qed.

(** ** The credentials of the final submission *)

Lemma GetJSONFromFile_pair (file : File.t) :
  GetJSONFromFile file = jsonOfPair "file_hash" (fileCredentials file).
Proof.
  unfold GetJSONFromFile, GetJSONFromMap, jsonOfPair.
  rewrite !fmap_insert, fmap_empty. reflexivity.
Qed.

Lemma addValueToJSON_credentials (identitySelfieRequired : bool) (key : QString)
    (v : Value.t) (secureData : gmap string QJsonValue) :
  addValueToJSON identitySelfieRequired key v secureData
  = <[key := jsonOfCredentials (credentialsOf identitySelfieRequired v)]> secureData.
Proof.
  unfold addValueToJSON, jsonOfCredentials, credentialsOf. cbn.
  f_equal. f_equal.
  assert (Hfiles : QJsonArray (GetJSONFromFile <$> Value.scans v)
                   = QJsonArray (jsonOfPair "file_hash" <$> (fileCredentials <$> Value.scans v))).
  { f_equal. rewrite <- list_fmap_compose. apply list_fmap_ext.
    intros i file _. apply GetJSONFromFile_pair. }
  assert (Hempty : bool_decide (fileCredentials <$> Value.scans v = [])
                   = bool_decide (Value.scans v = [])).
  { apply bool_decide_ext. split; [apply fmap_nil_inv | intros ->; reflexivity]. }
  rewrite Hempty, Hfiles.
  unfold GetJSONFromMap. rewrite !fmap_insert, fmap_empty.
  destruct (bool_decide (ValueMap.fields (ValueData.parsed (Value.data v)) = ∅));
    destruct (bool_decide (Value.scans v = []));
    destruct (Value.selfie v) as [selfie |];
    destruct identitySelfieRequired; cbn;
    rewrite ?GetJSONFromFile_pair; reflexivity.
Qed.

Lemma ValueCredentialsKey_empty (type : ValueType) :
  isEmpty (ValueCredentialsKey type) = negb (isEncryptedValue type).
Proof. destruct type; reflexivity. Qed.

Lemma addValue_plain (identitySelfieRequired : bool) (v : Value.t) (acc : Collected) :
  isEncryptedValue (Value.type v) = false →
  addValue identitySelfieRequired v acc = (acc.1 ++ [hashOf v], acc.2).
Proof.
  intros Hplain. destruct acc as [hashes secureData]. unfold addValue.
  rewrite ValueCredentialsKey_empty, Hplain. reflexivity.
Qed.

Lemma addValue_encrypted (identitySelfieRequired : bool) (v : Value.t) (acc : Collected) :
  isEncryptedValue (Value.type v) = true →
  addValue identitySelfieRequired v acc
  = (acc.1 ++ [hashOf v],
     <[ValueCredentialsKey (Value.type v) :=
         jsonOfCredentials (credentialsOf identitySelfieRequired v)]> acc.2).
Proof.
  intros Hencrypted. destruct acc as [hashes secureData]. unfold addValue.
  rewrite ValueCredentialsKey_empty, Hencrypted, addValueToJSON_credentials.
  reflexivity.
Qed.

Lemma credentialsOf_sameButError (identitySelfieRequired : bool) (v0 v1 : Value.t) :
  sameButError v0 v1 →
  credentialsOf identitySelfieRequired v1 = credentialsOf identitySelfieRequired v0
  ∧ hashOf v1 = hashOf v0
  ∧ Value.type v1 = Value.type v0
  ∧ Value.scans v1 = Value.scans v0.
Proof. intros [error ->]. repeat split. Qed.

Lemma addValue_collectedFrom (identitySelfieRequired : bool)
    (values : gmap ValueType Value.t) (type : ValueType) (v0 v1 : Value.t)
    (acc : Collected) :
  values !! type = Some v0 →
  sameButError v0 v1 →
  collectedFrom identitySelfieRequired values acc →
  collectedFrom identitySelfieRequired values (addValue identitySelfieRequired v1 acc).
Proof.
  intros Hv Hsame [Hhashes Hmembers].
  destruct (credentialsOf_sameButError identitySelfieRequired v0 v1 Hsame)
    as (Hcredentials & Hhash & Htype & _).
  destruct (isEncryptedValue (Value.type v1)) eqn:Hencrypted.
  - rewrite addValue_encrypted by exact Hencrypted. split; cbn [fst snd].
    + apply Forall_app. split; [exact Hhashes |].
      constructor; [| constructor]. exists type, v0. split; [exact Hv | exact Hhash].
    + intros key j Hkey.
      destruct (decide (ValueCredentialsKey (Value.type v1) = key)) as [<- | Hne].
      * rewrite lookup_insert_eq in Hkey. injection Hkey as <-.
        exists type, v0. rewrite <- Htype, Hcredentials. repeat split; [exact Hv | exact Hencrypted].
      * rewrite lookup_insert_ne in Hkey by exact Hne. apply Hmembers, Hkey.
  - rewrite addValue_plain by exact Hencrypted. split; cbn [fst snd].
    + apply Forall_app. split; [exact Hhashes |].
      constructor; [| constructor]. exists type, v0. split; [exact Hv | exact Hhash].
    + exact Hmembers.
Qed.

Lemma errorsApart_refl (c : FormController.t) : errorsApart c c.
Proof.
  repeat split. intros type.
  destruct (FormController.values c !! type) as [v |]; constructor.
  exists (Value.error v). destruct v; reflexivity.
Qed.

Lemma errorsApart_lookup (c0 c1 : FormController.t) (type : ValueType) (v0 : Value.t) :
  errorsApart c0 c1 →
  FormController.values c0 !! type = Some v0 →
  ∃ v1, FormController.values c1 !! type = Some v1 ∧ sameButError v0 v1.
Proof.
  intros (_ & _ & Hvalues) Hv0. specialize (Hvalues type). rewrite Hv0 in Hvalues.
  inversion Hvalues as [? v1 Hsame |]; subst. exists v1. split; [reflexivity | exact Hsame].
Qed.

Lemma errorsApart_set_error (c0 c1 : FormController.t) (type : ValueType)
    (v1 : Value.t) (error : option string) :
  errorsApart c0 c1 →
  FormController.values c1 !! type = Some v1 →
  errorsApart c0
    (FormController.set_values
       (<[type := Value.set_error error v1]> (FormController.values c1)) c1).
Proof.
  intros (Hselfie & Hrequest & Hvalues) Hv1. split; [exact Hselfie |].
  split; [exact Hrequest |]. intros other.
  change (FormController.values (FormController.set_values ?m c1)) with m.
  destruct (decide (type = other)) as [<- | Hne].
  - rewrite lookup_insert_eq. specialize (Hvalues type). rewrite Hv1 in Hvalues.
    inversion Hvalues as [v0 ? [error0 Hsame] |]; subst. constructor.
    exists error. reflexivity.
  - rewrite lookup_insert_ne by exact Hne. apply Hvalues.
Qed.

Lemma addFirstDocument_collects (identitySelfieRequired : bool) (c0 c1 : FormController.t)
    (documents : list ValueType) (acc : Collected) :
  errorsApart c0 c1 →
  Forall (fun document => is_Some (FormController.values c0 !! document)) documents →
  collectedFrom identitySelfieRequired (FormController.values c0) acc →
  ∃ acc',
    addFirstDocument identitySelfieRequired documents acc c1 = Returns (acc', c1, [])
    ∧ collectedFrom identitySelfieRequired (FormController.values c0) acc'.
Proof.
  intros Hapart Hbound Hacc. induction Hbound as [| document documents [v0 Hv0] _ IH].
  - exists acc. split; [reflexivity | exact Hacc].
  - destruct (errorsApart_lookup c0 c1 document v0 Hapart Hv0) as (v1 & Hv1 & Hsame).
    cbn [addFirstDocument]. unfold bind, gets. rewrite Hv1.
    destruct (bool_decide (Value.scans v1 = [])) eqn:Hscans; cbn [negb].
    + destruct IH as (acc' & -> & Hacc'). exists acc'. split; [reflexivity | exact Hacc'].
    + eexists. split; [reflexivity |].
      eapply addValue_collectedFrom; eassumption.
Qed.

Lemma collectScopes_collects (c0 : FormController.t) (scopes : list Scope) :
  ∀ (c1 : FormController.t) (acc : Collected) (hasErrors : bool),
    errorsApart c0 c1 →
    scopesBound c0 scopes →
    collectedFrom (Form.identitySelfieRequired (FormController._form c0))
      (FormController.values c0) acc →
    ∃ acc' hasErrors' c2,
      collectScopes scopes acc hasErrors c1 = Returns ((acc', hasErrors'), c2, [])
      ∧ errorsApart c0 c2
      ∧ collectedFrom (Form.identitySelfieRequired (FormController._form c0))
          (FormController.values c0) acc'.
Proof.
  induction scopes as [| scope scopes IH]; intros c1 acc hasErrors Hapart Hbound Hacc.
  - exists acc, hasErrors, c1. repeat split; [apply Hapart.. | apply Hacc | apply Hacc].
  - apply Forall_cons in Hbound as [[[v0 Hv0] Hdocuments] Hbound].
    destruct (errorsApart_lookup c0 c1 _ v0 Hapart Hv0) as (v1 & Hv1 & Hsame).
    cbn [collectScopes]. unfold bind at 1. unfold gets at 1.
    destruct (isEmpty (ComputeScopeRowReadyString c1 scope)).
    + unfold bind at 1. unfold modifyValue, bind at 1. unfold findValue, bind at 1.
      unfold gets at 1. rewrite Hv1. unfold ret at 1. unfold storeValue, modify.
      destruct (IH (FormController.set_values
                      (<[scope_fields scope := Value.set_error (Some "") v1]>
                         (FormController.values c1)) c1) acc true)
        as (acc' & hasErrors' & c2 & Hrest & Hapart' & Hacc').
      * apply errorsApart_set_error; assumption.
      * exact Hbound.
      * exact Hacc.
      * rewrite Hrest. exists acc', hasErrors', c2. repeat split; try apply Hapart'; apply Hacc'.
    + unfold bind at 1. unfold gets at 1. rewrite Hv1.
      assert (Hselfie : Form.identitySelfieRequired (FormController._form c1)
                        = Form.identitySelfieRequired (FormController._form c0))
        by apply Hapart.
      rewrite Hselfie.
      destruct (addFirstDocument_collects
                  (Form.identitySelfieRequired (FormController._form c0)) c0 c1
                  (scope_documents scope)
                  (addValue (Form.identitySelfieRequired (FormController._form c0)) v1 acc)
                  Hapart Hdocuments)
        as (acc1 & Hfirst & Hacc1).
      { eapply addValue_collectedFrom; eassumption. }
      unfold bind at 1. rewrite Hfirst.
      destruct (IH c1 acc1 hasErrors Hapart Hbound Hacc1)
        as (acc' & hasErrors' & c2 & Hrest & Hapart' & Hacc').
      rewrite Hrest. exists acc', hasErrors', c2.
      repeat split; try apply Hapart'; apply Hacc'.
Qed.

(** The credentials of a value do not depend on the text of its decrypted
    fields, only on whether there are any. *)
Lemma addValueToJSON_ignores_text (identitySelfieRequired : bool) (key : QString)
    (v : Value.t) (fields : gmap string string)
    (secureData : gmap string QJsonValue) :
  (fields = ∅ ↔ ValueMap.fields (ValueData.parsed (Value.data v)) = ∅) →
  addValueToJSON identitySelfieRequired key
    (Value.set_data (ValueData.set_parsed (ValueMap.make fields) (Value.data v)) v)
    secureData
  = addValueToJSON identitySelfieRequired key v secureData.
Proof.
  intros Hempty. rewrite !addValueToJSON_credentials. do 2 f_equal.
  unfold credentialsOf. cbn.
  rewrite (bool_decide_ext _ _ Hempty). reflexivity.
Qed.

Lemma set_values_twice (x y : gmap ValueType Value.t) (c : FormController.t) :
  FormController.set_values x (FormController.set_values y c)
  = FormController.set_values x c.
Proof. reflexivity. Qed.

Lemma addFirstDocument_grows (identitySelfieRequired : bool) (c : FormController.t)
    (documents : list ValueType) (acc : Collected) :
  Forall (fun document => is_Some (FormController.values c !! document)) documents →
  ∃ acc' : Collected,
    addFirstDocument identitySelfieRequired documents acc c = Returns (acc', c, [])
    ∧ (length acc.1 ≤ length acc'.1)%nat.
Proof.
  induction 1 as [| document documents [v Hv] _ IH].
  - exists acc. split; [reflexivity | lia].
  - cbn [addFirstDocument]. unfold bind, gets. rewrite Hv.
    destruct (bool_decide (Value.scans v = [])); cbn [negb].
    + destruct IH as (acc' & -> & Hlength). exists acc'. split; [reflexivity | exact Hlength].
    + eexists. split; [reflexivity |].
      destruct acc as [hashes secureData]. unfold addValue.
      destruct (negb (isEmpty (ValueCredentialsKey (Value.type v))));
        cbn [fst]; rewrite length_app; lia.
Qed.

(** The loop of [prepareFinalData] in general: it returns, changes the
    errors of values only, and has found an error once a scope is not
    ready. *)
Lemma collectScopes_flags (c0 : FormController.t) (scopes : list Scope) :
  ∀ (c1 : FormController.t) (acc : Collected) (hasErrors : bool),
    errorsApart c0 c1 →
    scopesBound c0 scopes →
    ∃ (acc' : Collected) (hasErrors' : bool) (c2 : FormController.t),
      collectScopes scopes acc hasErrors c1 = Returns ((acc', hasErrors'), c2, [])
      ∧ errorsApart c0 c2
      ∧ c2 = FormController.set_values (FormController.values c2) c1
      ∧ (hasErrors = true → hasErrors' = true)
      ∧ (Exists (notReady c0) scopes → hasErrors' = true).
Proof.
  induction scopes as [| scope scopes IH]; intros c1 acc hasErrors Hapart Hbound.
  - exists acc, hasErrors, c1. split; [reflexivity |]. split; [exact Hapart |].
    split; [symmetry; apply FormController_set_values_same |].
    split; [tauto |]. intros Hnone. inversion Hnone.
  - apply Forall_cons in Hbound as [[[v0 Hv0] Hdocuments] Hbound].
    destruct (errorsApart_lookup c0 c1 _ v0 Hapart Hv0) as (v1 & Hv1 & Hsame).
    cbn [collectScopes]. unfold bind at 1. unfold gets at 1.
    destruct (isEmpty (ComputeScopeRowReadyString c1 scope)) eqn:Hready.
    + unfold bind at 1. unfold modifyValue, bind at 1. unfold findValue, bind at 1.
      unfold gets at 1. rewrite Hv1. unfold ret at 1. unfold storeValue, modify.
      destruct (IH (FormController.set_values
                      (<[scope_fields scope := Value.set_error (Some "") v1]>
                         (FormController.values c1)) c1) acc true)
        as (acc' & hasErrors' & c2 & Hrest & Hapart' & Hrest' & Hkept & _).
      * apply errorsApart_set_error; assumption.
      * exact Hbound.
      * rewrite Hrest. exists acc', hasErrors', c2.
        split; [reflexivity |]. split; [exact Hapart' |].
        split; [rewrite Hrest' at 1; apply set_values_twice |].
        split; intros _; apply Hkept; reflexivity.
    + unfold bind at 1. unfold gets at 1. rewrite Hv1.
      assert (Hdocuments1 : Forall (fun document =>
                                      is_Some (FormController.values c1 !! document))
                              (scope_documents scope)).
      { eapply Forall_impl; [exact Hdocuments |]. intros document [d0 Hd0].
        destruct (errorsApart_lookup c0 c1 _ d0 Hapart Hd0) as (d1 & Hd1 & _). eauto. }
      destruct (addFirstDocument_grows
                  (Form.identitySelfieRequired (FormController._form c1)) c1
                  (scope_documents scope)
                  (addValue (Form.identitySelfieRequired (FormController._form c1)) v1 acc)
                  Hdocuments1) as (acc1 & Hfirst & _).
      unfold bind at 1. rewrite Hfirst.
      destruct (IH c1 acc1 hasErrors Hapart Hbound)
        as (acc' & hasErrors' & c2 & Hrest & Hapart' & Hrest' & Hkept & Hfound).
      rewrite Hrest. exists acc', hasErrors', c2.
      split; [reflexivity |]. split; [exact Hapart' |]. split; [exact Hrest' |].
      split; [exact Hkept |].
      intros Hnot. apply Exists_cons in Hnot as [Hscope | Hnot]; [| apply Hfound, Hnot].
      apply isEmpty_false in Hready. exfalso. apply Hready, Hscope, Hapart.
Qed.

(** *** What is put in *)

Lemma addValue_contributed (identitySelfieRequired : bool) (v : Value.t) (acc : Collected) :
  addValue identitySelfieRequired v acc = contributed identitySelfieRequired [v] acc.
Proof.
  unfold contributed. cbn [foldl].
  destruct (isEncryptedValue (Value.type v)) eqn:Hencrypted.
  - apply addValue_encrypted, Hencrypted.
  - apply addValue_plain, Hencrypted.
Qed.

Lemma contributed_app (identitySelfieRequired : bool) (values1 values2 : list Value.t)
    (acc : Collected) :
  contributed identitySelfieRequired (values1 ++ values2) acc
  = contributed identitySelfieRequired values2
      (contributed identitySelfieRequired values1 acc).
Proof. unfold contributed. apply foldl_app. Qed.

Lemma contributed_hashes (identitySelfieRequired : bool) (values : list Value.t)
    (acc : Collected) :
  (contributed identitySelfieRequired values acc).1 = acc.1 ++ (hashOf <$> values).
Proof.
  revert acc. induction values as [| v values IH]; intros acc.
  - cbn. rewrite app_nil_r. reflexivity.
  - change (contributed identitySelfieRequired (v :: values) acc)
      with (contributed identitySelfieRequired values
              (contributed identitySelfieRequired [v] acc)).
    rewrite IH. cbn. rewrite <- app_assoc. reflexivity.
Qed.

Lemma ValueCredentialsKey_inj (type1 type2 : ValueType) :
  isEncryptedValue type1 = true →
  ValueCredentialsKey type1 = ValueCredentialsKey type2 →
  type1 = type2.
Proof.
  destruct type1, type2; intros Hencrypted Hkey;
    try reflexivity; try discriminate Hencrypted; vm_compute in Hkey; discriminate Hkey.
Qed.

(** The object of an accepted value of an encrypted type is in the secure
    data under the key of the type: it is the object of the last
    accepted value of that type. *)
Lemma contributed_holds (identitySelfieRequired : bool) (values : list Value.t)
    (acc : Collected) (v : Value.t) :
  v ∈ values →
  isEncryptedValue (Value.type v) = true →
  ∃ v', v' ∈ values
        ∧ Value.type v' = Value.type v
        ∧ (contributed identitySelfieRequired values acc).2
          !! ValueCredentialsKey (Value.type v)
          = Some (jsonOfCredentials (credentialsOf identitySelfieRequired v')).
Proof.
  intros Hin Hencrypted. revert Hin.
  induction values as [| x values IH] using rev_ind; intros Hin; [inversion Hin |].
  rewrite contributed_app. cbn [contributed foldl snd].
  destruct (decide (Value.type x = Value.type v)) as [Hsame | Hother].
  - exists x. split; [apply elem_of_app; right; apply list_elem_of_here |].
    split; [exact Hsame |].
    rewrite Hsame, Hencrypted, lookup_insert_eq. reflexivity.
  - apply elem_of_app in Hin as [Hin | Hin];
      [| apply list_elem_of_singleton in Hin; congruence].
    destruct (IH Hin) as (v' & Hin' & Htype & Hlookup).
    exists v'. split; [apply elem_of_app; left; exact Hin' |]. split; [exact Htype |].
    destruct (isEncryptedValue (Value.type x)) eqn:Hx; [| exact Hlookup].
    rewrite lookup_insert_ne; [exact Hlookup |].
    intros Hkey. apply Hother. apply ValueCredentialsKey_inj; assumption.
Qed.

(** A member of the secure data is the object of an accepted value of an
    encrypted type, under the key of the type. *)
Lemma contributed_only (identitySelfieRequired : bool) (values : list Value.t)
    (key : string) (j : QJsonValue) :
  (contributed identitySelfieRequired values ([], ∅)).2 !! key = Some j →
  ∃ v, v ∈ values
       ∧ isEncryptedValue (Value.type v) = true
       ∧ key = ValueCredentialsKey (Value.type v)
       ∧ j = jsonOfCredentials (credentialsOf identitySelfieRequired v).
Proof.
  induction values as [| x values IH] using rev_ind; intros Hkey.
  - cbn in Hkey. rewrite lookup_empty in Hkey. discriminate Hkey.
  - rewrite contributed_app in Hkey. cbn [contributed foldl snd] in Hkey.
    assert (Hearlier :
      (contributed identitySelfieRequired values ([], ∅)).2 !! key = Some j →
      ∃ v, v ∈ values ++ [x]
           ∧ isEncryptedValue (Value.type v) = true
           ∧ key = ValueCredentialsKey (Value.type v)
           ∧ j = jsonOfCredentials (credentialsOf identitySelfieRequired v)).
    { intros Hold. destruct (IH Hold) as (v & Hin & Hrest).
      exists v. split; [apply elem_of_app; left; exact Hin | exact Hrest]. }
    destruct (isEncryptedValue (Value.type x)) eqn:Hx; [| exact (Hearlier Hkey)].
    destruct (decide (ValueCredentialsKey (Value.type x) = key)) as [<- | Hne].
    + rewrite lookup_insert_eq in Hkey. injection Hkey as <-.
      exists x. split; [apply elem_of_app; right; apply list_elem_of_here |].
      repeat split. exact Hx.
    + rewrite lookup_insert_ne in Hkey by exact Hne. exact (Hearlier Hkey).
Qed.

Lemma firstWithScans_cons (values : gmap ValueType Value.t) (document : ValueType)
    (documents : list ValueType) (v : Value.t) :
  values !! document = Some v →
  firstWithScans values (document :: documents)
  = if negb (bool_decide (Value.scans v = [])) then Some v
    else firstWithScans values documents.
Proof. intros Hv. unfold firstWithScans. cbn. rewrite Hv. reflexivity. Qed.

(** The loop of [prepareFinalData] over the documents of a scope. *)
Lemma addFirstDocument_accepts (identitySelfieRequired : bool) (c : FormController.t)
    (documents : list ValueType) (acc : Collected) :
  Forall (fun document => is_Some (FormController.values c !! document)) documents →
  addFirstDocument identitySelfieRequired documents acc c
  = Returns (contributed identitySelfieRequired
               (option_list (firstWithScans (FormController.values c) documents)) acc,
             c, []).
Proof.
  induction 1 as [| document documents [v Hv] _ IH]; [reflexivity |].
  cbn [addFirstDocument]. unfold bind, gets. rewrite Hv.
  rewrite (firstWithScans_cons _ _ _ v Hv).
  destruct (negb (bool_decide (Value.scans v = []))).
  - unfold ret. rewrite addValue_contributed. reflexivity.
  - rewrite IH. reflexivity.
Qed.

(** The loop of [prepareFinalData] over scopes that are all ready: what
    it collects is what the accepted values contribute, and nothing is
    changed. *)
Lemma collectScopes_accepts (c : FormController.t) (scopes : list Scope) (acc : Collected)
    (hasErrors : bool) :
  scopesBound c scopes →
  Forall (fun scope => ComputeScopeRowReadyString c scope ≠ "") scopes →
  collectScopes scopes acc hasErrors c
  = Returns ((contributed (Form.identitySelfieRequired (FormController._form c))
                (flat_map (acceptedOf (FormController.values c)) scopes) acc,
              hasErrors),
             c, []).
Proof.
  intros Hbound Hready. revert acc.
  induction scopes as [| scope scopes IH]; intros acc; [reflexivity |].
  apply Forall_cons in Hbound as [[[v Hv] Hdocuments] Hbound].
  apply Forall_cons in Hready as [Hscope Hready].
  apply isEmpty_false in Hscope.
  cbn [collectScopes]. unfold bind at 1. unfold gets at 1. rewrite Hscope.
  unfold bind at 1. unfold gets at 1. rewrite Hv.
  unfold bind at 1. rewrite (addFirstDocument_accepts _ c _ _ Hdocuments).
  rewrite (IH Hbound Hready).
  cbn [flat_map]. unfold acceptedOf at 2. rewrite Hv.
  rewrite !contributed_app, addValue_contributed. reflexivity.
Qed.

(** An accepted value is a value of the form. *)
Lemma accepted_stored (values : gmap ValueType Value.t) (scopes : list Scope)
    (v : Value.t) :
  v ∈ flat_map (acceptedOf values) scopes →
  ∃ type, values !! type = Some v.
Proof.
  intros Hin. apply list_elem_of_In, in_flat_map in Hin as (scope & _ & Hin).
  apply list_elem_of_In in Hin. unfold acceptedOf in Hin.
  apply elem_of_app in Hin as [Hin | Hin].
  - destruct (values !! scope_fields scope) as [fields |] eqn:Hfields;
      [| inversion Hin].
    apply list_elem_of_singleton in Hin as ->. eauto.
  - unfold firstWithScans in Hin.
    destruct (List.find _ _) as [document |] eqn:Hfound; [| inversion Hin].
    apply list_elem_of_singleton in Hin as ->.
    apply find_some in Hfound as [Hfound _].
    apply list_elem_of_In, list_elem_of_omap in Hfound as (type & _ & Htype). eauto.
Qed.

(** C2. In every state of the form (the scopes pointing to values of the
    form), [prepareFinalData] returns without sending anything, and the
    credentials it assembles, if any, are the document with the member
    [secure_data] and the payload of the request, where every member of
    [secure_data] is, under the fixed key of an encrypted value type, the
    credentials of a value of that type: the hash and the secret of its
    data under [data_hash] and [secret], and those of each scan and of
    the selfie under [file_hash] and [secret], computed from those hashes
    and secrets alone.  Every hash of the hash list is the submit hash
    of a value of the form; a phone or email value adds its hash to the
    list and nothing to the secure data; and the text of the decrypted
    fields of a value does not enter its credentials: replacing the
    fields by others (empty if and only if they were) changes nothing.
    When every scope is ready the result is what the accepted values
    contribute and nothing else is changed: the accepted values are, for
    each scope in order, the value of its fields and the first of its
    documents that has scans; the hash list is the list of their submit
    hashes, in that order; the credentials are the document of their
    secure data and the payload; the secure data holds, under the key of
    the type of each accepted value of an encrypted type, the object of
    the credentials of that value (of the last accepted value of the
    type, should the form store values under other types than theirs);
    and an accepted phone number or email has its hash in the list and
    no member in the secure data.  When a scope is not ready the result
    is empty, no hash and no credentials, and nothing but errors of
    values of the form is changed. *)
Theorem prepareFinalData_only_hashes_and_secrets (c : FormController.t) :
  scopesBound c (ComputeScopes c) →
  (∃ (prepared : FinalData) (c' : FormController.t),
     prepareFinalData c = Returns (prepared, c', [])
     ∧ Forall (fun h => ∃ (type : ValueType) (v : Value.t),
                 FormController.values c !! type = Some v ∧ h = hashOf v)
         (fd_hashes prepared)
     ∧ (fd_credentials prepared = ""
        ∨ ∃ secureData : gmap string QJsonValue,
            fd_credentials prepared
            = toJson
                (QJsonObject
                   (<["payload" := QJsonString (FormRequest.payload (FormController._request c))]>
                      (<["secure_data" := QJsonObject secureData]> ∅)))
            ∧ ∀ (key : string) (j : QJsonValue),
                secureData !! key = Some j →
                ∃ (type : ValueType) (v : Value.t),
                  FormController.values c !! type = Some v
                  ∧ isEncryptedValue (Value.type v) = true
                  ∧ key = ValueCredentialsKey (Value.type v)
                  ∧ j = jsonOfCredentials
                          (credentialsOf
                             (Form.identitySelfieRequired (FormController._form c)) v)))
  ∧ (∀ (identitySelfieRequired : bool) (v : Value.t) (acc : Collected),
       isEncryptedValue (Value.type v) = false →
       addValue identitySelfieRequired v acc = (acc.1 ++ [hashOf v], acc.2))
  ∧ (∀ (identitySelfieRequired : bool) (key : QString) (v : Value.t)
       (fields : gmap string string) (secureData : gmap string QJsonValue),
       (fields = ∅ ↔ ValueMap.fields (ValueData.parsed (Value.data v)) = ∅) →
       addValueToJSON identitySelfieRequired key
         (Value.set_data (ValueData.set_parsed (ValueMap.make fields) (Value.data v)) v)
         secureData
       = addValueToJSON identitySelfieRequired key v secureData)
  ∧ (Forall (fun scope => ComputeScopeRowReadyString c scope ≠ "") (ComputeScopes c) →
     prepareFinalData c
     = Returns ({| fd_hashes := hashOf <$> accepted c;
                   fd_credentials :=
                     toJson
                       (credentialsDocument (secureDataOf c)
                          (FormRequest.payload (FormController._request c))) |},
                c, [])
     ∧ Forall (fun scope =>
                 ∃ v, FormController.values c !! scope_fields scope = Some v
                      ∧ v ∈ accepted c)
         (ComputeScopes c)
     ∧ (∀ v, v ∈ accepted c → ∃ type, FormController.values c !! type = Some v)
     ∧ (∀ v, v ∈ accepted c →
             isEncryptedValue (Value.type v) = true →
             ∃ v', v' ∈ accepted c
                   ∧ Value.type v' = Value.type v
                   ∧ secureDataOf c !! ValueCredentialsKey (Value.type v)
                     = Some (jsonOfCredentials
                               (credentialsOf
                                  (Form.identitySelfieRequired (FormController._form c))
                                  v')))
     ∧ (storedByType c →
        ∀ v, v ∈ accepted c →
             isEncryptedValue (Value.type v) = true →
             secureDataOf c !! ValueCredentialsKey (Value.type v)
             = Some (jsonOfCredentials
                       (credentialsOf
                          (Form.identitySelfieRequired (FormController._form c)) v)))
     ∧ (∀ (key : string) (j : QJsonValue),
          secureDataOf c !! key = Some j →
          ∃ v, v ∈ accepted c
               ∧ isEncryptedValue (Value.type v) = true
               ∧ key = ValueCredentialsKey (Value.type v)
               ∧ j = jsonOfCredentials
                       (credentialsOf
                          (Form.identitySelfieRequired (FormController._form c)) v))
     ∧ (∀ v, v ∈ accepted c →
             isEncryptedValue (Value.type v) = false →
             hashOf v ∈ hashOf <$> accepted c
             ∧ secureDataOf c !! ValueCredentialsKey (Value.type v) = None))
  ∧ (Exists (notReady c) (ComputeScopes c) →
     ∃ c' : FormController.t,
       prepareFinalData c
       = Returns ({| fd_hashes := []; fd_credentials := "" |}, c', [])
       ∧ errorsApart c c').
Proof.
  intros Hbound.
  split; [| split; [apply addValue_plain |];
            split; [apply addValueToJSON_ignores_text |]; split].
  3: {
    intros Hnot.
    destruct (collectScopes_flags c (ComputeScopes c) c ([], ∅) false
                (errorsApart_refl c) Hbound)
      as ([hashes secureData] & hasErrors & c' & Hcollect & Hapart & _ & _ & Hfound).
    exists c'. split; [| exact Hapart].
    unfold prepareFinalData. unfold bind at 1. unfold gets at 1.
    unfold bind at 1. rewrite Hcollect, (Hfound Hnot). reflexivity. }
  2: {
    intros Hready.
    assert (Hholds : ∀ v, v ∈ accepted c →
      isEncryptedValue (Value.type v) = true →
      ∃ v', v' ∈ accepted c
            ∧ Value.type v' = Value.type v
            ∧ secureDataOf c !! ValueCredentialsKey (Value.type v)
              = Some (jsonOfCredentials
                        (credentialsOf
                           (Form.identitySelfieRequired (FormController._form c)) v')))
      by (intros v Hin Hencrypted; apply contributed_holds; assumption).
    assert (Hstored : ∀ v, v ∈ accepted c →
                           ∃ type, FormController.values c !! type = Some v)
      by (intros v Hin; eapply accepted_stored, Hin).
    assert (Honly : ∀ (key : string) (j : QJsonValue),
      secureDataOf c !! key = Some j →
      ∃ v, v ∈ accepted c
           ∧ isEncryptedValue (Value.type v) = true
           ∧ key = ValueCredentialsKey (Value.type v)
           ∧ j = jsonOfCredentials
                   (credentialsOf
                      (Form.identitySelfieRequired (FormController._form c)) v))
      by (intros key j Hkey; apply contributed_only, Hkey).
    split; [| split; [| split; [exact Hstored |]; split; [exact Hholds |];
                        split; [| split; [exact Honly |]]]].
    - unfold prepareFinalData. unfold bind at 1. unfold gets at 1.
      unfold bind at 1.
      rewrite (collectScopes_accepts c (ComputeScopes c) ([], ∅) false Hbound Hready).
      fold (accepted c).
      pose proof (contributed_hashes
                    (Form.identitySelfieRequired (FormController._form c)) (accepted c)
                    ([], ∅)) as Hhashes.
      unfold secureDataOf.
      destruct (contributed _ (accepted c) ([], ∅)) as [hashes secureData].
      cbn [fst snd app] in *. subst hashes. reflexivity.
    - apply Forall_forall. intros scope Hscope.
      apply (proj1 (Forall_forall _ _) Hbound) in Hscope as Hfields.
      destruct Hfields as [[v Hv] _]. exists v. split; [exact Hv |].
      unfold accepted. apply list_elem_of_In, in_flat_map.
      exists scope. split; [apply list_elem_of_In, Hscope |].
      apply list_elem_of_In. unfold acceptedOf. rewrite Hv.
      apply elem_of_app. left. apply list_elem_of_here.
    - intros Htyped v Hin Hencrypted.
      destruct (Hholds v Hin Hencrypted) as (v' & Hin' & Htype & Hlookup).
      destruct (Hstored v Hin) as (type & Hv).
      destruct (Hstored v' Hin') as (type' & Hv').
      assert (Hsame : v' = v).
      { pose proof (Htyped type v Hv) as Ht. pose proof (Htyped type' v' Hv') as Ht'.
        assert (Hkeys : type' = type) by congruence. subst type'. congruence. }
      subst v'. exact Hlookup.
    - intros v Hin Hplain. split; [apply list_elem_of_fmap_2, Hin |].
      destruct (secureDataOf c !! ValueCredentialsKey (Value.type v)) as [j |] eqn:Hkey;
        [| reflexivity].
      destruct (Honly _ j Hkey) as (v' & _ & Hencrypted & Hkeys & _).
      pose proof (ValueCredentialsKey_empty (Value.type v)) as Hempty.
      pose proof (ValueCredentialsKey_empty (Value.type v')) as Hempty'.
      rewrite Hkeys, Hempty', Hencrypted in Hempty. rewrite Hplain in Hempty.
      discriminate Hempty. }
  destruct (collectScopes_collects c (ComputeScopes c) c ([], ∅) false
              (errorsApart_refl c) Hbound)
    as ([hashes secureData] & hasErrors & c' & Hcollect & Hapart & Hhashes & Hmembers).
  { split; [constructor |]. intros key j Hkey. cbn [snd] in Hkey.
    rewrite lookup_empty in Hkey. discriminate. }
  unfold prepareFinalData. unfold bind at 1. unfold gets at 1.
  unfold bind at 1. rewrite Hcollect.
  destruct hasErrors.
  - unfold ret. eexists _, _. split; [reflexivity |]. cbn.
    split; [constructor | left; reflexivity].
  - unfold bind, gets, ret. eexists _, _. split; [reflexivity |]. cbn.
    split; [exact Hhashes |]. right. exists secureData.
    destruct Hapart as (_ & -> & _). split; [reflexivity | exact Hmembers].
Qed.

End Properties.

(** * More properties *)

(** The definitions of the monad of the whole controller, unfolded by
    [run_act]. *)
Ltac run_act :=
  cbv beta iota delta
    [act_bind act_ret act_gets act_modify act_emit act_when on_base requestStart].

Ltac act_with tac := repeat (progress (run_act; run_ctl; cbn; tac)).

Section MoreProperties.
Context {encryption : Encryption} {platform : Platform} {view : FormView}
        {language : FormLanguage}.

(** ** The keys of the credentials *)

(** The credentials key of a value type is empty exactly when the type is
    not an encrypted one (a phone number or an email), and two value types
    have the same key only if they are the same type or neither is
    encrypted: in the secure data no value takes the place of a value of
    another type. *)
Theorem ValueCredentialsKey_separates (t1 t2 : ValueType) :
  isEmpty (ValueCredentialsKey t1) = negb (isEncryptedValue t1)
  ∧ (ValueCredentialsKey t1 = ValueCredentialsKey t2
     ↔ t1 = t2 ∨ (isEncryptedValue t1 = false ∧ isEncryptedValue t2 = false)).
Proof.
  split; [destruct t1; reflexivity |].
  split.
  - destruct t1, t2; intros Hkey; try discriminate Hkey;
      first [left; reflexivity | right; split; reflexivity].
  - intros [-> | [H1 H2]]; [reflexivity |].
    destruct t1; try discriminate H1; destruct t2; try discriminate H2; reflexivity.
Qed.

(** ** The public key of the request *)

Lemma replace_crlf_cons (a : ascii) (s : string) :
  a ≠ CR → replace_crlf (String a s) = String a (replace_crlf s).
Proof.
  intros Ha. cbn [replace_crlf]. destruct s as [| b s]; [reflexivity |].
  destruct (Ascii.eqb_spec a "013") as [-> | _]; [contradiction | reflexivity].
Qed.

Lemma replace_crlf_pair (s : string) :
  replace_crlf (String CR (String LF s)) = String LF (replace_crlf s).
Proof.
  change (replace_crlf (String CR (String LF s))) with (replace_crlf (String LF s)).
  apply replace_crlf_cons. discriminate.
Qed.

Lemma free_of_cons (a b : ascii) (s : string) :
  free_of a (String b s) = true ↔ b ≠ a ∧ free_of a s = true.
Proof.
  cbn [free_of]. rewrite andb_true_iff, negb_true_iff.
  destruct (Ascii.eqb_spec a b) as [-> | Hne]; intuition congruence.
Qed.

Lemma replace_crlf_free (s : string) :
  free_of CR s = true → replace_crlf s = s.
Proof.
  induction s as [| a s IH]; [reflexivity |].
  intros Hfree. apply free_of_cons in Hfree as [Ha Hfree].
  rewrite replace_crlf_cons by exact Ha. rewrite IH by exact Hfree. reflexivity.
Qed.

Lemma replace_crlf_line (line rest : string) :
  free_of CR line = true →
  replace_crlf (line +:+ String CR (String LF rest))
  = line +:+ String LF (replace_crlf rest).
Proof.
  induction line as [| a line IH]; intros Hfree.
  - apply replace_crlf_pair.
  - apply free_of_cons in Hfree as [Ha Hfree].
    change (String a line +:+ ?x) with (String a (line +:+ x)).
    rewrite replace_crlf_cons by exact Ha.
    rewrite IH by exact Hfree. reflexivity.
Qed.

Lemma replace_crlf_joined (lines : list string) :
  Forall (fun line => free_of CR line = true) lines →
  replace_crlf (joined (String CR (String LF "")) lines) = joined (String LF "") lines.
Proof.
  induction 1 as [| line lines Hline Hlines IH]; [reflexivity |].
  destruct lines as [| next lines].
  - apply replace_crlf_free, Hline.
  - change (joined ?sep (line :: next :: lines))
      with (line +:+ sep +:+ joined sep (next :: lines)).
    change ((String CR (String LF "")) +:+ ?x) with (String CR (String LF x)).
    change ((String LF "") +:+ ?x) with (String LF x).
    rewrite replace_crlf_line by exact Hline.
    rewrite IH. reflexivity.
Qed.

(** [PreprocessRequest] brings the public key to line feeds: a key whose
    lines (none of them holding a carriage return) are separated by a
    carriage return and a line feed becomes the key with the same lines
    separated by a line feed; a key with no carriage return is left as it
    is; and the other members of the request are never changed. *)
Theorem PreprocessRequest_line_endings (request : FormRequest.t) :
  (∀ lines : list string,
     Forall (fun line => free_of CR line = true) lines →
     FormRequest.publicKey request = joined (String CR (String LF "")) lines →
     FormRequest.publicKey (PreprocessRequest request) = joined (String LF "") lines)
  ∧ (free_of CR (FormRequest.publicKey request) = true →
     PreprocessRequest request = request)
  ∧ FormRequest.botId (PreprocessRequest request) = FormRequest.botId request
  ∧ FormRequest.scope (PreprocessRequest request) = FormRequest.scope request
  ∧ FormRequest.callbackUrl (PreprocessRequest request) = FormRequest.callbackUrl request
  ∧ FormRequest.payload (PreprocessRequest request) = FormRequest.payload request.
Proof.
  split; [| split; [| repeat split]].
  - intros lines Hlines Hkey. cbn. rewrite Hkey. apply replace_crlf_joined, Hlines.
  - intros Hfree. unfold PreprocessRequest. rewrite replace_crlf_free by exact Hfree.
    destruct request; reflexivity.
Qed.

(** ** Staging scans *)

Lemma count_if_app {A : Type} (p : A → bool) (l k : list A) :
  count_if (l ++ k) p = count_if l p + count_if k p.
Proof. unfold count_if. rewrite List.filter_app, length_app. lia. Qed.

Lemma count_if_cons {A : Type} (p : A → bool) (x : A) (l : list A) :
  count_if (x :: l) p = (if p x then 1 else 0) + count_if l p.
Proof. unfold count_if. cbn [List.filter]. destruct (p x); cbn [length]; lia. Qed.

Lemma count_if_insert {A : Type} (p : A → bool) (l : list A) (i : nat) (x y : A) :
  l !! i = Some x →
  count_if (<[i := y]> l) p
  = count_if l p - (if p x then 1 else 0) + (if p y then 1 else 0).
Proof.
  revert i. induction l as [| z l IH]; intros i Hi; [discriminate |].
  destruct i as [| i].
  - injection Hi as ->. cbn [insert list_insert]. rewrite !count_if_cons. lia.
  - change (<[S i := y]> (z :: l)) with (z :: <[i := y]> l).
    rewrite !count_if_cons, (IH i Hi). lia.
Qed.

Lemma count_if_nonneg {A : Type} (p : A → bool) (l : list A) : 0 ≤ count_if l p.
Proof. unfold count_if. lia. Qed.

Lemma insert_at_end {A : Type} (l : list A) (x y : A) :
  <[length l := y]> (l ++ [x]) = l ++ [y].
Proof.
  rewrite insert_app_r_alt by lia. rewrite Nat.sub_diag. reflexivity.
Qed.

(** What [uploadScan] does below the cap. *)
Lemma uploadScan_below_cap (c : FormController.t) (value : ValueType) (v : Value.t)
    (content : QByteArray) :
  FormController.values c !! value = Some v →
  liveScans v < kDocumentScansLimit →
  uploadScan value content c
  = Returns (tt,
             FormController.set_values
               (<[value := Value.set_scansInEdit
                             (Value.scansInEdit v ++ [stagedFile c value content]) v]>
                  (FormController.values c))
               (afterStaging c),
             [ScanUpdatedFired (ScanInEdit value (length (Value.scansInEdit v)));
              AsyncEncrypt (ScanInEdit value (length (Value.scansInEdit v)))
                (rand_value (FormController.drawn c)) content
                (GenerateSecretBytes (S (FormController.drawn c)))]).
Proof.
  intros Hv Hcap.
  assert (Hcan : canAddScan v = true).
  { unfold canAddScan. fold (liveScans v). lia. }
  unfold uploadScan, encryptFile, prepareFile.
  ctl_with ltac:(rewrite ?Hv, ?Hcan, ?lookup_insert_eq, ?insert_insert_eq, ?insert_at_end).
  reflexivity.
Qed.

(** Below the cap of 20, [uploadScan] stages the scan after the staged
    scans there are, which it leaves as they are: the new staged file has
    a random id, a fresh secret, the size of the content and its image,
    is not deleted and does not count as a change yet (nothing is
    uploaded); the observers are notified and the content is handed to
    the encryption with that id and that secret. *)
Theorem uploadScan_stages_at_end (c : FormController.t) (value : ValueType) (v : Value.t)
    (content : QByteArray) :
  FormController.values c !! value = Some v →
  liveScans v < kDocumentScansLimit →
  ∃ (c' : FormController.t) (v' : Value.t),
    uploadScan value content c
    = Returns (tt, c',
               [ScanUpdatedFired (ScanInEdit value (length (Value.scansInEdit v)));
                AsyncEncrypt (ScanInEdit value (length (Value.scansInEdit v)))
                  (rand_value (FormController.drawn c)) content
                  (GenerateSecretBytes (S (FormController.drawn c)))])
    ∧ FormController.values c' = <[value := v']> (FormController.values c)
    ∧ v' = Value.set_scansInEdit (Value.scansInEdit v ++ [stagedFile c value content]) v
    ∧ liveScans v' = liveScans v + 1
    ∧ editFileChanged (stagedFile c value content) = false.
Proof.
  intros Hv Hcap. eexists _, _.
  split; [apply uploadScan_below_cap; eassumption |].
  split; [reflexivity |]. split; [reflexivity |].
  split; [| reflexivity].
  unfold liveScans. cbn [Value.scansInEdit Value.set_scansInEdit].
  rewrite count_if_app. reflexivity.
Qed.

(** What [scanDeleteRestore] does to a staged scan when it is not
    rejected. *)
Lemma scanDeleteRestore_sets (c : FormController.t) (value : ValueType) (v : Value.t)
    (scanIndex : Z) (scan : EditFile.t) (deleted : bool) :
  FormController.values c !! value = Some v →
  0 ≤ scanIndex →
  Value.scansInEdit v !! Z.to_nat scanIndex = Some scan →
  EditFile.deleted scan && negb deleted && negb (canAddScan v) = false →
  scanDeleteRestore value scanIndex deleted c
  = Returns (tt,
             FormController.set_values
               (<[value := Value.set_scansInEdit
                             (<[Z.to_nat scanIndex := EditFile.set_deleted deleted scan]>
                                (Value.scansInEdit v)) v]>
                  (FormController.values c)) c,
             [ScanUpdatedFired (ScanInEdit value (Z.to_nat scanIndex))]).
Proof.
  intros Hv Hindex Hscan Hfree.
  assert (Hrange : (0 <=? scanIndex)
                   && (scanIndex <? Z.of_nat (length (Value.scansInEdit v))) = true).
  { apply lookup_lt_Some in Hscan. apply andb_true_iff. split; lia. }
  unfold scanDeleteRestore.
  ctl_with ltac:(rewrite ?Hv, ?Hrange, ?Hscan, ?Hfree). reflexivity.
Qed.

(** The cap is an invariant of the staged scans: from a value with at most
    20 staged scans that are not deleted, staging a scan and deleting or
    restoring a staged scan (at an index in range) return and leave at
    most 20 of them. *)
Theorem staged_scans_stay_under_cap (c : FormController.t) (value : ValueType)
    (v : Value.t) :
  FormController.values c !! value = Some v →
  liveScans v ≤ kDocumentScansLimit →
  (∀ content : QByteArray,
     ∃ (c' : FormController.t) (out : list Effect) (v' : Value.t),
       uploadScan value content c = Returns (tt, c', out)
       ∧ FormController.values c' !! value = Some v'
       ∧ liveScans v' ≤ kDocumentScansLimit)
  ∧ (∀ (scanIndex : Z) (deleted : bool),
       0 ≤ scanIndex < Z.of_nat (length (Value.scansInEdit v)) →
       ∃ (c' : FormController.t) (out : list Effect) (v' : Value.t),
         scanDeleteRestore value scanIndex deleted c = Returns (tt, c', out)
         ∧ FormController.values c' !! value = Some v'
         ∧ liveScans v' ≤ kDocumentScansLimit).
Proof.
  intros Hv Hcap. split.
  - intros content.
    destruct (decide (liveScans v < kDocumentScansLimit)) as [Hbelow | Hfull].
    + eexists _, _, _. split; [apply uploadScan_below_cap; eassumption |].
      split; [apply lookup_insert_eq |].
      unfold liveScans in *. cbn [Value.scansInEdit Value.set_scansInEdit].
      rewrite count_if_app. change (count_if [stagedFile c value content] _) with 1. lia.
    + exists c, [ShowToast lng_passport_scans_limit_reached], v.
      split; [| split; [exact Hv | exact Hcap]].
      assert (Hcan : canAddScan v = false).
      { unfold canAddScan. fold (liveScans v). lia. }
      unfold uploadScan. ctl_with ltac:(rewrite ?Hv, ?Hcan). reflexivity.
  - intros scanIndex deleted [Hindex Hrange].
    destruct (Value.scansInEdit v !! Z.to_nat scanIndex) as [scan |] eqn:Hscan.
    2: { apply lookup_ge_None in Hscan. lia. }
    destruct (EditFile.deleted scan && negb deleted && negb (canAddScan v)) eqn:Hrejected.
    + exists c, [ShowToast lng_passport_scans_limit_reached], v.
      split; [| split; [exact Hv | exact Hcap]].
      assert (Hin : (0 <=? scanIndex)
                    && (scanIndex <? Z.of_nat (length (Value.scansInEdit v))) = true).
      { apply andb_true_iff. split; lia. }
      unfold scanDeleteRestore.
      ctl_with ltac:(rewrite ?Hv, ?Hin, ?Hscan, ?Hrejected). reflexivity.
    + eexists _, _, _.
      split; [apply (scanDeleteRestore_sets c value v scanIndex scan); assumption |].
      split; [apply lookup_insert_eq |].
      unfold liveScans in *. cbn [Value.scansInEdit Value.set_scansInEdit].
      rewrite (count_if_insert _ _ _ scan) by exact Hscan.
      cbn [EditFile.deleted EditFile.set_deleted].
      unfold canAddScan in Hrejected.
      destruct (EditFile.deleted scan), deleted; cbn [negb andb] in *; lia.
Qed.

(** A staged scan that is not deleted is deleted and then restored: both
    calls notify the observers, and the controller is again as it was
    (from a value with at most 20 staged scans that are not deleted, the
    restoring is not rejected). *)
Theorem deleteScan_then_restoreScan (c : FormController.t) (value : ValueType)
    (v : Value.t) (scanIndex : Z) (scan : EditFile.t) :
  FormController.values c !! value = Some v →
  0 ≤ scanIndex →
  Value.scansInEdit v !! Z.to_nat scanIndex = Some scan →
  EditFile.deleted scan = false →
  liveScans v ≤ kDocumentScansLimit →
  ∃ c1 : FormController.t,
    deleteScan value scanIndex c
    = Returns (tt, c1, [ScanUpdatedFired (ScanInEdit value (Z.to_nat scanIndex))])
    ∧ (∃ v1, FormController.values c1 !! value = Some v1
             ∧ liveScans v1 = liveScans v - 1)
    ∧ restoreScan value scanIndex c1
      = Returns (tt, c, [ScanUpdatedFired (ScanInEdit value (Z.to_nat scanIndex))]).
Proof.
  intros Hv Hindex Hscan Hlive Hcap.
  set (v1 := Value.set_scansInEdit
               (<[Z.to_nat scanIndex := EditFile.set_deleted true scan]>
                  (Value.scansInEdit v)) v).
  assert (Hcount : liveScans v1 = liveScans v - 1).
  { unfold liveScans, v1. cbn [Value.scansInEdit Value.set_scansInEdit].
    rewrite (count_if_insert _ _ _ scan) by exact Hscan.
    cbn [EditFile.deleted EditFile.set_deleted]. rewrite Hlive. cbn [negb]. lia. }
  eexists. split; [| split].
  - unfold deleteScan.
    apply (scanDeleteRestore_sets c value v scanIndex scan); try assumption.
    rewrite Hlive. reflexivity.
  - exists v1. split; [apply lookup_insert_eq | exact Hcount].
  - unfold restoreScan.
    rewrite (scanDeleteRestore_sets _ value v1 scanIndex (EditFile.set_deleted true scan)).
    + f_equal. f_equal. f_equal.
      rewrite set_values_twice.
      change (FormController.values (FormController.set_values ?m c)) with m.
      rewrite insert_insert_eq.
      unfold v1. cbn [Value.scansInEdit Value.set_scansInEdit].
      rewrite list_insert_insert_eq.
      assert (Hback : EditFile.set_deleted false (EditFile.set_deleted true scan) = scan).
      { destruct scan; cbn in *. subst. reflexivity. }
      rewrite Hback, list_insert_id by exact Hscan.
      assert (Hsame : Value.set_scansInEdit (Value.scansInEdit v)
                        (Value.set_scansInEdit
                           (<[Z.to_nat scanIndex := EditFile.set_deleted true scan]>
                              (Value.scansInEdit v)) v) = v).
      { destruct v; reflexivity. }
      rewrite Hsame, insert_id by exact Hv.
      apply FormController_set_values_same.
    + apply lookup_insert_eq.
    + exact Hindex.
    + unfold v1. cbn [Value.scansInEdit Value.set_scansInEdit].
      apply list_lookup_insert_eq. apply lookup_lt_Some in Hscan. exact Hscan.
    + cbn [EditFile.deleted EditFile.set_deleted negb andb].
      apply negb_false_iff. unfold canAddScan. fold (liveScans v1). lia.
Qed.

(** ** The staged selfie *)


(** ** Edit sessions *)

Lemma Whole_set_base_same (s : Whole.t) : Whole.set_base (Whole.base s) s = s.
Proof. destruct s; reflexivity. Qed.

Lemma loadFile_returns (file : File.t) (s : Whole.t) :
  ∃ (file' : File.t) (s' : Whole.t) (out : list Call),
    loadFile file s = Returns (file', s', out)
    ∧ sameButOffset file file'
    ∧ Whole.base s' = Whole.base s
    ∧ Forall (fun call => ∃ key accessHash size, call = StartLoader key accessHash size) out.
Proof.
  unfold loadFile.
  destruct (isEmpty (File.image file)); cbn [negb].
  - run_act.
    destruct (bool_decide (mkFileKey (File.id file) (File.dcId file) ∈ Whole._fileLoaders s)).
    + eexists _, _, _. split; [reflexivity |].
      split; [exists (File.downloadOffset file); destruct file; reflexivity |].
      split; [reflexivity | constructor].
    + eexists _, _, _. split; [reflexivity |].
      split; [eexists; reflexivity |]. split; [reflexivity |].
      constructor; [eauto | constructor].
  - eexists _, _, _. split; [reflexivity |].
    split; [eexists; reflexivity |]. split; [reflexivity | constructor].
Qed.

Lemma loadFiles_return (files : list File.t) (s : Whole.t) :
  ∃ (files' : list File.t) (s' : Whole.t) (out : list Call),
    act_map loadFile files s = Returns (files', s', out)
    ∧ Forall2 sameButOffset files files'
    ∧ Whole.base s' = Whole.base s
    ∧ Forall (fun call => ∃ key accessHash size, call = StartLoader key accessHash size) out.
Proof.
  revert s. induction files as [| file files IH]; intros s.
  - exists [], s, []. repeat split; constructor.
  - destruct (loadFile_returns file s) as (file' & s1 & out1 & Hload & Hsame & Hbase1 & Hout1).
    destruct (IH s1) as (files' & s2 & out2 & Hrest & Hall & Hbase2 & Hout2).
    exists (file' :: files'), s2, (out1 ++ out2 ++ []).
    split; [| split; [| split]].
    + cbn [act_map]. unfold act_bind at 1. rewrite Hload.
      unfold act_bind at 1. rewrite Hrest. reflexivity.
    + constructor; assumption.
    + congruence.
    + rewrite app_nil_r. apply Forall_app. split; assumption.
Qed.

(** What [startValueEdit] does to a value that is not saving. *)
Lemma startValueEdit_opens (s : Whole.t) (value : ValueType) (v : Value.t) :
  FormController.values (Whole.base s) !! value = Some v →
  savingValue v = false →
  ∃ (scans : list File.t) (selfie : option File.t) (s' : Whole.t) (loads : list Call),
    startValueEdit value s
    = Returns (tt, s', loads ++ (Base <$> destroyEditFiles (filesInEdit v)))
    ∧ Whole.base s'
      = FormController.set_values
          (<[value := openedForEdit value scans selfie
                        (Value.set_editScreens (Value.editScreens v + 1) v)]>
             (FormController.values (Whole.base s)))
          (Whole.base s)
    ∧ Forall2 sameButOffset (Value.scans v) scans
    ∧ option_Forall2 sameButOffset (Value.selfie v) selfie
    ∧ Forall (fun call => ∃ key accessHash size, call = StartLoader key accessHash size)
        loads.
Proof.
  intros Hv Hidle.
  assert (Hidle' : savingValue (Value.set_editScreens (Value.editScreens v + 1) v) = false)
    by exact Hidle.
  set (s0 := Whole.set_base
               (FormController.set_values
                  (<[value := Value.set_editScreens (Value.editScreens v + 1) v]>
                     (FormController.values (Whole.base s)))
                  (Whole.base s)) s).
  destruct (loadFiles_return (Value.scans v) s0)
    as (scans & s1 & out1 & Hscans & Hall & Hbase1 & Hout1).
  assert (Hselfie : ∃ selfie s2 out2,
    match Value.selfie v with
    | Some file => act_bind (loadFile file) (fun file => act_ret (Some file))
    | None => act_ret None
    end s1 = Returns (selfie, s2, out2)
    ∧ option_Forall2 sameButOffset (Value.selfie v) selfie
    ∧ Whole.base s2 = Whole.base s1
    ∧ Forall (fun call => ∃ key accessHash size, call = StartLoader key accessHash size) out2).
  { destruct (Value.selfie v) as [file |].
    - destruct (loadFile_returns file s1) as (file' & s2 & out2 & Hload & Hsame & Hbase2 & Hout2).
      exists (Some file'), s2, (out2 ++ []). unfold act_bind, act_ret. rewrite Hload.
      rewrite app_nil_r. repeat split; try assumption. constructor. exact Hsame.
    - exists None, s1, []. repeat split; constructor. }
  destruct Hselfie as (selfie & s2 & out2 & Hselfie & Hsame & Hbase2 & Hout2).
  exists scans, selfie.
  eexists _, (out1 ++ out2).
  split; [| split; [| split; [| split]]].
  - unfold startValueEdit.
    unfold act_bind at 1. unfold on_base at 1. unfold findValue, bind, gets. rewrite Hv.
    unfold ret. cbn [fmap list_fmap app].
    unfold act_bind at 1. unfold on_base at 1. unfold storeValue, modify.
    cbn [fmap list_fmap app]. rewrite Hidle', !Whole_set_base_same. fold s0.
    cbn [Value.scans Value.selfie Value.set_editScreens].
    unfold act_bind at 1. rewrite Hscans.
    unfold act_bind at 1. rewrite Hselfie.
    unfold act_bind, on_base, storeValue, emit_all, modify.
    cbn [fmap list_fmap app]. rewrite app_assoc. reflexivity.
  - cbn [Whole.base Whole.set_base]. rewrite Hbase2, Hbase1. unfold s0.
    cbn [Whole.base Whole.set_base]. rewrite set_values_twice.
    change (FormController.values (FormController.set_values ?m ?c)) with m.
    rewrite insert_insert_eq. reflexivity.
  - exact Hall.
  - exact Hsame.
  - apply Forall_app. split; assumption.
Qed.

Lemma destroyEditFiles_created (value : ValueType) (files : list File.t) :
  destroyEditFiles ((fun file => EditFile.create value file None) <$> files) = [].
Proof. induction files as [| file files IH]; [reflexivity | exact IH]. Qed.



(** What [cancelValueEdit] does to a value that is not saving. *)
Lemma cancelValueEdit_clears (c : FormController.t) (value : ValueType) (v : Value.t) :
  FormController.values c !! value = Some v →
  savingValue v = false →
  0 < Value.editScreens v →
  cancelValueEdit value c
  = Returns (tt,
             FormController.set_values
               (<[value := withoutEdit (Value.set_editScreens (Value.editScreens v - 1) v)]>
                  (FormController.values c)) c,
             destroyEditFiles (filesInEdit v)).
Proof.
  intros Hv Hidle Hopen.
  assert (Hopen' : (0 <? Value.editScreens v) = true) by lia.
  assert (Hidle' : savingValue (Value.set_editScreens (Value.editScreens v - 1) v) = false)
    by exact Hidle.
  unfold cancelValueEdit, clearValueEdit.
  ctl_with ltac:(rewrite ?Hv, ?Hopen', ?lookup_insert_eq, ?Hidle', ?insert_insert_eq).
  reflexivity.
Qed.

(** An edit of a value that is not saving, with no staged copies and a
    count of open screens that is not negative, is opened and cancelled:
    both calls return, cancelling sends nothing and cancels no upload,
    and the value is as it was but for the download offsets of its
    files: no staged copy is left and the count of screens is the same. *)
Theorem startValueEdit_then_cancelValueEdit (s : Whole.t) (value : ValueType)
    (v : Value.t) :
  FormController.values (Whole.base s) !! value = Some v →
  savingValue v = false →
  0 ≤ Value.editScreens v →
  withoutEdit v = v →
  ∃ (s' : Whole.t) (out : list Call) (scans : list File.t) (selfie : option File.t),
    startValueEdit value s = Returns (tt, s', out)
    ∧ cancelValueEdit value (Whole.base s')
      = Returns (tt,
                 FormController.set_values
                   (<[value := Value.set_selfie selfie (Value.set_scans scans v)]>
                      (FormController.values (Whole.base s)))
                   (Whole.base s),
                 [])
    ∧ Forall2 sameButOffset (Value.scans v) scans
    ∧ option_Forall2 sameButOffset (Value.selfie v) selfie.
Proof.
  intros Hv Hidle Hscreens Hclean.
  destruct (startValueEdit_opens s value v Hv Hidle)
    as (scans & selfie & s' & loads & Hstart & Hbase & Hscans & Hselfie & _).
  eexists s', _, scans, selfie. split; [exact Hstart |].
  split; [| split; assumption].
  set (v' := openedForEdit value scans selfie
               (Value.set_editScreens (Value.editScreens v + 1) v)) in *.
  assert (Hv' : FormController.values (Whole.base s') !! value = Some v').
  { rewrite Hbase. apply lookup_insert_eq. }
  assert (Hopen : 0 < Value.editScreens v').
  { unfold v'. cbn. lia. }
  assert (Hnone : destroyEditFiles
                    (filesInEdit (Value.set_editScreens (Value.editScreens v' - 1) v')) = []).
  { unfold filesInEdit, v'. cbn.
    unfold destroyEditFiles. rewrite omap_app.
    fold (destroyEditFiles ((fun file => EditFile.create value file None) <$> scans)).
    rewrite destroyEditFiles_created. destruct selfie; reflexivity. }
  assert (Hback : withoutEdit (Value.set_editScreens (Value.editScreens v' - 1) v')
                  = Value.set_selfie selfie (Value.set_scans scans v)).
  { transitivity (Value.set_selfie selfie (Value.set_scans scans (withoutEdit v)));
      [| rewrite Hclean; reflexivity].
    unfold withoutEdit, v'. cbn.
    replace (Value.editScreens v + 1 - 1) with (Value.editScreens v) by lia.
    reflexivity. }
  rewrite (cancelValueEdit_clears _ value v' Hv') by (exact Hidle || lia).
  change (filesInEdit v')
    with (filesInEdit (Value.set_editScreens (Value.editScreens v' - 1) v')).
  rewrite Hnone, Hback, Hbase.
  rewrite !set_values_twice.
  change (FormController.values (FormController.set_values ?m ?c)) with m.
  rewrite !insert_insert_eq. reflexivity.
Qed.

(** While a value is saving, opening and cancelling an edit of it only
    count the edit screens: the staged copies, which the completion of
    the save reads, are left as they are, no loader is started and no
    upload is cancelled; and cancelling an edit that was not opened ends
    the program at its precondition. *)
Theorem edit_screens_while_saving (s : Whole.t) (value : ValueType) (v : Value.t) :
  FormController.values (Whole.base s) !! value = Some v →
  (savingValue v = true →
   startValueEdit value s
   = Returns (tt,
              Whole.set_base
                (FormController.set_values
                   (<[value := Value.set_editScreens (Value.editScreens v + 1) v]>
                      (FormController.values (Whole.base s)))
                   (Whole.base s)) s,
              [])
   ∧ (0 < Value.editScreens v →
      cancelValueEdit value (Whole.base s)
      = Returns (tt,
                 FormController.set_values
                   (<[value := Value.set_editScreens (Value.editScreens v - 1) v]>
                      (FormController.values (Whole.base s)))
                   (Whole.base s),
                 [])))
  ∧ (Value.editScreens v ≤ 0 →
     cancelValueEdit value (Whole.base s) = Violation "value->editScreens > 0").
Proof.
  intros Hv. split.
  - intros Hsaving.
    assert (Hsaving' : ∀ n, savingValue (Value.set_editScreens n v) = true)
      by (intros n; exact Hsaving).
    split.
    + unfold startValueEdit.
      act_with ltac:(rewrite ?Hv, ?Hsaving'). reflexivity.
    + intros Hopen. assert (Hopen' : (0 <? Value.editScreens v) = true) by lia.
      unfold cancelValueEdit, clearValueEdit.
      ctl_with ltac:(rewrite ?Hv, ?Hopen', ?lookup_insert_eq, ?Hsaving'). reflexivity.
  - intros Hclosed. assert (Hclosed' : (0 <? Value.editScreens v) = false) by lia.
    unfold cancelValueEdit.
    ctl_with ltac:(rewrite ?Hv, ?Hclosed'). reflexivity.
Qed.

(** ** A save and its answer *)

(** The fields of an encrypted value are saved, with no staged file, while
    the master secret is there, and the remote authority answers with the
    data it was sent.  Where the primitives undo each other on these
    data (the wrapped secret unwraps to the secret, the encrypted fields
    decrypt to the serialized fields, which deserialize to the fields),
    the save sends the encrypted fields with the flag of the data alone,
    and its completion commits the edit: the value holds the data of the
    answer, its decrypted fields are the fields that were in edit, its
    secret is the one the fields were encrypted under, no edit copy is
    left, it is no longer saving, and save-finished is fired. *)
Theorem save_then_answer_commits_edit (c : FormController.t) (value : ValueType)
    (v : Value.t) (submitHash : bytes) :
  FormController.values c !! value = Some v →
  isEncryptedValue (Value.type v) = true →
  Value.saveRequestId v = 0 →
  Value.scansInEdit v = [] →
  Value.selfieInEdit v = None →
  ValueMap.fields (ValueData.parsedInEdit (Value.data v)) ≠ ∅ →
  FormController._secret c ≠ "" →
  savingSecret c v ≠ "" →
  ed_bytes (encryptedEdit c v) ≠ "" →
  DecryptValueSecret
    (EncryptValueSecret (savingSecret c v) (FormController._secret c)
       (ed_hash (encryptedEdit c v)))
    (FormController._secret c) (ed_hash (encryptedEdit c v))
  = savingSecret c v →
  DecryptData (ed_bytes (encryptedEdit c v)) (ed_hash (encryptedEdit c v))
    (savingSecret c v)
  = SerializeData (ValueMap.fields (ValueData.parsedInEdit (Value.data v))) →
  DeserializeData (SerializeData (ValueMap.fields (ValueData.parsedInEdit (Value.data v))))
  = ValueMap.fields (ValueData.parsedInEdit (Value.data v)) →
  ∃ c1 c2 : FormController.t,
    saveEncryptedValue value c
    = Returns (tt, c1,
               [Send (Z.pos (FormController.sender_next c))
                  (MTPaccount_SaveSecureValue
                     {| isv_flags := {| f_data := true; f_files := false;
                                        f_plain_data := false; f_selfie := false |};
                        isv_type := Convert.toMTP (Value.type v);
                        isv_data := Some (savedData c v);
                        isv_files := [];
                        isv_plain_data := None;
                        isv_selfie := None |}
                     (FormController._secretId c))])
    ∧ sendSaveRequest_done value
        {| sv_type := Convert.toMTP (Value.type v);
           sv_data := Some (savedData c v);
           sv_files := None;
           sv_plain_data := None;
           sv_selfie := None;
           sv_hash := submitHash |}
        c1
      = Returns (tt, c2, [ValueSaveFinishedFired value])
    ∧ FormController.values c2
      = <[value := committedEdit c v submitHash]> (FormController.values c)
    ∧ savingValue (committedEdit c v submitHash) = false.
Proof.
  intros Hv Hencrypted Hidle Hscans Hselfie Hfields Hsecret Hfresh Hbytes
    Hunwrap Hdecrypt Hdeserialize.
  apply isEmpty_false in Hsecret, Hfresh, Hbytes.
  assert (Hidle' : (Value.saveRequestId v =? 0) = true) by lia.
  assert (Hsome : bool_decide
                    (ValueMap.fields (ValueData.parsedInEdit (Value.data v)) = ∅) = false)
    by (apply bool_decide_eq_false_2; exact Hfields).
  unfold committedEdit, savedData, encryptedEdit, savingSecret in *.
  destruct v as [type data scans scansInEdit selfie selfieInEdit submitHash0
                   verification editScreens saveRequestId error].
  destruct data as [original hash secret encryptedSecret parsed hashInEdit
                      encryptedSecretInEdit [fields]].
  cbn in *. subst scansInEdit selfieInEdit.
  unfold saveEncryptedValue, sendSaveRequest, sendSaveRequest_done, parseValue,
    decryptValue, validateValueSecrets, saveFlags, no_flags, liveSelfieInEdit, filesInEdit,
    resetValue.
  destruct type; try discriminate Hencrypted;
    (destruct (isEmpty secret) eqn:Hhas;
     eexists _, _;
     (split;
      [ ctl_with ltac:(rewrite ?Hv, ?Hencrypted, ?Hsecret, ?Hhas, ?lookup_insert_eq,
                         ?insert_insert_eq, ?Hsome, ?Hidle');
        reflexivity |]);
     (split;
      [ ctl_with ltac:(rewrite ?lookup_insert_eq, ?insert_insert_eq, ?Hsecret, ?Hbytes,
                         ?Hunwrap, ?Hfresh, ?Hdecrypt, ?Hdeserialize);
        reflexivity |]);
     (split; [cbn; rewrite ?insert_insert_eq; reflexivity | reflexivity])).
Qed.

(** ** Phone numbers and emails *)

Lemma plain_type (type : ValueType) :
  isEncryptedValue type = false → type = Phone ∨ type = Email.
Proof. destruct type; intros H; try discriminate H; auto. Qed.

(** The edit of a phone number or of an email that is not saving is saved
    as plain data: the text under the key [value] is sent at once with
    the flag of the plain data alone, whether the master secret is there
    or not (nothing is queued for it), and the value is saving; an edit
    without that key ends the program at the assertion of
    [getPlainTextFromValue]. *)
Theorem plain_value_saved_without_secret (c : FormController.t) (value : ValueType)
    (v : Value.t) (data : ValueMap.t) :
  FormController.values c !! value = Some v →
  isEncryptedValue (Value.type v) = false →
  savingValue v = false →
  FormController._submitRequestId c = 0 →
  editValueChanged v data = true →
  (∀ text : QString,
     ValueMap.fields data !! "value" = Some text →
     ∃ c' : FormController.t,
       saveValueEdit value data c
       = Returns (tt, c',
                  [Send (Z.pos (FormController.sender_next c))
                     (MTPaccount_SaveSecureValue (plainInput (Value.type v) text)
                        (FormController._secretId c))])
       ∧ FormController.values c'
         = <[value := Value.set_saveRequestId (Z.pos (FormController.sender_next c))
                        (Value.set_data
                           (ValueData.set_parsedInEdit data (Value.data v)) v)]>
             (FormController.values c)
       ∧ FormController._secretCallbacks c' = FormController._secretCallbacks c)
  ∧ (ValueMap.fields data !! "value" = None →
     saveValueEdit value data c
     = Violation "i != end(value->data.parsedInEdit.fields)").
Proof.
  intros Hv Hplain Hidle Hsubmit Hchanged.
  destruct (savingValue_false v Hidle) as (Hsave & _ & _).
  assert (Hsave' : (Value.saveRequestId v =? 0) = true) by lia.
  split.
  - intros text Htext. unfold saveValueEdit, savePlainTextValue, sendSaveRequest,
      getPlainTextFromValue.
    destruct (plain_type _ Hplain) as [Htype | Htype]; rewrite Htype in *; eexists;
      (split;
       [ ctl_with ltac:(rewrite ?Hv, ?Hidle, ?Hsubmit, ?Hchanged, ?Htype, ?Hplain,
                          ?lookup_insert_eq, ?insert_insert_eq, ?Htext, ?Hsave');
         reflexivity
       | split; [cbn; rewrite ?insert_insert_eq; reflexivity | reflexivity] ]).
  - intros Hnone. unfold saveValueEdit, savePlainTextValue, getPlainTextFromValue.
    destruct (plain_type _ Hplain) as [Htype | Htype]; rewrite Htype in *;
      ctl_with ltac:(rewrite ?Hv, ?Hidle, ?Hsubmit, ?Hchanged, ?Htype, ?Hplain,
                       ?lookup_insert_eq, ?Hnone);
      reflexivity.
Qed.

(** The save of a phone number or of an email fails with the error that
    asks for its verification: nothing is shown and save-finished is not
    fired; the request that has a code sent to that number or address
    goes out, and the value, its save request id back at zero, has that
    request as its verification request: it is still saving. *)
Theorem verification_needed_sends_code (c : FormController.t) (value : ValueType)
    (v : Value.t) (text : QString) (error : RPCError) :
  FormController.values c !! value = Some v →
  isEncryptedValue (Value.type v) = false →
  ValueMap.fields (ValueData.parsedInEdit (Value.data v)) !! "value" = Some text →
  error_type error = verificationNeeded (Value.type v) →
  ∃ c' : FormController.t,
    sendSaveRequest_fail value error c
    = Returns (tt, c',
               [Send (Z.pos (FormController.sender_next c))
                  (sendCodeRequest (Value.type v) text)])
    ∧ FormController.values c'
      = <[value := verifying (Z.pos (FormController.sender_next c))
                     (Value.set_saveRequestId 0 v)]>
          (FormController.values c)
    ∧ savingValue (verifying (Z.pos (FormController.sender_next c))
                     (Value.set_saveRequestId 0 v)) = true.
Proof.
  intros Hv Hplain Htext Herror.
  unfold sendSaveRequest_fail, startPhoneVerification, startEmailVerification,
    getPhoneFromValue, getEmailFromValue, getPlainTextFromValue.
  destruct (plain_type _ Hplain) as [Htype | Htype]; rewrite Htype in *;
    cbn [verificationNeeded] in Herror; eexists;
    (split;
     [ ctl_with ltac:(rewrite ?Hv, ?Herror, ?Htype, ?lookup_insert_eq, ?insert_insert_eq,
                        ?Htext, ?(bool_decide_eq_true_2 _ (eq_refl Phone)),
                        ?(bool_decide_eq_true_2 _ (eq_refl Email)));
       reflexivity
     | split; [cbn; rewrite ?insert_insert_eq; reflexivity |] ]);
    unfold savingValue, verifying; cbn; rewrite ?orb_true_r; reflexivity.
Qed.

(** The remote authority says it has sent a code, by a text message or a
    call for a phone number, or by email: the verification request id is
    back at zero, the code length recorded is the announced length when
    that is positive and -1 otherwise, so it is never zero (the value
    stays saving, and [verify] finds its assertion true), and
    verification-needed is fired. *)
Theorem sent_code_records_length (c : FormController.t) (value : ValueType)
    (v : Value.t) (announced : Z) :
  FormController.values c !! value = Some v →
  (∀ (byCall : bool) (data : MTPSentCode),
     sc_type data
     = (if byCall then MTP_auth_sentCodeTypeCall announced
        else MTP_auth_sentCodeTypeSms announced) →
     ∃ (c' : FormController.t) (out : list Effect) (v' : Value.t),
       startPhoneVerification_done value data c
       = Returns (tt, c', out ++ [VerificationNeededFired value])
       ∧ requests out = []
       ∧ FormController.values c' = <[value := v']> (FormController.values c)
       ∧ Verification.requestId (Value.verification v') = 0
       ∧ Verification.codeLength (Value.verification v') = recordedLength announced
       ∧ Verification.phoneCodeHash (Value.verification v') = sc_phone_code_hash data
       ∧ savingValue v' = true)
  ∧ (∃ (c' : FormController.t) (v' : Value.t),
       startEmailVerification_done value announced c
       = Returns (tt, c', [VerificationNeededFired value])
       ∧ FormController.values c' = <[value := v']> (FormController.values c)
       ∧ Verification.requestId (Value.verification v') = 0
       ∧ Verification.codeLength (Value.verification v') = recordedLength announced
       ∧ savingValue v' = true)
  ∧ recordedLength announced ≠ 0.
Proof.
  intros Hv.
  assert (Hnonzero : recordedLength announced ≠ 0).
  { unfold recordedLength. destruct (0 <? announced) eqn:Hpos; lia. }
  assert (Hsaving : ∀ v' : Value.t,
            Verification.codeLength (Value.verification v') = recordedLength announced →
            savingValue v' = true).
  { intros v' Hlength. unfold savingValue. rewrite Hlength.
    apply orb_true_iff. right. apply negb_true_iff. lia. }
  split; [| split; [| exact Hnonzero]].
  - intros byCall data Htype. unfold startPhoneVerification_done.
    destruct byCall.
    + destruct (bool_decide (is_Some (sc_next_type data))) eqn:Hnext.
      * eexists _, [Log _], _.
        split; [ctl_with ltac:(rewrite ?Hv, ?Htype, ?Hnext); reflexivity |].
        split; [reflexivity |]. split; [reflexivity |]. split; [reflexivity |].
        split; [reflexivity |]. split; [reflexivity |]. apply Hsaving. reflexivity.
      * eexists _, [], _.
        split; [ctl_with ltac:(rewrite ?Hv, ?Htype, ?Hnext); reflexivity |].
        split; [reflexivity |]. split; [reflexivity |]. split; [reflexivity |].
        split; [reflexivity |]. split; [reflexivity |]. apply Hsaving. reflexivity.
    + eexists _, [], _.
      split; [ctl_with ltac:(rewrite ?Hv, ?Htype); reflexivity |].
      split; [reflexivity |]. split; [reflexivity |]. split; [reflexivity |].
      split; [reflexivity |]. split; [reflexivity |]. apply Hsaving. reflexivity.
  - eexists _, _. unfold startEmailVerification_done.
    split; [ctl_with ltac:(rewrite ?Hv); reflexivity |].
    split; [reflexivity |]. split; [reflexivity |]. split; [reflexivity |].
    apply Hsaving. reflexivity.
Qed.


Lemma withVerificationError_idle (text : QString) (v : Value.t) :
  Verification.requestId (Value.verification v) = 0 →
  Value.set_verification
    (Verification.set_error text
       (Verification.set_requestId 0 (Value.verification v))) v
  = withVerificationError text v.
Proof.
  intros Hidle. unfold withVerificationError. f_equal.
  destruct (Value.verification v); cbn in *. subst. reflexivity.
Qed.

(** What [verify] does with a code it accepts. *)
Lemma verify_sends (c : FormController.t) (value : ValueType) (v : Value.t)
    (code text : QString) :
  FormController.values c !! value = Some v →
  isEncryptedValue (Value.type v) = false →
  Verification.requestId (Value.verification v) = 0 →
  Verification.codeLength (Value.verification v) ≠ 0 →
  trimmed code ≠ "" →
  (0 < Verification.codeLength (Value.verification v) →
   Verification.codeLength (Value.verification v) = QString_size (trimmed code)) →
  ValueMap.fields (ValueData.parsedInEdit (Value.data v)) !! "value" = Some text →
  verify value code c
  = Returns (tt,
             FormController.set_values
               (<[value := verifying (Z.pos (FormController.sender_next c))
                             (withVerificationError "" v)]>
                  (FormController.values c))
               (FormController.set_sender_next (Pos.succ (FormController.sender_next c)) c),
             [VerificationUpdateFired value;
              Send (Z.pos (FormController.sender_next c))
                (verifyRequest v text (trimmed code))]).
Proof.
  intros Hv Hplain Hidle Hstarted Hcode Hlength Htext.
  apply isEmpty_false in Hcode.
  assert (Hlen : (Verification.codeLength (Value.verification v) =? 0) = false) by lia.
  assert (Hmatch : (0 <? Verification.codeLength (Value.verification v))
                   && negb (Verification.codeLength (Value.verification v)
                            =? QString_size (trimmed code)) = false).
  { destruct (0 <? Verification.codeLength (Value.verification v)) eqn:Hpos; [| reflexivity].
    cbn [andb]. apply negb_false_iff. apply Z.eqb_eq, Hlength. lia. }
  unfold verify, verificationError, getPhoneFromValue, getEmailFromValue,
    getPlainTextFromValue, verifyRequest, verifying, withVerificationError.
  destruct (plain_type _ Hplain) as [Htype | Htype];
    ctl_with ltac:(rewrite ?Hv, ?Hidle, ?Hlen, ?lookup_insert_eq, ?insert_insert_eq,
                     ?Hmatch, ?Hcode, ?Htype, ?Htext);
    reflexivity.
Qed.

(** What [verify_fail] does to a value whose code was sent. *)
Lemma verify_fail_shows (c : FormController.t) (values : gmap ValueType Value.t)
    (value : ValueType) (v : Value.t) (id : Z) (error : RPCError) :
  Verification.requestId (Value.verification v) = 0 →
  verify_fail value (codeInvalid (Value.type v)) error
    (FormController.set_values
       (<[value := verifying id (withVerificationError "" v)]> values) c)
  = Returns (tt,
             FormController.set_values
               (<[value := withVerificationError (shownError (Value.type v) error) v]>
                  values) c,
             [VerificationUpdateFired value]).
Proof.
  intros Hidle.
  destruct v as [type data scans scansInEdit selfie selfieInEdit submitHash
                   [requestId phoneCodeHash codeLength call error0]
                   editScreens saveRequestId error1].
  cbn in Hidle. subst requestId.
  unfold verify_fail, verificationError, shownError, verifying, withVerificationError.
  cbn [Value.type].
  destruct (String.eqb (error_type error) (codeInvalid type));
    ctl_with ltac:(rewrite ?lookup_insert_eq, ?insert_insert_eq); reflexivity.
Qed.

(** A code of the expected length (or any code that is not empty, when no
    length was announced) is submitted for a phone number or an email
    that awaits one; the code is trimmed by [QString::trimmed] and its
    length is its [QString::size], whatever Qt takes for white space and
    for one character: the code goes out trimmed, with the number or the
    address (and, for a number, the hash the remote authority gave with
    the code), after the error of the last attempt is cleared.  While the
    request is in flight a further [verify] does nothing.  When the
    request fails, its id is cleared and the error is shown (the fixed
    wrong-code message when the code was not the one sent, the error
    type otherwise); the value still awaits its code, and the same code
    submitted again goes out again. *)
Theorem verify_sends_code_and_retries (c : FormController.t) (value : ValueType)
    (v : Value.t) (code text : QString) :
  FormController.values c !! value = Some v →
  isEncryptedValue (Value.type v) = false →
  Verification.requestId (Value.verification v) = 0 →
  Verification.codeLength (Value.verification v) ≠ 0 →
  trimmed code ≠ "" →
  (0 < Verification.codeLength (Value.verification v) →
   Verification.codeLength (Value.verification v) = QString_size (trimmed code)) →
  ValueMap.fields (ValueData.parsedInEdit (Value.data v)) !! "value" = Some text →
  ∃ c1 : FormController.t,
    verify value code c
    = Returns (tt, c1,
               [VerificationUpdateFired value;
                Send (Z.pos (FormController.sender_next c))
                  (verifyRequest v text (trimmed code))])
    ∧ (∀ other : QString, verify value other c1 = Returns (tt, c1, []))
    ∧ ∀ error : RPCError,
        ∃ c2 c3 : FormController.t,
          verify_fail value (codeInvalid (Value.type v)) error c1
          = Returns (tt, c2, [VerificationUpdateFired value])
          ∧ FormController.values c2
            = <[value := withVerificationError (shownError (Value.type v) error) v]>
                (FormController.values c)
          ∧ verify value code c2
            = Returns (tt, c3,
                       [VerificationUpdateFired value;
                        Send (Z.pos (FormController.sender_next c2))
                          (verifyRequest v text (trimmed code))]).
Proof.
  intros Hv Hplain Hidle Hstarted Hcode Hlength Htext.
  eexists. split; [apply verify_sends; assumption |]. split.
  - intros other. unfold verify.
    ctl_with ltac:(rewrite ?lookup_insert_eq). reflexivity.
  - intros error.
    set (shown := shownError (Value.type v) error).
    pose proof (verify_fail_shows
                  (FormController.set_sender_next (Pos.succ (FormController.sender_next c)) c)
                  (FormController.values c) value v (Z.pos (FormController.sender_next c))
                  error Hidle) as Hfail.
    fold shown in Hfail.
    eexists _, _. split; [exact Hfail |]. split; [reflexivity |].
    rewrite (verify_sends _ value (withVerificationError shown v) code text);
      try assumption; [reflexivity | apply lookup_insert_eq].
Qed.

Lemma values_set_sender_next (x : positive) (c : FormController.t) :
  FormController.values (FormController.set_sender_next x c) = FormController.values c.
Proof. reflexivity. Qed.

(** What [savePlainTextValue] sends. *)
Lemma savePlainTextValue_sends (c : FormController.t) (value : ValueType) (v : Value.t)
    (text : QString) :
  FormController.values c !! value = Some v →
  isEncryptedValue (Value.type v) = false →
  Value.saveRequestId v = 0 →
  ValueMap.fields (ValueData.parsedInEdit (Value.data v)) !! "value" = Some text →
  savePlainTextValue value c
  = Returns (tt,
             FormController.set_values
               (<[value := Value.set_saveRequestId (Z.pos (FormController.sender_next c)) v]>
                  (FormController.values c))
               (FormController.set_sender_next (Pos.succ (FormController.sender_next c)) c),
             [Send (Z.pos (FormController.sender_next c))
                (MTPaccount_SaveSecureValue (plainInput (Value.type v) text)
                   (FormController._secretId c))]).
Proof.
  intros Hv Hplain Hidle Htext.
  assert (Hidle' : (Value.saveRequestId v =? 0) = true) by lia.
  unfold savePlainTextValue, sendSaveRequest, getPlainTextFromValue.
  destruct (plain_type _ Hplain) as [Htype | Htype]; rewrite Htype in *;
    ctl_with ltac:(rewrite ?values_set_sender_next, ?Hv, ?Hplain, ?Htype, ?Htext, ?Hidle',
                     ?lookup_insert_eq, ?insert_insert_eq);
    reflexivity.
Qed.

(** What [clearValueVerification] does. *)
Lemma clearValueVerification_drops (c : FormController.t) (value : ValueType)
    (v : Value.t) :
  FormController.values c !! value = Some v →
  clearValueVerification value c
  = Returns (tt,
             FormController.set_values
               (<[value := Value.set_verification Verification.empty v]>
                  (FormController.values c)) c,
             verificationDropped value v).
Proof.
  intros Hv. unfold clearValueVerification, verificationDropped.
  ctl_with ltac:(rewrite ?Hv).
  destruct (Verification.requestId (Value.verification v) =? 0);
    destruct (Verification.codeLength (Value.verification v) =? 0); reflexivity.
Qed.

(** What [valueEditFailed] does to a value that is not saving. *)
Lemma valueEditFailed_clears (c : FormController.t) (value : ValueType) (v : Value.t) :
  FormController.values c !! value = Some v →
  savingValue v = false →
  valueEditFailed value c
  = Returns (tt,
             (if Value.editScreens v =? 0
              then FormController.set_values
                     (<[value := withoutEdit v]> (FormController.values c)) c
              else c),
             (if Value.editScreens v =? 0 then destroyEditFiles (filesInEdit v) else [])).
Proof.
  intros Hv Hidle. unfold valueEditFailed, clearValueEdit.
  ctl_with ltac:(rewrite ?Hv, ?Hidle).
  destruct (Value.editScreens v =? 0); ctl_with ltac:(rewrite ?Hv, ?Hidle); reflexivity.
Qed.

(** The request that verifies the code of a phone number or an email
    succeeds: the value, which has no save in flight (its save failed
    with the error that asked for the verification), is saved again as
    plain data, and its verification is dropped: the value is saving by
    its save request alone. *)
Theorem verify_done_saves_value (c : FormController.t) (value : ValueType)
    (v : Value.t) (text : QString) :
  FormController.values c !! value = Some v →
  isEncryptedValue (Value.type v) = false →
  Value.saveRequestId v = 0 →
  ValueMap.fields (ValueData.parsedInEdit (Value.data v)) !! "value" = Some text →
  ∃ c' : FormController.t,
    verify_done value c
    = Returns (tt, c',
               Send (Z.pos (FormController.sender_next c))
                 (MTPaccount_SaveSecureValue (plainInput (Value.type v) text)
                    (FormController._secretId c))
               :: verificationDropped value v)
    ∧ FormController.values c'
      = <[value := Value.set_verification Verification.empty
                     (Value.set_saveRequestId (Z.pos (FormController.sender_next c)) v)]>
          (FormController.values c)
    ∧ savingValue
        (Value.set_verification Verification.empty
           (Value.set_saveRequestId (Z.pos (FormController.sender_next c)) v))
      = true.
Proof.
  intros Hv Hplain Hidle Htext. eexists. split; [| split].
  - unfold verify_done, bind.
    rewrite (savePlainTextValue_sends c value v text Hv Hplain Hidle Htext).
    rewrite (clearValueVerification_drops _ value
               (Value.set_saveRequestId (Z.pos (FormController.sender_next c)) v))
      by apply lookup_insert_eq.
    reflexivity.
  - cbn. rewrite insert_insert_eq. reflexivity.
  - reflexivity.
Qed.

Lemma unless_saving_edit_failed (c : FormController.t) (value : ValueType) (v : Value.t) :
  FormController.values c !! value = Some v →
  (let! v := findValue value in
   when (negb (savingValue v)) (valueEditFailed value)) c
  = if savingValue v then Returns (tt, c, []) else valueEditFailed value c.
Proof.
  intros Hv. cbv beta iota delta [bind findValue gets]. rewrite Hv.
  cbv beta iota delta [ret when].
  destruct (savingValue v); [reflexivity |]. cbn [negb app].
  destruct (valueEditFailed value c) as [[[[] c'] out] |]; reflexivity.
Qed.

(** The verification of a value of the form is cancelled: the call
    returns and sends nothing; the request in flight, if any, is
    cancelled and the observers are notified if a code was awaited; the
    verification of the value is the empty one; and when no save of the
    value is in flight the value is no longer saving, and its staged
    copies are dropped if no edit screen is open on it. *)
Theorem cancelValueVerification_returns (c : FormController.t) (value : ValueType)
    (v : Value.t) :
  FormController.values c !! value = Some v →
  ∃ (c' : FormController.t) (out : list Effect) (v' : Value.t),
    cancelValueVerification value c = Returns (tt, c', verificationDropped value v ++ out)
    ∧ requests (verificationDropped value v ++ out) = []
    ∧ FormController.values c' = <[value := v']> (FormController.values c)
    ∧ Value.verification v' = Verification.empty
    ∧ (Value.saveRequestId v ≠ 0 →
       v' = Value.set_verification Verification.empty v ∧ out = [])
    ∧ (Value.saveRequestId v = 0 →
       savingValue v' = false
       ∧ v' = (if Value.editScreens v =? 0
               then withoutEdit (Value.set_verification Verification.empty v)
               else Value.set_verification Verification.empty v)
       ∧ out = (if Value.editScreens v =? 0
                then destroyEditFiles (filesInEdit v) else [])).
Proof.
  intros Hv.
  assert (Hdropped : requests (verificationDropped value v) = []).
  { unfold verificationDropped.
    destruct (Verification.requestId (Value.verification v) =? 0);
      destruct (Verification.codeLength (Value.verification v) =? 0); reflexivity. }
  set (v0 := Value.set_verification Verification.empty v).
  set (c0 := FormController.set_values (<[value := v0]> (FormController.values c)) c).
  assert (Hv0 : FormController.values c0 !! value = Some v0) by apply lookup_insert_eq.
  assert (Hsaving : savingValue v0 = negb (Value.saveRequestId v =? 0)).
  { unfold savingValue. cbn. rewrite !orb_false_r. reflexivity. }
  assert (Hrun : cancelValueVerification value c
                 = match (let! v := findValue value in
                          when (negb (savingValue v)) (valueEditFailed value)) c0 with
                   | Returns (b, c2, out2) =>
                       Returns (b, c2, verificationDropped value v ++ out2)
                   | Violation what => Violation what
                   end).
  { unfold cancelValueVerification. unfold bind at 1.
    rewrite (clearValueVerification_drops c value v Hv). reflexivity. }
  rewrite Hrun, (unless_saving_edit_failed c0 value v0 Hv0).
  destruct (Value.saveRequestId v =? 0) eqn:Hsave.
  - assert (Hidle : savingValue v0 = false) by (rewrite Hsaving; reflexivity).
    rewrite Hidle. rewrite (valueEditFailed_clears c0 value v0 Hv0 Hidle).
    change (Value.editScreens v0) with (Value.editScreens v).
    change (filesInEdit v0) with (filesInEdit v).
    destruct (Value.editScreens v =? 0) eqn:Hscreens.
    + eexists _, _, _. split; [reflexivity |].
      split; [rewrite requests_app, requests_destroyEditFiles, Hdropped; reflexivity |].
      split; [cbn; rewrite insert_insert_eq; reflexivity |].
      split; [reflexivity |]. split; [intros Hne; lia |].
      intros _. split; [exact Hidle |]. split; reflexivity.
    + exists c0, [], v0. split; [reflexivity |].
      split; [rewrite app_nil_r; exact Hdropped |].
      split; [reflexivity |]. split; [reflexivity |]. split; [intros Hne; lia |].
      intros _. split; [exact Hidle |]. split; reflexivity.
  - assert (Hbusy : savingValue v0 = true) by (rewrite Hsaving; reflexivity).
    rewrite Hbusy.
    exists c0, [], v0. split; [reflexivity |].
    split; [rewrite app_nil_r; exact Hdropped |].
    split; [reflexivity |]. split; [reflexivity |].
    split; [intros _; split; reflexivity |]. intros Hzero. lia.
Qed.

(** ** A secure secret that unwraps *)

Lemma requests_validateFileSecret (c : FormController.t) (file : File.t) :
  requests (validateFileSecret c file).2 = [].
Proof.
  unfold validateFileSecret.
  destruct (isEmpty _); reflexivity.
Qed.

Lemma requests_validateScans (c : FormController.t) (scans : list File.t) :
  requests (validateScans c scans).2 = [].
Proof.
  induction scans as [| scan scans IH]; [reflexivity |].
  cbn [validateScans].
  pose proof (requests_validateFileSecret c scan) as Hscan.
  destruct (validateFileSecret c scan) as [[ok scan'] out]. cbn [snd] in Hscan.
  destruct ok; [| exact Hscan].
  destruct (validateScans c scans) as [[ok' scans'] out']. cbn [snd] in *.
  rewrite requests_app, Hscan, IH. reflexivity.
Qed.

Lemma requests_validateValueSecrets (c : FormController.t) (v : Value.t) :
  requests (validateValueSecrets c v).2 = [].
Proof.
  unfold validateValueSecrets.
  destruct (negb (isEmpty (ValueData.original (Value.data v))) && _); [reflexivity |].
  match goal with
  | |- context [validateScans c ?scans] =>
      pose proof (requests_validateScans c scans) as Hscans;
      destruct (validateScans c scans) as [[ok scans'] out]
  end.
  cbn [snd] in Hscans.
  destruct ok; [| exact Hscans].
  match goal with
  | |- context [match Value.selfie ?x with _ => _ end] => destruct (Value.selfie x) as [selfie |]
  end; [| exact Hscans].
  pose proof (requests_validateFileSecret c selfie) as Hselfie.
  destruct (validateFileSecret c selfie) as [[ok selfie'] out']. cbn [snd] in *.
  rewrite requests_app, Hscans, Hselfie. reflexivity.
Qed.

(** With the master secret there, [decryptValue] returns and sends
    nothing. *)
Lemma decryptValue_returns (c : FormController.t) (v : Value.t) :
  FormController._secret c ≠ "" →
  ∃ (v' : Value.t) (out : list Effect),
    decryptValue c v = Returns (v', out) ∧ requests out = [].
Proof.
  intros Hsecret. apply isEmpty_false in Hsecret.
  unfold decryptValue. rewrite Hsecret.
  pose proof (requests_validateValueSecrets c v) as Hlogs.
  destruct (validateValueSecrets c v) as [[ok v1] out]. cbn [snd] in Hlogs.
  destruct ok; cbn [negb].
  - destruct (negb (isEmpty (ValueData.original (Value.data v1))));
      eexists _, _; split; try reflexivity; exact Hlogs.
  - eexists _, _. split; [reflexivity |].
    rewrite requests_app, Hlogs, requests_destroyEditFiles. reflexivity.
Qed.

Lemma validateScans_set_values (c : FormController.t) (values : gmap ValueType Value.t)
    (scans : list File.t) :
  validateScans (FormController.set_values values c) scans = validateScans c scans.
Proof.
  induction scans as [| scan scans IH]; [reflexivity |].
  cbn [validateScans]. rewrite IH. reflexivity.
Qed.

Lemma decryptValue_set_values (c : FormController.t) (values : gmap ValueType Value.t)
    (v : Value.t) :
  decryptValue (FormController.set_values values c) v = decryptValue c v.
Proof.
  unfold decryptValue, validateValueSecrets. rewrite validateScans_set_values. reflexivity.
Qed.

Lemma decrypt_walk (c : FormController.t) (types : list ValueType)
    (values : gmap ValueType Value.t) :
  FormController._secret c ≠ "" →
  ∃ out : list Effect,
    for_each types (fun type =>
      let! values := gets FormController.values in
      match values !! type with
      | Some value =>
          fun c =>
            match decryptValue c value with
            | Returns (value, out) =>
                Returns (tt,
                         FormController.set_values
                           (<[type := value]> (FormController.values c)) c,
                         out)
            | Violation what => Violation what
            end
      | None => ret tt
      end) (FormController.set_values values c)
    = Returns (tt,
               FormController.set_values (updated_on (decryptedValue c) types values) c,
               out)
    ∧ requests out = [].
Proof.
  intros Hsecret. revert values.
  induction types as [| type types IH]; intros values.
  - exists []. split; reflexivity.
  - cbn [for_each updated_on]. unfold bind at 1. unfold bind at 1. unfold gets at 1.
    change (FormController.values (FormController.set_values values c)) with values.
    destruct (values !! type) as [v |] eqn:Hv.
    + rewrite decryptValue_set_values.
      destruct (decryptValue_returns c v Hsecret) as (v' & out1 & Hdecrypt & Hout1).
      assert (Hf : decryptedValue c v = v')
        by (unfold decryptedValue; rewrite Hdecrypt; reflexivity).
      rewrite Hdecrypt, Hf. cbn [app].
      rewrite set_values_twice.
      change (FormController.values (FormController.set_values values c)) with values.
      destruct (IH (<[type := v']> values)) as (out2 & Hrest & Hout2).
      rewrite Hrest. exists (out1 ++ out2). split; [reflexivity |].
      rewrite requests_app, Hout1, Hout2. reflexivity.
    + unfold ret at 1. destruct (IH values) as (out2 & Hrest & Hout2).
      rewrite Hrest. exists out2. split; [reflexivity | exact Hout2].
Qed.

(** A recovery salt and a wrapped master secret are both supplied and the
    secret unwraps: it becomes the master secret, with its hash as its
    identifier; every value of the form is decrypted under it, as
    [decryptValue] does; nothing is sent, and no secret is generated;
    and secret-ready is fired at the end. *)
Theorem validateSecureSecret_unwraps (c : FormController.t)
    (salt encryptedSecret password : bytes) :
  salt ≠ "" →
  encryptedSecret ≠ "" →
  DecryptSecureSecret salt encryptedSecret password ≠ "" →
  ∃ (c' : FormController.t) (out : list Effect),
    validateSecureSecret salt encryptedSecret password c
    = Returns (tt, c', out ++ [SecretReadyFired])
    ∧ requests out = []
    ∧ FormController._secret c' = DecryptSecureSecret salt encryptedSecret password
    ∧ FormController._secretId c'
      = CountSecureSecretHash (DecryptSecureSecret salt encryptedSecret password)
    ∧ FormController._saveSecretRequestId c' = FormController._saveSecretRequestId c
    ∧ (∀ type : ValueType,
         FormController.values c' !! type
         = decryptedValue (unlockedBy (DecryptSecureSecret salt encryptedSecret password) c)
           <$> FormController.values c !! type)
    ∧ ∀ v : Value.t,
        ∃ logs : list Effect,
          decryptValue (unlockedBy (DecryptSecureSecret salt encryptedSecret password) c) v
          = Returns
              (decryptedValue
                 (unlockedBy (DecryptSecureSecret salt encryptedSecret password) c) v,
               logs).
Proof.
  intros Hsalt Hwrapped Hunwraps.
  set (secret := DecryptSecureSecret salt encryptedSecret password) in *.
  set (c0 := FormController.set_secretId (CountSecureSecretHash secret)
               (FormController.set_secret secret c)).
  assert (Hsecret0 : FormController._secret c0 ≠ "") by exact Hunwraps.
  destruct (decrypt_walk c0 all_ValueTypes (FormController.values c0) Hsecret0)
    as (out & Hwalk & Hout).
  rewrite FormController_set_values_same in Hwalk.
  apply isEmpty_false in Hsalt, Hwrapped.
  pose proof (proj2 (isEmpty_false _) Hunwraps) as Hfull.
  eexists _, out. split; [| split; [exact Hout |]].
  - unfold validateSecureSecret, decryptValues, for_each_value.
    unfold bind at 1. unfold bind at 1. rewrite Hsalt, Hwrapped. cbn [negb andb when].
    unfold bind at 1. unfold modify at 1. unfold bind at 1. unfold gets at 1.
    cbn [FormController._secret FormController.set_secret]. fold secret. rewrite Hfull.
    unfold bind at 1. unfold modify at 1.
    unfold bind at 1. unfold bind at 1. unfold gets at 1.
    cbn [FormController._secret FormController.set_secret FormController.set_secretId].
    rewrite Hfull. cbn [negb Expects]. unfold ret at 1.
    fold c0. rewrite Hwalk. cbn [app].
    unfold bind at 1. unfold gets at 1.
    cbn [FormController._secret FormController.set_secret FormController.set_secretId
           FormController.set_values FormController.set_form c0].
    rewrite Hfull. cbn [when]. unfold bind, ret, emit. cbn [app].
    reflexivity.
  - split; [reflexivity |]. split; [reflexivity |]. split; [reflexivity |]. split.
    + intros type.
      change (FormController.values (FormController.set_values ?m ?x)) with m.
      rewrite updated_on_lookup by (apply (bool_decide_unpack _); vm_compute; exact I).
      rewrite bool_decide_eq_true_2
        by (destruct type; apply (bool_decide_unpack _); vm_compute; exact I).
      reflexivity.
    + intros v. change (unlockedBy secret c) with c0.
      destruct (decryptValue_returns c0 v Hsecret0) as (v' & logs & Hdecrypt & _).
      exists logs. unfold decryptedValue. rewrite Hdecrypt. reflexivity.
Qed.

(** ** Checking the password *)

(** The password is submitted while no check is outstanding (the salt is
    known): the check goes out, computed over the password.  While it is
    in flight a further [submitPassword] does nothing, whatever the
    password.  When the check fails, one text is fired on the
    password-error stream (the flood text for a flood error, the
    wrong-password text for an invalid hash, the error type otherwise)
    and the controller is as it was before the check, but for the
    sender: the password can be submitted again. *)
Theorem submitPassword_checks_once (c : FormController.t) (password : QString) :
  PasswordSettings.salt (FormController._password c) ≠ "" →
  FormController._passwordCheckRequestId c = 0 →
  ∃ (c1 : FormController.t) (out : list Effect),
    submitPassword password c = Returns (tt, c1, out)
    ∧ requests out
      = [MTPaccount_GetPasswordSettings (passwordHashForAuth c password)]
    ∧ (∀ other : QString, submitPassword other c1 = Returns (tt, c1, []))
    ∧ ∀ error : RPCError,
        submitPassword_fail error c1
        = Returns (tt,
                   FormController.set_sender_next (Pos.succ (FormController.sender_next c)) c,
                   [PasswordErrorFired (passwordErrorText error)]).
Proof.
  intros Hsalt Hcheck. apply isEmpty_false in Hsalt.
  assert (Hback : FormController.set_passwordCheckRequestId 0
                    (FormController.set_passwordCheckRequestId
                       (Z.pos (FormController.sender_next c))
                       (FormController.set_sender_next
                          (Pos.succ (FormController.sender_next c)) c))
                  = FormController.set_sender_next
                      (Pos.succ (FormController.sender_next c)) c).
  { destruct c; cbn in *. subst. reflexivity. }
  unfold submitPassword.
  destruct (isEmpty password) eqn:Hempty;
    (eexists _, _;
     split; [ctl_with ltac:(rewrite ?Hsalt, ?Hcheck, ?Hempty); reflexivity |];
     split; [reflexivity |];
     split;
     [ intros other; ctl_with ltac:(rewrite ?Hsalt); reflexivity
     | intros error; unfold submitPassword_fail, passwordErrorText;
       destruct (is_flood error);
       [| destruct (String.eqb (error_type error) "PASSWORD_HASH_INVALID")];
       ctl_with idtac; rewrite Hback; reflexivity ]).
Qed.

(** ** The submission *)

(** The loop of [prepareFinalData] over scopes that are all ready. *)
Lemma collectScopes_ready (c : FormController.t) (scopes : list Scope) (acc : Collected)
    (hasErrors : bool) :
  scopesBound c scopes →
  Forall (fun scope => ComputeScopeRowReadyString c scope ≠ "") scopes →
  ∃ acc' : Collected,
    collectScopes scopes acc hasErrors c = Returns ((acc', hasErrors), c, [])
    ∧ (length acc.1 + length scopes ≤ length acc'.1)%nat.
Proof.
  intros Hbound Hready. revert acc.
  induction scopes as [| scope scopes IH]; intros acc.
  - exists acc. split; [reflexivity | cbn; lia].
  - apply Forall_cons in Hbound as [[[v Hv] Hdocuments] Hbound].
    apply Forall_cons in Hready as [Hscope Hready].
    apply isEmpty_false in Hscope.
    cbn [collectScopes]. unfold bind at 1. unfold gets at 1. rewrite Hscope.
    unfold bind at 1. unfold gets at 1. rewrite Hv.
    destruct (addFirstDocument_grows
                (Form.identitySelfieRequired (FormController._form c)) c
                (scope_documents scope)
                (addValue (Form.identitySelfieRequired (FormController._form c)) v acc)
                Hdocuments) as (acc1 & Hfirst & Hlength1).
    unfold bind at 1. rewrite Hfirst.
    destruct (IH Hbound Hready acc1) as (acc' & Hrest & Hlength).
    rewrite Hrest. exists acc'. split; [reflexivity |].
    assert (Hadded : (length acc.1 + 1
                      ≤ length (addValue (Form.identitySelfieRequired
                                            (FormController._form c)) v acc).1)%nat).
    { destruct acc as [hashes secureData]. unfold addValue.
      destruct (negb (isEmpty (ValueCredentialsKey (Value.type v))));
        cbn [fst]; rewrite length_app; cbn; lia. }
    cbn [length]. lia.
Qed.

(** The form is not complete: there is no scope at all, or a scope is not
    ready.  [submit] (none being in flight) returns false, sends nothing
    and changes nothing but errors of values of the form. *)
Theorem submit_incomplete_sends_nothing (c : FormController.t) :
  FormController._submitRequestId c = 0 →
  scopesBound c (ComputeScopes c) →
  ComputeScopes c = [] ∨ Exists (notReady c) (ComputeScopes c) →
  ∃ c' : FormController.t,
    submit c = Returns (false, c', [])
    ∧ errorsApart c c'
    ∧ c' = FormController.set_values (FormController.values c') c.
Proof.
  intros Hidle Hbound Hincomplete.
  assert (Hidle' : (FormController._submitRequestId c =? 0) = true) by lia.
  destruct (collectScopes_flags c (ComputeScopes c) c ([], ∅) false
              (errorsApart_refl c) Hbound)
    as ([hashes secureData] & hasErrors & c' & Hcollect & Hapart & Hrest & _ & Hfound).
  exists c'. split; [| split; assumption].
  unfold submit, prepareFinalData.
  unfold bind at 1. unfold gets at 1. rewrite Hidle'. cbn [negb].
  unfold bind at 1. unfold bind at 1. unfold gets at 1.
  unfold bind at 1. rewrite Hcollect.
  destruct Hincomplete as [Hnone | Hnot].
  - rewrite Hnone in Hcollect. cbn in Hcollect. injection Hcollect as <- <- <- <-.
    unfold bind, gets, ret. cbn. reflexivity.
  - rewrite (Hfound Hnot). unfold ret. cbn. reflexivity.
Qed.

(** The form is complete: there are scopes and they are all ready.
    [submit] (none being in flight) returns true and sends one request:
    the hashes [prepareFinalData] has collected, at least one per scope,
    with its credentials encrypted under a fresh secret and that secret
    encrypted for the public key of the request; the id of the request is
    recorded, and a further [submit] returns true and sends nothing. *)
Theorem submit_complete_sends_once (c : FormController.t) :
  FormController._submitRequestId c = 0 →
  scopesBound c (ComputeScopes c) →
  ComputeScopes c ≠ [] →
  Forall (fun scope => ComputeScopeRowReadyString c scope ≠ "") (ComputeScopes c) →
  ∃ (prepared : FinalData) (c' : FormController.t),
    prepareFinalData c = Returns (prepared, c, [])
    ∧ (length (ComputeScopes c) ≤ length (fd_hashes prepared))%nat
    ∧ submit c
      = Returns (true, c',
                 [Send (Z.pos (FormController.sender_next c)) (acceptRequest c prepared)])
    ∧ FormController._submitRequestId c' = Z.pos (FormController.sender_next c)
    ∧ FormController.values c' = FormController.values c
    ∧ submit c' = Returns (true, c', []).
Proof.
  intros Hidle Hbound Hsome Hready.
  assert (Hidle' : (FormController._submitRequestId c =? 0) = true) by lia.
  destruct (collectScopes_ready c (ComputeScopes c) ([], ∅) false Hbound Hready)
    as ([hashes secureData] & Hcollect & Hlength).
  cbn [fst length] in Hlength.
  assert (Hprepared :
    prepareFinalData c
    = Returns (mkFinalData hashes
                 (toJson (credentialsDocument secureData
                            (FormRequest.payload (FormController._request c)))),
               c, [])).
  { unfold prepareFinalData. unfold bind at 1. unfold gets at 1.
    unfold bind at 1. rewrite Hcollect. reflexivity. }
  assert (Hhashes : bool_decide (hashes = []) = false).
  { apply bool_decide_eq_false_2. intros ->.
    destruct (ComputeScopes c); [contradiction | cbn in Hlength; lia]. }
  eexists _, _. split; [exact Hprepared |].
  split; [exact Hlength |]. split; [| split; [| split]].
  - unfold submit. unfold bind at 1. unfold gets at 1. rewrite Hidle'. cbn [negb].
    unfold bind at 1. rewrite Hprepared. cbn [fd_hashes]. rewrite Hhashes.
    ctl_with idtac. reflexivity.
  - reflexivity.
  - reflexivity.
  - unfold submit. ctl_with idtac. reflexivity.
Qed.

(** ** The form of the remote authority *)

Lemma parseFile_nothing_staged (file : MTPSecureFile) : (parseFile file []).2 = [].
Proof. destruct file; reflexivity. Qed.

Lemma parseFiles_nothing_staged (files : list MTPSecureFile) :
  (parseFiles files []).2 = [].
Proof.
  induction files as [| file files IH]; [reflexivity |].
  cbn [parseFiles].
  pose proof (parseFile_nothing_staged file) as Hfile.
  destruct (parseFile file []) as [normal out].
  destruct (parseFiles files []) as [result out']. cbn [snd] in *.
  subst. reflexivity.
Qed.

Lemma parseValue_nothing_staged (value : MTPSecureValue) :
  supported (sv_type value) →
  ∃ parsed : Value.t,
    parseValue value [] = Returns (parsed, [])
    ∧ storedType value = Some (Value.type parsed).
Proof.
  intros Hsupported. unfold parseValue, storedType.
  destruct (Convert.fromMTP (sv_type value)) as [type | what] eqn:Htype.
  2: { destruct (sv_type value); try discriminate Htype. contradiction. }
  assert (Hscans : ∃ scans,
            match sv_files value with
            | Some files => parseFiles files []
            | None => ([], [])
            end = (scans, [])).
  { destruct (sv_files value) as [files |]; [| eexists; reflexivity].
    pose proof (parseFiles_nothing_staged files) as Hfiles.
    destruct (parseFiles files []) as [scans out]. cbn [snd] in Hfiles. subst.
    eexists. reflexivity. }
  destruct Hscans as (scans & ->).
  assert (Hselfie : ∃ selfie,
            match sv_selfie value with
            | Some file => parseFile file []
            | None => (None, [])
            end = (selfie, [])).
  { destruct (sv_selfie value) as [file |]; [| eexists; reflexivity].
    pose proof (parseFile_nothing_staged file) as Hfile.
    destruct (parseFile file []) as [selfie out]. cbn [snd] in Hfile. subst.
    eexists. reflexivity. }
  destruct Hselfie as (selfie & ->).
  eexists. split; reflexivity.
Qed.

(** What the first loop of [parseForm] does with one value. *)
Lemma parseFormValue_stores (value : MTPSecureValue) (parsed : Value.t) (s : Whole.t) :
  parseValue value [] = Returns (parsed, []) →
  parseFormValue value s
  = match valuesOf s !! Value.type parsed with
    | Some _ => Returns (tt, s, [LogTwoValues (Value.type parsed)])
    | None =>
        Returns (tt,
                 Whole.set_base
                   (FormController.set_values
                      (<[Value.type parsed := parsed]> (valuesOf s)) (Whole.base s)) s,
                 [])
    end.
Proof.
  intros Hparsed. unfold parseFormValue, valuesOf. rewrite Hparsed.
  unfold act_bind, act_gets.
  destruct (FormController.values (Whole.base s) !! Value.type parsed); reflexivity.
Qed.

Lemma parseFormValues_return (values : list MTPSecureValue) :
  Forall (fun value => supported (sv_type value)) values →
  ∀ s : Whole.t,
    ∃ (s' : Whole.t) (out : list Call),
      act_for_each values parseFormValue s = Returns (tt, s', out)
      ∧ s' = Whole.set_base (FormController.set_values (valuesOf s') (Whole.base s)) s
      ∧ (∀ type v, valuesOf s !! type = Some v → valuesOf s' !! type = Some v)
      ∧ Forall (fun call => ∃ type, call = LogTwoValues type) out
      ∧ (∀ (type : ValueType), valuesOf s !! type = None →
           Forall (fun value => storedType value ≠ Some type) values →
           valuesOf s' !! type = None)
      ∧ (∀ (earlier later : list MTPSecureValue) (value : MTPSecureValue)
           (parsed : Value.t),
           values = earlier ++ value :: later →
           parseValue value [] = Returns (parsed, []) →
           valuesOf s !! Value.type parsed = None →
           Forall (fun other => storedType other ≠ Some (Value.type parsed)) earlier →
           valuesOf s' !! Value.type parsed = Some parsed).
Proof.
  induction 1 as [| value values Hvalue Hvalues IH]; intros s.
  - exists s, []. split; [reflexivity |].
    split; [unfold valuesOf; rewrite FormController_set_values_same;
            symmetry; apply Whole_set_base_same |].
    split; [tauto |]. split; [constructor |]. split; [tauto |].
    intros earlier later value parsed Hsplit. destruct earlier; discriminate Hsplit.
  - destruct (parseValue_nothing_staged value Hvalue) as (parsed & Hparsed & Htype).
    cbn [act_for_each]. unfold act_bind at 1.
    rewrite (parseFormValue_stores value parsed s Hparsed).
    destruct (valuesOf s !! Value.type parsed) as [old |] eqn:Hold.
    + destruct (IH s) as (s' & out & Hrest & Hframe & Hkept & Hlogs & Hnone & Hfirst).
      rewrite Hrest. exists s', (LogTwoValues (Value.type parsed) :: out).
      split; [reflexivity |]. split; [exact Hframe |]. split; [exact Hkept |].
      split; [constructor; [eauto | exact Hlogs] |]. split.
      * intros type Htypenone Hothers. apply Forall_cons in Hothers as [_ Hothers].
        apply Hnone; assumption.
      * intros earlier later value' parsed' Hsplit Hparsed' Hfree Hearlier.
        destruct earlier as [| first earlier].
        -- injection Hsplit as <- <-. rewrite Hparsed in Hparsed'.
           injection Hparsed' as <-. congruence.
        -- injection Hsplit as <- ->. apply Forall_cons in Hearlier as [_ Hearlier].
           eapply Hfirst; eauto.
    + set (s1 := Whole.set_base
                   (FormController.set_values
                      (<[Value.type parsed := parsed]> (valuesOf s)) (Whole.base s)) s).
      destruct (IH s1) as (s' & out & Hrest & Hframe & Hkept & Hlogs & Hnone & Hfirst).
      rewrite Hrest. exists s', out.
      split; [reflexivity |]. split; [rewrite Hframe at 1; reflexivity |].
      assert (Hstored : valuesOf s1 !! Value.type parsed = Some parsed)
        by apply lookup_insert_eq.
      split; [| split; [exact Hlogs |]; split].
      * intros type v Hv. apply Hkept. unfold s1, valuesOf. cbn.
        rewrite lookup_insert_ne; [exact Hv |]. intros <-. unfold valuesOf in *.
        congruence.
      * intros type Htypenone Hothers. apply Forall_cons in Hothers as [Hthis Hothers].
        apply Hnone; [| exact Hothers]. unfold s1, valuesOf. cbn.
        rewrite lookup_insert_ne; [exact Htypenone |]. intros <-.
        apply Hthis. exact Htype.
      * intros earlier later value' parsed' Hsplit Hparsed' Hfree Hearlier.
        destruct earlier as [| first earlier].
        -- injection Hsplit as <- <-. rewrite Hparsed in Hparsed'.
           injection Hparsed' as <-. apply Hkept, Hstored.
        -- injection Hsplit as <- ->. apply Forall_cons in Hearlier as [Hthis Hearlier].
           eapply Hfirst; eauto. unfold s1, valuesOf. cbn.
           rewrite lookup_insert_ne; [exact Hfree |]. intros Heq.
           apply Hthis. rewrite Htype, Heq. reflexivity.
Qed.

Lemma withRequest_nil (s : Whole.t) : withRequest [] (valuesOf s) s = s.
Proof.
  unfold withRequest, valuesOf. rewrite app_nil_r.
  destruct s as [[? ? [] ? ? ? ? ? ? ? ? ? ? ?] ? ? ?]. reflexivity.
Qed.

Lemma parseFormRequired_adds (wire : MTPSecureValueType) (type : ValueType) (s : Whole.t) :
  Convert.fromMTP wire = Returns type →
  parseFormRequired wire s
  = Returns (tt,
             match valuesOf s !! type with
             | Some _ => withRequest [type] (valuesOf s) s
             | None => withRequest [type] (<[type := Value.create type]> (valuesOf s)) s
             end,
             []).
Proof.
  intros Htype. unfold parseFormRequired, withRequest, valuesOf. rewrite Htype.
  unfold on_base, bind, modify, gets, storeValue, ret. cbn.
  destruct (Form.values (FormController._form (Whole.base s)) !! type) eqn:Hv;
    unfold FormController.values; rewrite Hv; cbn; [| reflexivity].
  destruct s as [[? ? [] ? ? ? ? ? ? ? ? ? ? ?] ? ? ?]. reflexivity.
Qed.

Lemma parseFormRequired_return (required : list MTPSecureValueType) :
  Forall supported required →
  ∀ s : Whole.t,
    ∃ (s' : Whole.t) (types : list ValueType),
      act_for_each required parseFormRequired s = Returns (tt, s', [])
      ∧ Forall2 (fun wire type => Convert.fromMTP wire = Returns type) required types
      ∧ s' = withRequest types (valuesOf s') s
      ∧ (∀ type v, valuesOf s !! type = Some v → valuesOf s' !! type = Some v)
      ∧ (∀ type, valuesOf s !! type = None → type ∉ types → valuesOf s' !! type = None)
      ∧ Forall (fun type => is_Some (valuesOf s' !! type)) types
      ∧ Forall (fun type => valuesOf s !! type = None →
                            valuesOf s' !! type = Some (Value.create type)) types.
Proof.
  induction 1 as [| wire required Hwire Hrequired IH]; intros s.
  - exists s, []. split; [reflexivity |]. split; [constructor |].
    split; [symmetry; apply withRequest_nil |]. split; [tauto |]. split; [tauto |].
    split; constructor.
  - assert (Htype : ∃ type, Convert.fromMTP wire = Returns type).
    { destruct wire; try (eexists; reflexivity). contradiction. }
    destruct Htype as (type & Htype).
    set (s0 := withRequest [type] (valuesOf s) s).
    set (s1 := match valuesOf s !! type with
               | Some _ => s0
               | None => withRequest [type] (<[type := Value.create type]> (valuesOf s)) s
               end).
    assert (Hstep : parseFormRequired wire s = Returns (tt, s1, []))
      by exact (parseFormRequired_adds wire type s Htype).
    assert (Hsome1 : is_Some (valuesOf s1 !! type)).
    { unfold s1. destruct (valuesOf s !! type) as [v |] eqn:Hv.
      - exists v. exact Hv.
      - exists (Value.create type). apply lookup_insert_eq. }
    assert (Hkept1 : ∀ t v, valuesOf s !! t = Some v → valuesOf s1 !! t = Some v).
    { intros t v Hv. unfold s1. destruct (valuesOf s !! type) eqn:Hold; [exact Hv |].
      unfold withRequest, valuesOf. cbn. rewrite lookup_insert_ne; [exact Hv |].
      intros <-. unfold valuesOf in *. congruence. }
    assert (Hnone1 : ∀ t, valuesOf s !! t = None → t ≠ type → valuesOf s1 !! t = None).
    { intros t Hv Hne. unfold s1. destruct (valuesOf s !! type) eqn:Hold; [exact Hv |].
      unfold withRequest, valuesOf. cbn. rewrite lookup_insert_ne; [exact Hv | congruence]. }
    assert (Hunset1 : valuesOf s !! type = None →
                      valuesOf s1 !! type = Some (Value.create type)).
    { intros Hv. unfold s1. rewrite Hv. apply lookup_insert_eq. }
    destruct (IH s1)
      as (s' & types & Hrest & Htypes & Hframe & Hkept & Hnone & Hsome & Hunset).
    exists s', (type :: types).
    split; [cbn [act_for_each]; unfold act_bind; rewrite Hstep, Hrest; reflexivity |].
    split; [constructor; assumption |]. split; [| split; [| split; [| split]]].
    + rewrite Hframe at 1. unfold withRequest, s1, s0, withRequest.
      destruct (valuesOf s !! type); cbn; rewrite <- app_assoc; reflexivity.
    + intros t v Hv. apply Hkept, Hkept1, Hv.
    + intros t Hv Hfresh. apply not_elem_of_cons in Hfresh as [Hne Hfresh].
      apply Hnone; [apply Hnone1; assumption | exact Hfresh].
    + constructor; [| exact Hsome].
      destruct Hsome1 as [v Hv]. exists v. apply Hkept, Hv.
    + constructor.
      * intros Hv. apply Hkept, Hunset1, Hv.
      * eapply Forall_impl; [exact Hunset |]. intros t Ht Hv.
        destruct (decide (t = type)) as [-> | Hne].
        -- apply Hkept, Hunset1, Hv.
        -- apply Ht, Hnone1; assumption.
Qed.

Lemma sameButForm_refl (s : Whole.t) : sameButForm s s.
Proof.
  split; [| split; reflexivity].
  destruct s as [[] ? ? ?]. reflexivity.
Qed.

Lemma sameButForm_trans (s1 s2 s3 : Whole.t) :
  sameButForm s1 s2 → sameButForm s2 s3 → sameButForm s1 s3.
Proof.
  intros (Hbase12 & Hloaders12 & Hsubs12) (Hbase23 & Hloaders23 & Hsubs23).
  split; [| split; congruence].
  rewrite Hbase23 at 1. rewrite Hbase12. reflexivity.
Qed.

Lemma sameButForm_set_form (form : Form.t) (s : Whole.t) :
  sameButForm s (Whole.set_base (FormController.set_form form (Whole.base s)) s).
Proof. split; [| split]; reflexivity. Qed.

Lemma sameButForm_set_bot (bot : option Z) (s : Whole.t) :
  sameButForm s (Whole.set_bot bot s).
Proof.
  split; [| split; reflexivity]. cbn. destruct (Whole.base s). reflexivity.
Qed.

(** What [parseForm] does with a form whose types are supported. *)
Lemma parseForm_returns (s : Whole.t) (form : MTPAuthorizationForm) (bot : option Z) :
  wellTyped form →
  ∃ (s' : Whole.t) (logs : list Call) (types : list ValueType),
    parseForm form bot s = Returns (tt, s', FeedUsers (af_users form) :: logs)
    ∧ Forall (fun call => ∃ type, call = LogTwoValues type) logs
    ∧ Forall2 (fun wire type => Convert.fromMTP wire = Returns type)
        (af_required_types form) types
    ∧ sameButForm s s'
    ∧ Whole._bot s' = bot
    ∧ Form.request (FormController._form (Whole.base s'))
      = Form.request (FormController._form (Whole.base s)) ++ types
    ∧ Form.identitySelfieRequired (FormController._form (Whole.base s'))
      = af_selfie_required form
    ∧ (∀ type v, valuesOf s !! type = Some v → valuesOf s' !! type = Some v)
    ∧ Forall (fun type => is_Some (valuesOf s' !! type)) types
    ∧ (∀ (earlier later : list MTPSecureValue) (value : MTPSecureValue)
         (parsed : Value.t),
         af_values form = earlier ++ value :: later →
         parseValue value [] = Returns (parsed, []) →
         valuesOf s !! Value.type parsed = None →
         Forall (fun other => storedType other ≠ Some (Value.type parsed)) earlier →
         valuesOf s' !! Value.type parsed = Some parsed)
    ∧ (∀ type : ValueType,
         valuesOf s !! type = None →
         Forall (fun value => storedType value ≠ Some type) (af_values form) →
         type ∉ types →
         valuesOf s' !! type = None)
    ∧ Forall (fun type =>
                valuesOf s !! type = None →
                Forall (fun value => storedType value ≠ Some type) (af_values form) →
                valuesOf s' !! type = Some (Value.create type)) types.
Proof.
  intros [Hvalues Hrequired].
  destruct (parseFormValues_return (af_values form) Hvalues s)
    as (s1 & logs & Hloop1 & Hframe1 & Hkept1 & Hlogs & Hnone1 & Hfirst1).
  set (form2 :=
         match af_privacy_policy_url form with
         | Some url =>
             Form_set_privacyPolicyUrl url
               (Form_set_identitySelfieRequired (af_selfie_required form)
                  (FormController._form (Whole.base s1)))
         | None =>
             Form_set_identitySelfieRequired (af_selfie_required form)
               (FormController._form (Whole.base s1))
         end).
  set (s2 := Whole.set_base (FormController.set_form form2 (Whole.base s1)) s1).
  destruct (parseFormRequired_return (af_required_types form) Hrequired s2)
    as (s3 & types & Hloop2 & Htypes & Hframe3 & Hkept3 & Hnone3 & Hsome3 & Hunset3).
  assert (Hvalues2 : valuesOf s2 = valuesOf s1).
  { unfold s2, form2, valuesOf. destruct (af_privacy_policy_url form); reflexivity. }
  exists (Whole.set_bot bot s3), logs, types.
  split; [| split; [exact Hlogs |]; split; [exact Htypes |]; split; [| split; [reflexivity |]]].
  - unfold parseForm. unfold act_bind at 1. unfold act_emit at 1.
    unfold act_bind at 1. rewrite Hloop1.
    unfold act_bind at 1. unfold on_base at 1, modify at 1. cbn [fmap list_fmap].
    unfold act_bind at 1.
    assert (Hprivacy :
      match af_privacy_policy_url form with
      | Some url =>
          on_base
            (modify (fun c =>
               FormController.set_form
                 (Form_set_privacyPolicyUrl url (FormController._form c)) c))
      | None => act_ret tt
      end
        (Whole.set_base
           (FormController.set_form
              (Form_set_identitySelfieRequired (af_selfie_required form)
                 (FormController._form (Whole.base s1)))
              (Whole.base s1)) s1)
      = Returns (tt, s2, [])).
    { unfold s2, form2. destruct (af_privacy_policy_url form); [| reflexivity].
      unfold on_base, modify. cbn. reflexivity. }
    rewrite Hprivacy. unfold act_bind at 1. rewrite Hloop2.
    unfold act_modify. cbn [app]. rewrite !app_nil_r. reflexivity.
  - eapply sameButForm_trans; [| apply sameButForm_set_bot].
    eapply sameButForm_trans; [| rewrite Hframe3; apply sameButForm_set_form].
    eapply sameButForm_trans; [| apply sameButForm_set_form].
    rewrite Hframe1. apply sameButForm_set_form.
  - split; [| split; [| split; [| split; [| split; [| split]]]]].
    + cbn [Whole.base Whole.set_bot]. rewrite Hframe3.
      unfold withRequest, s2, form2. rewrite Hframe1. cbn.
      destruct (af_privacy_policy_url form); reflexivity.
    + cbn [Whole.base Whole.set_bot]. rewrite Hframe3.
      unfold withRequest, s2, form2. cbn.
      destruct (af_privacy_policy_url form); reflexivity.
    + intros type v Hv. apply (Hkept3 type v). rewrite Hvalues2. apply Hkept1, Hv.
    + exact Hsome3.
    + intros earlier later value parsed Hsplit Hparsed Hfree Hearlier.
      destruct (Hkept3 (Value.type parsed) parsed) as []; [| reflexivity].
      rewrite Hvalues2. eapply Hfirst1; eassumption.
    + intros type Hfree Hothers Hfresh.
      apply (Hnone3 type); [| exact Hfresh]. rewrite Hvalues2. apply Hnone1; assumption.
    + eapply Forall_impl; [exact Hunset3 |]. intros type Hunset Hfree Hothers.
      apply Hunset. rewrite Hvalues2. apply Hnone1; assumption.
Qed.

(** [parseForm], on a form whose types are supported, returns, shows and
    sends nothing, and completes the form of the controller: a value the
    form had is kept as it was; the required types are added to the
    request, in their order; every required type has a value afterwards,
    so that [findValue] finds it, and that value is the unset value of
    the type where the form had none and the response brought none; a
    type the form had no value of, that no
    value of the response has and that is not required, still has none;
    and the bot and the selfie requirement are the ones given. *)
Theorem parseForm_completes_form (s : Whole.t) (form : MTPAuthorizationForm)
    (bot : option Z) :
  wellTyped form →
  ∃ (s' : Whole.t) (out : list Call) (types : list ValueType),
    parseForm form bot s = Returns (tt, s', out)
    ∧ Forall (fun call => showsForm call = false ∧ sendsRequest call = false) out
    ∧ sameButForm s s'
    ∧ Whole._bot s' = bot
    ∧ Form.identitySelfieRequired (FormController._form (Whole.base s'))
      = af_selfie_required form
    ∧ Forall2 (fun wire type => Convert.fromMTP wire = Returns type)
        (af_required_types form) types
    ∧ Form.request (FormController._form (Whole.base s'))
      = Form.request (FormController._form (Whole.base s)) ++ types
    ∧ Forall (fun type => ∃ v, on_base (findValue type) s' = Returns (v, s', [])) types
    ∧ (∀ type v, valuesOf s !! type = Some v → valuesOf s' !! type = Some v)
    ∧ (∀ type : ValueType,
         valuesOf s !! type = None →
         Forall (fun value => storedType value ≠ Some type) (af_values form) →
         type ∉ types →
         valuesOf s' !! type = None)
    ∧ Forall (fun type =>
                valuesOf s !! type = None →
                Forall (fun value => storedType value ≠ Some type) (af_values form) →
                valuesOf s' !! type = Some (Value.create type)
                ∧ on_base (findValue type) s' = Returns (Value.create type, s', []))
        types.
Proof.
  intros Htyped.
  destruct (parseForm_returns s form bot Htyped)
    as (s' & logs & types & Hrun & Hlogs & Htypes & Hsame & Hbot & Hrequest & Hselfie
        & Hkept & Hsome & _ & Hnone & Hunset).
  assert (Hfinds : ∀ type v, valuesOf s' !! type = Some v →
                             on_base (findValue type) s' = Returns (v, s', [])).
  { intros type v Hv.
    unfold on_base, findValue, bind, gets. unfold valuesOf in Hv. rewrite Hv.
    unfold ret. cbn. rewrite Whole_set_base_same. reflexivity. }
  exists s', (FeedUsers (af_users form) :: logs), types.
  split; [exact Hrun |]. split.
  { constructor; [split; reflexivity |].
    eapply Forall_impl; [exact Hlogs |]. intros call [type ->]. split; reflexivity. }
  split; [exact Hsame |]. split; [exact Hbot |]. split; [exact Hselfie |].
  split; [exact Htypes |]. split; [exact Hrequest |].
  split; [| split; [exact Hkept |]; split; [exact Hnone |]].
  - eapply Forall_impl; [exact Hsome |]. intros type [v Hv]. exists v.
    apply Hfinds, Hv.
  - eapply Forall_impl; [exact Hunset |]. intros type Htype Hfree Hothers.
    split; [apply Htype; assumption | apply Hfinds, Htype; assumption].
Qed.

(** Of the values of the response that have one type, the first is the one
    the form keeps (when the form had no value of that type): the later
    ones are only logged. *)
Theorem parseForm_first_value_wins (s : Whole.t) (form : MTPAuthorizationForm)
    (bot : option Z) (earlier later : list MTPSecureValue) (value : MTPSecureValue) :
  wellTyped form →
  af_values form = earlier ++ value :: later →
  ∃ (parsed : Value.t) (s' : Whole.t) (out : list Call),
    parseValue value [] = Returns (parsed, [])
    ∧ parseForm form bot s = Returns (tt, s', out)
    ∧ (valuesOf s !! Value.type parsed = None →
       Forall (fun other => storedType other ≠ Some (Value.type parsed)) earlier →
       valuesOf s' !! Value.type parsed = Some parsed)
    ∧ (∀ old, valuesOf s !! Value.type parsed = Some old →
              valuesOf s' !! Value.type parsed = Some old).
Proof.
  intros Htyped Hsplit.
  assert (Hvalue : supported (sv_type value)).
  { destruct Htyped as [Hvalues _]. rewrite Hsplit in Hvalues.
    apply Forall_app in Hvalues as [_ Hvalues]. apply Forall_cons in Hvalues as [Hvalue _].
    exact Hvalue. }
  destruct (parseValue_nothing_staged value Hvalue) as (parsed & Hparsed & _).
  destruct (parseForm_returns s form bot Htyped)
    as (s' & logs & types & Hrun & _ & _ & _ & _ & _ & _ & Hkept & _ & Hfirst & _).
  eexists parsed, s', _. split; [exact Hparsed |]. split; [exact Hrun |]. split.
  - intros Hfree Hearlier. eapply Hfirst; eassumption.
  - intros old Hold. apply Hkept, Hold.
Qed.

(** ** Showing the form *)

Lemma showForm_screen (s : Whole.t) :
  showForm s
  = Returns (tt, s, [screenFor (Whole._bot s) (FormController._password (Whole.base s))]).
Proof.
  unfold showForm, screenFor. run_act.
  destruct (Whole._bot s); [| reflexivity].
  destruct (negb (isEmpty _)); [reflexivity |].
  destruct (negb (isEmpty _)); reflexivity.
Qed.

Lemma parsePassword_returns (result : MTPPassword) (s : Whole.t) :
  parsePassword result s
  = Returns (tt,
             Whole.set_base
               (FormController.set_password
                  (afterPassword result (FormController._password (Whole.base s)))
                  (Whole.base s)) s,
             [AddRandomSeed (seedOf result)]).
Proof. destruct result; reflexivity. Qed.

(** What [requestForm_done] does on a form whose types are supported. *)
Lemma requestForm_done_returns (s : Whole.t) (form : MTPAuthorizationForm)
    (bot : option Z) :
  wellTyped form →
  ∃ (s' : Whole.t) (logs : list Call),
    requestForm_done form bot s
    = Returns (tt, s',
               FeedUsers (af_users form) :: logs
               ++ (if FormController._passwordRequestId (Whole.base s) =? 0
                   then [screenFor bot (FormController._password (Whole.base s))]
                   else []))
    ∧ Forall (fun call => ∃ type, call = LogTwoValues type) logs
    ∧ FormController._formRequestId (Whole.base s') = 0
    ∧ FormController._passwordRequestId (Whole.base s')
      = FormController._passwordRequestId (Whole.base s)
    ∧ FormController._password (Whole.base s') = FormController._password (Whole.base s)
    ∧ Whole._bot s' = bot.
Proof.
  intros Htyped.
  set (s0 := Whole.set_base (FormController_set_formRequestId 0 (Whole.base s)) s).
  destruct (parseForm_returns s0 form bot Htyped)
    as (s' & logs & types & Hrun & Hlogs & _ & (Hbase & _) & Hbot & _).
  assert (Hid : FormController._passwordRequestId (Whole.base s')
                = FormController._passwordRequestId (Whole.base s))
    by (rewrite Hbase; reflexivity).
  assert (Hpassword : FormController._password (Whole.base s')
                      = FormController._password (Whole.base s))
    by (rewrite Hbase; reflexivity).
  exists s', logs. split; [| split; [exact Hlogs |]; split; [rewrite Hbase; reflexivity |];
                             split; [exact Hid |]; split; [exact Hpassword | exact Hbot]].
  unfold requestForm_done, formDone.
  unfold act_bind at 1. unfold on_base at 1, modify at 1. cbn [fmap list_fmap app].
  fold s0. unfold act_bind at 1. rewrite Hrun.
  unfold act_bind, act_gets. rewrite Hid.
  destruct (FormController._passwordRequestId (Whole.base s) =? 0); cbn [act_when].
  - rewrite showForm_screen, Hbot, Hpassword. cbn [app]. reflexivity.
  - unfold act_ret. cbn [app]. reflexivity.
Qed.

(** What [requestPassword_done] does. *)
Lemma requestPassword_done_returns (s : Whole.t) (result : MTPPassword) :
  requestPassword_done result s
  = Returns (tt,
             Whole.set_base
               (FormController.set_password
                  (afterPassword result (FormController._password (Whole.base s)))
                  (FormController_set_passwordRequestId 0 (Whole.base s))) s,
             AddRandomSeed (seedOf result)
             :: (if FormController._formRequestId (Whole.base s) =? 0
                 then [screenFor (Whole._bot s)
                         (afterPassword result (FormController._password (Whole.base s)))]
                 else [])).
Proof.
  unfold requestPassword_done, passwordDone.
  unfold act_bind at 1. unfold on_base at 1, modify at 1. cbn [fmap list_fmap app].
  unfold act_bind at 1. unfold act_bind at 1. rewrite parsePassword_returns.
  unfold act_gets. cbn [Whole.base Whole.set_base FormController._formRequestId
                          FormController.set_password FormController_set_passwordRequestId
                          FormController._password].
  destruct (FormController._formRequestId (Whole.base s) =? 0); cbn [act_when].
  - rewrite showForm_screen. reflexivity.
  - reflexivity.
Qed.

(** What [show] does when the request has a payload. *)
Lemma show_fetches (s : Whole.t) :
  FormRequest.payload (FormController._request (Whole.base s)) ≠ "" →
  show s
  = Returns (tt,
             Whole.set_base
               (FormController_set_passwordRequestId
                  (Z.pos (Pos.succ (FormController.sender_next (Whole.base s))))
                  (FormController.set_sender_next
                     (Pos.succ (Pos.succ (FormController.sender_next (Whole.base s))))
                     (FormController_set_formRequestId
                        (Z.pos (FormController.sender_next (Whole.base s)))
                        (Whole.base s)))) s,
             [SendForm (Z.pos (FormController.sender_next (Whole.base s))) (formRequest s);
              SendForm (Z.pos (Pos.succ (FormController.sender_next (Whole.base s))))
                MTPaccount_GetPassword]).
Proof.
  intros Hpayload. apply isEmpty_false in Hpayload.
  unfold show, requestForm, requestPassword, formRequest.
  act_with ltac:(rewrite ?Hpayload). reflexivity.
Qed.

(** [show] on a request with a payload sends the request of the form and
    the request of the password, and the form is shown once, when the
    second of the two responses arrives, whichever comes first: the
    continuation of the first response shows nothing, and the one of the
    second ends with the screen that goes with the bot and with the
    settings of the password as the response gave them (the form is of
    supported types). *)
Theorem form_shown_by_last_response (s : Whole.t) (form : MTPAuthorizationForm)
    (bot : option Z) (password : MTPPassword) :
  FormRequest.payload (FormController._request (Whole.base s)) ≠ "" →
  wellTyped form →
  let screen :=
    screenFor bot (afterPassword password (FormController._password (Whole.base s))) in
  ∃ s1 : Whole.t,
    show s
    = Returns (tt, s1,
               [SendForm (Z.pos (FormController.sender_next (Whole.base s))) (formRequest s);
                SendForm (Z.pos (Pos.succ (FormController.sender_next (Whole.base s))))
                  MTPaccount_GetPassword])
    ∧ (∃ (s2 s3 : Whole.t) (logs : list Call),
         requestForm_done form bot s1
         = Returns (tt, s2, FeedUsers (af_users form) :: logs)
         ∧ Forall (fun call => ∃ type, call = LogTwoValues type) logs
         ∧ requestPassword_done password s2
           = Returns (tt, s3, [AddRandomSeed (seedOf password); screen]))
    ∧ (∃ (s2 s3 : Whole.t) (logs : list Call),
         requestPassword_done password s1
         = Returns (tt, s2, [AddRandomSeed (seedOf password)])
         ∧ requestForm_done form bot s2
           = Returns (tt, s3, FeedUsers (af_users form) :: logs ++ [screen])
         ∧ Forall (fun call => ∃ type, call = LogTwoValues type) logs).
Proof.
  intros Hpayload Htyped screen.
  eexists. split; [apply show_fetches, Hpayload |]. split.
  - match goal with
    | |- context [requestForm_done form bot ?s1] =>
        destruct (requestForm_done_returns s1 form bot Htyped)
          as (s2 & logs & Hform & Hlogs & Hfetched & Hpending & Hsettings & Hbot)
    end.
    match type of Hform with
    | context [if ?b then _ else _] => change b with false in Hform
    end.
    cbv iota in Hform. rewrite app_nil_r in Hform.
    exists s2. eexists. exists logs. split; [exact Hform |]. split; [exact Hlogs |].
    rewrite requestPassword_done_returns, Hfetched, Hbot, Hsettings. reflexivity.
  - match goal with
    | |- context [requestPassword_done password ?s1] =>
        pose proof (requestPassword_done_returns s1 password) as Hpassword
    end.
    match type of Hpassword with
    | _ = Returns (_, ?s2, _) =>
        destruct (requestForm_done_returns s2 form bot Htyped)
          as (s3 & logs & Hform & Hlogs & _)
    end.
    eexists _, s3, logs. split; [exact Hpassword |]. split; [exact Hform | exact Hlogs].
Qed.

(** What [show] does when the request has no payload. *)
Lemma show_without_payload (s : Whole.t) :
  FormRequest.payload (FormController._request (Whole.base s)) = "" →
  show s
  = Returns (tt,
             Whole.set_base
               (FormController_set_passwordRequestId
                  (Z.pos (FormController.sender_next (Whole.base s)))
                  (FormController.set_sender_next
                     (Pos.succ (FormController.sender_next (Whole.base s)))
                     (FormController_set_formRequestId (-1) (Whole.base s)))) s,
             [Base (ShowBox lng_passport_form_error);
              SendForm (Z.pos (FormController.sender_next (Whole.base s)))
                MTPaccount_GetPassword]).
Proof.
  intros Hpayload. apply isEmpty_true in Hpayload.
  unfold show, requestForm, requestPassword.
  act_with ltac:(rewrite ?Hpayload). reflexivity.
Qed.

(** What [show] leaves: both requests are awaited, or the form is marked
    as not requested. *)
Lemma show_returns (s : Whole.t) :
  ∃ (s1 : Whole.t) (sent : list Call),
    show s = Returns (tt, s1, sent)
    ∧ FormController._formRequestId (Whole.base s1) ≠ 0
    ∧ FormController._passwordRequestId (Whole.base s1) ≠ 0
    ∧ (FormRequest.payload (FormController._request (Whole.base s)) = "" →
       sent = [Base (ShowBox lng_passport_form_error);
               SendForm (Z.pos (FormController.sender_next (Whole.base s)))
                 MTPaccount_GetPassword]
       ∧ FormController._formRequestId (Whole.base s1) = -1).
Proof.
  destruct (decide (FormRequest.payload (FormController._request (Whole.base s)) = ""))
    as [Hnone | Hpayload].
  - eexists _, _. split; [apply show_without_payload, Hnone |].
    split; [discriminate |]. split; [discriminate |].
    intros _. split; reflexivity.
  - eexists _, _. split; [apply show_fetches, Hpayload |].
    split; [discriminate |]. split; [discriminate |].
    intros Hnone. contradiction.
Qed.

(** One response does not show the form.  After [show], whatever the
    request is, the continuation of a failed request shows the error of
    the form and leaves the controller as it is, and the continuation of
    the first response shows no screen.  On a request without payload the
    form is not requested at all: [show] shows the error of the form,
    sends the request of the password only and marks the form with -1, so
    the password, when it arrives, shows nothing (the form is of
    supported types). *)
Theorem form_hidden_after_one_response (s : Whole.t) (form : MTPAuthorizationForm)
    (bot : option Z) (password : MTPPassword) (error : RPCError) :
  wellTyped form →
  ∃ (s1 : Whole.t) (sent : list Call),
    show s = Returns (tt, s1, sent)
    ∧ requestForm_fail error s1
      = Returns (tt, s1, [Base (ShowBox lng_passport_form_error)])
    ∧ requestPassword_fail error s1
      = Returns (tt, s1, [Base (ShowBox lng_passport_form_error)])
    ∧ (∃ s2 : Whole.t,
         requestPassword_done password s1
         = Returns (tt, s2, [AddRandomSeed (seedOf password)]))
    ∧ (∃ (s2 : Whole.t) (logs : list Call),
         requestForm_done form bot s1
         = Returns (tt, s2, FeedUsers (af_users form) :: logs)
         ∧ Forall (fun call => ∃ type, call = LogTwoValues type) logs)
    ∧ (FormRequest.payload (FormController._request (Whole.base s)) = "" →
       sent = [Base (ShowBox lng_passport_form_error);
               SendForm (Z.pos (FormController.sender_next (Whole.base s)))
                 MTPaccount_GetPassword]
       ∧ FormController._formRequestId (Whole.base s1) = -1).
Proof.
  intros Htyped.
  destruct (show_returns s) as (s1 & sent & Hshow & Hform & Hpassword & Hnone).
  exists s1, sent. split; [exact Hshow |].
  split; [reflexivity |]. split; [reflexivity |].
  apply Z.eqb_neq in Hform, Hpassword.
  split; [| split; [| exact Hnone]].
  - eexists. rewrite requestPassword_done_returns, Hform. reflexivity.
  - destruct (requestForm_done_returns s1 form bot Htyped)
      as (s2 & logs & Hrun & Hlogs & _).
    rewrite Hpassword, app_nil_r in Hrun.
    exists s2, logs. split; [exact Hrun | exact Hlogs].
Qed.

(** ** Loading files *)

(** A file is loaded once: a call of [loadFile] for a file without image
    leaves a loader under the key of the file, and a later call for a
    file of the same key without image starts no loader and changes
    nothing, the offset of the file included. *)
Theorem loadFile_starts_loader_once (file again : File.t) (s : Whole.t) :
  isEmpty (File.image file) = true →
  isEmpty (File.image again) = true →
  File.id again = File.id file →
  File.dcId again = File.dcId file →
  ∃ (file' : File.t) (s1 : Whole.t) (out : list Call),
    loadFile file s = Returns (file', s1, out)
    ∧ mkFileKey (File.id file) (File.dcId file) ∈ Whole._fileLoaders s1
    ∧ (out = []
       ∨ out = [StartLoader (mkFileKey (File.id file) (File.dcId file))
                  (File.accessHash file) (File.size file)]
         ∧ mkFileKey (File.id file) (File.dcId file) ∉ Whole._fileLoaders s)
    ∧ loadFile again s1 = Returns (again, s1, []).
Proof.
  intros Hnull Hnull' Hid HdcId.
  unfold loadFile. rewrite Hnull, Hnull', Hid, HdcId. cbn [negb].
  set (key := mkFileKey (File.id file) (File.dcId file)).
  unfold act_bind at 1, act_gets at 1.
  destruct (bool_decide (key ∈ Whole._fileLoaders s)) eqn:Hloading.
  - apply bool_decide_eq_true in Hloading.
    eexists _, _, _. split; [reflexivity |]. split; [exact Hloading |].
    split; [left; reflexivity |].
    unfold act_bind, act_gets. rewrite (bool_decide_eq_true_2 _ Hloading). reflexivity.
  - apply bool_decide_eq_false in Hloading.
    assert (Hthere : key ∈ ({[key]} ∪ Whole._fileLoaders s : gset FileKey))
      by set_solver.
    eexists _, _, _. split; [reflexivity |]. split; [exact Hthere |].
    split; [right; split; [reflexivity | exact Hloading] |].
    unfold act_bind, act_gets.
    cbn [Whole._fileLoaders Whole.set_fileLoaders].
    rewrite (bool_decide_eq_true_2 _ Hthere). reflexivity.
Qed.

(** ** Files by reference *)

Lemma find_first_Some {A B : Type} (f : A → option B) (l : list A) (y : B) :
  find_first f l = Some y → ∃ x, x ∈ l ∧ f x = Some y.
Proof.
  induction l as [| x l IH]; cbn; [discriminate |].
  destruct (f x) as [y' |] eqn:Hx.
  - intros [= ->]. exists x. split; [left | exact Hx].
  - intros Hrest. destruct (IH Hrest) as (x' & Hin & Hx').
    exists x'. split; [right; exact Hin | exact Hx'].
Qed.

Lemma find_first_ext {A B : Type} (f g : A → option B) (l : list A) :
  (∀ x, f x = g x) → find_first f l = find_first g l.
Proof.
  intros Hext. induction l as [| x l IH]; cbn; [reflexivity |].
  rewrite Hext, IH. reflexivity.
Qed.

(** What [findFile] finds is a file of the key. *)
Lemma findFile_at (key : FileKey) (c : FormController.t) (ref : FileRef) :
  findFile key c = Some ref →
  ∃ file, fileAt c ref = Some file
          ∧ File.dcId file = key_dcId key ∧ File.id file = key_id key.
Proof.
  unfold findFile. intros Hfound.
  apply find_first_Some in Hfound as (type & _ & Hfound).
  destruct (FormController.values c !! type) as [v |] eqn:Hv; [| discriminate].
  cbn in Hfound. unfold findFileIn in Hfound.
  destruct (list_find _ (Value.scans v)) as [[index scan] |] eqn:Hscan.
  - injection Hfound as <-.
    apply list_find_Some in Hscan as (Hat & Hkey & _).
    exists scan. cbn. rewrite Hv. cbn. split; [exact Hat |].
    apply andb_true_iff in Hkey as [HdcId Hid]. split; lia.
  - destruct (Value.selfie v) as [selfie |] eqn:Hselfie; [| discriminate].
    destruct (_ && _) eqn:Hkey; [| discriminate].
    injection Hfound as <-.
    exists selfie. cbn. rewrite Hv. cbn. split; [exact Hselfie |].
    apply andb_true_iff in Hkey as [HdcId Hid]. split; lia.
Qed.

(** What [findEditFile] finds is a staged file on which the test holds. *)
Lemma findEditFileWhere_at (found : EditFile.t → bool) (c : FormController.t)
    (ref : EditFileRef) :
  findEditFileWhere found c = Some ref →
  ∃ file, editFileAt c ref = Some file ∧ found file = true.
Proof.
  unfold findEditFileWhere. intros Hfound.
  apply find_first_Some in Hfound as (type & _ & Hfound).
  destruct (FormController.values c !! type) as [v |] eqn:Hv; [| discriminate].
  cbn in Hfound. unfold findEditFileIn in Hfound.
  destruct (list_find _ (Value.scansInEdit v)) as [[index scan] |] eqn:Hscan.
  - injection Hfound as <-.
    apply list_find_Some in Hscan as (Hat & Hkey & _).
    exists scan. cbn. rewrite Hv. cbn. split; [exact Hat | exact Hkey].
  - destruct (Value.selfieInEdit v) as [selfie |] eqn:Hselfie; [| discriminate].
    destruct (found selfie) eqn:Hkey; [| discriminate].
    injection Hfound as <-.
    exists selfie. cbn. rewrite Hv. cbn. split; [exact Hselfie | exact Hkey].
Qed.

(** Writing through a [File*] leaves the staged files as they are. *)
Lemma storeFile_at (c : FormController.t) (ref : FileRef) (file file' : File.t) :
  fileAt c ref = Some file →
  ∃ c', storeFile ref file' c = Returns (tt, c', [])
        ∧ fileAt c' ref = Some file'
        ∧ (∀ copy, editFileAt c' copy = editFileAt c copy)
        ∧ (∀ found, findEditFileWhere found c' = findEditFileWhere found c).
Proof.
  intros Hat.
  destruct ref as [type index | type]; cbn in Hat;
    destruct (FormController.values c !! type) as [v |] eqn:Hv; try discriminate;
    cbn in Hat;
    (eexists; split;
     [unfold storeFile, modifyValue, findValue, storeValue;
      ctl_with ltac:(rewrite ?Hv); reflexivity |]).
  - split; [| split].
    + cbn. rewrite lookup_insert_eq. cbn.
      apply list_lookup_insert_eq, lookup_lt_Some with file, Hat.
    + intros [type' index' | type']; cbn;
        (destruct (decide (type' = type)) as [-> | Hother];
         [rewrite lookup_insert_eq, Hv | rewrite lookup_insert_ne by congruence];
         reflexivity).
    + intros found. unfold findEditFileWhere. apply find_first_ext. intros type'. cbn.
      destruct (decide (type' = type)) as [-> | Hother];
        [rewrite lookup_insert_eq, Hv | rewrite lookup_insert_ne by congruence];
        reflexivity.
  - split; [| split].
    + cbn. rewrite lookup_insert_eq. reflexivity.
    + intros [type' index' | type']; cbn;
        (destruct (decide (type' = type)) as [-> | Hother];
         [rewrite lookup_insert_eq, Hv | rewrite lookup_insert_ne by congruence];
         reflexivity).
    + intros found. unfold findEditFileWhere. apply find_first_ext. intros type'. cbn.
      destruct (decide (type' = type)) as [-> | Hother];
        [rewrite lookup_insert_eq, Hv | rewrite lookup_insert_ne by congruence];
        reflexivity.
Qed.

(** Writing through an [EditFile*] leaves the committed files as they are. *)
Lemma storeEditFile_at (c : FormController.t) (ref : EditFileRef)
    (file file' : EditFile.t) :
  editFileAt c ref = Some file →
  ∃ c', storeEditFile ref file' c = Returns (tt, c', [])
        ∧ editFileAt c' ref = Some file'
        ∧ (∀ other, fileAt c' other = fileAt c other).
Proof.
  intros Hat.
  destruct ref as [type index | type]; cbn in Hat;
    destruct (FormController.values c !! type) as [v |] eqn:Hv; try discriminate;
    cbn in Hat;
    (eexists; split;
     [unfold storeEditFile, modifyValue, findValue, storeValue;
      ctl_with ltac:(rewrite ?Hv); reflexivity |]).
  - split.
    + cbn. rewrite lookup_insert_eq. cbn.
      apply list_lookup_insert_eq, lookup_lt_Some with file, Hat.
    + intros [type' index' | type']; cbn;
        (destruct (decide (type' = type)) as [-> | Hother];
         [rewrite lookup_insert_eq, Hv | rewrite lookup_insert_ne by congruence];
         reflexivity).
  - split.
    + cbn. rewrite lookup_insert_eq. reflexivity.
    + intros [type' index' | type']; cbn;
        (destruct (decide (type' = type)) as [-> | Hother];
         [rewrite lookup_insert_eq, Hv | rewrite lookup_insert_ne by congruence];
         reflexivity).
Qed.

(** What [mirrorInEdit] and [mirrorOffsetInEdit] do. *)
Lemma mirrorInEdit_returns (key : FileKey) (file : File.t) (c : FormController.t) :
  match findEditFileByKey key c with
  | Some copy =>
      ∃ staged c',
        editFileAt c copy = Some staged
        ∧ mirrorInEdit key file c = Returns (tt, c', [ScanUpdatedFired copy])
        ∧ editFileAt c' copy = Some (mirrored file staged)
        ∧ (∀ other, fileAt c' other = fileAt c other)
  | None => mirrorInEdit key file c = Returns (tt, c, [])
  end.
Proof.
  unfold mirrorInEdit. cbv beta iota delta [bind gets].
  destruct (findEditFileByKey key c) as [copy |] eqn:Hcopy; [| reflexivity].
  destruct (findEditFileWhere_at _ _ _ Hcopy) as (staged & Hat & _).
  rewrite Hat.
  destruct (storeEditFile_at c copy staged (mirrored file staged) Hat)
    as (c' & Hstore & Hat' & Hframe).
  exists staged, c'. split; [reflexivity |].
  fold (mirrored file staged). rewrite Hstore.
  split; [reflexivity |]. split; [exact Hat' | exact Hframe].
Qed.

Lemma mirrorOffsetInEdit_returns (key : FileKey) (file : File.t) (c : FormController.t) :
  match findEditFileByKey key c with
  | Some copy =>
      ∃ staged c',
        editFileAt c copy = Some staged
        ∧ mirrorOffsetInEdit key file c = Returns (tt, c', [ScanUpdatedFired copy])
        ∧ editFileAt c' copy = Some (mirroredOffset file staged)
        ∧ (∀ other, fileAt c' other = fileAt c other)
  | None => mirrorOffsetInEdit key file c = Returns (tt, c, [])
  end.
Proof.
  unfold mirrorOffsetInEdit. cbv beta iota delta [bind gets].
  destruct (findEditFileByKey key c) as [copy |] eqn:Hcopy; [| reflexivity].
  destruct (findEditFileWhere_at _ _ _ Hcopy) as (staged & Hat & _).
  rewrite Hat.
  destruct (storeEditFile_at c copy staged (mirroredOffset file staged) Hat)
    as (c' & Hstore & Hat' & Hframe).
  exists staged, c'. split; [reflexivity |].
  fold (mirroredOffset file staged). rewrite Hstore.
  split; [reflexivity |]. split; [exact Hat' | exact Hframe].
Qed.

(** A report of progress of a loader is never refused.  For a key no
    committed file has, [fileLoadProgress] does nothing.  Otherwise the
    offset the loader reports is the download offset of the first
    committed file of the key and of its staged copy, if the key has one;
    the view is told about the copy, and never about anything else.
    [fileLoadFail] is the report of the offset -1. *)
Theorem fileLoadProgress_marks_file_and_copy (key : FileKey) (offset : Z)
    (c : FormController.t) :
  fileLoadFail key c = fileLoadProgress key (-1) c
  ∧ match findFile key c with
    | None => fileLoadProgress key offset c = Returns (tt, c, [])
    | Some ref =>
        ∃ file,
          fileAt c ref = Some file
          ∧ reported key ref (File_set_downloadOffset offset file)
              (mirroredOffset (File_set_downloadOffset offset file)) c
              (fileLoadProgress key offset c)
    end.
Proof.
  split; [reflexivity |].
  unfold fileLoadProgress. cbv beta iota delta [bind gets].
  destruct (findFile key c) as [ref |] eqn:Hfound; [| reflexivity].
  destruct (findFile_at _ _ _ Hfound) as (file & Hat & _).
  rewrite Hat. exists file. split; [reflexivity |].
  set (file' := File_set_downloadOffset offset file).
  destruct (storeFile_at c ref file file' Hat) as (c1 & Hstore & Hat1 & Hcopies & Hfind).
  rewrite Hstore.
  pose proof (mirrorOffsetInEdit_returns key file' c1) as Hmirror.
  unfold reported. unfold findEditFileByKey in *. rewrite Hfind in Hmirror.
  destruct (findEditFileWhere _ c) as [copy |].
  - destruct Hmirror as (staged & c2 & Hstaged & Hrun & Hstaged' & Hframe).
    exists c2. split; [rewrite Hframe; exact Hat1 |].
    rewrite Hrun. split; [reflexivity |].
    exists staged. split; [rewrite <- Hcopies; exact Hstaged | exact Hstaged'].
  - exists c1. split; [exact Hat1 |]. rewrite Hmirror. reflexivity.
Qed.

(** The end of a download is never refused.  For a key no committed file
    has, [fileLoadDone] does nothing.  Otherwise the bytes are decrypted
    with the hash and the secret of the first committed file of the key:
    when nothing comes out the download has failed, as [fileLoadFail] has
    it; when something does, the file holds its image and is loaded in
    full, and so is its staged copy, if the key has one. *)
Theorem fileLoadDone_stores_image (key : FileKey) (bytes_ : QByteArray)
    (c : FormController.t) :
  match findFile key c with
  | None => fileLoadDone key bytes_ c = Returns (tt, c, [])
  | Some ref =>
      ∃ file,
        fileAt c ref = Some file
        ∧ let decrypted := DecryptData bytes_ (File.hash file) (File.secret file) in
          if isEmpty decrypted
          then fileLoadDone key bytes_ c = fileLoadFail key c
          else reported key ref (downloaded (readImage decrypted) file)
                 (mirrored (downloaded (readImage decrypted) file)) c
                 (fileLoadDone key bytes_ c)
  end.
Proof.
  unfold fileLoadDone. cbv beta iota delta [bind gets].
  destruct (findFile key c) as [ref |] eqn:Hfound; [| reflexivity].
  destruct (findFile_at _ _ _ Hfound) as (file & Hat & _).
  rewrite Hat. exists file. split; [reflexivity |]. cbv zeta.
  destruct (isEmpty (DecryptData bytes_ (File.hash file) (File.secret file)));
    [destruct (fileLoadFail key c) as [[[[] ?] ?] | ?]; reflexivity |].
  fold (downloaded (readImage (DecryptData bytes_ (File.hash file) (File.secret file))) file).
  set (file' := downloaded _ file).
  destruct (storeFile_at c ref file file' Hat) as (c1 & Hstore & Hat1 & Hcopies & Hfind).
  rewrite Hstore.
  pose proof (mirrorInEdit_returns key file' c1) as Hmirror.
  unfold reported. unfold findEditFileByKey in *. rewrite Hfind in Hmirror.
  destruct (findEditFileWhere _ c) as [copy |].
  - destruct Hmirror as (staged & c2 & Hstaged & Hrun & Hstaged' & Hframe).
    exists c2. split; [rewrite Hframe; exact Hat1 |].
    rewrite Hrun. split; [reflexivity |].
    exists staged. split; [rewrite <- Hcopies; exact Hstaged | exact Hstaged'].
  - exists c1. split; [exact Hat1 |]. rewrite Hmirror. reflexivity.
Qed.

(** ** The uploader reports *)

(** The staged file [findEditFile] finds for an id has an upload of that id. *)
Lemma findEditFileByFullId_at (fullId : Z) (c : FormController.t) (ref : EditFileRef) :
  findEditFileByFullId fullId c = Some ref →
  ∃ file data, uploading fullId c ref file data.
Proof.
  intros Hfound.
  destruct (findEditFileWhere_at _ _ _ Hfound) as (file & Hat & Htest).
  destruct (EditFile.uploadData file) as [data |] eqn:Hdata; [| discriminate].
  exists file, data. split; [exact Hfound |]. split; [exact Hat |].
  split; [exact Hdata | lia].
Qed.

(** A report of the uploader is never refused for want of an upload: the
    staged file an id stands for always has one.  For an id no staged
    file is uploaded under, [scanUploadProgress] and [scanUploadFail] do
    nothing; otherwise the offset of the upload of the first such file is
    the reported one, or -1 after a failure, and the view is told. *)
Theorem scanUpload_reports_set_offset (data : UploadSecureProgress) (c : FormController.t) :
  let report (offset : Z) (run : Outcome (unit * FormController.t * list Effect)) :=
    match findEditFileByFullId (usp_fullId data) c with
    | None => run = Returns (tt, c, [])
    | Some ref =>
        ∃ file upload c',
          uploading (usp_fullId data) c ref file upload
          ∧ run = Returns (tt, c', [ScanUpdatedFired ref])
          ∧ editFileAt c' ref = Some (uploadedTo offset upload file)
    end in
  report (usp_offset data) (scanUploadProgress data c)
  ∧ report (-1) (scanUploadFail (usp_fullId data) c).
Proof.
  cbv zeta.
  unfold scanUploadProgress, scanUploadFail, scanUploadOffset.
  cbv beta iota delta [bind gets].
  destruct (findEditFileByFullId (usp_fullId data) c) as [ref |] eqn:Hfound;
    [| split; reflexivity].
  destruct (findEditFileByFullId_at _ _ _ Hfound) as (file & upload & Hup).
  destruct Hup as (_ & Hat & Hdata & Hid).
  rewrite Hat, Hdata.
  split.
  - destruct (storeEditFile_at c ref file (uploadedTo (usp_offset data) upload file) Hat)
      as (c' & Hstore & Hat' & _).
    exists file, upload, c'. split; [repeat split; assumption |].
    fold (uploadedTo (usp_offset data) upload file). rewrite Hstore.
    split; [reflexivity | exact Hat'].
  - destruct (storeEditFile_at c ref file (uploadedTo (-1) upload file) Hat)
      as (c' & Hstore & Hat' & _).
    exists file, upload, c'. split; [repeat split; assumption |].
    fold (uploadedTo (-1) upload file). rewrite Hstore.
    split; [reflexivity | exact Hat'].
Qed.

(** What [scanUploadDone] does for the staged file of an id when the file
    id of the report is the one of the upload. *)
Lemma scanUploadDone_found (data : UploadSecureDone) (c : FormController.t)
    (ref : EditFileRef) (file : EditFile.t) (upload : UploadScanData.t) :
  uploading (usd_fullId data) c ref file upload →
  (UploadScanData.fileId upload =? usd_fileId data) = true →
  ∃ c',
    scanUploadDone data c = Returns (tt, c', [ScanUpdatedFired ref])
    ∧ editFileAt c' ref
      = Some (uploaded (FormController._secret c) (usd_partsCount data) upload file).
Proof.
  intros (Hfound & Hat & Hdata & _) Hsame.
  unfold scanUploadDone. cbv beta iota delta [bind gets].
  rewrite Hfound, Hat, Hdata, Hsame.
  set (sealed := uploaded (FormController._secret c) (usd_partsCount data) upload file).
  destruct (storeEditFile_at c ref file sealed Hat) as (c' & Hstore & Hat' & _).
  exists c'. split; [| exact Hat'].
  unfold Expects. cbv beta iota delta [bind ret].
  change (storeEditFile ref _ c) with (storeEditFile ref sealed c).
  rewrite Hstore. reflexivity.
Qed.

(** The end of an upload.  For an id no staged file is uploaded under,
    [scanUploadDone] does nothing.  Otherwise the report is refused when
    its file id is not the one of the upload; when it is, the hash of the
    upload becomes the hash of the staged file, the secret of the file is
    encrypted with the secret of the controller and that hash, the upload
    keeps the number of parts and loses its id, so that dropping the
    staged file later cancels no upload, and the view is told. *)
Theorem scanUploadDone_seals_file (data : UploadSecureDone) (c : FormController.t) :
  match findEditFileByFullId (usd_fullId data) c with
  | None => scanUploadDone data c = Returns (tt, c, [])
  | Some ref =>
      ∃ file upload,
        uploading (usd_fullId data) c ref file upload
        ∧ if UploadScanData.fileId upload =? usd_fileId data
          then
            let sealed :=
              uploaded (FormController._secret c) (usd_partsCount data) upload file in
            ∃ c',
              scanUploadDone data c = Returns (tt, c', [ScanUpdatedFired ref])
              ∧ editFileAt c' ref = Some sealed
              ∧ destroyEditFiles [sealed] = []
          else
            scanUploadDone data c
            = Violation "file->uploadData->fileId == data.fileId"
  end.
Proof.
  destruct (findEditFileByFullId (usd_fullId data) c) as [ref |] eqn:Hfound.
  - destruct (findEditFileByFullId_at _ _ _ Hfound) as (file & upload & Hup).
    exists file, upload. split; [exact Hup |].
    destruct (UploadScanData.fileId upload =? usd_fileId data) eqn:Hsame.
    + cbv zeta.
      destruct (scanUploadDone_found data c ref file upload Hup Hsame)
        as (c' & Hrun & Hat).
      exists c'. split; [exact Hrun |]. split; [exact Hat | reflexivity].
    + destruct Hup as (_ & Hat & Hdata & _).
      unfold scanUploadDone. cbv beta iota delta [bind gets].
      rewrite Hfound, Hat, Hdata, Hsame. reflexivity.
  - unfold scanUploadDone. cbv beta iota delta [bind gets].
    rewrite Hfound. reflexivity.
Qed.

(** ** Handing a staged file to the uploader *)

Lemma elem_of_all_ValueTypes (type : ValueType) : type ∈ all_ValueTypes.
Proof. destruct type; unfold all_ValueTypes; set_solver. Qed.

Lemma find_first_None {A B : Type} (f : A → option B) (l : list A) :
  find_first f l = None → ∀ x, x ∈ l → f x = None.
Proof.
  induction l as [| x l IH]; cbn; intros Hnone x' Hin; [inversion Hin |].
  destruct (f x) eqn:Hx; [discriminate |].
  apply elem_of_cons in Hin as [-> | Hin]; [exact Hx | exact (IH Hnone x' Hin)].
Qed.

Lemma find_first_only {A B : Type} (f : A → option B) (l : list A) (x : A) (y : B) :
  x ∈ l → f x = Some y → (∀ x' y', f x' = Some y' → x' = x) → find_first f l = Some y.
Proof.
  intros Hin Hx Honly. induction l as [| x' l IH]; [inversion Hin |]. cbn.
  destruct (f x') as [y' |] eqn:Hx'.
  - rewrite (Honly x' y' Hx') in Hx'. congruence.
  - apply IH. apply elem_of_cons in Hin as [-> | Hin]; [congruence | exact Hin].
Qed.

(** A staged file written through an [EditFile*] is the one [findEditFile]
    finds by a test that held of no staged file before. *)
Lemma storeEditFile_found (c c' : FormController.t) (ref : EditFileRef)
    (file file' : EditFile.t) (found : EditFile.t → bool) :
  editFileAt c ref = Some file →
  storeEditFile ref file' c = Returns (tt, c', []) →
  findEditFileWhere found c = None →
  found file' = true →
  findEditFileWhere found c' = Some ref.
Proof.
  intros Hat Hstore Hnone Hfound.
  pose proof (find_first_None _ _ Hnone) as Hnowhere.
  assert (Hframe : ∀ type v' other,
            FormController.values c' = <[type := v']> (FormController.values c) →
            other ≠ type →
            FormController.values c' !! other ≫= findEditFileIn found other = None).
  { intros type v' other Hvalues Hother.
    rewrite Hvalues, lookup_insert_ne by congruence.
    exact (Hnowhere other (elem_of_all_ValueTypes other)). }
  destruct ref as [type index | type]; cbn in Hat;
    destruct (FormController.values c !! type) as [v |] eqn:Hv; try discriminate;
    cbn in Hat.
  - assert (Hc' : c' = FormController.set_values
                         (<[type := Value.set_scansInEdit
                                      (<[index := file']> (Value.scansInEdit v)) v]>
                            (FormController.values c)) c).
    { unfold storeEditFile, modifyValue, findValue, storeValue in Hstore.
      revert Hstore. ctl_with ltac:(rewrite ?Hv). intros [= <-]. reflexivity. }
    pose proof (Hnowhere type (elem_of_all_ValueTypes type)) as Hhere.
    cbv beta in Hhere. rewrite Hv in Hhere. cbn in Hhere. unfold findEditFileIn in Hhere.
    destruct (list_find _ (Value.scansInEdit v)) as [[? ?] |] eqn:Hscans;
      [discriminate |].
    apply list_find_None in Hscans.
    unfold findEditFileWhere.
    apply (find_first_only _ _ type); [apply elem_of_all_ValueTypes | |].
    + rewrite Hc'. cbn. rewrite lookup_insert_eq. cbn. unfold findEditFileIn. cbn.
      assert (Hindex : list_find (fun scan => found scan = true)
                         (<[index := file']> (Value.scansInEdit v))
                       = Some (index, file')).
      { apply list_find_Some. split; [| split; [exact Hfound |]].
        - apply list_lookup_insert_eq, lookup_lt_Some with file, Hat.
        - intros j scan Hj Hbefore.
          rewrite list_lookup_insert_ne in Hj by lia.
          exact (proj1 (Forall_lookup _ _) Hscans j scan Hj). }
      rewrite Hindex. reflexivity.
    + intros other ref' Hother.
      destruct (decide (other = type)) as [-> | Hne]; [reflexivity |].
      assert (Hbad : Some ref' = None); [| discriminate Hbad].
      rewrite <- Hother. eapply (Hframe type); [| exact Hne].
      rewrite Hc'. reflexivity.
  - assert (Hc' : c' = FormController.set_values
                         (<[type := Value.set_selfieInEdit (Some file') v]>
                            (FormController.values c)) c).
    { unfold storeEditFile, modifyValue, findValue, storeValue in Hstore.
      revert Hstore. ctl_with ltac:(rewrite ?Hv). intros [= <-]. reflexivity. }
    pose proof (Hnowhere type (elem_of_all_ValueTypes type)) as Hhere.
    cbv beta in Hhere. rewrite Hv in Hhere. cbn in Hhere. unfold findEditFileIn in Hhere.
    destruct (list_find _ (Value.scansInEdit v)) as [[? ?] |] eqn:Hscans;
      [discriminate |].
    unfold findEditFileWhere.
    apply (find_first_only _ _ type); [apply elem_of_all_ValueTypes | |].
    + rewrite Hc'. cbn. rewrite lookup_insert_eq. cbn. unfold findEditFileIn. cbn.
      rewrite Hscans, Hfound. reflexivity.
    + intros other ref' Hother.
      destruct (decide (other = type)) as [-> | Hne]; [reflexivity |].
      assert (Hbad : Some ref' = None); [| discriminate Hbad].
      rewrite <- Hother. eapply (Hframe type); [| exact Hne].
      rewrite Hc'. reflexivity.
Qed.

(** Writing through an [EditFile*] leaves the secret of the controller. *)
Lemma storeEditFile_secret (c c' : FormController.t) (ref : EditFileRef)
    (file' : EditFile.t) (out : list Effect) :
  storeEditFile ref file' c = Returns (tt, c', out) →
  FormController._secret c' = FormController._secret c.
Proof.
  destruct ref as [type index | type];
    unfold storeEditFile, modifyValue, findValue, storeValue;
    (destruct (FormController.values c !! type) as [v |] eqn:Hv;
     ctl_with ltac:(rewrite ?Hv); [intros [= <- _]; reflexivity | discriminate]).
Qed.

(** What [uploadEncryptedFile] does. *)
Lemma uploadEncryptedFile_returns (s : Whole.t) (ref : EditFileRef) (file : EditFile.t)
    (data : UploadScanData.t) :
  editFileAt (Whole.base s) ref = Some file →
  let id := clientMsgId (FormController.drawn (Whole.base s)) in
  let handed := EditFile_set_uploadData (Some (UploadScanData_set_fullId id data)) file in
  ∃ c1 : FormController.t,
    storeEditFile ref handed
      (FormController.set_drawn (S (FormController.drawn (Whole.base s))) (Whole.base s))
    = Returns (tt, c1, [])
    ∧ editFileAt c1 ref = Some handed
    ∧ uploadEncryptedFile ref data s
      = Returns (tt,
                 Whole.set_base c1 (Whole.set_uploaderSubscriptions true s),
                 [Upload id (UploadScanData.fileId data) (UploadScanData.bytes_ data)
                    (UploadScanData.md5checksum data)]).
Proof.
  intros Hat id handed.
  set (c0 := FormController.set_drawn (S (FormController.drawn (Whole.base s)))
               (Whole.base s)).
  assert (Hat0 : editFileAt c0 ref = Some file) by exact Hat.
  destruct (storeEditFile_at c0 ref file handed Hat0) as (c1 & Hstore & Hat1 & _).
  exists c1. split; [exact Hstore |]. split; [exact Hat1 |].
  unfold uploadEncryptedFile, subscribeToUploader.
  unfold act_bind at 1. unfold act_bind at 1. unfold act_gets at 1.
  assert (Hsubscribed :
    (if Whole._uploaderSubscriptions s then act_ret tt
     else act_modify (Whole.set_uploaderSubscriptions true)) s
    = Returns (tt, Whole.set_uploaderSubscriptions true s, [])).
  { destruct s as [base bot loaders []]; reflexivity. }
  rewrite Hsubscribed.
  unfold act_bind at 1. unfold act_gets at 1.
  cbn [Whole.base Whole.set_uploaderSubscriptions]. rewrite Hat.
  unfold act_bind at 1. unfold on_base at 1, draw at 1.
  cbn [Whole.base Whole.set_uploaderSubscriptions Whole.set_base fmap list_fmap].
  fold c0. fold id.
  unfold act_bind at 1. unfold on_base at 1.
  cbn [Whole.base Whole.set_uploaderSubscriptions Whole.set_base].
  change (storeEditFile ref _ c0) with (storeEditFile ref handed c0).
  rewrite Hstore.
  unfold act_bind, on_base, emit_all, act_emit.
  cbn [Whole.base Whole.set_uploaderSubscriptions Whole.set_base fmap list_fmap app].
  rewrite ?app_nil_r. reflexivity.
Qed.

(** A staged file handed to the uploader is the one its report ends.
    [uploadEncryptedFile] subscribes to the uploader, gives the staged
    file the upload data under a new id and hands the encrypted bytes to
    the uploader, and that is all it does: an upload the file had before
    is not cancelled, its data is only replaced.  When no other
    staged file is uploaded under that id, the report of the uploader for
    the id and the file id of the data reaches this staged file and seals
    it: its hash is the hash of the encrypted bytes and its secret is
    encrypted with the secret of the controller. *)
Theorem upload_then_report_seals_file (s : Whole.t) (ref : EditFileRef)
    (file : EditFile.t) (data : UploadScanData.t) (partsCount : Z) :
  editFileAt (Whole.base s) ref = Some file →
  findEditFileByFullId (clientMsgId (FormController.drawn (Whole.base s))) (Whole.base s)
  = None →
  let id := clientMsgId (FormController.drawn (Whole.base s)) in
  ∃ (s1 : Whole.t) (c2 : FormController.t),
    uploadEncryptedFile ref data s
    = Returns (tt, s1,
               [Upload id (UploadScanData.fileId data) (UploadScanData.bytes_ data)
                  (UploadScanData.md5checksum data)])
    ∧ Whole._uploaderSubscriptions s1 = true
    ∧ editFileAt (Whole.base s1) ref
      = Some (EditFile_set_uploadData (Some (UploadScanData_set_fullId id data)) file)
    ∧ scanUploadDone (mkUploadSecureDone id (UploadScanData.fileId data) partsCount)
        (Whole.base s1)
      = Returns (tt, c2, [ScanUpdatedFired ref])
    ∧ editFileAt c2 ref
      = Some (uploaded (FormController._secret (Whole.base s)) partsCount data file).
Proof.
  intros Hat Hfresh id.
  destruct (uploadEncryptedFile_returns s ref file data Hat)
    as (c1 & Hstore & Hat1 & Hrun).
  fold id in Hstore, Hat1, Hrun.
  set (handed := EditFile_set_uploadData (Some (UploadScanData_set_fullId id data)) file)
    in *.
  set (c0 := FormController.set_drawn (S (FormController.drawn (Whole.base s)))
               (Whole.base s)) in *.
  assert (Hfound : findEditFileByFullId id c1 = Some ref).
  { apply (storeEditFile_found c0 c1 ref file handed _ Hat Hstore).
    - exact Hfresh.
    - cbn. apply Z.eqb_refl. }
  assert (Hsecret : FormController._secret c1 = FormController._secret (Whole.base s))
    by exact (storeEditFile_secret c0 c1 ref handed [] Hstore).
  destruct (scanUploadDone_found
              (mkUploadSecureDone id (UploadScanData.fileId data) partsCount) c1 ref
              handed (UploadScanData_set_fullId id data))
    as (c2 & Hdone & Hsealed).
  { split; [exact Hfound |]. split; [exact Hat1 |]. split; reflexivity. }
  { cbn. apply Z.eqb_refl. }
  eexists _, c2. split; [exact Hrun |]. split; [reflexivity |].
  split; [exact Hat1 |]. split; [exact Hdone |].
  rewrite Hsealed, Hsecret. reflexivity.
Qed.

End MoreProperties.

(** * The properties on the sample form *)

Module Examples.
Import Sample Forms.

(** ** Submitting the empty password *)

Lemma submitPassword_empty_goes_on_witness :
  PasswordSettings.salt (FormController._password (unlocked ∅)) ≠ ""
  ∧ FormController._passwordCheckRequestId (unlocked ∅) = 0
  ∧ submitPassword "" (unlocked ∅)
    = Returns (tt,
               FormController.set_passwordCheckRequestId 1
                 (FormController.set_sender_next 2 (unlocked ∅)),
               [PasswordErrorFired "";
                Send 1 (MTPaccount_GetPasswordSettings "#saltsalt")]).
Proof.
  assert (Hsalt : PasswordSettings.salt (FormController._password (unlocked ∅)) ≠ "")
    by (vm_compute; discriminate).
  assert (Hcheck : FormController._passwordCheckRequestId (unlocked ∅) = 0)
    by reflexivity.
  split; [exact Hsalt |]. split; [exact Hcheck |].
  exact (submitPassword_empty_goes_on (unlocked ∅) Hsalt Hcheck).
Defined.

(** ** The cap on staged scans *)

Lemma scans_cap_rejects_witness :
  FormController.values (unlocked {[Passport := fullPassport]}) !! Passport
  = Some fullPassport
  ∧ kDocumentScansLimit ≤ liveScans fullPassport
  ∧ Value.scansInEdit fullPassport !! Z.to_nat 20 = Some (stagedScan true)
  ∧ uploadScan Passport "scan" (unlocked {[Passport := fullPassport]})
    = Returns (tt, unlocked {[Passport := fullPassport]},
               [ShowToast "Scans limit reached."])
  ∧ restoreScan Passport 20 (unlocked {[Passport := fullPassport]})
    = Returns (tt, unlocked {[Passport := fullPassport]},
               [ShowToast "Scans limit reached."]).
Proof.
  assert (Hv : FormController.values (unlocked {[Passport := fullPassport]}) !! Passport
               = Some fullPassport) by reflexivity.
  assert (Hcap : kDocumentScansLimit ≤ liveScans fullPassport) by (vm_compute; discriminate).
  assert (Hscan : Value.scansInEdit fullPassport !! Z.to_nat 20 = Some (stagedScan true))
    by reflexivity.
  split; [exact Hv |]. split; [exact Hcap |]. split; [exact Hscan |].
  destruct (scans_cap_rejects (unlocked {[Passport := fullPassport]}) Passport
              fullPassport Hv) as [Hupload Hrestore].
  split.
  - exact (Hupload Hcap "scan").
  - apply (Hrestore 20 (stagedScan true)).
    + lia.
    + exact Hscan.
    + reflexivity.
    + vm_compute. reflexivity.
Defined.

(** ** Verifying a code *)

Lemma verify_wrong_code_witness :
  FormController.values (unlocked {[Phone := phone]}) !! Phone = Some phone
  ∧ trimmed "  1234 " = "1234"
  ∧ verify Phone "  1234 " (unlocked {[Phone := phone]})
    = Returns (tt,
               FormController.set_values
                 (<[Phone :=
                      Value.set_verification
                        (Verification.set_error "You have entered an invalid code."
                           (Value.verification phone))
                        phone]>
                    (FormController.values (unlocked {[Phone := phone]})))
                 (unlocked {[Phone := phone]}),
               [VerificationUpdateFired Phone; VerificationUpdateFired Phone]).
Proof.
  assert (Hv : FormController.values (unlocked {[Phone := phone]}) !! Phone = Some phone)
    by reflexivity.
  assert (Hidle : Verification.requestId (Value.verification phone) = 0) by reflexivity.
  assert (Hstarted : Verification.codeLength (Value.verification phone) ≠ 0)
    by (vm_compute; discriminate).
  assert (Hwrong :
    trimmed "  1234 " = ""
    ∨ (0 < Verification.codeLength (Value.verification phone)
       ∧ Verification.codeLength (Value.verification phone)
         ≠ QString_size (trimmed "  1234 ")))
    by (right; split; vm_compute; [reflexivity | discriminate]).
  split; [exact Hv |]. split; [reflexivity |].
  exact (verify_wrong_code (unlocked {[Phone := phone]}) Phone phone "  1234 "
           Hv Hidle Hstarted Hwrong).
Defined.

(** ** A secure secret that does not unwrap *)

Lemma validateSecureSecret_unwrap_failure_witness :
  DecryptSecureSecret "recovery-salt" "damaged" "password" = ""
  ∧ ∃ (c' : FormController.t) (out : list Effect),
      validateSecureSecret "recovery-salt" "damaged" "password"
        (locked {[UtilityBill := uploadingBill]})
      = Returns (tt, c',
                 Log "API Error: Failed to decrypt secure secret. Forgetting all files and data :("
                 :: CancelUpload 9 :: out ++ [SecretReadyFired])
      ∧ FormController._secret c' = ""
      ∧ FormController._secretId c' = 0
      ∧ FormController.values c' !! UtilityBill = Some (Value.create UtilityBill)
      ∧ FormController._saveSecretRequestId c' ≠ 0.
Proof.
  assert (Hfails : DecryptSecureSecret "recovery-salt" "damaged" "password" = "")
    by reflexivity.
  assert (Hcancelled :
    forgottenUploads (FormController.values (locked {[UtilityBill := uploadingBill]}))
    = [CancelUpload 9]) by (vm_compute; reflexivity).
  split; [exact Hfails |].
  destruct (validateSecureSecret_unwrap_failure (locked {[UtilityBill := uploadingBill]})
              "recovery-salt" "damaged" "password")
    as (c' & out & Hrun & _ & _ & Hsecret & Hid & Hvalues & Hflight & _).
  - discriminate.
  - discriminate.
  - exact Hfails.
  - rewrite Hcancelled in Hrun.
    exists c', out. split; [exact Hrun |]. split; [exact Hsecret |].
    split; [exact Hid |]. split; [| exact Hflight].
    apply (Hvalues UtilityBill uploadingBill). reflexivity.
Defined.

(** ** Decrypting a value *)

Lemma decryptValue_resets_or_replaces_witness :
  FormController._secret (unlocked ∅) ≠ ""
  ∧ ValueData.original (Value.data storedDetails) ≠ ""
  ∧ secretsUnwrap (unlocked ∅) storedDetails = true
  ∧ plaintext (unlocked ∅) storedDetails = "{first_name=Ada;}"
  ∧ decryptValue (unlocked ∅) storedDetails
    = Returns (decrypted (unlocked ∅) storedDetails, [])
  ∧ ValueMap.fields (ValueData.parsed (Value.data (decrypted (unlocked ∅) storedDetails)))
    = {["first_name" := "Ada"]}
  ∧ secretsUnwrap (unlocked ∅) foreignUploadingBill = false
  ∧ ∃ msg, decryptValue (unlocked ∅) foreignUploadingBill
           = Returns (Value.create UtilityBill, [Log msg; CancelUpload 9]).
Proof.
  assert (Hsecret : FormController._secret (unlocked ∅) ≠ "")
    by (vm_compute; discriminate).
  assert (Hstored : ValueData.original (Value.data storedDetails) ≠ "")
    by (vm_compute; discriminate).
  assert (Hforeign : ValueData.original (Value.data foreignUploadingBill) ≠ "")
    by (vm_compute; discriminate).
  assert (Hunwrap : secretsUnwrap (unlocked ∅) storedDetails = true)
    by (vm_compute; reflexivity).
  assert (Hplain : plaintext (unlocked ∅) storedDetails = "{first_name=Ada;}")
    by (vm_compute; reflexivity).
  assert (Hlost : secretsUnwrap (unlocked ∅) foreignUploadingBill = false)
    by (vm_compute; reflexivity).
  destruct (decryptValue_resets_or_replaces (unlocked ∅) storedDetails Hsecret Hstored)
    as (_ & _ & Hkept).
  destruct (decryptValue_resets_or_replaces (unlocked ∅) foreignUploadingBill Hsecret
              Hforeign)
    as (_ & Hreset & _).
  destruct Hkept as [Hrun Hfields]; [exact Hunwrap | rewrite Hplain; discriminate |].
  split; [exact Hsecret |]. split; [exact Hstored |]. split; [exact Hunwrap |].
  split; [exact Hplain |]. split; [exact Hrun |].
  split; [rewrite Hfields, Hplain; vm_compute; reflexivity |].
  split; [exact Hlost | exact (Hreset Hlost)].
Defined.

(** C1, the claim as it is written, fails: the stored data of a utility
    bill is not empty, the master secret is present and every secret
    unwraps, and the stored fields are the empty map; decrypting it
    yields the empty field map and does not reset the value. *)
Lemma decryptValue_keeps_empty_map :
  FormController._secret (unlocked ∅) ≠ ""
  ∧ ValueData.original (Value.data utilityBill) ≠ ""
  ∧ ∃ v' : Value.t,
      decryptValue (unlocked ∅) utilityBill = Returns (v', [])
      ∧ ValueMap.fields (ValueData.parsed (Value.data v')) = ∅
      ∧ v' ≠ Value.create (Value.type utilityBill).
Proof.
  split; [vm_compute; discriminate |]. split; [vm_compute; discriminate |].
  eexists. split; [vm_compute; reflexivity |]. split; [reflexivity |].
  intros Hreset. apply (f_equal Value.scans) in Hreset. discriminate Hreset.
Qed.

(** The same with a stored payload that does not decrypt under the secret
    of the value: the field map is empty and the value is not reset. *)
Lemma decryptValue_keeps_damaged_payload :
  plaintext (unlocked ∅) damagedBill = ""
  ∧ ∃ v' : Value.t,
      decryptValue (unlocked ∅) damagedBill = Returns (v', [])
      ∧ ValueMap.fields (ValueData.parsed (Value.data v')) = ∅
      ∧ v' ≠ Value.create (Value.type damagedBill).
Proof.
  split; [vm_compute; reflexivity |].
  eexists. split; [vm_compute; reflexivity |]. split; [reflexivity |].
  intros Hreset. apply (f_equal Value.scans) in Hreset. discriminate Hreset.
Qed.

(** A value with scans and no fields is saved with its data: the
    encryption of the empty field map.  This is how a stored value comes
    to have stored data and no fields. *)
Example save_of_scans_only_value :
  ∃ (c' : FormController.t) (input : MTPInputSecureValue),
    saveEncryptedValue Passport (unlocked {[Passport := passport]})
    = Returns (tt, c', [Send 1 (MTPaccount_SaveSecureValue input 13)])
    ∧ f_data (isv_flags input) = true
    ∧ isv_data input
      = Some (MTP_secureData (ed_bytes (EncryptData (SerializeData ∅) "value-secret"))
                (ed_hash (EncryptData (SerializeData ∅) "value-secret"))
                (EncryptValueSecret "value-secret" master
                   (ed_hash (EncryptData (SerializeData ∅) "value-secret")))).
Proof. eexists _, _. split; [vm_compute; reflexivity |]. split; reflexivity. Qed.

(** ** Saving an edit that changed nothing *)

Lemma saveValueEdit_unchanged_finishes_witness :
  unchangedEdit personalDetails
    (ValueMap.make {["first_name" := "Ada"; "middle_name" := ""]})
  ∧ ∃ c1 : FormController.t,
      saveValueEdit PersonalDetails
        (ValueMap.make {["first_name" := "Ada"; "middle_name" := ""]})
        (unlocked {[PersonalDetails := personalDetails]})
      = Returns (tt, c1, [OnMain (FinishUnchangedSave PersonalDetails)])
      ∧ call (FinishUnchangedSave PersonalDetails) c1
        = Returns (tt, unlocked {[PersonalDetails := personalDetails]},
                   [ValueSaveFinishedFired PersonalDetails]).
Proof.
  assert (Hsame : unchangedEdit personalDetails
                    (ValueMap.make {["first_name" := "Ada"; "middle_name" := ""]})).
  { apply editValueChanged_false. vm_compute. reflexivity. }
  split; [exact Hsame |].
  destruct (saveValueEdit_unchanged_finishes
              (unlocked {[PersonalDetails := personalDetails]}) PersonalDetails
              personalDetails
              (ValueMap.make {["first_name" := "Ada"; "middle_name" := ""]}))
    as (Hqueued & Hfinish).
  - reflexivity.
  - reflexivity.
  - reflexivity.
  - exact Hsame.
  - eexists. split; [exact Hqueued |].
    destruct (Hfinish
                (FormController.set_values
                   (<[PersonalDetails := Value.set_saveRequestId (-1) personalDetails]>
                      (FormController.values (unlocked {[PersonalDetails := personalDetails]})))
                   (unlocked {[PersonalDetails := personalDetails]}))
                (Value.set_saveRequestId (-1) personalDetails))
      as (Hrun & _).
    + reflexivity.
    + rewrite Hrun. vm_compute. reflexivity.
Defined.

(** ** Saves queued until the secret is there *)

Lemma queued_saves_replayed_in_order_witness :
  saveEncryptedValue PersonalDetails (locked {[PersonalDetails := editedDetails]})
  = Returns (tt,
             FormController.set_secretCallbacks [SaveEncryptedValue PersonalDetails]
               (locked {[PersonalDetails := editedDetails]}),
             [])
  ∧ ∃ (c' : FormController.t) (out : list Effect),
      generateSecret_done "generated-secret" 16 queued = Returns (tt, c', out)
      ∧ FormController._secret c' = "generated-secret"
      ∧ FormController._secretCallbacks c' = []
      ∧ Forall2 (savesValue queued 16) [PersonalDetails; Passport] (requests out).
Proof.
  destruct queued_saves_replayed_in_order as [Hqueue Hreplay].
  split.
  - apply (Hqueue (locked {[PersonalDetails := editedDetails]}) PersonalDetails
             editedDetails); reflexivity.
  - destruct (Hreplay queued [PersonalDetails; Passport] "generated-secret" 16)
      as [Hreturns Hinorder].
    + discriminate.
    + reflexivity.
    + destruct Hreturns as (c' & out & Hrun).
      * apply (bool_decide_unpack _). vm_compute. exact I.
      * intros value Hin.
        apply elem_of_cons in Hin as [-> | Hin];
          [| apply elem_of_cons in Hin as [-> | Hin]; [| inversion Hin]].
        -- exists editedDetails. split; [reflexivity |].
           repeat split; vm_compute; reflexivity.
        -- exists passport. split; [reflexivity |].
           repeat split; vm_compute; reflexivity.
      * destruct (Hinorder c' out Hrun) as (Hsecret & Hempty & Hsent & _).
        exists c', out. repeat split; assumption.
Defined.

(** C7 fails on the code.  No secret is stored, and the password is
    checked: the generation of a secret is started.  While its request is
    in flight two edits of the personal details are saved; the first does
    not mark the value as saving, so both are queued.  When the secret is
    there the replay sends the save of the value once, and the second
    callback ends the program at [Expects(value->saveRequestId == 0)] of
    [sendSaveRequest]: the second queued save is never executed. *)
Theorem save_queued_twice_ends_program :
  ∃ c1 c2 c3 : FormController.t,
    validateSecureSecret "" "" "password" (locked ∅)
    = Returns (tt, c1,
               [Send 1 (saveSecretRequest "password" (locked ∅)); SecretReadyFired])
    ∧ FormController._saveSecretRequestId c1 = 1
    ∧ saveValueEdit PersonalDetails (ValueMap.make {["first_name" := "Grace"]}) c1
      = Returns (tt, c2, [])
    ∧ saveValueEdit PersonalDetails (ValueMap.make {["first_name" := "Edsger"]}) c2
      = Returns (tt, c3, [])
    ∧ FormController._secretCallbacks c3
      = [SaveEncryptedValue PersonalDetails; SaveEncryptedValue PersonalDetails]
    ∧ generateSecret_done (GenerateSecretBytes 0)
        (CountSecureSecretHash (GenerateSecretBytes 0)) c3
      = Violation "value->saveRequestId == 0".
Proof.
  eexists _, _, _. split; [vm_compute; reflexivity |]. split; [reflexivity |].
  split; [vm_compute; reflexivity |]. split; [vm_compute; reflexivity |].
  split; [reflexivity |]. vm_compute. reflexivity.
Qed.

(** ** A save in flight *)

Lemma save_in_flight_blocks_witness :
  savingValue savingDetails = true
  ∧ saveValueEdit PersonalDetails (ValueMap.make {["first_name" := "Grace"]})
      (unlocked {[PersonalDetails := savingDetails]})
    = Returns (tt, unlocked {[PersonalDetails := savingDetails]}, [])
  ∧ deleteValueEdit PersonalDetails (unlocked {[PersonalDetails := savingDetails]})
    = Returns (tt, unlocked {[PersonalDetails := savingDetails]}, [])
  ∧ submit submitting = Returns (true, submitting, [])
  ∧ saveValueEdit PersonalDetails (ValueMap.make {["first_name" := "Grace"]}) submitting
    = Returns (tt, submitting, [])
  ∧ sendSaveRequest_fail PersonalDetails (mkRPCError "SECRET_INVALID" false)
      (unlocked {[PersonalDetails := savingDetails]})
    = Returns (tt, unlocked {[PersonalDetails := personalDetails]},
               [ShowBox ("Error saving value:" +:+ String "010"%char "" +:+ "SECRET_INVALID");
                ValueSaveFinishedFired PersonalDetails])
  ∧ savingValue personalDetails = false.
Proof.
  assert (Hv : FormController.values (unlocked {[PersonalDetails := savingDetails]})
               !! PersonalDetails = Some savingDetails) by reflexivity.
  assert (Hv' : FormController.values submitting !! PersonalDetails
                = Some personalDetails) by reflexivity.
  assert (Hflight : savingValue savingDetails = true) by reflexivity.
  destruct (save_in_flight_blocks (unlocked {[PersonalDetails := savingDetails]})
              PersonalDetails savingDetails Hv)
    as (Hsaving & _ & Hfailed).
  destruct (save_in_flight_blocks submitting PersonalDetails personalDetails Hv')
    as (_ & Hsubmitting & _).
  destruct (Hsaving Hflight) as [Hsave Hdelete].
  destruct Hsubmitting as (Hsubmit & Hsave' & _); [discriminate |].
  destruct (Hfailed (mkRPCError "SECRET_INVALID" false))
    as [Hsurfaced Hidle]; [reflexivity.. |].
  split; [reflexivity |]. split; [exact (Hsave _) |]. split; [exact Hdelete |].
  split; [exact Hsubmit |]. split; [exact (Hsave' _) |].
  split; [| reflexivity].
  rewrite Hsurfaced. vm_compute. reflexivity.
Defined.

(** C8, the claim as it is written, fails: the personal details of the form
    have a save in flight, and [submit] is not rejected; it sends the
    submission and records its request id. *)
Lemma submit_while_saving :
  FormController.values detailsOnly !! PersonalDetails = Some savingDetails
  ∧ savingValue savingDetails = true
  ∧ ∃ (c' : FormController.t) (r : MTPRequest),
      submit detailsOnly = Returns (true, c', [Send 1 r])
      ∧ FormController._submitRequestId c' = 1
      ∧ c' ≠ detailsOnly.
Proof.
  split; [reflexivity |]. split; [reflexivity |].
  eexists _, _. split; [vm_compute; reflexivity |]. split; [reflexivity |].
  intros Hsame. apply (f_equal FormController._submitRequestId) in Hsame.
  discriminate Hsame.
Qed.

(** ** The credentials of the final submission *)

Lemma prepareFinalData_only_hashes_and_secrets_witness :
  scopesBound filled (ComputeScopes filled)
  ∧ (∃ (prepared : FinalData) (c' : FormController.t),
       prepareFinalData filled = Returns (prepared, c', [])
       ∧ Forall (fun h => ∃ (type : ValueType) (v : Value.t),
                   FormController.values filled !! type = Some v ∧ h = hashOf v)
           (fd_hashes prepared))
  ∧ Forall (fun scope => ComputeScopeRowReadyString filled scope ≠ "")
      (ComputeScopes filled)
  ∧ accepted filled = [personalDetails; passport; savedPhone]
  ∧ prepareFinalData filled
    = Returns ({| fd_hashes := hashOf <$> accepted filled;
                  fd_credentials :=
                    toJson
                      (credentialsDocument (secureDataOf filled)
                         (FormRequest.payload (FormController._request filled))) |},
               filled, [])
  ∧ secureDataOf filled !! ValueCredentialsKey Passport
    = Some (jsonOfCredentials (credentialsOf false passport))
  ∧ secureDataOf filled !! ValueCredentialsKey PersonalDetails
    = Some (jsonOfCredentials (credentialsOf false personalDetails))
  ∧ hashOf savedPhone ∈ hashOf <$> accepted filled
  ∧ secureDataOf filled !! ValueCredentialsKey Phone = None
  ∧ ∃ c' : FormController.t,
      prepareFinalData
        (unlocked {[PersonalDetails := Value.create PersonalDetails;
                    Passport := passport; Phone := savedPhone]})
      = Returns ({| fd_hashes := []; fd_credentials := "" |}, c', []).
Proof.
  pose (unfilled := unlocked {[PersonalDetails := Value.create PersonalDetails;
                               Passport := passport; Phone := savedPhone]}).
  assert (Hunbound : scopesBound unfilled (ComputeScopes unfilled)).
  { unfold scopesBound. apply (bool_decide_unpack _). vm_compute. exact I. }
  assert (Hnot : Exists (notReady unfilled) (ComputeScopes unfilled)).
  { destruct (ComputeScopes unfilled) as [| scope rest] eqn:Hscopes;
      [vm_compute in Hscopes; discriminate Hscopes |].
    assert (Hfields : scope_fields scope = PersonalDetails)
      by (vm_compute in Hscopes; injection Hscopes as <- _; reflexivity).
    apply Exists_cons_hd. intros c' (_ & _ & Hvalues).
    specialize (Hvalues PersonalDetails).
    change (ComputeScopeRowReadyString c' scope) with (ready c' scope).
    unfold ready. rewrite Hfields.
    assert (Hdetails : FormController.values unfilled !! PersonalDetails
                       = Some (Value.create PersonalDetails)) by reflexivity.
    rewrite Hdetails in Hvalues.
    inversion Hvalues as [v0 v1 [error Herror] |]; subst v0 v1.
    vm_compute. reflexivity. }
  destruct (prepareFinalData_only_hashes_and_secrets unfilled Hunbound)
    as (_ & _ & _ & _ & Hempty).
  destruct (Hempty Hnot) as (unready & Hunready & _).
  assert (Hbound : scopesBound filled (ComputeScopes filled)).
  { unfold scopesBound. apply (bool_decide_unpack _). vm_compute. exact I. }
  assert (Hready : Forall (fun scope => ComputeScopeRowReadyString filled scope ≠ "")
                     (ComputeScopes filled)).
  { apply (bool_decide_unpack _). vm_compute. exact I. }
  assert (Haccepted : accepted filled = [personalDetails; passport; savedPhone])
    by (vm_compute; reflexivity).
  assert (Htyped : storedByType filled).
  { intros type v Hv. unfold filled, unlocked, controller in Hv. cbn in Hv.
    destruct type; vm_compute in Hv; try discriminate Hv;
      injection Hv as <-; reflexivity. }
  split; [exact Hbound |].
  destruct (prepareFinalData_only_hashes_and_secrets filled Hbound)
    as ((prepared & c' & Hrun & Hhashes & _) & _ & _ & Hall & _).
  destruct (Hall Hready) as (Hexact & _ & _ & _ & Hholds & _ & Hplain).
  split; [exists prepared, c'; split; [exact Hrun | exact Hhashes] |].
  split; [exact Hready |]. split; [exact Haccepted |]. split; [exact Hexact |].
  destruct (Hplain savedPhone) as [Hhash Hnone]; [| reflexivity |].
  { rewrite Haccepted. apply list_elem_of_In. right. right. left. reflexivity. }
  split; [| split; [| split; [exact Hhash |];
                      split; [exact Hnone | exists unready; exact Hunready]]].
  - apply (Hholds Htyped passport); [| reflexivity].
    rewrite Haccepted. apply list_elem_of_In. right. left. reflexivity.
  - apply (Hholds Htyped personalDetails); [| reflexivity].
    rewrite Haccepted. apply list_elem_of_here.
Defined.

(** The secure data of the sample form: the personal details and the
    passport under their keys, and nothing for the phone number. *)
Example collectScopes_filled :
  ∃ hashes : list MTPSecureValueHash,
    collectScopes (ComputeScopes filled) ([], ∅) false filled
    = Returns
        ((hashes,
          {[ "personal_details" :=
               QJsonObject
                 {[ "data" :=
                      QJsonObject
                        {[ "data_hash" := QJsonString "b64:#{first_name=Ada;}";
                           "secret" := QJsonString "b64:value-secret" ]} ]};
             "passport" :=
               QJsonObject
                 {[ "files" :=
                      QJsonArray
                        [QJsonObject
                           {[ "file_hash" := QJsonString "b64:#passport";
                              "secret" := QJsonString "b64:scan-secret" ]}] ]} ]},
          false),
         filled, [])
    ∧ length hashes = 3%nat.
Proof. eexists. split; vm_compute; reflexivity. Qed.

End Examples.

(** * More properties on the sample forms *)

Module MoreExamples.
Import Sample Forms.

(** ** The request of the form *)

Lemma PreprocessRequest_line_endings_witness :
  Forall (fun line => free_of CR line = true) keyLines
  ∧ FormRequest.publicKey (PreprocessRequest windowsRequest)
    = joined (String LF "") keyLines.
Proof.
  assert (Hlines : Forall (fun line => free_of CR line = true) keyLines)
    by (repeat constructor).
  split; [exact Hlines |].
  destruct (PreprocessRequest_line_endings windowsRequest) as [Hkey _].
  exact (Hkey keyLines Hlines eq_refl).
Defined.

(** ** Staged scans and selfies *)

Lemma uploadScan_stages_at_end_witness :
  FormController.values (unlocked {[Passport := passport]}) !! Passport = Some passport
  ∧ liveScans passport < kDocumentScansLimit
  ∧ ∃ c' : FormController.t,
      uploadScan Passport "scan" (unlocked {[Passport := passport]})
      = Returns (tt, c',
                 [ScanUpdatedFired (ScanInEdit Passport 1);
                  AsyncEncrypt (ScanInEdit Passport 1) 1000 "scan" "fresh-secret-1"])
      ∧ FormController.values c'
        = <[Passport :=
              Value.set_scansInEdit
                (Value.scansInEdit passport
                 ++ [stagedFile (unlocked {[Passport := passport]}) Passport "scan"])
                passport]>
            (FormController.values (unlocked {[Passport := passport]})).
Proof.
  assert (Hv : FormController.values (unlocked {[Passport := passport]}) !! Passport
               = Some passport) by reflexivity.
  assert (Hroom : liveScans passport < kDocumentScansLimit) by (vm_compute; reflexivity).
  split; [exact Hv |]. split; [exact Hroom |].
  destruct (uploadScan_stages_at_end (unlocked {[Passport := passport]}) Passport passport
              "scan" Hv Hroom)
    as (c' & v' & Hrun & Hvalues & Hstaged & _).
  exists c'. split; [exact Hrun |]. rewrite Hvalues, Hstaged. reflexivity.
Defined.

Lemma staged_scans_stay_under_cap_witness :
  FormController.values (unlocked {[Passport := fullPassport]}) !! Passport
  = Some fullPassport
  ∧ liveScans fullPassport ≤ kDocumentScansLimit
  ∧ 0 ≤ 20 < Z.of_nat (length (Value.scansInEdit fullPassport))
  ∧ (∃ (c' : FormController.t) (out : list Effect) (v' : Value.t),
       uploadScan Passport "scan" (unlocked {[Passport := fullPassport]})
       = Returns (tt, c', out)
       ∧ FormController.values c' !! Passport = Some v'
       ∧ liveScans v' ≤ kDocumentScansLimit)
  ∧ ∃ (c' : FormController.t) (out : list Effect) (v' : Value.t),
      scanDeleteRestore Passport 20 false (unlocked {[Passport := fullPassport]})
      = Returns (tt, c', out)
      ∧ FormController.values c' !! Passport = Some v'
      ∧ liveScans v' ≤ kDocumentScansLimit.
Proof.
  assert (Hv : FormController.values (unlocked {[Passport := fullPassport]}) !! Passport
               = Some fullPassport) by reflexivity.
  assert (Hcap : liveScans fullPassport ≤ kDocumentScansLimit)
    by (vm_compute; discriminate).
  assert (Hindex : 0 ≤ 20 < Z.of_nat (length (Value.scansInEdit fullPassport)))
    by (vm_compute; split; [discriminate | reflexivity]).
  split; [exact Hv |]. split; [exact Hcap |]. split; [exact Hindex |].
  destruct (staged_scans_stay_under_cap (unlocked {[Passport := fullPassport]}) Passport
              fullPassport Hv Hcap) as [Hupload Hflag].
  split; [exact (Hupload "scan") | exact (Hflag 20 false Hindex)].
Defined.

Lemma deleteScan_then_restoreScan_witness :
  FormController.values (unlocked {[Passport := passport]}) !! Passport = Some passport
  ∧ Value.scansInEdit passport !! Z.to_nat 0
    = Some (EditFile.create Passport passportScan None)
  ∧ liveScans passport ≤ kDocumentScansLimit
  ∧ ∃ c1 : FormController.t,
      deleteScan Passport 0 (unlocked {[Passport := passport]})
      = Returns (tt, c1, [ScanUpdatedFired (ScanInEdit Passport 0)])
      ∧ restoreScan Passport 0 c1
        = Returns (tt, unlocked {[Passport := passport]},
                   [ScanUpdatedFired (ScanInEdit Passport 0)]).
Proof.
  assert (Hv : FormController.values (unlocked {[Passport := passport]}) !! Passport
               = Some passport) by reflexivity.
  assert (Hscan : Value.scansInEdit passport !! Z.to_nat 0
                  = Some (EditFile.create Passport passportScan None)) by reflexivity.
  assert (Hcap : liveScans passport ≤ kDocumentScansLimit) by (vm_compute; discriminate).
  split; [exact Hv |]. split; [exact Hscan |]. split; [exact Hcap |].
  destruct (deleteScan_then_restoreScan (unlocked {[Passport := passport]}) Passport
              passport 0 (EditFile.create Passport passportScan None) Hv)
    as (c1 & Hdelete & _ & Hrestore); [lia | exact Hscan | reflexivity | exact Hcap |].
  exists c1. split; [exact Hdelete | exact Hrestore].
Defined.


(** ** Editing a value *)


Lemma startValueEdit_then_cancelValueEdit_witness :
  FormController.values (Whole.base (whole (unlocked {[Passport := closedPassport]})))
  !! Passport = Some closedPassport
  ∧ savingValue closedPassport = false
  ∧ withoutEdit closedPassport = closedPassport
  ∧ ∃ (s' : Whole.t) (out : list Call) (scans : list File.t),
      startValueEdit Passport (whole (unlocked {[Passport := closedPassport]}))
      = Returns (tt, s', out)
      ∧ cancelValueEdit Passport (Whole.base s')
        = Returns (tt,
                   FormController.set_values
                     (<[Passport := Value.set_selfie None
                                      (Value.set_scans scans closedPassport)]>
                        (FormController.values (unlocked {[Passport := closedPassport]})))
                     (unlocked {[Passport := closedPassport]}),
                   [])
      ∧ Forall2 sameButOffset [passportScan] scans.
Proof.
  assert (Hv : FormController.values
                 (Whole.base (whole (unlocked {[Passport := closedPassport]})))
               !! Passport = Some closedPassport) by reflexivity.
  assert (Hidle : savingValue closedPassport = false) by reflexivity.
  assert (Hclean : withoutEdit closedPassport = closedPassport) by reflexivity.
  split; [exact Hv |]. split; [exact Hidle |]. split; [exact Hclean |].
  destruct (startValueEdit_then_cancelValueEdit
              (whole (unlocked {[Passport := closedPassport]})) Passport closedPassport
              Hv Hidle)
    as (s' & out & scans & selfie & Hrun & Hcancel & Hscans & Hselfie);
    [vm_compute; discriminate | exact Hclean |].
  exists s', out, scans. split; [exact Hrun |]. split; [| exact Hscans].
  inversion Hselfie; subst. exact Hcancel.
Defined.

Lemma edit_screens_while_saving_witness :
  FormController.values (Whole.base (whole (unlocked {[PersonalDetails := savingDetails]})))
  !! PersonalDetails = Some savingDetails
  ∧ savingValue savingDetails = true
  ∧ Value.editScreens savingDetails ≤ 0
  ∧ startValueEdit PersonalDetails (whole (unlocked {[PersonalDetails := savingDetails]}))
    = Returns (tt,
               whole (unlocked {[PersonalDetails := Value.set_editScreens 1 savingDetails]}),
               [])
  ∧ cancelValueEdit PersonalDetails (unlocked {[PersonalDetails := savingDetails]})
    = Violation "value->editScreens > 0".
Proof.
  assert (Hv : FormController.values
                 (Whole.base (whole (unlocked {[PersonalDetails := savingDetails]})))
               !! PersonalDetails = Some savingDetails) by reflexivity.
  assert (Hsaving : savingValue savingDetails = true) by reflexivity.
  assert (Hclosed : Value.editScreens savingDetails ≤ 0) by (vm_compute; discriminate).
  split; [exact Hv |]. split; [exact Hsaving |]. split; [exact Hclosed |].
  destruct (edit_screens_while_saving (whole (unlocked {[PersonalDetails := savingDetails]}))
              PersonalDetails savingDetails Hv) as [Hstart Hcancel].
  split; [| exact (Hcancel Hclosed)].
  rewrite (proj1 (Hstart Hsaving)). vm_compute. reflexivity.
Defined.

(** ** Saving a value *)

Lemma save_then_answer_commits_edit_witness :
  FormController.values (unlocked {[PersonalDetails := editedDetails]}) !! PersonalDetails
  = Some editedDetails
  ∧ savingSecret (unlocked {[PersonalDetails := editedDetails]}) editedDetails
    = "value-secret"
  ∧ ∃ c1 c2 : FormController.t,
      saveEncryptedValue PersonalDetails (unlocked {[PersonalDetails := editedDetails]})
      = Returns (tt, c1,
                 [Send 1
                    (MTPaccount_SaveSecureValue
                       {| isv_flags := {| f_data := true; f_files := false;
                                          f_plain_data := false; f_selfie := false |};
                          isv_type := MTP_secureValueTypePersonalDetails;
                          isv_data :=
                            Some (savedData (unlocked {[PersonalDetails := editedDetails]})
                                    editedDetails);
                          isv_files := [];
                          isv_plain_data := None;
                          isv_selfie := None |}
                       13)])
      ∧ sendSaveRequest_done PersonalDetails
          {| sv_type := MTP_secureValueTypePersonalDetails;
             sv_data := Some (savedData (unlocked {[PersonalDetails := editedDetails]})
                                editedDetails);
             sv_files := None; sv_plain_data := None; sv_selfie := None;
             sv_hash := "#submitted" |}
          c1
        = Returns (tt, c2, [ValueSaveFinishedFired PersonalDetails])
      ∧ (v ← FormController.values c2 !! PersonalDetails;
         Some (ValueMap.fields (ValueData.parsed (Value.data v))))
        = Some {["first_name" := "Grace"]}.
Proof.
  assert (Hv : FormController.values (unlocked {[PersonalDetails := editedDetails]})
               !! PersonalDetails = Some editedDetails) by reflexivity.
  split; [exact Hv |]. split; [reflexivity |].
  destruct (save_then_answer_commits_edit (unlocked {[PersonalDetails := editedDetails]})
              PersonalDetails editedDetails "#submitted" Hv)
    as (c1 & c2 & Hsave & Hanswer & Hvalues & _).
  - reflexivity.
  - reflexivity.
  - reflexivity.
  - reflexivity.
  - intros Hempty.
    apply (f_equal (fun fields : gmap string string => fields !! "first_name")) in Hempty.
    vm_compute in Hempty. discriminate Hempty.
  - vm_compute. discriminate.
  - vm_compute. discriminate.
  - vm_compute. discriminate.
  - vm_compute. reflexivity.
  - vm_compute. reflexivity.
  - vm_compute. reflexivity.
  - exists c1, c2. split; [exact Hsave |]. split; [exact Hanswer |].
    rewrite Hvalues, lookup_insert_eq. reflexivity.
Defined.

Lemma plain_value_saved_without_secret_witness :
  FormController.values (locked {[Phone := Value.create Phone]}) !! Phone
  = Some (Value.create Phone)
  ∧ editValueChanged (Value.create Phone) typedPhone = true
  ∧ FormController._secret (locked {[Phone := Value.create Phone]}) = ""
  ∧ ∃ c' : FormController.t,
      saveValueEdit Phone typedPhone (locked {[Phone := Value.create Phone]})
      = Returns (tt, c',
                 [Send 1 (MTPaccount_SaveSecureValue (plainInput Phone "15551234567") 0)])
      ∧ FormController._secretCallbacks c' = [].
Proof.
  assert (Hv : FormController.values (locked {[Phone := Value.create Phone]}) !! Phone
               = Some (Value.create Phone)) by reflexivity.
  assert (Hchanged : editValueChanged (Value.create Phone) typedPhone = true)
    by (vm_compute; reflexivity).
  split; [exact Hv |]. split; [exact Hchanged |]. split; [reflexivity |].
  destruct (plain_value_saved_without_secret (locked {[Phone := Value.create Phone]}) Phone
              (Value.create Phone) typedPhone Hv eq_refl eq_refl eq_refl Hchanged)
    as [Hsave _].
  destruct (Hsave "15551234567" eq_refl) as (c' & Hrun & _ & Hcallbacks).
  exists c'. split; [exact Hrun | exact Hcallbacks].
Defined.

(** ** Verifying a phone number *)

Lemma verification_needed_sends_code_witness :
  FormController.values (unlocked {[Phone := savingPhone]}) !! Phone = Some savingPhone
  ∧ ∃ c' : FormController.t,
      sendSaveRequest_fail Phone (mkRPCError "PHONE_VERIFICATION_NEEDED" false)
        (unlocked {[Phone := savingPhone]})
      = Returns (tt, c', [Send 1 (MTPaccount_SendVerifyPhoneCode "15551234567")])
      ∧ (v ← FormController.values c' !! Phone; Some (savingValue v)) = Some true.
Proof.
  assert (Hv : FormController.values (unlocked {[Phone := savingPhone]}) !! Phone
               = Some savingPhone) by reflexivity.
  split; [exact Hv |].
  destruct (verification_needed_sends_code (unlocked {[Phone := savingPhone]}) Phone
              savingPhone "15551234567" (mkRPCError "PHONE_VERIFICATION_NEEDED" false)
              Hv eq_refl eq_refl eq_refl)
    as (c' & Hrun & Hvalues & Hsaving).
  exists c'. split; [exact Hrun |].
  rewrite Hvalues, lookup_insert_eq. cbn [mbind option_bind]. rewrite Hsaving. reflexivity.
Defined.

Lemma sent_code_records_length_witness :
  FormController.values (unlocked {[Phone := savingPhone]}) !! Phone = Some savingPhone
  ∧ recordedLength 0 = -1
  ∧ ∃ (c' : FormController.t) (out : list Effect) (v' : Value.t),
      startPhoneVerification_done Phone
        {| sc_type := MTP_auth_sentCodeTypeSms 0; sc_phone_code_hash := "code-hash";
           sc_next_type := None; sc_timeout := None |}
        (unlocked {[Phone := savingPhone]})
      = Returns (tt, c', out ++ [VerificationNeededFired Phone])
      ∧ FormController.values c' !! Phone = Some v'
      ∧ Verification.codeLength (Value.verification v') = -1
      ∧ Verification.phoneCodeHash (Value.verification v') = "code-hash"
      ∧ savingValue v' = true.
Proof.
  assert (Hv : FormController.values (unlocked {[Phone := savingPhone]}) !! Phone
               = Some savingPhone) by reflexivity.
  split; [exact Hv |]. split; [reflexivity |].
  destruct (sent_code_records_length (unlocked {[Phone := savingPhone]}) Phone savingPhone 0
              Hv) as (Hphone & _ & _).
  destruct (Hphone false
              {| sc_type := MTP_auth_sentCodeTypeSms 0; sc_phone_code_hash := "code-hash";
                 sc_next_type := None; sc_timeout := None |} eq_refl)
    as (c' & out & v' & Hrun & _ & Hvalues & _ & Hlength & Hhash & Hsaving).
  exists c', out, v'. split; [exact Hrun |].
  split; [rewrite Hvalues; apply lookup_insert_eq |].
  split; [exact Hlength |]. split; [exact Hhash | exact Hsaving].
Defined.

Lemma verify_sends_code_and_retries_witness :
  FormController.values (unlocked {[Phone := phone]}) !! Phone = Some phone
  ∧ trimmed " 12345 " = "12345"
  ∧ Verification.codeLength (Value.verification phone) = 5
  ∧ ∃ c1 c2 c3 : FormController.t,
      verify Phone " 12345 " (unlocked {[Phone := phone]})
      = Returns (tt, c1,
                 [VerificationUpdateFired Phone;
                  Send 1 (MTPaccount_VerifyPhone "15551234567" "code-hash" "12345")])
      ∧ verify Phone "54321" c1 = Returns (tt, c1, [])
      ∧ verify_fail Phone "PHONE_CODE_INVALID" (mkRPCError "PHONE_CODE_INVALID" false) c1
        = Returns (tt, c2, [VerificationUpdateFired Phone])
      ∧ FormController.values c2
        = <[Phone := withVerificationError "You have entered an invalid code." phone]>
            (FormController.values (unlocked {[Phone := phone]}))
      ∧ verify Phone " 12345 " c2
        = Returns (tt, c3,
                   [VerificationUpdateFired Phone;
                    Send 2 (MTPaccount_VerifyPhone "15551234567" "code-hash" "12345")]).
Proof.
  assert (Hv : FormController.values (unlocked {[Phone := phone]}) !! Phone = Some phone)
    by reflexivity.
  assert (Hcode : trimmed " 12345 " = "12345") by (vm_compute; reflexivity).
  split; [exact Hv |]. split; [exact Hcode |]. split; [reflexivity |].
  destruct (verify_sends_code_and_retries (unlocked {[Phone := phone]}) Phone phone
              " 12345 " "15551234567" Hv eq_refl eq_refl)
    as (c1 & Hsend & Hbusy & Hretry).
  - vm_compute. discriminate.
  - rewrite Hcode. discriminate.
  - intros _. rewrite Hcode. reflexivity.
  - reflexivity.
  - destruct (Hretry (mkRPCError "PHONE_CODE_INVALID" false))
      as (c2 & c3 & Hfail & Hvalues & Hagain).
    exists c1, c2, c3.
    assert (Hnext : FormController.sender_next c2 = 2%positive).
    { assert (Hsame : Returns (tt, c2, [VerificationUpdateFired Phone])
                      = verify_fail Phone (codeInvalid (Value.type phone))
                          (mkRPCError "PHONE_CODE_INVALID" false) c1)
        by (symmetry; exact Hfail).
      assert (Hfirst : Returns (tt, c1,
                                [VerificationUpdateFired Phone;
                                 Send (Z.pos (FormController.sender_next
                                                (unlocked {[Phone := phone]})))
                                   (verifyRequest phone "15551234567" (trimmed " 12345 "))])
                       = verify Phone " 12345 " (unlocked {[Phone := phone]}))
        by (symmetry; exact Hsend).
      vm_compute in Hfirst. injection Hfirst as ->.
      vm_compute in Hsame. injection Hsame as ->. reflexivity. }
    split; [rewrite Hsend, Hcode; reflexivity |].
    split; [exact (Hbusy "54321") |].
    split; [exact Hfail |].
    split; [exact Hvalues |].
    rewrite Hagain, Hnext, Hcode. reflexivity.
Defined.

Lemma verify_done_saves_value_witness :
  FormController.values (unlocked {[Phone := phone]}) !! Phone = Some phone
  ∧ ∃ c' : FormController.t,
      verify_done Phone (unlocked {[Phone := phone]})
      = Returns (tt, c',
                 [Send 1 (MTPaccount_SaveSecureValue (plainInput Phone "15551234567") 13);
                  VerificationUpdateFired Phone])
      ∧ (v ← FormController.values c' !! Phone; Some (Value.verification v))
        = Some Verification.empty.
Proof.
  assert (Hv : FormController.values (unlocked {[Phone := phone]}) !! Phone = Some phone)
    by reflexivity.
  split; [exact Hv |].
  destruct (verify_done_saves_value (unlocked {[Phone := phone]}) Phone phone "15551234567"
              Hv eq_refl eq_refl eq_refl)
    as (c' & Hrun & Hvalues & _).
  exists c'. split; [exact Hrun |].
  rewrite Hvalues, lookup_insert_eq. reflexivity.
Defined.

Lemma cancelValueVerification_returns_witness :
  FormController.values (unlocked {[Phone := phone]}) !! Phone = Some phone
  ∧ Value.saveRequestId phone = 0
  ∧ ∃ (c' : FormController.t) (v' : Value.t),
      cancelValueVerification Phone (unlocked {[Phone := phone]})
      = Returns (tt, c', [VerificationUpdateFired Phone])
      ∧ FormController.values c' !! Phone = Some v'
      ∧ Value.verification v' = Verification.empty
      ∧ savingValue v' = false
      ∧ ValueData.parsedInEdit (Value.data v') = ValueMap.empty.
Proof.
  assert (Hv : FormController.values (unlocked {[Phone := phone]}) !! Phone = Some phone)
    by reflexivity.
  split; [exact Hv |]. split; [reflexivity |].
  destruct (cancelValueVerification_returns (unlocked {[Phone := phone]}) Phone phone Hv)
    as (c' & out & v' & Hrun & _ & Hvalues & Hdropped & _ & Hidle).
  destruct (Hidle eq_refl) as (Hsaving & Hvalue & Hout).
  exists c', v'.
  split; [rewrite Hrun, Hout; reflexivity |].
  split; [rewrite Hvalues; apply lookup_insert_eq |].
  split; [exact Hdropped |]. split; [exact Hsaving |].
  rewrite Hvalue. reflexivity.
Defined.

(** ** The password and the submission *)

Lemma validateSecureSecret_unwraps_witness :
  DecryptSecureSecret "salt" (storedSecret "password") "password" = master
  ∧ ∃ (c' : FormController.t) (out : list Effect),
      validateSecureSecret "salt" (storedSecret "password") "password"
        (locked {[PersonalDetails := storedDetails]})
      = Returns (tt, c', out ++ [SecretReadyFired])
      ∧ requests out = []
      ∧ FormController._secret c' = master
      ∧ (v ← FormController.values c' !! PersonalDetails;
         Some (ValueMap.fields (ValueData.parsed (Value.data v))))
        = Some {["first_name" := "Ada"]}.
Proof.
  assert (Hsecret : DecryptSecureSecret "salt" (storedSecret "password") "password" = master)
    by (vm_compute; reflexivity).
  split; [exact Hsecret |].
  destruct (validateSecureSecret_unwraps (locked {[PersonalDetails := storedDetails]})
              "salt" (storedSecret "password") "password")
    as (c' & out & Hrun & Hquiet & Hunlocked & _ & _ & Hvalues & _).
  - discriminate.
  - vm_compute. discriminate.
  - rewrite Hsecret. discriminate.
  - exists c', out. split; [exact Hrun |]. split; [exact Hquiet |].
    split; [rewrite Hunlocked; exact Hsecret |].
    rewrite (Hvalues PersonalDetails), Hsecret. vm_compute. reflexivity.
Defined.

Lemma submitPassword_checks_once_witness :
  PasswordSettings.salt (FormController._password (locked ∅)) ≠ ""
  ∧ ∃ (c1 : FormController.t) (out : list Effect),
      submitPassword "password" (locked ∅) = Returns (tt, c1, out)
      ∧ requests out = [MTPaccount_GetPasswordSettings "#saltpasswordsalt"]
      ∧ submitPassword "another" c1 = Returns (tt, c1, [])
      ∧ submitPassword_fail (mkRPCError "PASSWORD_HASH_INVALID" false) c1
        = Returns (tt, FormController.set_sender_next 2 (locked ∅),
                   [PasswordErrorFired "Wrong password."]).
Proof.
  assert (Hsalt : PasswordSettings.salt (FormController._password (locked ∅)) ≠ "")
    by (vm_compute; discriminate).
  split; [exact Hsalt |].
  destruct (submitPassword_checks_once (locked ∅) "password" Hsalt eq_refl)
    as (c1 & out & Hrun & Hsent & Hbusy & Hfail).
  exists c1, out. split; [exact Hrun |]. split; [exact Hsent |].
  split; [exact (Hbusy "another") |].
  exact (Hfail (mkRPCError "PASSWORD_HASH_INVALID" false)).
Defined.

Lemma submit_incomplete_sends_nothing_witness :
  ComputeScopes nothingRequested = []
  ∧ ∃ c' : FormController.t,
      submit nothingRequested = Returns (false, c', [])
      ∧ errorsApart nothingRequested c'.
Proof.
  assert (Hnone : ComputeScopes nothingRequested = []) by reflexivity.
  split; [exact Hnone |].
  destruct (submit_incomplete_sends_nothing nothingRequested eq_refl)
    as (c' & Hrun & Hapart & _).
  - rewrite Hnone. unfold scopesBound. apply (bool_decide_unpack _). vm_compute. exact I.
  - left. exact Hnone.
  - exists c'. split; [exact Hrun | exact Hapart].
Defined.

Lemma submit_complete_sends_once_witness :
  scopesBound filled (ComputeScopes filled)
  ∧ Forall (fun scope => ComputeScopeRowReadyString filled scope ≠ "")
      (ComputeScopes filled)
  ∧ ∃ (prepared : FinalData) (c' : FormController.t),
      submit filled = Returns (true, c', [Send 1 (acceptRequest filled prepared)])
      ∧ length (fd_hashes prepared) = 3%nat
      ∧ FormController._submitRequestId c' = 1
      ∧ submit c' = Returns (true, c', []).
Proof.
  assert (Hbound : scopesBound filled (ComputeScopes filled)).
  { unfold scopesBound. apply (bool_decide_unpack _). vm_compute. exact I. }
  assert (Hready : Forall (fun scope => ComputeScopeRowReadyString filled scope ≠ "")
                     (ComputeScopes filled)).
  { apply (bool_decide_unpack _). vm_compute. exact I. }
  split; [exact Hbound |]. split; [exact Hready |].
  destruct (submit_complete_sends_once filled eq_refl Hbound)
    as (prepared & c' & Hprepared & _ & Hrun & Hid & _ & Hagain);
    [vm_compute; discriminate | exact Hready |].
  exists prepared, c'. split; [exact Hrun |].
  split; [| split; [exact Hid | exact Hagain]].
  assert (Hsame : Returns (prepared, filled, []) = prepareFinalData filled)
    by (symmetry; exact Hprepared).
  vm_compute in Hsame. injection Hsame as ->. reflexivity.
Defined.

(** ** Fetching and showing the form *)

Lemma authorizationForm_wellTyped : wellTyped authorizationForm.
Proof. split; repeat constructor; discriminate. Qed.

Lemma parseForm_completes_form_witness :
  wellTyped authorizationForm
  ∧ ∃ (s' : Whole.t) (out : list Call),
      parseForm authorizationForm (Some 7) (whole fresh) = Returns (tt, s', out)
      ∧ Whole._bot s' = Some 7
      ∧ Form.identitySelfieRequired (FormController._form (Whole.base s')) = true
      ∧ Form.request (FormController._form (Whole.base s')) = [PersonalDetails; Phone]
      ∧ on_base (findValue PersonalDetails) s'
        = Returns (Value.create PersonalDetails, s', [])
      ∧ valuesOf s' !! Email = None.
Proof.
  split; [exact authorizationForm_wellTyped |].
  destruct (parseForm_completes_form (whole fresh) authorizationForm (Some 7)
              authorizationForm_wellTyped)
    as (s' & out & types & Hrun & _ & _ & Hbot & Hselfie & Htypes & Hrequest & _
        & _ & Hrest & Hunset).
  assert (Hrequired : types = [PersonalDetails; Phone]).
  { inversion Htypes as [| ? type1 ? types1 H1 Hrest1]; subst.
    inversion Hrest1 as [| ? type2 ? types2 H2 Hrest2]; subst.
    inversion Hrest2; subst.
    injection H1 as <-. injection H2 as <-. reflexivity. }
  subst types.
  exists s', out. split; [exact Hrun |]. split; [exact Hbot |].
  split; [exact Hselfie |]. split; [exact Hrequest |].
  split.
  - apply (Forall_inv Hunset); [reflexivity |]. repeat constructor; discriminate.
  - apply Hrest.
    + reflexivity.
    + repeat constructor; discriminate.
    + intros Hin. repeat (apply elem_of_cons in Hin as [Hin | Hin]; [discriminate Hin |]).
      inversion Hin.
Defined.

Lemma parseForm_first_value_wins_witness :
  wellTyped authorizationForm
  ∧ af_values authorizationForm
    = [] ++ phoneNumber "15551234567" :: [phoneNumber "15557654321"]
  ∧ ∃ (parsed : Value.t) (s' : Whole.t) (out : list Call),
      parseValue (phoneNumber "15551234567") [] = Returns (parsed, [])
      ∧ Value.type parsed = Phone
      ∧ parseForm authorizationForm (Some 7) (whole fresh) = Returns (tt, s', out)
      ∧ valuesOf s' !! Phone = Some parsed.
Proof.
  split; [exact authorizationForm_wellTyped |]. split; [reflexivity |].
  destruct (parseForm_first_value_wins (whole fresh) authorizationForm (Some 7) []
              [phoneNumber "15557654321"] (phoneNumber "15551234567")
              authorizationForm_wellTyped eq_refl)
    as (parsed & s' & out & Hparsed & Hrun & Hfirst & _).
  assert (Htype : Value.type parsed = Phone).
  { assert (Hsame : Returns (parsed, []) = parseValue (phoneNumber "15551234567") [])
      by (symmetry; exact Hparsed).
    cbv in Hsame. injection Hsame as ->. reflexivity. }
  exists parsed, s', out. split; [exact Hparsed |]. split; [exact Htype |].
  split; [exact Hrun |].
  rewrite Htype in Hfirst. apply Hfirst; [reflexivity | constructor].
Defined.

Lemma form_shown_by_last_response_witness :
  FormRequest.payload (FormController._request (Whole.base (whole fresh))) ≠ ""
  ∧ wellTyped authorizationForm
  ∧ ∃ s1 : Whole.t,
      show (whole fresh)
      = Returns (tt, s1,
                 [SendForm 1 (MTPaccount_GetAuthorizationForm 7 "scope" "public-key");
                  SendForm 2 MTPaccount_GetPassword])
      ∧ (∃ (s2 s3 : Whole.t) (logs : list Call),
           requestForm_done authorizationForm (Some 7) s1
           = Returns (tt, s2, FeedUsers [7] :: logs)
           ∧ requestPassword_done accountPassword s2
             = Returns (tt, s3, [AddRandomSeed "seed"; ShowAskPassword]))
      ∧ ∃ (s2 s3 : Whole.t) (logs : list Call),
          requestPassword_done accountPassword s1
          = Returns (tt, s2, [AddRandomSeed "seed"])
          ∧ requestForm_done authorizationForm (Some 7) s2
            = Returns (tt, s3, FeedUsers [7] :: logs ++ [ShowAskPassword]).
Proof.
  assert (Hpayload :
    FormRequest.payload (FormController._request (Whole.base (whole fresh))) ≠ "")
    by (vm_compute; discriminate).
  split; [exact Hpayload |]. split; [exact authorizationForm_wellTyped |].
  destruct (form_shown_by_last_response (whole fresh) authorizationForm (Some 7)
              accountPassword Hpayload authorizationForm_wellTyped)
    as (s1 & Hshow & Hformfirst & Hpasswordfirst).
  exists s1. split; [exact Hshow |]. split.
  - destruct Hformfirst as (s2 & s3 & logs & Hform & _ & Hpassword).
    exists s2, s3, logs. split; [exact Hform | exact Hpassword].
  - destruct Hpasswordfirst as (s2 & s3 & logs & Hpassword & Hform & _).
    exists s2, s3, logs. split; [exact Hpassword | exact Hform].
Defined.

Lemma form_hidden_after_one_response_witness :
  wellTyped authorizationForm
  ∧ FormRequest.payload (FormController._request (Whole.base (whole withoutPayload))) = ""
  ∧ ∃ s1 s2 : Whole.t,
      show (whole withoutPayload)
      = Returns (tt, s1,
                 [Base (ShowBox "Sorry, an error occurred.");
                  SendForm 1 MTPaccount_GetPassword])
      ∧ requestPassword_fail (mkRPCError "INTERNAL" false) s1
        = Returns (tt, s1, [Base (ShowBox "Sorry, an error occurred.")])
      ∧ requestPassword_done accountPassword s1
        = Returns (tt, s2, [AddRandomSeed "seed"]).
Proof.
  split; [exact authorizationForm_wellTyped |]. split; [reflexivity |].
  destruct (form_hidden_after_one_response (whole withoutPayload) authorizationForm (Some 7)
              accountPassword (mkRPCError "INTERNAL" false) authorizationForm_wellTyped)
    as (s1 & sent & Hshow & _ & Hfail & (s2 & Hpassword) & _ & Hnone).
  destruct (Hnone eq_refl) as [Hsent _].
  exists s1, s2. split; [rewrite Hshow, Hsent; reflexivity |].
  split; [exact Hfail | exact Hpassword].
Defined.

(** ** Loading and uploading files *)

Lemma loadFile_starts_loader_once_witness :
  isEmpty (File.image passportScan) = true
  ∧ ∃ (file' : File.t) (s1 : Whole.t),
      loadFile passportScan (whole fresh)
      = Returns (file', s1, [StartLoader (mkFileKey 2 2) 11 4])
      ∧ loadFile passportScan s1 = Returns (passportScan, s1, []).
Proof.
  split; [reflexivity |].
  destruct (loadFile_starts_loader_once passportScan passportScan (whole fresh)
              eq_refl eq_refl eq_refl eq_refl)
    as (file' & s1 & out & Hrun & _ & [Hnone | [Hstarted _]] & Hagain).
  - exfalso. rewrite Hnone in Hrun. vm_compute in Hrun. discriminate Hrun.
  - exists file', s1. split; [rewrite Hrun, Hstarted; reflexivity | exact Hagain].
Defined.

Lemma fileLoadProgress_marks_file_and_copy_witness :
  findFile (mkFileKey 2 2) (unlocked {[Passport := passport]}) = Some (ScanOf Passport 0)
  ∧ findEditFileByKey (mkFileKey 2 2) (unlocked {[Passport := passport]})
    = Some (ScanInEdit Passport 0)
  ∧ ∃ c' : FormController.t,
      fileLoadProgress (mkFileKey 2 2) 3 (unlocked {[Passport := passport]})
      = Returns (tt, c', [ScanUpdatedFired (ScanInEdit Passport 0)])
      ∧ File.downloadOffset <$> fileAt c' (ScanOf Passport 0) = Some 3
      ∧ (File.downloadOffset ∘ EditFile.fields) <$> editFileAt c' (ScanInEdit Passport 0)
        = Some 3.
Proof.
  assert (Hfound : findFile (mkFileKey 2 2) (unlocked {[Passport := passport]})
                   = Some (ScanOf Passport 0)) by (vm_compute; reflexivity).
  assert (Hcopy : findEditFileByKey (mkFileKey 2 2) (unlocked {[Passport := passport]})
                  = Some (ScanInEdit Passport 0)) by (vm_compute; reflexivity).
  split; [exact Hfound |]. split; [exact Hcopy |].
  destruct (fileLoadProgress_marks_file_and_copy (mkFileKey 2 2) 3
              (unlocked {[Passport := passport]})) as [_ Hreport].
  rewrite Hfound in Hreport. destruct Hreport as (file & _ & c' & Hat & Hstaged).
  rewrite Hcopy in Hstaged. destruct Hstaged as (Hrun & staged & _ & Hat').
  exists c'. split; [exact Hrun |]. rewrite Hat, Hat'. split; reflexivity.
Defined.

Lemma fileLoadDone_stores_image_witness :
  findFile (mkFileKey 2 2) (unlocked {[Passport := passport]}) = Some (ScanOf Passport 0)
  ∧ DecryptData "scan-secretpassport" (File.hash passportScan) (File.secret passportScan)
    = "passport"
  ∧ ∃ c' : FormController.t,
      fileLoadDone (mkFileKey 2 2) "scan-secretpassport" (unlocked {[Passport := passport]})
      = Returns (tt, c', [ScanUpdatedFired (ScanInEdit Passport 0)])
      ∧ fileAt c' (ScanOf Passport 0) = Some (downloaded "passport" passportScan)
      ∧ (File.image ∘ EditFile.fields) <$> editFileAt c' (ScanInEdit Passport 0)
        = Some "passport".
Proof.
  assert (Hfound : findFile (mkFileKey 2 2) (unlocked {[Passport := passport]})
                   = Some (ScanOf Passport 0)) by (vm_compute; reflexivity).
  assert (Hcopy : findEditFileByKey (mkFileKey 2 2) (unlocked {[Passport := passport]})
                  = Some (ScanInEdit Passport 0)) by (vm_compute; reflexivity).
  split; [exact Hfound |]. split; [vm_compute; reflexivity |].
  pose proof (fileLoadDone_stores_image (mkFileKey 2 2) "scan-secretpassport"
                (unlocked {[Passport := passport]})) as Hdone.
  rewrite Hfound in Hdone. destruct Hdone as (file & Hfile & Hdone).
  assert (Hscan : file = passportScan).
  { assert (Hsame : Some file = Some passportScan) by (rewrite <- Hfile; reflexivity).
    injection Hsame as ->. reflexivity. }
  subst file. cbv zeta in Hdone.
  assert (Hdecrypted :
    DecryptData "scan-secretpassport" (File.hash passportScan) (File.secret passportScan)
    = "passport") by (vm_compute; reflexivity).
  rewrite Hdecrypted in Hdone. cbn [isEmpty] in Hdone.
  destruct Hdone as (c' & Hat & Hstaged).
  rewrite Hcopy in Hstaged. destruct Hstaged as (Hrun & staged & _ & Hat').
  exists c'. split; [exact Hrun |]. split; [exact Hat |]. rewrite Hat'. reflexivity.
Defined.

Lemma scanUpload_reports_set_offset_witness :
  findEditFileByFullId 9 (unlocked {[Passport := uploadingPassport]})
  = Some (ScanInEdit Passport 0)
  ∧ (∃ c' : FormController.t,
       scanUploadProgress (mkUploadSecureProgress 9 2 4)
         (unlocked {[Passport := uploadingPassport]})
       = Returns (tt, c', [ScanUpdatedFired (ScanInEdit Passport 0)])
       ∧ editFileAt c' (ScanInEdit Passport 0)
         = Some (uploadedTo 2 upload (EditFile.create Passport passportScan (Some upload))))
  ∧ scanUploadFail 8 (unlocked {[Passport := uploadingPassport]})
    = Returns (tt, unlocked {[Passport := uploadingPassport]}, []).
Proof.
  assert (Hfound : findEditFileByFullId 9 (unlocked {[Passport := uploadingPassport]})
                   = Some (ScanInEdit Passport 0)) by (vm_compute; reflexivity).
  assert (Hnone : findEditFileByFullId 8 (unlocked {[Passport := uploadingPassport]})
                  = None) by (vm_compute; reflexivity).
  split; [exact Hfound |]. split.
  - destruct (scanUpload_reports_set_offset (mkUploadSecureProgress 9 2 4)
                (unlocked {[Passport := uploadingPassport]})) as [Hprogress _].
    cbn [usp_fullId usp_offset] in Hprogress. rewrite Hfound in Hprogress.
    destruct Hprogress as (file & data & c' & (_ & Hfile & Hdata & _) & Hrun & Hat).
    assert (Hscan : file = EditFile.create Passport passportScan (Some upload)).
    { assert (Hsame : Some file = Some (EditFile.create Passport passportScan (Some upload)))
        by (rewrite <- Hfile; reflexivity).
      injection Hsame as ->. reflexivity. }
    subst file. injection Hdata as <-.
    exists c'. split; [exact Hrun | exact Hat].
  - destruct (scanUpload_reports_set_offset (mkUploadSecureProgress 8 2 4)
                (unlocked {[Passport := uploadingPassport]})) as [_ Hfail].
    cbn [usp_fullId usp_offset] in Hfail. rewrite Hnone in Hfail. exact Hfail.
Defined.

Lemma scanUploadDone_seals_file_witness :
  findEditFileByFullId 9 (unlocked {[Passport := uploadingPassport]})
  = Some (ScanInEdit Passport 0)
  ∧ (∃ (c' : FormController.t) (sealed : EditFile.t),
       scanUploadDone (mkUploadSecureDone 9 1000 3)
         (unlocked {[Passport := uploadingPassport]})
       = Returns (tt, c', [ScanUpdatedFired (ScanInEdit Passport 0)])
       ∧ editFileAt c' (ScanInEdit Passport 0) = Some sealed
       ∧ File.hash (EditFile.fields sealed) = "#scan"
       ∧ File.encryptedSecret (EditFile.fields sealed)
         = EncryptValueSecret "scan-secret" master "#scan"
       ∧ UploadScanData.partsCount <$> EditFile.uploadData sealed = Some 3
       ∧ destroyEditFiles [sealed] = [])
  ∧ scanUploadDone (mkUploadSecureDone 9 1001 3) (unlocked {[Passport := uploadingPassport]})
    = Violation "file->uploadData->fileId == data.fileId".
Proof.
  assert (Hfound : findEditFileByFullId 9 (unlocked {[Passport := uploadingPassport]})
                   = Some (ScanInEdit Passport 0)) by (vm_compute; reflexivity).
  split; [exact Hfound |]. split.
  - pose proof (scanUploadDone_seals_file (mkUploadSecureDone 9 1000 3)
                  (unlocked {[Passport := uploadingPassport]})) as Hdone.
    cbn [usd_fullId usd_fileId usd_partsCount] in Hdone. rewrite Hfound in Hdone.
    destruct Hdone as (file & data & (_ & Hfile & Hdata & _) & Hdone).
    assert (Hscan : file = EditFile.create Passport passportScan (Some upload)).
    { assert (Hsame : Some file = Some (EditFile.create Passport passportScan (Some upload)))
        by (rewrite <- Hfile; reflexivity).
      injection Hsame as ->. reflexivity. }
    subst file. injection Hdata as <-.
    change (UploadScanData.fileId upload =? 1000) with true in Hdone.
    cbv zeta iota in Hdone.
    destruct Hdone as (c' & Hrun & Hat & Hquiet).
    eexists c', _. split; [exact Hrun |]. split; [exact Hat |].
    split; [reflexivity |]. split; [reflexivity |]. split; [reflexivity | exact Hquiet].
  - pose proof (scanUploadDone_seals_file (mkUploadSecureDone 9 1001 3)
                  (unlocked {[Passport := uploadingPassport]})) as Hdone.
    cbn [usd_fullId usd_fileId usd_partsCount] in Hdone. rewrite Hfound in Hdone.
    destruct Hdone as (file & data & (_ & Hfile & Hdata & _) & Hdone).
    assert (Hscan : file = EditFile.create Passport passportScan (Some upload)).
    { assert (Hsame : Some file = Some (EditFile.create Passport passportScan (Some upload)))
        by (rewrite <- Hfile; reflexivity).
      injection Hsame as ->. reflexivity. }
    subst file. injection Hdata as <-.
    exact Hdone.
Defined.

Lemma upload_then_report_seals_file_witness :
  editFileAt (Whole.base (whole (unlocked {[Passport := uploadingPassport]})))
    (ScanInEdit Passport 0)
  = Some (EditFile.create Passport passportScan (Some upload))
  ∧ UploadScanData.fullId upload = 9
  ∧ findEditFileByFullId 1 (unlocked {[Passport := uploadingPassport]}) = None
  ∧ ∃ (s1 : Whole.t) (c2 : FormController.t),
      uploadEncryptedFile (ScanInEdit Passport 0) upload
        (whole (unlocked {[Passport := uploadingPassport]}))
      = Returns (tt, s1, [Upload 1 1000 "encrypted" "#encrypted"])
      ∧ Whole._uploaderSubscriptions s1 = true
      ∧ scanUploadDone (mkUploadSecureDone 1 1000 3) (Whole.base s1)
        = Returns (tt, c2, [ScanUpdatedFired (ScanInEdit Passport 0)])
      ∧ (File.hash ∘ EditFile.fields) <$> editFileAt c2 (ScanInEdit Passport 0)
        = Some "#scan".
Proof.
  assert (Hat : editFileAt (Whole.base (whole (unlocked {[Passport := uploadingPassport]})))
                  (ScanInEdit Passport 0)
                = Some (EditFile.create Passport passportScan (Some upload)))
    by reflexivity.
  assert (Hfresh : findEditFileByFullId 1 (unlocked {[Passport := uploadingPassport]})
                   = None)
    by (vm_compute; reflexivity).
  assert (Hnew :
    findEditFileByFullId
      (clientMsgId
         (FormController.drawn
            (Whole.base (whole (unlocked {[Passport := uploadingPassport]})))))
      (Whole.base (whole (unlocked {[Passport := uploadingPassport]})))
    = None) by (vm_compute; reflexivity).
  split; [exact Hat |]. split; [reflexivity |]. split; [exact Hfresh |].
  destruct (upload_then_report_seals_file
              (whole (unlocked {[Passport := uploadingPassport]}))
              (ScanInEdit Passport 0) (EditFile.create Passport passportScan (Some upload))
              upload 3 Hat Hnew)
    as (s1 & c2 & Hrun & Hsubscribed & _ & Hdone & Hsealed).
  exists s1, c2. split; [exact Hrun |]. split; [exact Hsubscribed |].
  split; [exact Hdone |]. rewrite Hsealed. reflexivity.
Defined.

End MoreExamples.
